(** * The interactive key editor of GnuPG (g10/keyedit.c)

    A shallow embedding of the keyblock model and of the editor's
    operations: the selection commands, the signature check walk,
    the signing loop, the passphrase change and the uid/subkey removal,
    the listing, the fingerprint lines and the command loop of the menu,
    followed by the properties proved about them. *)

From Stdlib Require Import String ZArith List Bool Lia.
Import ListNotations.
Open Scope Z_scope.
Open Scope list_scope.

(** ** Packets and nodes *)

(** A key id is the pair [u32 keyid[2]].  What [keyid_from_pk] and
    [keyid_from_sk] compute from the key material is kept as a field of the
    key packets. *)
Definition keyid : Type := (Z * Z)%type.

Definition keyid_eqb (a b : keyid) : bool :=
  (fst a =? fst b) && (snd a =? snd b).

Record PKT_public_key := mk_pk {
  pk_keyid : keyid;
  pk_local_id : Z
}.

Record STRING2KEY := mk_s2k { s2k_mode : Z; s2k_hash_algo : Z }.

Record PKT_secret_key := mk_sk {
  sk_keyid : keyid;
  is_protected : bool;
  protect_algo : Z;
  protect_s2k : STRING2KEY
}.

Record PKT_user_id := mk_uid { uid_name : string }.

Record PKT_signature := mk_sig {
  sig_keyid : keyid;
  sig_class : Z;
  sig_timestamp : Z
}.

Inductive packet : Type :=
| pkt_public_key (pk : PKT_public_key)
| pkt_public_subkey (pk : PKT_public_key)
| pkt_secret_key (sk : PKT_secret_key)
| pkt_secret_subkey (sk : PKT_secret_key)
| pkt_user_id (uid : PKT_user_id)
| pkt_signature (sig : PKT_signature).

Inductive pkttype_t : Type :=
| PKT_PUBLIC_KEY | PKT_PUBLIC_SUBKEY | PKT_SECRET_KEY | PKT_SECRET_SUBKEY
| PKT_USER_ID | PKT_SIGNATURE.

Definition pkttype (p : packet) : pkttype_t :=
  match p with
  | pkt_public_key _ => PKT_PUBLIC_KEY
  | pkt_public_subkey _ => PKT_PUBLIC_SUBKEY
  | pkt_secret_key _ => PKT_SECRET_KEY
  | pkt_secret_subkey _ => PKT_SECRET_SUBKEY
  | pkt_user_id _ => PKT_USER_ID
  | pkt_signature _ => PKT_SIGNATURE
  end.

Definition pkttype_eqb (a b : pkttype_t) : bool :=
  match a, b with
  | PKT_PUBLIC_KEY, PKT_PUBLIC_KEY | PKT_PUBLIC_SUBKEY, PKT_PUBLIC_SUBKEY
  | PKT_SECRET_KEY, PKT_SECRET_KEY | PKT_SECRET_SUBKEY, PKT_SECRET_SUBKEY
  | PKT_USER_ID, PKT_USER_ID | PKT_SIGNATURE, PKT_SIGNATURE => true
  | _, _ => false
  end.

(** A node of the keyblock list: the packet, the flag word of the editor
    and the tombstone bit of the node store.  The flag word is an integer
    read bit by bit; the editor sets, clears and tests the six bits below
    and assigns one of the first three. *)
Record kbnode := mk_node {
  pkt : packet;
  flag : Z;
  deleted : bool
}.

Definition KBNODE : Type := list kbnode.

Definition NODFLG_BADSIG : Z := Z.shiftl 1 0.
Definition NODFLG_NOKEY  : Z := Z.shiftl 1 1.
Definition NODFLG_SIGERR : Z := Z.shiftl 1 2.
Definition NODFLG_MARK_A : Z := Z.shiftl 1 4.
Definition NODFLG_SELUID : Z := Z.shiftl 1 8.
Definition NODFLG_SELKEY : Z := Z.shiftl 1 9.

(** [flag & mask] used as a C truth value. *)
Definition has_flag (f mask : Z) : bool := negb (Z.land f mask =? 0).
(** [flag |= mask] and [flag &= ~mask]. *)
Definition set_flag (f mask : Z) : Z := Z.lor f mask.
Definition clear_flag (f mask : Z) : Z := Z.land f (Z.lnot mask).

Definition with_flag (n : kbnode) (f : Z) : kbnode :=
  mk_node (pkt n) f (deleted n).

Definition is_uid (n : kbnode) : bool := pkttype_eqb (pkttype (pkt n)) PKT_USER_ID.
Definition is_sig (n : kbnode) : bool := pkttype_eqb (pkttype (pkt n)) PKT_SIGNATURE.
Definition is_subkey (n : kbnode) : bool :=
  pkttype_eqb (pkttype (pkt n)) PKT_PUBLIC_SUBKEY
  || pkttype_eqb (pkttype (pkt n)) PKT_SECRET_SUBKEY.

(** How many of the three signature error flags a flag word carries. *)
Definition error_flags (f : Z) : Z :=
  (if has_flag f NODFLG_BADSIG then 1 else 0)
  + (if has_flag f NODFLG_NOKEY then 1 else 0)
  + (if has_flag f NODFLG_SIGERR then 1 else 0).

(** ** The node store (kbnode.c) *)

(** Modelled from the spec: kbnode.c is not part of the sources at hand.
    [new_kbnode] makes a live node with an empty flag word. *)
Definition new_kbnode (p : packet) : kbnode := mk_node p 0 false.

(** Modelled from the spec: [delete_kbnode] of kbnode.c only sets the
    tombstone bit of the node; here the node is named by its position. *)
Definition delete_kbnode (n : kbnode) : kbnode := mk_node (pkt n) (flag n) true.

(** Modelled from the spec: [commit_kbnode] of kbnode.c compacts the
    sequence, removing the deleted nodes and keeping the live ones in
    their order with their flag words. *)
Definition commit_kbnode (kb : KBNODE) : KBNODE :=
  filter (fun n => negb (deleted n)) kb.

(** Modelled from the spec: [walk_kbnode] with [all = 0] of kbnode.c is the
    forward iteration that skips deleted nodes; the walk below takes the
    list as it is and tests the tombstone itself. *)
Definition walk_visits (n : kbnode) : bool := negb (deleted n).

(** Modelled from the spec: [add_kbnode] of kbnode.c appends a node. *)
Definition add_kbnode (kb : KBNODE) (n : kbnode) : KBNODE := kb ++ [n].

(** Modelled from the spec: [insert_kbnode] of kbnode.c is the
    insert-after(node) of the node store: the new node becomes the
    successor of the node at position [i].  The packet type the C calls
    pass as third argument has no part in the spec's insert-after and is
    left out; the statements below read a keyblock group by group and do not
    depend on where in the group of its user id a new signature stands. *)
Definition insert_kbnode (kb : KBNODE) (i : nat) (n : kbnode) : KBNODE :=
  firstn (S i) kb ++ n :: skipn (S i) kb.

(** Modelled from the spec: [find_kbnode] of kbnode.c is the find-first(kind)
    of the node store. *)
Definition find_kbnode (kb : KBNODE) (t : pkttype_t) : option kbnode :=
  find (fun n => pkttype_eqb (pkttype (pkt n)) t) kb.

(** ** Counting (count_uids, count_uids_with_flag, ...) *)

Fixpoint count_uids_with_flag (kb : KBNODE) (flg : Z) : Z :=
  match kb with
  | [] => 0
  | node :: next =>
      (if is_uid node && has_flag (flag node) flg then 1 else 0)
      + count_uids_with_flag next flg
  end.

Fixpoint count_keys_with_flag (kb : KBNODE) (flg : Z) : Z :=
  match kb with
  | [] => 0
  | node :: next =>
      (if is_subkey node && has_flag (flag node) flg then 1 else 0)
      + count_keys_with_flag next flg
  end.

Fixpoint count_uids (kb : KBNODE) : Z :=
  match kb with
  | [] => 0
  | node :: next => (if is_uid node then 1 else 0) + count_uids next
  end.

Definition count_selected_uids (kb : KBNODE) : Z :=
  count_uids_with_flag kb NODFLG_SELUID.

Definition count_selected_keys (kb : KBNODE) : Z :=
  count_keys_with_flag kb NODFLG_SELKEY.

(** ** Selection (menu_select_uid) *)

Inductive tty_msg : Type :=
| No_user_id_with_index (index : Z)
| You_must_select_at_least_one_user_id
| You_cant_delete_the_last_user_id
| Already_signed_by_key (kid : keyid)
| Nothing_to_sign_with_key (kid : keyid)
| Really_sign (answer : bool)
| Signing_failed.

(** The validity scan: the loop leaves with [node] non-null exactly when
    the pre-incremented counter meets [index] on a user id. *)
Fixpoint select_uid_find (kb : KBNODE) (i index : Z) : bool :=
  match kb with
  | [] => false
  | node :: next =>
      if is_uid node
      then if i + 1 =? index then true else select_uid_find next (i + 1) index
      else select_uid_find next i index
  end.

Fixpoint select_uid_reset (kb : KBNODE) : KBNODE :=
  match kb with
  | [] => []
  | node :: next =>
      (if is_uid node
       then with_flag node (clear_flag (flag node) NODFLG_SELUID)
       else node) :: select_uid_reset next
  end.

Fixpoint select_uid_toggle (kb : KBNODE) (i index : Z) : KBNODE :=
  match kb with
  | [] => []
  | node :: next =>
      if is_uid node
      then (if i + 1 =? index
            then if has_flag (flag node) NODFLG_SELUID
                 then with_flag node (clear_flag (flag node) NODFLG_SELUID)
                 else with_flag node (set_flag (flag node) NODFLG_SELUID)
            else node) :: select_uid_toggle next (i + 1) index
      else node :: select_uid_toggle next i index
  end.

(** [menu_select_uid] returns the keyblock, the C result and what it
    printed. *)
Definition menu_select_uid (kb : KBNODE) (index : Z)
  : KBNODE * Z * list tty_msg :=
  if negb (index =? 0)
  then if select_uid_find kb 0 index
       then (select_uid_toggle kb 0 index, 1, [])
       else (kb, 0, [No_user_id_with_index index])
  else (select_uid_reset kb, 1, []).

(** ** Return codes and the collaborators *)

(** Modelled from the spec: errors.h is not part of the sources at hand.
    The return codes are an enumeration: [RC_OK] is the C value 0, the three
    named codes are those keyedit.c tests or assigns, any other nonzero code
    carries its number. *)
Inductive g10_rc : Type :=
| RC_OK
| G10ERR_BAD_SIGN
| G10ERR_NO_PUBKEY
| G10ERR_PUBKEY_ALGO
| G10ERR_other (code : Z).

Definition rc_is_ok (rc : g10_rc) : bool :=
  match rc with RC_OK => true | _ => false end.

Record DEK := mk_dek { dek_algo : Z; dek_keylen : Z }.

(** The crypto, keyring and trust collaborators the editor calls.  Their
    answers are not computed here; each field is the answer the collaborator
    gives on the arguments the editor passes. *)
Record collaborators := mk_ext {
  (** [check_key_signature( keyblock, node, &selfsig )]: [rc] and the
      self-signature flag for the node at a position of the keyblock. *)
  check_key_signature : KBNODE -> nat -> g10_rc * bool;
  (** [build_sk_list( locusr, &sk_list, 0, 1 )]. *)
  build_sk_list : list string -> g10_rc * list PKT_secret_key;
  (** [rc] and creation time of [make_keysig_packet]. *)
  keysig_answer :
    PKT_public_key -> PKT_user_id -> PKT_secret_key -> Z -> g10_rc * Z;
  (** [clear_trust_checked_flag( pk )]. *)
  clear_trust_checked_flag : PKT_public_key -> g10_rc;
  (** Whether the public key algorithm of a secret key is one the crypto
      collaborator supports. *)
  pubkey_algo_supported : PKT_secret_key -> bool;
  (** [rc] of [check_secret_key( sk, 0 )] under the pending passphrase, and
      the passphrase [get_last_passphrase] hands out afterwards. *)
  unlock_answer : PKT_secret_key -> option string -> g10_rc * option string;
  (** [rc] of [protect_secret_key( sk, dek )]. *)
  protect_answer : PKT_secret_key -> DEK -> g10_rc
}.

(** Modelled from the spec: [make_keysig_packet] is not part of the sources
    at hand; it produces a new certification of the given class by the
    signer's secret key, or an error. *)
Definition make_keysig_packet (ext : collaborators) (pk : PKT_public_key)
    (uid : PKT_user_id) (sk : PKT_secret_key) (sigclass : Z)
  : g10_rc * PKT_signature :=
  let '(rc, t) := keysig_answer ext pk uid sk sigclass in
  (rc, mk_sig (sk_keyid sk) sigclass t).

(** Modelled from the spec: [is_secret_key_protected] is not part of the
    sources at hand; the protection probe answers -1 for an unsupported
    algorithm, 0 for an unprotected key and a positive number for a
    protected one. *)
Definition is_secret_key_protected (ext : collaborators)
    (sk : PKT_secret_key) : Z :=
  if negb (pubkey_algo_supported ext sk) then -1
  else if is_protected sk then 1 else 0.

(** Modelled from the spec: [check_secret_key] is not part of the sources at
    hand; it decrypts the protection in place or fails. *)
Definition check_secret_key (ext : collaborators) (sk : PKT_secret_key)
    (next_passphrase : option string)
  : g10_rc * PKT_secret_key * option string :=
  let '(rc, last) := unlock_answer ext sk next_passphrase in
  if rc_is_ok rc
  then (rc, mk_sk (sk_keyid sk) false (protect_algo sk) (protect_s2k sk), last)
  else (rc, sk, last).

(** Modelled from the spec: [protect_secret_key] is not part of the sources
    at hand; it re-encrypts the secret material under the derived key, or
    fails and leaves the key as it is. *)
Definition protect_secret_key (ext : collaborators) (sk : PKT_secret_key)
    (dek : DEK) : g10_rc * PKT_secret_key :=
  let rc := protect_answer ext sk dek in
  if rc_is_ok rc
  then (rc, mk_sk (sk_keyid sk) true (protect_algo sk) (protect_s2k sk))
  else (rc, sk).

(** Modelled from the spec: [cpr_get_answer_is_yes] is not part of the
    sources at hand; the yes/no prompt plays back the operator's answers in
    order, and the end of the input is no "yes". *)
Definition cpr_get_answer_is_yes (answers : list bool) : bool * list bool :=
  match answers with
  | [] => (false, [])
  | a :: rest => (a, rest)
  end.

(** ** The signature check walk (check_all_keysigs) *)

(** What the walk prints: the line of a visited user id, and the line of a
    checked signature with its marker ([!] for [RC_OK], [-] for a bad
    signature, [%] for another error; nothing is printed for a missing key)
    and whether it is labelled as a self-signature. *)
Inductive check_line : Type :=
| Line_uid (uid : PKT_user_id)
| Line_sig (rc : g10_rc) (self_signature : bool).

Record check_state := mk_check {
  inv_sigs : Z;
  no_key : Z;
  oth_err : Z;
  has_selfsig : bool;
  mis_selfsig : Z;
  selected : bool;
  anyuid : bool;
  shown : list check_line
}.

(** [(sig_class & ~3) == 0x10] *)
Definition is_cert_class (sig : PKT_signature) : bool :=
  Z.land (sig_class sig) (Z.lnot 3) =? 16.

(** The [switch] on a checkable signature and the line printed after it:
    the new flag word, the counters and the self-signature state. *)
Definition check_one_sig (rc : g10_rc) (selfsig : bool) (node : kbnode)
    (st : check_state) : kbnode * check_state :=
  match rc with
  | RC_OK =>
      (with_flag node
         (clear_flag (flag node)
            (Z.lor (Z.lor NODFLG_BADSIG NODFLG_NOKEY) NODFLG_SIGERR)),
       mk_check (inv_sigs st) (no_key st) (oth_err st)
                (if selfsig then true else has_selfsig st)
                (mis_selfsig st) (selected st) (anyuid st)
                (shown st ++ [Line_sig rc selfsig]))
  | G10ERR_BAD_SIGN =>
      (with_flag node NODFLG_BADSIG,
       mk_check (inv_sigs st + 1) (no_key st) (oth_err st) (has_selfsig st)
                (mis_selfsig st) (selected st) (anyuid st)
                (shown st ++ [Line_sig rc selfsig]))
  | G10ERR_NO_PUBKEY =>
      (with_flag node NODFLG_NOKEY,
       mk_check (inv_sigs st) (no_key st + 1) (oth_err st) (has_selfsig st)
                (mis_selfsig st) (selected st) (anyuid st) (shown st))
  | _ =>
      (with_flag node NODFLG_SIGERR,
       mk_check (inv_sigs st) (no_key st) (oth_err st + 1) (has_selfsig st)
                (mis_selfsig st) (selected st) (anyuid st)
                (shown st ++ [Line_sig rc false]))
  end.

(** The loop over [walk_kbnode]: [done] are the nodes already passed (with
    their new flag words), [todo] the rest of the list. *)
Fixpoint check_walk (ext : collaborators) (only_selected : Z)
    (done todo : KBNODE) (st : check_state) : KBNODE * check_state :=
  match todo with
  | [] => (done, st)
  | node :: next =>
      if negb (walk_visits node)
      then check_walk ext only_selected (done ++ [node]) next st
      else
        match pkt node with
        | pkt_user_id uid =>
            let sel := if negb (only_selected =? 0)
                       then has_flag (flag node) NODFLG_SELUID
                       else selected st in
            let st' :=
              if sel
              then mk_check (inv_sigs st) (no_key st) (oth_err st) false
                     (if anyuid st && negb (has_selfsig st)
                      then mis_selfsig st + 1 else mis_selfsig st)
                     sel true (shown st ++ [Line_uid uid])
              else mk_check (inv_sigs st) (no_key st) (oth_err st)
                     (has_selfsig st) (mis_selfsig st) sel (anyuid st)
                     (shown st) in
            check_walk ext only_selected (done ++ [node]) next st'
        | pkt_signature sig =>
            if selected st && is_cert_class sig
            then
              let '(rc, selfsig) :=
                check_key_signature ext (done ++ todo) (length done) in
              let '(node', st') := check_one_sig rc selfsig node st in
              check_walk ext only_selected (done ++ [node']) next st'
            else check_walk ext only_selected (done ++ [node]) next st
        | _ => check_walk ext only_selected (done ++ [node]) next st
        end
  end.

Record check_result := mk_check_result {
  chk_keyblock : KBNODE;
  chk_inv_sigs : Z;
  chk_no_key : Z;
  chk_oth_err : Z;
  chk_mis_selfsig : Z;
  chk_return : bool;
  chk_shown : list check_line
}.

Definition check_all_keysigs (ext : collaborators) (keyblock : KBNODE)
    (only_selected : Z) : check_result :=
  let st0 := mk_check 0 0 0 false 0 (only_selected =? 0) false [] in
  let '(kb, st) := check_walk ext only_selected [] keyblock st0 in
  let mis := if negb (has_selfsig st)
             then mis_selfsig st + 1 else mis_selfsig st in
  mk_check_result kb (inv_sigs st) (no_key st) (oth_err st) mis
    (negb (inv_sigs st =? 0) || negb (no_key st =? 0)
     || negb (oth_err st =? 0) || negb (mis =? 0))
    (shown st).

(** The count the walk is to arrive at, read off what it printed: the user
    id lines that no line of a good self-signature follows before the next
    user id line. *)
Definition good_selfsig_line (l : check_line) : bool :=
  match l with
  | Line_sig RC_OK true => true
  | _ => false
  end.

Fixpoint good_before_next_uid (lines : list check_line) : bool :=
  match lines with
  | [] => false
  | Line_uid _ :: _ => false
  | l :: rest => good_selfsig_line l || good_before_next_uid rest
  end.

Fixpoint uids_without_selfsig (lines : list check_line) : Z :=
  match lines with
  | [] => 0
  | Line_uid _ :: rest =>
      (if good_before_next_uid rest then 0 else 1)
      + uids_without_selfsig rest
  | _ :: rest => uids_without_selfsig rest
  end.

Definition any_uid_line (lines : list check_line) : bool :=
  existsb (fun l => match l with Line_uid _ => true | _ => false end) lines.

(** How the counter and the self-signature state at two points of the walk
    relate to the lines [new] printed in between: [mis], [anyu] and [has]
    are [mis_selfsig], [anyuid] and [has_selfsig] at the first point, [st']
    is the state at the second. *)
Definition walk_counts (mis : Z) (anyu has : bool) (new : list check_line)
    (st' : check_state) : Prop :=
  mis_selfsig st' + (if anyuid st' && negb (has_selfsig st') then 1 else 0)
  = mis + (if anyu && negb (has || good_before_next_uid new) then 1 else 0)
    + uids_without_selfsig new
  /\ anyuid st' = anyu || any_uid_line new
  /\ (any_uid_line new = false ->
      has_selfsig st' = has || good_before_next_uid new).

(** A node after the walk is the node before it, or that node after one
    run of the [switch]. *)
Definition checked (n n' : kbnode) : Prop :=
  n' = n
  \/ exists rc selfsig st, n' = fst (check_one_sig rc selfsig n st).

(** ** Signing the user ids (sign_uids) *)

Record sign_state := mk_sign {
  s_keyblock : KBNODE;
  s_modified : bool;                         (* [*ret_modified] *)
  s_upd_trust : bool;
  s_primary_pk : option PKT_public_key;
  s_answers : list bool;                     (* what the operator will answer *)
  s_tty : list tty_msg
}.

(** Where control goes after a piece of the signer loop: on to the next
    signer, to the label [leave], into a failed [assert], or nowhere
    because the recursion allowance of the model ran out. *)
Inductive sign_flow : Type :=
| Flow_next (st : sign_state)
| Flow_leave (rc : g10_rc) (st : sign_state)
| Flow_abort
| Flow_out_of_fuel.

Inductive sign_outcome : Type :=
| Returned (rc : g10_rc) (trust_cleared : bool) (st : sign_state)
| Assertion_failed
| Out_of_fuel.

Fixpoint update_node (i : nat) (f : kbnode -> kbnode) (kb : KBNODE) : KBNODE :=
  match kb, i with
  | [], _ => []
  | node :: next, O => f node :: next
  | node :: next, S j => node :: update_node j f next
  end.

Definition set_mark_a (node : kbnode) : kbnode :=
  with_flag node (set_flag (flag node) NODFLG_MARK_A).
Definition clear_mark_a (node : kbnode) : kbnode :=
  with_flag node (clear_flag (flag node) NODFLG_MARK_A).

(** "set mark A for all selected user ids" *)
Definition sign_mark (select_all : bool) (kb : KBNODE) : KBNODE :=
  map (fun node =>
         if select_all || has_flag (flag node) NODFLG_SELUID
         then set_mark_a node else clear_mark_a node) kb.

(** "reset mark for uids which are already signed": [uidnode] is the
    position of the marked user id the scan is under, if any. *)
Fixpoint sign_already (sk_keyid : keyid) (done todo : KBNODE)
    (uidnode : option nat) (tty : list tty_msg) : KBNODE * list tty_msg :=
  match todo with
  | [] => (done, tty)
  | node :: next =>
      match pkt node with
      | pkt_user_id _ =>
          sign_already sk_keyid (done ++ [node]) next
            (if has_flag (flag node) NODFLG_MARK_A
             then Some (length done) else None) tty
      | pkt_signature sig =>
          match uidnode with
          | Some u =>
              if is_cert_class sig && keyid_eqb sk_keyid (sig_keyid sig)
              then sign_already sk_keyid
                     (update_node u clear_mark_a done ++ [node]) next uidnode
                     (tty ++ [Already_signed_by_key sk_keyid])
              else sign_already sk_keyid (done ++ [node]) next uidnode tty
          | None => sign_already sk_keyid (done ++ [node]) next uidnode tty
          end
      | _ => sign_already sk_keyid (done ++ [node]) next uidnode tty
      end
  end.

Inductive scan_result : Type :=
| Scan_end (primary_pk : option PKT_public_key)
| Scan_hit (i : nat) (primary_pk : option PKT_public_key) (uid : PKT_user_id).

(** One pass of the loop under [reloop:] up to the first marked user id. *)
Fixpoint sign_scan (kb : KBNODE) (i : nat)
    (primary_pk : option PKT_public_key) : scan_result :=
  match kb with
  | [] => Scan_end primary_pk
  | node :: next =>
      match pkt node with
      | pkt_public_key pk => sign_scan next (S i) (Some pk)
      | pkt_user_id uid =>
          if has_flag (flag node) NODFLG_MARK_A
          then Scan_hit i primary_pk uid
          else sign_scan next (S i) primary_pk
      | _ => sign_scan next (S i) primary_pk
      end
  end.

(** "now we can sign the user ids": each round restarts the scan. *)
Fixpoint sign_reloop (ext : collaborators) (sk : PKT_secret_key)
    (fuel : nat) (st : sign_state) : sign_flow :=
  match fuel with
  | O => Flow_out_of_fuel
  | S fuel' =>
      match sign_scan (s_keyblock st) 0 None with
      | Scan_end ppk =>
          Flow_next (mk_sign (s_keyblock st) (s_modified st) (s_upd_trust st)
                       ppk (s_answers st) (s_tty st))
      | Scan_hit _ None _ => Flow_abort
      | Scan_hit i (Some pk) uid =>
          let kb1 := update_node i clear_mark_a (s_keyblock st) in
          let '(rc, sig) := make_keysig_packet ext pk uid sk 16 in
          if rc_is_ok rc
          then sign_reloop ext sk fuel'
                 (mk_sign
                    (insert_kbnode kb1 i (new_kbnode (pkt_signature sig)))
                    true true (Some pk) (s_answers st) (s_tty st))
          else Flow_leave rc
                 (mk_sign kb1 (s_modified st) (s_upd_trust st) (Some pk)
                    (s_answers st) (s_tty st ++ [Signing_failed]))
      end
  end.

(** The body of the loop over the signers, for one signer. *)
Definition sign_one (ext : collaborators) (select_all : bool)
    (sk : PKT_secret_key) (st : sign_state) : sign_flow :=
  let kid := sk_keyid sk in
  let kb1 := sign_mark select_all (s_keyblock st) in
  let '(kb2, tty2) := sign_already kid [] kb1 None (s_tty st) in
  if count_uids_with_flag kb2 NODFLG_MARK_A =? 0
  then Flow_next (mk_sign kb2 (s_modified st) (s_upd_trust st)
                    (s_primary_pk st) (s_answers st)
                    (tty2 ++ [Nothing_to_sign_with_key kid]))
  else
    let '(yes, rest) := cpr_get_answer_is_yes (s_answers st) in
    if negb yes
    then Flow_next (mk_sign kb2 (s_modified st) (s_upd_trust st)
                      (s_primary_pk st) rest (tty2 ++ [Really_sign false]))
    else sign_reloop ext sk (S (length kb2))
           (mk_sign kb2 (s_modified st) (s_upd_trust st)
              (s_primary_pk st) rest (tty2 ++ [Really_sign true])).

Fixpoint sign_loop (ext : collaborators) (select_all : bool)
    (sk_rover : list PKT_secret_key) (st : sign_state) : sign_flow :=
  match sk_rover with
  | [] => Flow_next st
  | sk :: next =>
      match sign_one ext select_all sk st with
      | Flow_next st' => sign_loop ext select_all next st'
      | other => other
      end
  end.

(** [sign_uids( keyblock, locusr, &modified )].  [primary_pk0] stands for
    the indeterminate value the local [primary_pk] holds before the first
    pass under [reloop:] assigns it. *)
Definition sign_uids (ext : collaborators) (keyblock : KBNODE)
    (locusr : list string) (modified : bool) (answers : list bool)
    (primary_pk0 : option PKT_public_key) : sign_outcome :=
  let select_all := count_selected_uids keyblock =? 0 in
  let st0 := mk_sign keyblock modified false primary_pk0 answers [] in
  let '(rc, sk_list) := build_sk_list ext locusr in
  if negb (rc_is_ok rc)
  then Returned rc false st0
  else
    match sign_loop ext select_all sk_list st0 with
    | Flow_next st =>
        if s_upd_trust st
        then match s_primary_pk st with
             | Some pk => Returned (clear_trust_checked_flag ext pk) true st
             | None => Returned RC_OK false st
             end
        else Returned RC_OK false st
    | Flow_leave rc' st => Returned rc' false st
    | Flow_abort => Assertion_failed
    | Flow_out_of_fuel => Out_of_fuel
    end.

(** The primary key packet is the first node of the list. *)
Definition primary_first (kb : KBNODE) : bool :=
  match kb with
  | [] => false
  | node :: _ => pkttype_eqb (pkttype (pkt node)) PKT_PUBLIC_KEY
  end.

(** The primary secret key packet is the first node of the list. *)
Definition secret_first (kb : KBNODE) : bool :=
  match kb with
  | [] => false
  | node :: _ => pkttype_eqb (pkttype (pkt node)) PKT_SECRET_KEY
  end.

(** *** The signing loop seen per user id

    The statements about [sign_uids] read a keyblock as the sequence of its
    user ids, each with its selection bit, its work mark and the key ids of
    the certifications (class 0x10 to 0x13) that follow it up to the next
    user id: the nodes the scan for "already signed" holds against it. *)

Fixpoint certifiers (rest : KBNODE) : list keyid :=
  match rest with
  | [] => []
  | node :: next =>
      match pkt node with
      | pkt_user_id _ => []
      | pkt_signature sig =>
          if is_cert_class sig
          then sig_keyid sig :: certifiers next else certifiers next
      | _ => certifiers next
      end
  end.

Record uid_group := mk_group {
  g_uid : PKT_user_id;
  g_selected : bool;
  g_marked : bool;
  g_certifiers : list keyid
}.

Fixpoint uid_groups (kb : KBNODE) : list uid_group :=
  match kb with
  | [] => []
  | node :: next =>
      match pkt node with
      | pkt_user_id uid =>
          mk_group uid (has_flag (flag node) NODFLG_SELUID)
            (has_flag (flag node) NODFLG_MARK_A) (certifiers next)
          :: uid_groups next
      | _ => uid_groups next
      end
  end.

Definition signed_by (kid : keyid) (certs : list keyid) : bool :=
  existsb (keyid_eqb kid) certs.

(** How many certifications by [kid] a group carries. *)
Definition certs_by (kid : keyid) (certs : list keyid) : Z :=
  Z.of_nat (length (filter (keyid_eqb kid) certs)).

(** The primary key packet a pass under [reloop:] holds after the nodes
    [l]. *)
Fixpoint track_pk (ppk : option PKT_public_key) (l : KBNODE)
  : option PKT_public_key :=
  match l with
  | [] => ppk
  | node :: next =>
      match pkt node with
      | pkt_public_key pk => track_pk (Some pk) next
      | _ => track_pk ppk next
      end
  end.

(** The scan for "already signed" in one pass: a marked user id loses its
    mark when a certification by the signer follows it. *)
Fixpoint already_spec (kid : keyid) (kb : KBNODE) : KBNODE :=
  match kb with
  | [] => []
  | node :: next =>
      (if is_uid node && has_flag (flag node) NODFLG_MARK_A
          && signed_by kid (certifiers next)
       then clear_mark_a node else node) :: already_spec kid next
  end.

(** The signing rounds in one pass: every marked user id loses its mark and
    gets the new signature as its successor (the work-list reading of the
    loop). *)
Fixpoint sign_spec (ext : collaborators) (sk : PKT_secret_key)
    (ppk : option PKT_public_key) (l : KBNODE) : KBNODE :=
  match l with
  | [] => []
  | node :: next =>
      match pkt node with
      | pkt_public_key pk => node :: sign_spec ext sk (Some pk) next
      | pkt_user_id uid =>
          if has_flag (flag node) NODFLG_MARK_A
          then match ppk with
               | Some pk =>
                   clear_mark_a node
                   :: new_kbnode
                        (pkt_signature
                           (snd (make_keysig_packet ext pk uid sk 16)))
                   :: sign_spec ext sk ppk next
               | None => node :: sign_spec ext sk ppk next
               end
          else node :: sign_spec ext sk ppk next
      | _ => node :: sign_spec ext sk ppk next
      end
  end.

(** What one signer does to a group when the operator confirms and every
    signature is made, and what is left of it otherwise. *)
Definition group_signed (select_all : bool) (kid : keyid) (g : uid_group)
  : uid_group :=
  mk_group (g_uid g) (g_selected g) false
    (if (select_all || g_selected g) && negb (signed_by kid (g_certifiers g))
     then kid :: g_certifiers g else g_certifiers g).

Definition group_marked (select_all : bool) (kid : keyid) (g : uid_group)
  : uid_group :=
  mk_group (g_uid g) (g_selected g)
    ((select_all || g_selected g) && negb (signed_by kid (g_certifiers g)))
    (g_certifiers g).

(** A group after every signer of the list, in order, was confirmed and
    signed what it had to: a candidate user id gets one certification by a
    signer that had not certified it yet. *)
Definition group_after (select_all : bool) (sks : list PKT_secret_key)
    (g : uid_group) : uid_group :=
  fold_left (fun g sk => group_signed select_all (sk_keyid sk) g) sks g.

(** Whether [kid] is the key id of one of the signers. *)
Definition is_signer (kid : keyid) (sks : list PKT_secret_key) : bool :=
  existsb (fun sk => keyid_eqb kid (sk_keyid sk)) sks.

(** ** Changing the passphrase (change_passphrase) *)

(** The fields of [opt] the function reads. *)
Record options := mk_opt {
  opt_s2k_mode : Z;
  opt_s2k_digest_algo : Z;
  opt_s2k_cipher_algo : Z
}.

Definition with_pkt (n : kbnode) (p : packet) : kbnode :=
  mk_node p (flag n) (deleted n).

(** The secret key packet [find_kbnode( keyblock, PKT_SECRET_KEY )] points
    to, and the update of that packet in place. *)
Definition primary_secret_key (kb : KBNODE) : option PKT_secret_key :=
  match find_kbnode kb PKT_SECRET_KEY with
  | Some node =>
      match pkt node with pkt_secret_key sk => Some sk | _ => None end
  | None => None
  end.

Fixpoint set_primary_secret_key (sk' : PKT_secret_key) (kb : KBNODE)
  : KBNODE :=
  match kb with
  | [] => []
  | node :: next =>
      match pkt node with
      | pkt_secret_key _ => with_pkt node (pkt_secret_key sk') :: next
      | _ => node :: set_primary_secret_key sk' next
      end
  end.

(** "unprotect all subkeys (use the supplied passphrase or ask)" *)
Fixpoint unlock_subkeys (ext : collaborators) (passphrase : option string)
    (rc : g10_rc) (kb : KBNODE) : g10_rc * KBNODE :=
  match kb with
  | [] => (rc, [])
  | node :: next =>
      if rc_is_ok rc
      then
        match pkt node with
        | pkt_secret_subkey subsk =>
            let '(rc1, subsk', _) := check_secret_key ext subsk passphrase in
            let '(rc2, next') := unlock_subkeys ext passphrase rc1 next in
            (rc2, with_pkt node (pkt_secret_subkey subsk') :: next')
        | _ =>
            let '(rc2, next') := unlock_subkeys ext passphrase rc next in
            (rc2, node :: next')
        end
      else (rc, node :: next)
  end.

Definition set_protect (sk : PKT_secret_key) (dek : DEK) (s2k : STRING2KEY)
  : PKT_secret_key :=
  mk_sk (sk_keyid sk) (is_protected sk) (dek_algo dek) s2k.

(** The loop protecting the subkeys under the new key. *)
Fixpoint protect_subkeys (ext : collaborators) (dek : DEK) (s2k : STRING2KEY)
    (rc : g10_rc) (kb : KBNODE) : g10_rc * KBNODE :=
  match kb with
  | [] => (rc, [])
  | node :: next =>
      if rc_is_ok rc
      then
        match pkt node with
        | pkt_secret_subkey subsk =>
            let '(rc1, subsk') :=
              protect_secret_key ext (set_protect subsk dek s2k) dek in
            let '(rc2, next') := protect_subkeys ext dek s2k rc1 next in
            (rc2, with_pkt node (pkt_secret_subkey subsk') :: next')
        | _ =>
            let '(rc2, next') := protect_subkeys ext dek s2k rc next in
            (rc2, node :: next')
        end
      else (rc, node :: next)
  end.

(** The [for(;;)] asking for the new passphrase.  [deks] lists what
    [passphrase_to_dek] returns call after call: [None] for a passphrase not
    correctly repeated.  The loop has no result when the list ends before a
    key was derived. *)
Fixpoint new_passphrase_loop (ext : collaborators) (opt : options)
    (deks : list (option DEK)) (answers : list bool)
    (sk : PKT_secret_key) (kb : KBNODE)
  : option (g10_rc * Z * KBNODE * list bool) :=
  match deks with
  | [] => None
  | None :: rest => new_passphrase_loop ext opt rest answers sk kb
  | Some dek :: _ =>
      let s2k := mk_s2k (opt_s2k_mode opt) (opt_s2k_digest_algo opt) in
      if dek_keylen dek =? 0
      then
        let '(yes, answers') := cpr_get_answer_is_yes answers in
        Some (RC_OK, if yes then 1 else 0, kb, answers')
      else
        let '(rc1, sk') :=
          protect_secret_key ext (set_protect sk dek s2k) dek in
        let '(rc2, kb') :=
          protect_subkeys ext dek s2k rc1 (set_primary_secret_key sk' kb) in
        Some (rc2, if rc_is_ok rc2 then 1 else 0, kb', answers)
  end.

(** The first part of [change_passphrase]: the [switch] on the protection
    of the primary key and the loop unlocking the subkeys.  The result is
    [rc], the primary key packet and the keyblock. *)
Definition unlock_keys (ext : collaborators) (keyblock : KBNODE)
    (sk : PKT_secret_key) (next_passphrase0 : option string)
  : g10_rc * PKT_secret_key * KBNODE :=
  let prot := is_secret_key_protected ext sk in
  let '(rc, sk1, passphrase) :=
    if prot =? -1 then (G10ERR_PUBKEY_ALGO, sk, None)
    else if prot =? 0 then (RC_OK, sk, None)
    else
      let '(rc, sk1, last) := check_secret_key ext sk next_passphrase0 in
      (rc, sk1, if rc_is_ok rc then last else None) in
  let '(rc', kb1) :=
    unlock_subkeys ext passphrase rc (set_primary_secret_key sk1 keyblock) in
  (rc', sk1, kb1).

(** [change_passphrase( keyblock )]: the C result, the keyblock and the
    answers left.  [next_passphrase0] is what the passphrase slot holds when
    the function is entered. *)
Definition change_passphrase (ext : collaborators) (opt : options)
    (keyblock : KBNODE) (next_passphrase0 : option string)
    (deks : list (option DEK)) (answers : list bool)
  : option (bool * KBNODE * list bool) :=
  match primary_secret_key keyblock with
  | None => Some (false, keyblock, answers)
  | Some sk =>
      let '(rc, sk1, kb1) := unlock_keys ext keyblock sk next_passphrase0 in
      if negb (rc_is_ok rc)
      then Some (false, kb1, answers)
      else
        match new_passphrase_loop ext opt deks answers sk1 kb1 with
        | None => None
        | Some (rc', changed, kb2, answers') =>
            Some (negb (changed =? 0) && rc_is_ok rc', kb2, answers')
        end
  end.

(** ** Adding and removing user ids and subkeys *)

Definition uid_eqb (a b : PKT_user_id) : bool :=
  String.eqb (uid_name a) (uid_name b).

(** The scan of [menu_adduid] for the node before the first subkey and for
    the primary key packet, on either block. *)
Fixpoint adduid_scan_pub (kb : KBNODE) (i : nat) (pub_where : option nat)
    (pk : option PKT_public_key) : option nat * option PKT_public_key :=
  match kb with
  | [] => (None, pk)
  | node :: next =>
      match pkt node with
      | pkt_public_key k => adduid_scan_pub next (S i) (Some i) (Some k)
      | pkt_public_subkey _ => (pub_where, pk)
      | _ => adduid_scan_pub next (S i) (Some i) pk
      end
  end.

Fixpoint adduid_scan_sec (kb : KBNODE) (i : nat) (sec_where : option nat)
    (sk : option PKT_secret_key) : option nat * option PKT_secret_key :=
  match kb with
  | [] => (None, sk)
  | node :: next =>
      match pkt node with
      | pkt_secret_key k => adduid_scan_sec next (S i) (Some i) (Some k)
      | pkt_secret_subkey _ => (sec_where, sk)
      | _ => adduid_scan_sec next (S i) (Some i) sk
      end
  end.

(** "insert/append to ... keyblock": the user id and then its signature. *)
Definition adduid_put (kb : KBNODE) (where_ : option nat)
    (uid : PKT_user_id) (sig : PKT_signature) : KBNODE :=
  match where_ with
  | Some i =>
      insert_kbnode (insert_kbnode kb i (new_kbnode (pkt_user_id uid)))
        (S i) (new_kbnode (pkt_signature sig))
  | None =>
      add_kbnode (add_kbnode kb (new_kbnode (pkt_user_id uid)))
        (new_kbnode (pkt_signature sig))
  end.

(** [menu_adduid( pub_keyblock, sec_keyblock )]; [new_uid] is what
    [generate_user_id] returns.  There is no result when the [assert]
    fails. *)
Definition menu_adduid (ext : collaborators) (new_uid : option PKT_user_id)
    (pub_keyblock sec_keyblock : KBNODE) : option (bool * KBNODE * KBNODE) :=
  match new_uid with
  | None => Some (false, pub_keyblock, sec_keyblock)
  | Some uid =>
      let '(pub_where, pk) := adduid_scan_pub pub_keyblock 0 None None in
      let '(sec_where, sk) := adduid_scan_sec sec_keyblock 0 None None in
      match pk, sk with
      | Some pk, Some sk =>
          let '(rc, sig) := make_keysig_packet ext pk uid sk 19 in
          if negb (rc_is_ok rc)
          then Some (false, pub_keyblock, sec_keyblock)
          else Some (true,
                     adduid_put pub_keyblock pub_where uid sig,
                     adduid_put sec_keyblock sec_where uid sig)
      | _, _ => None
      end
  end.

(** The inner loop of [menu_deluid] over the secret keyblock. *)
Fixpoint deluid_sec (uid : PKT_user_id) (s_selected : bool) (sec : KBNODE)
  : KBNODE :=
  match sec with
  | [] => []
  | snode :: next =>
      match pkt snode with
      | pkt_user_id suid =>
          let s := uid_eqb uid suid in
          (if s then delete_kbnode snode else snode) :: deluid_sec uid s next
      | pkt_signature _ =>
          (if s_selected then delete_kbnode snode else snode)
          :: deluid_sec uid s_selected next
      | pkt_secret_subkey _ => snode :: deluid_sec uid false next
      | _ => snode :: deluid_sec uid s_selected next
      end
  end.

Fixpoint deluid_pub (selected : bool) (pub : KBNODE) (sec : option KBNODE)
  : KBNODE * option KBNODE :=
  match pub with
  | [] => ([], sec)
  | node :: next =>
      match pkt node with
      | pkt_user_id uid =>
          if has_flag (flag node) NODFLG_SELUID
          then
            let '(p, s) :=
              deluid_pub true next (option_map (deluid_sec uid false) sec) in
            (delete_kbnode node :: p, s)
          else
            let '(p, s) := deluid_pub false next sec in (node :: p, s)
      | pkt_signature _ =>
          let '(p, s) := deluid_pub selected next sec in
          ((if selected then delete_kbnode node else node) :: p, s)
      | pkt_public_subkey _ =>
          let '(p, s) := deluid_pub false next sec in (node :: p, s)
      | _ =>
          let '(p, s) := deluid_pub selected next sec in (node :: p, s)
      end
  end.

(** The caller keeps its pointer to the first node: a block whose first
    node became a tombstone leaves the caller on a released node. *)
Definition root_survives (kb : KBNODE) : bool :=
  match kb with
  | [] => true
  | node :: _ => negb (deleted node)
  end.

Definition commit_blocks (p : KBNODE) (s : option KBNODE)
  : option (KBNODE * option KBNODE) :=
  if root_survives p
     && match s with Some s' => root_survives s' | None => true end
  then Some (commit_kbnode p, option_map commit_kbnode s)
  else None.

Definition menu_deluid (pub_keyblock : KBNODE) (sec_keyblock : option KBNODE)
  : option (KBNODE * option KBNODE) :=
  let '(p, s) := deluid_pub false pub_keyblock sec_keyblock in
  commit_blocks p s.

(** The inner loop of [menu_delkey] over the secret keyblock. *)
Fixpoint delkey_sec (ki : keyid) (s_selected : bool) (sec : KBNODE)
  : KBNODE :=
  match sec with
  | [] => []
  | snode :: next =>
      match pkt snode with
      | pkt_secret_subkey sk =>
          let s := keyid_eqb ki (sk_keyid sk) in
          (if s then delete_kbnode snode else snode) :: delkey_sec ki s next
      | pkt_signature _ =>
          if s_selected
          then delete_kbnode snode :: delkey_sec ki true next
          else snode :: delkey_sec ki false next
      | _ => snode :: delkey_sec ki false next
      end
  end.

Fixpoint delkey_pub (selected : bool) (pub : KBNODE) (sec : option KBNODE)
  : KBNODE * option KBNODE :=
  match pub with
  | [] => ([], sec)
  | node :: next =>
      match pkt node with
      | pkt_public_subkey pk =>
          if has_flag (flag node) NODFLG_SELKEY
          then
            let '(p, s) :=
              delkey_pub true next
                (option_map (delkey_sec (pk_keyid pk) false) sec) in
            (delete_kbnode node :: p, s)
          else
            let '(p, s) := delkey_pub false next sec in (node :: p, s)
      | pkt_signature _ =>
          if selected
          then let '(p, s) := delkey_pub true next sec in
               (delete_kbnode node :: p, s)
          else let '(p, s) := delkey_pub false next sec in (node :: p, s)
      | _ =>
          let '(p, s) := delkey_pub false next sec in (node :: p, s)
      end
  end.

Definition menu_delkey (pub_keyblock : KBNODE) (sec_keyblock : option KBNODE)
  : option (KBNODE * option KBNODE) :=
  let '(p, s) := delkey_pub false pub_keyblock sec_keyblock in
  commit_blocks p s.

(** ** The menu (keyedit_menu): the state of a session and the commands
    that change the keyblocks *)

Record session := mk_session {
  keyblock : KBNODE;
  sec_keyblock : option KBNODE;
  modified : bool;
  sec_modified : bool;
  redisplay : bool
}.

(** [case cmdDELUID]: the session, the answers left and what was printed;
    no result when [menu_deluid] left the session on a released node. *)
Definition cmd_deluid (s : session) (answers : list bool)
  : option (session * list bool * list tty_msg) :=
  let n1 := count_selected_uids (keyblock s) in
  if n1 =? 0
  then Some (s, answers, [You_must_select_at_least_one_user_id])
  else if count_uids (keyblock s) - n1 <? 1
  then Some (s, answers, [You_cant_delete_the_last_user_id])
  else
    let '(yes, rest) := cpr_get_answer_is_yes answers in
    if yes
    then
      match menu_deluid (keyblock s) (sec_keyblock s) with
      | Some (pub, sec) =>
          Some (mk_session pub sec true
                  (match sec_keyblock s with
                   | Some _ => true
                   | None => sec_modified s
                   end) true,
                rest, [])
      | None => None
      end
    else Some (s, rest, []).

(** [case cmdPASSWD], reached only with a secret keyblock ([need_sk]). *)
Definition cmd_passwd (ext : collaborators) (opt : options) (s : session)
    (next_passphrase0 : option string) (deks : list (option DEK))
    (answers : list bool) : option (session * list bool) :=
  match sec_keyblock s with
  | None => Some (s, answers)
  | Some sec =>
      match change_passphrase ext opt sec next_passphrase0 deks answers with
      | None => None
      | Some (changed, sec', answers') =>
          Some (mk_session (keyblock s) (Some sec') (modified s)
                  (if changed then true else sec_modified s) (redisplay s),
                answers')
      end
  end.

(** ** The pairing of the two keyblocks

    What the walk sees of a block: the names of its live user ids and the
    key ids of its live subkeys. *)

Definition live_uid (kb : KBNODE) (name : string) : Prop :=
  exists node uid,
    In node kb /\ deleted node = false
    /\ pkt node = pkt_user_id uid /\ uid_name uid = name.

Definition live_public_subkey (kb : KBNODE) (kid : keyid) : Prop :=
  exists node pk,
    In node kb /\ deleted node = false
    /\ pkt node = pkt_public_subkey pk /\ pk_keyid pk = kid.

Definition live_secret_subkey (kb : KBNODE) (kid : keyid) : Prop :=
  exists node sk,
    In node kb /\ deleted node = false
    /\ pkt node = pkt_secret_subkey sk /\ sk_keyid sk = kid.

(** Every user id name of the public block occurs in the secret block, and
    every subkey key id of either block occurs in the other. *)
Definition paired (pub sec : KBNODE) : Prop :=
  (forall name, live_uid pub name -> live_uid sec name)
  /\ (forall kid, live_public_subkey pub kid <-> live_secret_subkey sec kid).

(** The same, computed. *)
Fixpoint live_uid_names (kb : KBNODE) : list string :=
  match kb with
  | [] => []
  | node :: next =>
      match pkt node with
      | pkt_user_id uid =>
          if deleted node then live_uid_names next
          else uid_name uid :: live_uid_names next
      | _ => live_uid_names next
      end
  end.

Fixpoint live_public_subkey_ids (kb : KBNODE) : list keyid :=
  match kb with
  | [] => []
  | node :: next =>
      match pkt node with
      | pkt_public_subkey pk =>
          if deleted node then live_public_subkey_ids next
          else pk_keyid pk :: live_public_subkey_ids next
      | _ => live_public_subkey_ids next
      end
  end.

Fixpoint live_secret_subkey_ids (kb : KBNODE) : list keyid :=
  match kb with
  | [] => []
  | node :: next =>
      match pkt node with
      | pkt_secret_subkey sk =>
          if deleted node then live_secret_subkey_ids next
          else sk_keyid sk :: live_secret_subkey_ids next
      | _ => live_secret_subkey_ids next
      end
  end.

Definition pairedb (pub sec : KBNODE) : bool :=
  forallb (fun name => existsb (String.eqb name) (live_uid_names sec))
    (live_uid_names pub)
  && forallb (fun kid => existsb (keyid_eqb kid) (live_secret_subkey_ids sec))
       (live_public_subkey_ids pub)
  && forallb (fun kid => existsb (keyid_eqb kid) (live_public_subkey_ids pub))
       (live_secret_subkey_ids sec).

(** No user id that is not selected has the name of a selected one. *)
Definition selected_names_apart (pub : KBNODE) : Prop :=
  forall n1 n2 u1 u2,
    In n1 pub -> In n2 pub ->
    pkt n1 = pkt_user_id u1 -> pkt n2 = pkt_user_id u2 ->
    has_flag (flag n1) NODFLG_SELUID = true ->
    has_flag (flag n2) NODFLG_SELUID = false ->
    uid_name u1 <> uid_name u2.

(** No subkey that is not selected has the key id of a selected one. *)
Definition selected_keys_apart (pub : KBNODE) : Prop :=
  forall n1 n2 k1 k2,
    In n1 pub -> In n2 pub ->
    pkt n1 = pkt_public_subkey k1 -> pkt n2 = pkt_public_subkey k2 ->
    has_flag (flag n1) NODFLG_SELKEY = true ->
    has_flag (flag n2) NODFLG_SELKEY = false ->
    pk_keyid k1 <> pk_keyid k2.

(** ** Sample keyblocks *)

Definition kid_P : keyid := (17, 4660).
Definition kid_K : keyid := (34, 22136).
Definition kid_S : keyid := (51, 39612).

Definition sample_pk : PKT_public_key := mk_pk kid_P 1.
Definition sample_sk : PKT_secret_key := mk_sk kid_P true 3 (mk_s2k 1 2).
Definition signer_K : PKT_secret_key := mk_sk kid_K false 0 (mk_s2k 0 0).

Definition uid_node (name : string) (flg : Z) : kbnode :=
  mk_node (pkt_user_id (mk_uid name)) flg false.
Definition sig_node (kid : keyid) (sigclass flg : Z) : kbnode :=
  mk_node (pkt_signature (mk_sig kid sigclass 0)) flg false.

(** Alice, Bob (selected) and Carol under a primary key. *)
Definition sample_three_uids : KBNODE :=
  [ new_kbnode (pkt_public_key sample_pk);
    uid_node "Alice" 0; sig_node kid_P 19 0;
    uid_node "Bob" NODFLG_SELUID; sig_node kid_P 19 0;
    uid_node "Carol" 0; sig_node kid_P 19 0 ].

(** The same with every user id selected. *)
Definition sample_all_selected : KBNODE :=
  [ new_kbnode (pkt_public_key sample_pk);
    uid_node "Alice" NODFLG_SELUID; uid_node "Bob" NODFLG_SELUID ].

(** A collaborator that verifies every signature as a good self-signature,
    finds one signer, signs without error and unlocks every key. *)
Definition sample_ext : collaborators :=
  mk_ext (fun _ _ => (RC_OK, true))
         (fun _ => (RC_OK, [signer_K]))
         (fun _ _ _ _ => (RC_OK, 0))
         (fun _ => RC_OK)
         (fun _ => true)
         (fun _ _ => (RC_OK, Some "old"%string))
         (fun _ _ => RC_OK).

(** Alice and Bob, nothing selected. *)
Definition sample_two_uids : KBNODE :=
  [ new_kbnode (pkt_public_key sample_pk);
    uid_node "Alice" 0; uid_node "Bob" 0 ].

(** A collaborator like [sample_ext] that cannot sign Bob. *)
Definition sample_ext_no_bob : collaborators :=
  mk_ext (fun _ _ => (RC_OK, true))
         (fun _ => (RC_OK, [signer_K]))
         (fun _ uid _ _ =>
            if String.eqb (uid_name uid) "Bob"
            then (G10ERR_other 1, 0) else (RC_OK, 0))
         (fun _ => RC_OK)
         (fun _ => true)
         (fun _ _ => (RC_OK, Some "old"%string))
         (fun _ _ => RC_OK).

(** A public and a secret block with one user id and one subkey. *)
Definition sample_pub : KBNODE :=
  [ new_kbnode (pkt_public_key sample_pk);
    uid_node "Alice" 0; sig_node kid_P 19 0;
    mk_node (pkt_public_subkey (mk_pk kid_S 2)) NODFLG_SELKEY false;
    sig_node kid_P 24 0 ].

Definition sample_sec : KBNODE :=
  [ new_kbnode (pkt_secret_key sample_sk);
    uid_node "Alice" 0; sig_node kid_P 19 0;
    new_kbnode (pkt_secret_subkey (mk_sk kid_S true 3 (mk_s2k 1 2)));
    sig_node kid_P 24 0 ].

(** The secret block that goes with [sample_three_uids]. *)
Definition sample_three_sec : KBNODE :=
  [ new_kbnode (pkt_secret_key sample_sk);
    uid_node "Alice" 0; sig_node kid_P 19 0;
    uid_node "Bob" 0; sig_node kid_P 19 0;
    uid_node "Carol" 0; sig_node kid_P 19 0 ].

(** A pair of blocks before and after "Alice" is added a second time and
    the second "Alice" is selected. *)
Definition sample_alice_pub : KBNODE :=
  [ new_kbnode (pkt_public_key sample_pk); uid_node "Alice" 0 ].
Definition sample_alice_sec : KBNODE :=
  [ new_kbnode (pkt_secret_key sample_sk); uid_node "Alice" 0 ].

Definition sample_twice_pub : KBNODE :=
  [ new_kbnode (pkt_public_key sample_pk); uid_node "Alice" 0;
    uid_node "Alice" NODFLG_SELUID; sig_node kid_P 19 0 ].
Definition sample_twice_sec : KBNODE :=
  [ new_kbnode (pkt_secret_key sample_sk); uid_node "Alice" 0;
    uid_node "Alice" 0; sig_node kid_P 19 0 ].

(** ** Selecting secondary keys (menu_select_key) *)

(** What the subkey commands print. *)
Inductive key_msg : Type :=
| No_secondary_key_with_index (index : Z)
| You_must_select_at_least_one_key.

(** The validity scan of [menu_select_key]: public and secret subkeys are
    counted in one sequence. *)
Fixpoint select_key_find (kb : KBNODE) (i index : Z) : bool :=
  match kb with
  | [] => false
  | node :: next =>
      if is_subkey node
      then if i + 1 =? index then true else select_key_find next (i + 1) index
      else select_key_find next i index
  end.

Fixpoint select_key_reset (kb : KBNODE) : KBNODE :=
  match kb with
  | [] => []
  | node :: next =>
      (if is_subkey node
       then with_flag node (clear_flag (flag node) NODFLG_SELKEY)
       else node) :: select_key_reset next
  end.

Fixpoint select_key_toggle (kb : KBNODE) (i index : Z) : KBNODE :=
  match kb with
  | [] => []
  | node :: next =>
      if is_subkey node
      then (if i + 1 =? index
            then if has_flag (flag node) NODFLG_SELKEY
                 then with_flag node (clear_flag (flag node) NODFLG_SELKEY)
                 else with_flag node (set_flag (flag node) NODFLG_SELKEY)
            else node) :: select_key_toggle next (i + 1) index
      else node :: select_key_toggle next i index
  end.

(** [menu_select_key] returns the keyblock, the C result and what it
    printed. *)
Definition menu_select_key (kb : KBNODE) (index : Z)
  : KBNODE * Z * list key_msg :=
  if negb (index =? 0)
  then if select_key_find kb 0 index
       then (select_key_toggle kb 0 index, 1, [])
       else (kb, 0, [No_secondary_key_with_index index])
  else (select_key_reset kb, 1, []).

(** The number of subkey nodes of either kind, the largest index
    [menu_select_key] finds. *)
Fixpoint count_keys (kb : KBNODE) : Z :=
  match kb with
  | [] => 0
  | node :: next => (if is_subkey node then 1 else 0) + count_keys next
  end.

(** ** The listing (show_key_with_all_names) *)

(** The lines of the listing: a key line with its selection star (the
    primary public key line also says whether the fingerprint follows), a
    user id line with its label (the index and the selection star, or the
    blank label of the marked-only listing), and the call of [show_prefs]
    for a user id. *)
Inductive show_line : Type :=
| Show_pub (star : bool) (pk : PKT_public_key) (fpr : bool)
| Show_sub (star : bool) (pk : PKT_public_key)
| Show_sec (star : bool) (sk : PKT_secret_key)
| Show_sbb (star : bool) (sk : PKT_secret_key)
| Show_uid (label : option (Z * bool)) (uid : PKT_user_id)
| Show_prefs (uid : PKT_user_id).

(** The first loop, "the keys".  The four [int] switches of the C function
    are used as truth values only. *)
Fixpoint show_keys (kb : KBNODE) (with_fpr with_subkeys : bool)
  : list show_line :=
  match kb with
  | [] => []
  | node :: next =>
      let star := has_flag (flag node) NODFLG_SELKEY in
      let rest := show_keys next with_fpr with_subkeys in
      match pkt node with
      | pkt_public_key pk => Show_pub star pk with_fpr :: rest
      | pkt_public_subkey pk =>
          if with_subkeys then Show_sub star pk :: rest else rest
      | pkt_secret_key sk => Show_sec star sk :: rest
      | pkt_secret_subkey sk =>
          if with_subkeys then Show_sbb star sk :: rest else rest
      | _ => rest
      end
  end.

(** The second loop, "the user ids"; [i] is the counter before the node. *)
Fixpoint show_uids (kb : KBNODE) (i : Z) (only_marked with_prefs : bool)
  : list show_line :=
  match kb with
  | [] => []
  | node :: next =>
      match pkt node with
      | pkt_user_id uid =>
          (if negb only_marked
              || (only_marked && has_flag (flag node) NODFLG_MARK_A)
           then Show_uid
                  (if only_marked then None
                   else Some (i + 1, has_flag (flag node) NODFLG_SELUID))
                  uid
                :: (if with_prefs then [Show_prefs uid] else [])
           else [])
          ++ show_uids next (i + 1) only_marked with_prefs
      | _ => show_uids next i only_marked with_prefs
      end
  end.

Definition show_key_with_all_names (kb : KBNODE)
    (only_marked with_fpr with_subkeys with_prefs : bool) : list show_line :=
  show_keys kb with_fpr with_subkeys ++ show_uids kb 0 only_marked with_prefs.

(** The star of the user id line labelled [index] turned over. *)
Definition flip_star (index : Z) (l : show_line) : show_line :=
  match l with
  | Show_uid (Some (i, star)) uid =>
      Show_uid (Some (i, if i =? index then negb star else star)) uid
  | _ => l
  end.

(** ** Reading what the check walk printed *)

(** A signature line with the marker [-], and one with the marker [%]. *)
Definition is_bad_line (l : check_line) : bool :=
  match l with
  | Line_sig G10ERR_BAD_SIGN _ => true
  | _ => false
  end.

Definition is_error_line (l : check_line) : bool :=
  match l with
  | Line_sig (G10ERR_PUBKEY_ALGO | G10ERR_other _) _ => true
  | _ => false
  end.

(** A user id line, or a signature line with the marker [!]. *)
Definition is_clean_line (l : check_line) : bool :=
  match l with
  | Line_uid _ | Line_sig RC_OK _ => true
  | _ => false
  end.

Fixpoint uid_lines (lines : list check_line) : list PKT_user_id :=
  match lines with
  | [] => []
  | Line_uid uid :: rest => uid :: uid_lines rest
  | _ :: rest => uid_lines rest
  end.

(** The user ids the walk is asked to go through: those of the live nodes,
    and with [only_selected] those of them that carry SELUID. *)
Fixpoint walked_uids (only_selected : Z) (kb : KBNODE) : list PKT_user_id :=
  match kb with
  | [] => []
  | node :: next =>
      match pkt node with
      | pkt_user_id uid =>
          if negb (deleted node)
             && ((only_selected =? 0) || has_flag (flag node) NODFLG_SELUID)
          then uid :: walked_uids only_selected next
          else walked_uids only_selected next
      | _ => walked_uids only_selected next
      end
  end.

(** [case cmdCHECK] of the menu. *)
Definition cmd_check (ext : collaborators) (keyblock : KBNODE)
  : check_result :=
  check_all_keysigs ext keyblock (count_selected_uids keyblock).

(** How many of the lines satisfy [f], and the lines the walk can print at
    all: no line stands for a signature whose key is missing. *)
Definition count_lines (f : check_line -> bool) (lines : list check_line) : Z :=
  Z.of_nat (length (filter f lines)).

Definition printable (l : check_line) : bool :=
  is_clean_line l || is_bad_line l || is_error_line l.

(** ** How signing changes a keyblock *)

(** [grown kids old new]: every node of [old] stands in [new], in the same
    order, with its packet, its tombstone and its flag word but for bit 4
    (MARK_A); the other nodes of [new] are live nodes that hold a signature
    of class 0x10 by one of the keys [kids] and carry no flag but, at most,
    MARK_A. *)
Inductive grown (kids : list keyid) : KBNODE -> KBNODE -> Prop :=
| grown_nil : grown kids [] []
| grown_keep n n' l l' :
    pkt n' = pkt n -> deleted n' = deleted n ->
    (forall j, 0 <= j -> j <> 4 ->
       Z.testbit (flag n') j = Z.testbit (flag n) j) ->
    grown kids l l' -> grown kids (n :: l) (n' :: l')
| grown_new s sig l l' :
    pkt s = pkt_signature sig -> deleted s = false ->
    (forall j, 0 <= j -> j <> 4 -> Z.testbit (flag s) j = false) ->
    sig_class sig = 16 -> In (sig_keyid sig) kids ->
    grown kids l l' -> grown kids l (s :: l').

(** ** The sign command of the menu *)

Inductive sign_cmd_msg : Type :=
| Hint_select_the_user_ids_to_sign
| Said (m : tty_msg).

(** [case cmdSIGN]: the session, the answers left and what was printed; no
    result when [sign_uids] does not return.  The result of [sign_uids] is
    not looked at. *)
Definition cmd_sign (ext : collaborators) (s : session)
    (locusr : list string) (answers : list bool)
    (primary_pk0 : option PKT_public_key)
  : option (session * list bool * list sign_cmd_msg) :=
  let '(yes, rest) :=
    if (1 <? count_uids (keyblock s))
       && (count_selected_uids (keyblock s) =? 0)
    then cpr_get_answer_is_yes answers
    else (true, answers) in
  if negb yes
  then Some (s, rest, [Hint_select_the_user_ids_to_sign])
  else
    match sign_uids ext (keyblock s) locusr (modified s) rest primary_pk0 with
    | Returned _ _ st =>
        Some (mk_session (s_keyblock st) (sec_keyblock s) (s_modified st)
                (sec_modified s) (redisplay s),
              s_answers st, map Said (s_tty st))
    | _ => None
    end.

(** ** What a passphrase change may do to a node *)

(** Two packets that are the same, or secret keys (or secret subkeys) with
    the same key id. *)
Definition same_key (p p' : packet) : Prop :=
  match p, p' with
  | pkt_secret_key a, pkt_secret_key b => sk_keyid b = sk_keyid a
  | pkt_secret_subkey a, pkt_secret_subkey b => sk_keyid b = sk_keyid a
  | _, _ => p' = p
  end.

Definition rekeyed (n n' : kbnode) : Prop :=
  flag n' = flag n /\ deleted n' = deleted n /\ same_key (pkt n) (pkt n').

(** A crypto collaborator like [sample_ext] that does not support the
    algorithm of any key, and one that cannot unlock any key. *)
Definition sample_ext_no_algo : collaborators :=
  mk_ext (fun _ _ => (RC_OK, true))
         (fun _ => (RC_OK, [signer_K]))
         (fun _ _ _ _ => (RC_OK, 0))
         (fun _ => RC_OK)
         (fun _ => false)
         (fun _ _ => (RC_OK, Some "old"%string))
         (fun _ _ => RC_OK).

Definition sample_ext_locked : collaborators :=
  mk_ext (fun _ _ => (RC_OK, true))
         (fun _ => (RC_OK, [signer_K]))
         (fun _ _ _ _ => (RC_OK, 0))
         (fun _ => RC_OK)
         (fun _ => true)
         (fun _ _ => (G10ERR_other 9, None))
         (fun _ _ => RC_OK).

(** ** The delkey command of the menu *)

Definition is_public_subkey (n : kbnode) : bool :=
  pkttype_eqb (pkttype (pkt n)) PKT_PUBLIC_SUBKEY.

(** [case cmdDELKEY]: the session, the answers left and what was printed;
    no result when [menu_delkey] left the session on a released node.  The
    operator is asked only when there is a secret keyblock. *)
Definition cmd_delkey (s : session) (answers : list bool)
  : option (session * list bool * list key_msg) :=
  let n1 := count_selected_keys (keyblock s) in
  if n1 =? 0
  then Some (s, answers, [You_must_select_at_least_one_key])
  else
    let '(yes, rest) :=
      match sec_keyblock s with
      | Some _ => cpr_get_answer_is_yes answers
      | None => (true, answers)
      end in
    if negb yes
    then Some (s, rest, [])
    else
      match menu_delkey (keyblock s) (sec_keyblock s) with
      | Some (pub, sec) =>
          Some (mk_session pub sec true
                  (match sec_keyblock s with
                   | Some _ => true
                   | None => sec_modified s
                   end) true,
                rest, [])
      | None => None
      end.

(** [case cmdADDUID].  The command is reached only with a secret keyblock
    ([need_sk]); a null secret keyblock is the empty list.  No result when
    the [assert] of [menu_adduid] fails. *)
Definition cmd_adduid (ext : collaborators) (new_uid : option PKT_user_id)
    (s : session) : option session :=
  let sec := match sec_keyblock s with
             | Some sec => sec
             | None => []
             end in
  match menu_adduid ext new_uid (keyblock s) sec with
  | None => None
  | Some (false, _, _) => Some s
  | Some (true, pub', sec') =>
      Some (mk_session pub' (Some sec') true true true)
  end.

(** A keyblock cut into runs: the signatures in front, and then every node
    that is no signature with the signatures that follow it up to the next
    such node. *)
Fixpoint sig_runs (kb : KBNODE) : KBNODE * list (kbnode * KBNODE) :=
  match kb with
  | [] => ([], [])
  | node :: next =>
      let '(lead, runs) := sig_runs next in
      if is_sig node then (node :: lead, runs)
      else ([], (node, lead) :: runs)
  end.

(** The run of a selected public subkey. *)
Definition selected_subkey_run (run : kbnode * KBNODE) : bool :=
  is_public_subkey (fst run) && has_flag (flag (fst run)) NODFLG_SELKEY.

Definition is_secret_subkey (n : kbnode) : bool :=
  pkttype_eqb (pkttype (pkt n)) PKT_SECRET_SUBKEY.

(** [kb] cut in front of the first node that satisfies [stop]. *)
Definition cut_before (stop : kbnode -> bool) (kb pre post : KBNODE) : Prop :=
  kb = pre ++ post
  /\ Forall (fun n => stop n = false) pre
  /\ match post with
     | [] => True
     | k :: _ => stop k = true
     end.

(** ** The command loop of the menu (keyedit_menu) *)

Inductive cmdids : Type :=
| cmdNONE
| cmdQUIT | cmdHELP | cmdFPR | cmdLIST | cmdSELUID | cmdCHECK | cmdSIGN
| cmdDEBUG | cmdSAVE | cmdADDUID | cmdDELUID | cmdADDKEY | cmdDELKEY
| cmdTOGGLE | cmdSELKEY | cmdPASSWD | cmdTRUST | cmdPREF
| cmdNOP.

Record cmd_entry := mk_cmd {
  cmd_name : string;
  cmd_id : cmdids;
  need_sk : bool;
  cmd_desc : option string
}.

(** The table [cmds]; the entry [{ NULL, cmdNONE }] that ends it is the end
    of the list. *)
Definition cmds : list cmd_entry :=
  [ mk_cmd "quit" cmdQUIT false (Some "quit this menu");
    mk_cmd "q" cmdQUIT false None;
    mk_cmd "save" cmdSAVE false (Some "save and quit");
    mk_cmd "help" cmdHELP false (Some "show this help");
    mk_cmd "?" cmdHELP false None;
    mk_cmd "fpr" cmdFPR false (Some "show fingerprint");
    mk_cmd "list" cmdLIST false (Some "list key and user ids");
    mk_cmd "l" cmdLIST false None;
    mk_cmd "uid" cmdSELUID false (Some "select user id N");
    mk_cmd "key" cmdSELKEY false (Some "select secondary key N");
    mk_cmd "check" cmdCHECK false (Some "list signatures");
    mk_cmd "c" cmdCHECK false None;
    mk_cmd "sign" cmdSIGN false (Some "sign the key");
    mk_cmd "s" cmdSIGN false None;
    mk_cmd "debug" cmdDEBUG false None;
    mk_cmd "adduid" cmdADDUID true (Some "add a user id");
    mk_cmd "deluid" cmdDELUID false (Some "delete user id");
    mk_cmd "addkey" cmdADDKEY true (Some "add a secondary key");
    mk_cmd "delkey" cmdDELKEY false (Some "delete a secondary key");
    mk_cmd "toggle" cmdTOGGLE true
      (Some "toggle between secret and public key listing");
    mk_cmd "t" cmdTOGGLE true None;
    mk_cmd "pref" cmdPREF false (Some "list preferences");
    mk_cmd "passwd" cmdPASSWD true (Some "change the passphrase");
    mk_cmd "trust" cmdTRUST false (Some "change the ownertrust") ]%string.

(** The string helpers the loop calls.  Their results are not computed
    here; each field is what the helper gives on its argument. *)
Record string_helpers := mk_helpers {
  trim_spaces : string -> string;
  atoi : string -> Z;
  (** [stricmp( a, b )]: 0 when the two compare equal. *)
  stricmp : string -> string -> Z
}.

Definition CONTROL_D : Z := 68 - 65 + 1.

Definition char_code (c : Ascii.ascii) : Z := Z.of_nat (Ascii.nat_of_ascii c).

(** [isdigit] in the C locale. *)
Definition isdigit (c : Ascii.ascii) : bool :=
  (48 <=? char_code c) && (char_code c <=? 57).

(** [strchr( answer, ' ' )] and the cut [*p++ = 0]: the text before the
    first blank and the text after it. *)
Fixpoint split_at_blank (s : string) : option (string * string) :=
  match s with
  | EmptyString => None
  | String c rest =>
      if char_code c =? 32 then Some (EmptyString, rest)
      else match split_at_blank rest with
           | Some (a, p) => Some (String c a, p)
           | None => None
           end
  end.

(** [for(i=0; cmds[i].name; i++ ) if( !stricmp( answer, cmds[i].name ) )
    break;] and the entry the loop stops at. *)
Fixpoint find_cmd (h : string_helpers) (answer : string)
    (table : list cmd_entry) : cmd_entry :=
  match table with
  | [] => mk_cmd EmptyString cmdNONE false None
  | e :: rest =>
      if stricmp h answer (cmd_name e) =? 0 then e
      else find_cmd h answer rest
  end.

(** From the line read to the command and its number: the command, the
    number, and whether "Need the secret key to to this." was printed.
    [have_sk] says whether there is a secret keyblock. *)
Definition parse_command (h : string_helpers) (have_sk : bool)
    (line : string) : cmdids * Z * bool :=
  let answer := trim_spaces h line in
  match answer with
  | EmptyString => (cmdLIST, 0, false)
  | String c _ =>
      if char_code c =? CONTROL_D then (cmdQUIT, 0, false)
      else if isdigit c then (cmdSELUID, atoi h answer, false)
      else
        let '(name, arg_number) :=
          match split_at_blank answer with
          | Some (a, p) => (trim_spaces h a, atoi h (trim_spaces h p))
          | None => (answer, 0)
          end in
        let e := find_cmd h name cmds in
        if need_sk e && negb have_sk
        then (cmdNOP, arg_number, true)
        else (cmd_id e, arg_number, false)
  end.

(** The commands that need the secret key. *)
Definition needs_secret_key (c : cmdids) : bool :=
  match c with
  | cmdADDUID | cmdADDKEY | cmdTOGGLE | cmdPASSWD => true
  | _ => false
  end.

(** *** Leaving the menu (quit and save) *)

(** The keyring collaborator: [update_keyblock] on the public and on the
    secret keyblock, and [cpr_enabled]. *)
Record keyring := mk_keyring {
  update_public : KBNODE -> g10_rc;
  update_secret : option KBNODE -> g10_rc;
  cpr_enabled : bool
}.

Inductive save_event : Type :=
| Update_public (kb : KBNODE)
| Update_secret (kb : option KBNODE)
| Update_failed (rc : g10_rc)
| Update_secret_failed (rc : g10_rc)
| Key_not_changed.

(** [case cmdSAVE]: whether the loop is left ([goto leave]) or goes on
    ([break]), and the calls and messages in their order. *)
Definition cmd_save (kr : keyring) (s : session) : bool * list save_event :=
  if modified s || sec_modified s
  then
    let '(ok, ev) :=
      if modified s
      then let rc := update_public kr (keyblock s) in
           if negb (rc_is_ok rc)
           then (false, [Update_public (keyblock s); Update_failed rc])
           else (true, [Update_public (keyblock s)])
      else (true, []) in
    if negb ok then (false, ev)
    else if sec_modified s
    then let rc := update_secret kr (sec_keyblock s) in
         if negb (rc_is_ok rc)
         then (false, ev ++ [Update_secret (sec_keyblock s);
                             Update_secret_failed rc])
         else (true, ev ++ [Update_secret (sec_keyblock s)])
    else (true, ev)
  else (true, [Key_not_changed]).

(** [case cmdQUIT], with its fall through into [case cmdSAVE]: whether the
    loop is left, the answers left and the calls and messages. *)
Definition cmd_quit (kr : keyring) (s : session) (answers : list bool)
  : bool * list bool * list save_event :=
  if negb (modified s) && negb (sec_modified s)
  then (true, answers, [])
  else
    let '(yes, rest) := cpr_get_answer_is_yes answers in
    if negb yes
    then
      if cpr_enabled kr then (true, rest, [])
      else
        let '(quit, rest') := cpr_get_answer_is_yes rest in
        (quit, rest', [])
    else
      let '(leave, ev) := cmd_save kr s in (leave, rest, ev).

(** ** The fingerprint line (show_fingerprint) *)

(** The [%02X] of a byte: two upper case hexadecimal digits. *)
Definition hex_digit (d : Z) : Ascii.ascii :=
  Ascii.ascii_of_nat (Z.to_nat (if d <? 10 then 48 + d else 55 + d)).

Definition hex2 (b : Z) : string :=
  String (hex_digit (b / 16)) (String (hex_digit (b mod 16)) EmptyString).

(** The loop over a fingerprint of 20 bytes, two bytes a group, and the
    loop over one of another length; [i] is the loop counter. *)
Fixpoint fingerprint_pairs (p : list Z) (i : Z) : string :=
  match p with
  | a :: b :: rest =>
      ((if (i =? 10)%Z then " " else "")
       ++ " " ++ hex2 a ++ hex2 b ++ fingerprint_pairs rest (i + 2)%Z)%string
  | _ => EmptyString
  end.

Fixpoint fingerprint_bytes (p : list Z) (i : Z) : string :=
  match p with
  | a :: rest =>
      ((if (negb (i =? 0) && (i mod 8 =? 0))%Z then " " else "")
       ++ " " ++ hex2 a ++ fingerprint_bytes rest (i + 1)%Z)%string
  | [] => EmptyString
  end.

Definition newline : string :=
  String (Ascii.ascii_of_nat 10) EmptyString.

(** [show_fingerprint( pk )] on the bytes [fingerprint_from_pk] returns:
    what it prints. *)
Definition show_fingerprint (array : list Z) : string :=
  ("             Fingerprint:"
   ++ (if (Z.of_nat (length array) =? 20)%Z
       then fingerprint_pairs array 0
       else fingerprint_bytes array 0)
   ++ newline)%string.

(** A text without its blanks, and the bytes in hexadecimal one after the
    other. *)
Fixpoint strip_blanks (s : string) : string :=
  match s with
  | EmptyString => EmptyString
  | String c rest =>
      if char_code c =? 32 then strip_blanks rest
      else String c (strip_blanks rest)
  end.

Fixpoint hex_of (p : list Z) : string :=
  match p with
  | [] => EmptyString
  | a :: rest => (hex2 a ++ hex_of rest)%string
  end.

(** The number of user ids in front of the first public subkey. *)
Fixpoint uids_before_subkey (kb : KBNODE) : Z :=
  match kb with
  | [] => 0
  | node :: next =>
      if is_public_subkey node then 0
      else (if is_uid node then 1 else 0) + uids_before_subkey next
  end.

(** ** The fingerprint command (show_key_and_fingerprint) *)

(** What it prints: the line of a public key packet, a user id, the end of
    the line, and the call of [show_fingerprint] on a key. *)
Inductive fpr_line : Type :=
| Fpr_pub (pk : PKT_public_key)
| Fpr_uid (uid : PKT_user_id)
| Fpr_newline
| Fpr_fingerprint (pk : PKT_public_key).

(** The loop: what it prints and the key the local [pk] ends with. *)
Fixpoint fpr_scan (kb : KBNODE) (pk : option PKT_public_key)
  : list fpr_line * option PKT_public_key :=
  match kb with
  | [] => ([], pk)
  | node :: next =>
      match pkt node with
      | pkt_public_key k =>
          let '(out, pk') := fpr_scan next (Some k) in (Fpr_pub k :: out, pk')
      | pkt_user_id uid => ([Fpr_uid uid], pk)
      | _ => fpr_scan next pk
      end
  end.

Definition show_key_and_fingerprint (kb : KBNODE) : list fpr_line :=
  let '(out, pk) := fpr_scan kb None in
  out ++ [Fpr_newline]
  ++ match pk with
     | Some k => [Fpr_fingerprint k]
     | None => []
     end.

(** The nodes in front of the first user id, that user id, and the public
    key packets of a list. *)
Fixpoint before_first_uid (kb : KBNODE) : KBNODE :=
  match kb with
  | [] => []
  | node :: next =>
      if is_uid node then [] else node :: before_first_uid next
  end.

Fixpoint first_uid (kb : KBNODE) : option PKT_user_id :=
  match kb with
  | [] => None
  | node :: next =>
      match pkt node with
      | pkt_user_id uid => Some uid
      | _ => first_uid next
      end
  end.

Fixpoint public_keys (kb : KBNODE) : list PKT_public_key :=
  match kb with
  | [] => []
  | node :: next =>
      match pkt node with
      | pkt_public_key k => k :: public_keys next
      | _ => public_keys next
      end
  end.

(** ** A public keyblock in order *)

(** The primary key packet is the first node and no node is a tombstone:
    what the statements about the commands ask of the public keyblock. *)
Definition tidy (kb : KBNODE) : Prop :=
  primary_first kb = true /\ Forall (fun n => deleted n = false) kb.

(** ** The check walk, node by node *)

(** The value of [selected] when the walk, started with [sel], has passed
    the nodes [pre]: under [only_selected] every user id it visits sets it
    to the SEL_UID bit of that user id. *)
Fixpoint selected_after (only_selected : Z) (sel : bool) (pre : KBNODE)
    : bool :=
  match pre with
  | [] => sel
  | node :: next =>
      selected_after only_selected
        (if walk_visits node && is_uid node && negb (only_selected =? 0)
         then has_flag (flag node) NODFLG_SELUID
         else sel)
        next
  end.

(** The test that sends a node into the [switch]: a live signature of a
    certification class under a user id the walk has selected. *)
Definition goes_to_switch (only_selected : Z) (pre : KBNODE) (node : kbnode)
    : bool :=
  walk_visits node
  && match pkt node with
     | pkt_signature sig =>
         selected_after only_selected (only_selected =? 0) pre
         && is_cert_class sig
     | _ => false
     end.

(** A block whose signatures carry flags before the check, and a
    collaborator that accepts the self-signature, finds the second
    signature bad and has no key for the third. *)
Definition sample_flagged : KBNODE :=
  [ new_kbnode (pkt_public_key sample_pk);
    uid_node "Alice" 0;
    sig_node kid_P 19 (Z.lor NODFLG_NOKEY NODFLG_SELUID);
    sig_node kid_K 16 (Z.lor NODFLG_MARK_A NODFLG_SELUID);
    sig_node kid_S 16 NODFLG_MARK_A ].

Definition sample_ext_verdicts : collaborators :=
  mk_ext (fun _ i => match i with
                     | 2%nat => (RC_OK, true)
                     | 3%nat => (G10ERR_BAD_SIGN, false)
                     | _ => (G10ERR_NO_PUBKEY, false)
                     end)
         (fun _ => (RC_OK, [signer_K]))
         (fun _ _ _ _ => (RC_OK, 0))
         (fun _ => RC_OK)
         (fun _ => true)
         (fun _ _ => (RC_OK, Some "old"%string))
         (fun _ _ => RC_OK).

(** *** One signer's turn, group by group *)

(** What the rounds under [reloop:] can do to a user id group for the
    signer [kid]: nothing; or, where the group is marked, take the mark and
    add the certification, or take the mark alone (the signing failed). *)
Definition round_step (kid : keyid) (g g' : uid_group) : Prop :=
  g' = g
  \/ (g_marked g = true
      /\ (g' = mk_group (g_uid g) (g_selected g) false
                 (kid :: g_certifiers g)
          \/ g' = mk_group (g_uid g) (g_selected g) false (g_certifiers g))).


(** The same for a turn whatever way it ends, also at a signature that
    cannot be made: a candidate not certified yet is still marked, or has
    got the certification, or lost the mark for the failed signature. *)
Definition turn_left (select_all : bool) (kid : keyid)
    (g g' : uid_group) : Prop :=
  g_uid g' = g_uid g /\ g_selected g' = g_selected g
  /\ if (select_all || g_selected g)
        && negb (signed_by kid (g_certifiers g))
     then g_certifiers g' = g_certifiers g
          \/ (g_marked g' = false
              /\ g_certifiers g' = kid :: g_certifiers g)
     else g_marked g' = false /\ g_certifiers g' = g_certifiers g.

(** How a user id group comes out of a run with the signers [sks]: for
    every key id it carries as many certifications as before, or one where
    it carried none, the key id is a signer's and the user id a
    candidate. *)
Definition run_step (select_all : bool) (sks : list PKT_secret_key)
    (g g' : uid_group) : Prop :=
  g_uid g' = g_uid g /\ g_selected g' = g_selected g
  /\ forall kid,
       certs_by kid (g_certifiers g') = certs_by kid (g_certifiers g)
       \/ (certs_by kid (g_certifiers g) = 0
           /\ certs_by kid (g_certifiers g') = 1
           /\ is_signer kid sks = true
           /\ select_all || g_selected g = true).

(** * Properties *)

(** ** The flag word *)

Lemma land_bit f k :
  0 <= k -> Z.land f (Z.shiftl 1 k) = if Z.testbit f k then Z.shiftl 1 k else 0.
Proof.
  intros Hk. rewrite Z.shiftl_1_l. apply Z.bits_inj'. intros n Hn.
  rewrite Z.land_spec, Z.pow2_bits_eqb by lia.
  destruct (Z.testbit f k) eqn:E.
  - rewrite Z.pow2_bits_eqb by lia.
    destruct (Z.eqb_spec k n) as [->|Hne].
    + now rewrite E.
    + apply andb_false_r.
  - rewrite Z.bits_0.
    destruct (Z.eqb_spec k n) as [->|Hne].
    + now rewrite E.
    + apply andb_false_r.
Qed.

Lemma has_flag_bit f k : 0 <= k -> has_flag f (Z.shiftl 1 k) = Z.testbit f k.
Proof.
  intros Hk. unfold has_flag. rewrite land_bit by assumption.
  destruct (Z.testbit f k); [|reflexivity].
  rewrite Z.shiftl_1_l.
  assert (0 < 2 ^ k) by (apply Z.pow_pos_nonneg; lia).
  destruct (Z.eqb_spec (2 ^ k) 0); [lia | reflexivity].
Qed.

Lemma has_flag_set f k j :
  0 <= k -> 0 <= j ->
  has_flag (set_flag f (Z.shiftl 1 k)) (Z.shiftl 1 j)
  = (k =? j) || has_flag f (Z.shiftl 1 j).
Proof.
  intros Hk Hj. rewrite !has_flag_bit by assumption. unfold set_flag.
  rewrite Z.lor_spec, Z.shiftl_1_l, Z.pow2_bits_eqb by lia.
  apply orb_comm.
Qed.

Lemma has_flag_clear f k j :
  0 <= k -> 0 <= j ->
  has_flag (clear_flag f (Z.shiftl 1 k)) (Z.shiftl 1 j)
  = negb (k =? j) && has_flag f (Z.shiftl 1 j).
Proof.
  intros Hk Hj. rewrite !has_flag_bit by assumption. unfold clear_flag.
  rewrite Z.land_spec, Z.lnot_spec, Z.shiftl_1_l, Z.pow2_bits_eqb by lia.
  apply andb_comm.
Qed.

Lemma toggle_is_xor f k :
  0 <= k ->
  (if has_flag f (Z.shiftl 1 k)
   then clear_flag f (Z.shiftl 1 k) else set_flag f (Z.shiftl 1 k))
  = Z.lxor f (Z.shiftl 1 k).
Proof.
  intros Hk. rewrite has_flag_bit by assumption.
  unfold clear_flag, set_flag. rewrite Z.shiftl_1_l.
  apply Z.bits_inj'. intros n Hn.
  rewrite Z.lxor_spec, Z.pow2_bits_eqb by lia.
  destruct (Z.testbit f k) eqn:E.
  - rewrite Z.land_spec, Z.lnot_spec, Z.pow2_bits_eqb by lia.
    destruct (Z.eqb_spec k n) as [->|]; [rewrite E|]; simpl;
      destruct (Z.testbit f n); reflexivity.
  - rewrite Z.lor_spec, Z.pow2_bits_eqb by lia.
    destruct (Z.eqb_spec k n) as [->|]; [rewrite E|]; simpl;
      destruct (Z.testbit f n); reflexivity.
Qed.

Lemma with_flag_same n : with_flag n (flag n) = n.
Proof. now destruct n. Qed.

(** ** Counting *)

Lemma count_uids_nonneg kb : 0 <= count_uids kb.
Proof. induction kb as [|n kb IH]; simpl; [lia|]. destruct (is_uid n); lia. Qed.

Lemma count_uids_with_flag_nonneg kb m : 0 <= count_uids_with_flag kb m.
Proof.
  induction kb as [|n kb IH]; cbn [count_uids_with_flag]; [lia|].
  destruct (is_uid n && has_flag (flag n) m); lia.
Qed.

Lemma count_uids_with_flag_le kb m : count_uids_with_flag kb m <= count_uids kb.
Proof.
  induction kb as [|n kb IH]; cbn [count_uids_with_flag count_uids]; [lia|].
  destruct (is_uid n), (has_flag (flag n) m); cbn [andb]; lia.
Qed.

Lemma count_uids_app a b : count_uids (a ++ b) = count_uids a + count_uids b.
Proof. induction a as [|n a IH]; simpl; [reflexivity|]. rewrite IH. lia. Qed.

(** ** Selecting a user id *)

Lemma select_uid_find_spec kb : forall i index,
  select_uid_find kb i index = true <-> i < index <= i + count_uids kb.
Proof.
  induction kb as [|n kb IH]; intros i index; simpl.
  - split; [discriminate | lia].
  - pose proof (count_uids_nonneg kb).
    destruct (is_uid n).
    + destruct (Z.eqb_spec (i + 1) index).
      * split; [lia | reflexivity].
      * rewrite IH. lia.
    + rewrite IH. lia.
Qed.

Lemma select_uid_toggle_out kb : forall i index,
  index <= i -> select_uid_toggle kb i index = kb.
Proof.
  induction kb as [|n kb IH]; intros i index Hle; simpl; [reflexivity|].
  destruct (is_uid n).
  - destruct (Z.eqb_spec (i + 1) index); [lia|].
    now rewrite IH by lia.
  - now rewrite IH.
Qed.

Lemma select_uid_toggle_in kb : forall i index,
  i < index <= i + count_uids kb ->
  exists pre u post,
    kb = pre ++ u :: post /\ is_uid u = true
    /\ count_uids pre = index - i - 1
    /\ select_uid_toggle kb i index
       = pre ++ with_flag u (Z.lxor (flag u) NODFLG_SELUID) :: post.
Proof.
  induction kb as [|n kb IH]; intros i index Hr; simpl in *.
  - lia.
  - destruct (is_uid n) eqn:Hu.
    + destruct (Z.eqb_spec (i + 1) index) as [He|Hne].
      * exists [], n, kb. simpl.
        repeat split; try assumption; try lia.
        rewrite select_uid_toggle_out by lia.
        f_equal. f_equal.
        pose proof (toggle_is_xor (flag n) 8 ltac:(lia)) as T.
        change (Z.shiftl 1 8) with NODFLG_SELUID in T.
        rewrite <- T. now destruct (has_flag (flag n) NODFLG_SELUID).
      * destruct (IH (i + 1) index ltac:(lia)) as (pre & u & post & E & U & C & T).
        exists (n :: pre), u, post. simpl. rewrite Hu, T, C.
        repeat split; try assumption; try lia.
        now rewrite E at 1.
    + destruct (IH i index ltac:(lia)) as (pre & u & post & E & U & C & T).
      exists (n :: pre), u, post. simpl. rewrite Hu, T, C.
      repeat split; try assumption; try lia.
      now rewrite E at 1.
Qed.

Lemma select_uid_reset_nth kb : forall i n,
  nth_error kb i = Some n ->
  nth_error (select_uid_reset kb) i
  = Some (if is_uid n
          then with_flag n (clear_flag (flag n) NODFLG_SELUID) else n).
Proof.
  induction kb as [|m kb IH]; intros [|i] n H; simpl in *; try discriminate.
  - now inversion H.
  - now apply IH.
Qed.

Lemma select_uid_reset_length kb : length (select_uid_reset kb) = length kb.
Proof. induction kb; simpl; congruence. Qed.

Lemma has_flag_xor f k :
  0 <= k ->
  has_flag (Z.lxor f (Z.shiftl 1 k)) (Z.shiftl 1 k)
  = negb (has_flag f (Z.shiftl 1 k)).
Proof.
  intros Hk. rewrite !has_flag_bit by assumption.
  rewrite Z.lxor_spec, Z.shiftl_1_l, Z.pow2_bits_eqb, Z.eqb_refl by lia.
  now destruct (Z.testbit f k).
Qed.

(** C9: [menu_select_uid] with index 0 clears SEL_UID on every user id node
    and leaves the other nodes as they are; with a valid 1-based index it
    toggles SEL_UID on that user id in keyblock order and changes nothing
    else; with an index above the number of user ids it prints the
    not-found message, changes nothing and returns 0. *)
Theorem menu_select_uid_spec (kb : KBNODE) (index : Z) :
  (index = 0 ->
   exists kb',
     menu_select_uid kb index = (kb', 1, [])
     /\ length kb' = length kb
     /\ forall i n, nth_error kb i = Some n ->
          exists n', nth_error kb' i = Some n'
            /\ (is_uid n = true ->
                n' = with_flag n (clear_flag (flag n) NODFLG_SELUID)
                /\ has_flag (flag n') NODFLG_SELUID = false)
            /\ (is_uid n = false -> n' = n))
  /\ (1 <= index <= count_uids kb ->
      exists pre u post,
        kb = pre ++ u :: post /\ is_uid u = true
        /\ count_uids pre = index - 1
        /\ has_flag (Z.lxor (flag u) NODFLG_SELUID) NODFLG_SELUID
           = negb (has_flag (flag u) NODFLG_SELUID)
        /\ menu_select_uid kb index
           = (pre ++ with_flag u (Z.lxor (flag u) NODFLG_SELUID) :: post,
              1, []))
  /\ (count_uids kb < index ->
      menu_select_uid kb index = (kb, 0, [No_user_id_with_index index])).
Proof.
  unfold menu_select_uid. repeat split.
  - intros ->. simpl. exists (select_uid_reset kb).
    split; [reflexivity|]. split; [apply select_uid_reset_length|].
    intros i n Hn. rewrite (select_uid_reset_nth _ _ _ Hn).
    destruct (is_uid n) eqn:Hu.
    + eexists; split; [reflexivity|]. split; [|discriminate].
      intros _. split; [reflexivity|]. cbn [with_flag flag].
      change NODFLG_SELUID with (Z.shiftl 1 8).
      rewrite has_flag_clear by lia. reflexivity.
    + eexists; split; [reflexivity|]. split; [discriminate|reflexivity].
  - intros Hr.
    destruct (select_uid_toggle_in kb 0 index ltac:(lia))
      as (pre & u & post & E & U & C & T).
    exists pre, u, post. repeat split; try assumption; try lia.
    + change NODFLG_SELUID with (Z.shiftl 1 8). apply has_flag_xor. lia.
    + destruct (Z.eqb_spec index 0); [lia|]. simpl.
      assert (F : select_uid_find kb 0 index = true)
        by (apply select_uid_find_spec; lia).
      now rewrite F, T.
  - intros Hr. pose proof (count_uids_nonneg kb).
    destruct (Z.eqb_spec index 0); [lia|]. simpl.
    destruct (select_uid_find kb 0 index) eqn:F; [|reflexivity].
    apply select_uid_find_spec in F. lia.
Qed.

Lemma menu_select_uid_spec_witness :
  (exists kb', menu_select_uid sample_three_uids 0 = (kb', 1, [])
               /\ length kb' = length sample_three_uids)
  /\ (exists pre u post,
        sample_three_uids = pre ++ u :: post /\ count_uids pre = 1
        /\ menu_select_uid sample_three_uids 2
           = (pre ++ with_flag u (Z.lxor (flag u) NODFLG_SELUID) :: post,
              1, []))
  /\ menu_select_uid sample_three_uids 4
     = (sample_three_uids, 0, [No_user_id_with_index 4]).
Proof.
  split; [|split].
  - destruct (proj1 (menu_select_uid_spec sample_three_uids 0) eq_refl)
      as (kb' & E & L & _).
    exists kb'. split; assumption.
  - destruct (proj1 (proj2 (menu_select_uid_spec sample_three_uids 2)))
      as (pre & u & post & E & _ & C & _ & T).
    + vm_compute. split; discriminate.
    + exists pre, u, post. repeat split; assumption.
  - apply (proj2 (proj2 (menu_select_uid_spec sample_three_uids 4))).
    vm_compute. reflexivity.
Defined.

(** ** Refusing to delete the last user id *)

(** C8: when as many user ids are selected as the keyblock has, the deluid
    command prints an error, asks nothing, deletes nothing and leaves the
    session (both keyblocks and both modified flags) as it was. *)
Theorem cmd_deluid_refuses (s : session) (answers : list bool) :
  count_selected_uids (keyblock s) = count_uids (keyblock s) ->
  exists msg,
    cmd_deluid s answers = Some (s, answers, [msg])
    /\ (0 < count_uids (keyblock s) ->
        msg = You_cant_delete_the_last_user_id)
    /\ (count_uids (keyblock s) = 0 ->
        msg = You_must_select_at_least_one_user_id).
Proof.
  intros E. unfold cmd_deluid. rewrite E.
  destruct (Z.eqb_spec (count_uids (keyblock s)) 0) as [Z0|NZ].
  - eexists; split; [reflexivity|]. split; [lia|reflexivity].
  - replace (count_uids (keyblock s) - count_uids (keyblock s) <? 1)
      with true by (symmetry; apply Z.ltb_lt; lia).
    eexists; split; [reflexivity|]. split; [reflexivity|lia].
Qed.

Lemma cmd_deluid_refuses_witness :
  exists msg,
    cmd_deluid (mk_session sample_all_selected None false false false)
      [true] =
    Some (mk_session sample_all_selected None false false false,
          [true], [msg])
    /\ msg = You_cant_delete_the_last_user_id.
Proof.
  destruct (cmd_deluid_refuses
              (mk_session sample_all_selected None false false false) [true])
    as (msg & E & M & _).
  - vm_compute. reflexivity.
  - exists msg. split; [exact E|]. apply M. vm_compute. reflexivity.
Defined.

(** ** The signature check walk *)

Lemma testbit_7 j : 0 <= j -> Z.testbit 7 j = (j <? 3).
Proof.
  intros Hj. change 7 with (Z.ones 3).
  destruct (Z.ltb_spec j 3).
  - apply Z.ones_spec_low. lia.
  - apply Z.ones_spec_high. lia.
Qed.

Lemma has_flag_clear_errors f j :
  0 <= j ->
  has_flag
    (clear_flag f (Z.lor (Z.lor NODFLG_BADSIG NODFLG_NOKEY) NODFLG_SIGERR))
    (Z.shiftl 1 j)
  = negb (j <? 3) && has_flag f (Z.shiftl 1 j).
Proof.
  intros Hj. rewrite !has_flag_bit by assumption. unfold clear_flag.
  change (Z.lor (Z.lor NODFLG_BADSIG NODFLG_NOKEY) NODFLG_SIGERR) with 7.
  rewrite Z.land_spec, Z.lnot_spec, testbit_7 by lia.
  apply andb_comm.
Qed.

Lemma error_flags_clear f :
  error_flags
    (clear_flag f (Z.lor (Z.lor NODFLG_BADSIG NODFLG_NOKEY) NODFLG_SIGERR))
  = 0.
Proof.
  unfold error_flags.
  pose proof (has_flag_clear_errors f 0 ltac:(lia)) as B.
  pose proof (has_flag_clear_errors f 1 ltac:(lia)) as N.
  pose proof (has_flag_clear_errors f 2 ltac:(lia)) as E.
  change (Z.shiftl 1 0) with NODFLG_BADSIG in B.
  change (Z.shiftl 1 1) with NODFLG_NOKEY in N.
  change (Z.shiftl 1 2) with NODFLG_SIGERR in E.
  rewrite B, N, E. reflexivity.
Qed.

(** What one run of the [switch] does to the flag word of the node. *)
Lemma check_one_sig_flag rc selfsig node st :
  let node' := fst (check_one_sig rc selfsig node st) in
  pkt node' = pkt node /\ deleted node' = deleted node
  /\ match rc with
     | RC_OK =>
         flag node'
         = clear_flag (flag node)
             (Z.lor (Z.lor NODFLG_BADSIG NODFLG_NOKEY) NODFLG_SIGERR)
     | G10ERR_BAD_SIGN => flag node' = NODFLG_BADSIG
     | G10ERR_NO_PUBKEY => flag node' = NODFLG_NOKEY
     | _ => flag node' = NODFLG_SIGERR
     end.
Proof. destruct rc; simpl; repeat split. Qed.

Lemma check_one_sig_errors rc selfsig node st :
  error_flags (flag (fst (check_one_sig rc selfsig node st))) <= 1.
Proof.
  destruct rc; cbn [check_one_sig fst with_flag flag];
    try (vm_compute; discriminate).
  rewrite error_flags_clear. lia.
Qed.

Lemma check_walk_nodes ext os : forall todo done st,
  exists todo',
    fst (check_walk ext os done todo st) = done ++ todo'
    /\ Forall2 checked todo todo'.
Proof.
  induction todo as [|node next IH]; intros done st; cbn [check_walk].
  - exists []. split; [simpl; now rewrite app_nil_r | constructor].
  - assert (Keep : forall st',
      exists todo',
        fst (check_walk ext os (done ++ [node]) next st') = done ++ todo'
        /\ Forall2 checked (node :: next) todo').
    { intros st'. destruct (IH (done ++ [node]) st') as (t & E & F).
      exists (node :: t). rewrite E, <- app_assoc. split; [reflexivity|].
      constructor; [now left | assumption]. }
    destruct (negb (walk_visits node)); [apply Keep|].
    destruct (pkt node) eqn:P; try apply Keep.
    destruct (selected st && is_cert_class sig); [|apply Keep].
    destruct (check_key_signature ext (done ++ node :: next) (length done))
      as [rc selfsig].
    destruct (check_one_sig rc selfsig node st) as [node' st'] eqn:C.
    destruct (IH (done ++ [node']) st') as (t & E & F).
    exists (node' :: t). rewrite E, <- app_assoc. split; [reflexivity|].
    constructor; [|assumption].
    right. exists rc, selfsig, st. now rewrite C.
Qed.

Lemma check_all_keysigs_keyblock ext kb os :
  chk_keyblock (check_all_keysigs ext kb os)
  = fst (check_walk ext os [] kb (mk_check 0 0 0 false 0 (os =? 0) false [])).
Proof.
  unfold check_all_keysigs.
  now destruct (check_walk ext os [] kb _).
Qed.

Lemma has_flag_single e j :
  0 <= e -> 0 <= j -> has_flag (Z.shiftl 1 e) (Z.shiftl 1 j) = (e =? j).
Proof.
  intros He Hj. rewrite has_flag_bit by assumption.
  rewrite Z.shiftl_1_l. apply Z.pow2_bits_eqb. lia.
Qed.

(** The [switch] alone: an error result leaves a flag word made of the one
    error flag, the ok result clears the three error flags and keeps every
    other bit; every node is left alone or goes through that [switch]
    once. *)
Lemma check_walk_flag_words (ext : collaborators) (kb : KBNODE)
    (only_selected : Z) :
  (forall rc selfsig node st,
     let node' := fst (check_one_sig rc selfsig node st) in
     (rc <> RC_OK ->
      exists e,
        e = match rc with
            | G10ERR_BAD_SIGN => 0 | G10ERR_NO_PUBKEY => 1 | _ => 2
            end
        /\ flag node' = Z.shiftl 1 e
        /\ (forall j, 0 <= j ->
              has_flag (flag node') (Z.shiftl 1 j) = (e =? j))
        /\ has_flag (flag node') NODFLG_MARK_A = false
        /\ error_flags (flag node') = 1)
     /\ (rc = RC_OK ->
         error_flags (flag node') = 0
         /\ forall j, 3 <= j ->
              has_flag (flag node') (Z.shiftl 1 j)
              = has_flag (flag node) (Z.shiftl 1 j)))
  /\ Forall2 checked kb (chk_keyblock (check_all_keysigs ext kb only_selected))
  /\ (Forall (fun n => error_flags (flag n) <= 1) kb ->
      Forall (fun n => error_flags (flag n) <= 1)
        (chk_keyblock (check_all_keysigs ext kb only_selected))).
Proof.
  assert (W : Forall2 checked kb
                (chk_keyblock (check_all_keysigs ext kb only_selected))).
  { rewrite check_all_keysigs_keyblock.
    destruct (check_walk_nodes ext only_selected kb []
                (mk_check 0 0 0 false 0 (only_selected =? 0) false []))
      as (t & E & F).
    now rewrite E. }
  split; [|split; [exact W|]].
  - intros rc selfsig node st node'. split.
    + intros Hrc.
      exists (match rc with
              | G10ERR_BAD_SIGN => 0 | G10ERR_NO_PUBKEY => 1 | _ => 2
              end).
      assert (F : flag node'
                  = Z.shiftl 1 (match rc with
                                | G10ERR_BAD_SIGN => 0
                                | G10ERR_NO_PUBKEY => 1
                                | _ => 2
                                end)).
      { subst node'. destruct rc; try reflexivity. now elim Hrc. }
      split; [reflexivity|]. split; [exact F|]. rewrite F.
      split; [|split].
      * intros j Hj. apply has_flag_single; [destruct rc; lia | exact Hj].
      * destruct rc; reflexivity.
      * destruct rc; reflexivity.
    + intros ->. subst node'. cbn [check_one_sig fst with_flag flag].
      split; [apply error_flags_clear|].
      intros j Hj. rewrite has_flag_clear_errors by lia.
      destruct (Z.ltb_spec j 3); [lia | reflexivity].
  - revert W. generalize (chk_keyblock (check_all_keysigs ext kb only_selected)).
    intros kb' W H. induction W as [|n n' l l' C W IH].
    + constructor.
    + inversion H as [|? ? Hn Hl]; subst.
      constructor; [|now apply IH].
      destruct C as [->|(rc & selfsig & st & ->)]; [assumption|].
      apply check_one_sig_errors.
Qed.

(** A walk over nodes that are neither user ids nor signatures leaves the
    counters and the self-signature state alone. *)
Lemma check_walk_bare ext os : forall todo done st,
  Forall (fun n => is_uid n = false /\ is_sig n = false) todo ->
  snd (check_walk ext os done todo st) = st.
Proof.
  induction todo as [|node next IH]; intros done st H; cbn [check_walk].
  - reflexivity.
  - inversion H as [|? ? [U S] H']; subst.
    destruct (negb (walk_visits node)); [now apply IH|].
    unfold is_uid, is_sig in U, S.
    destruct (pkt node); try discriminate; now apply IH.
Qed.

Lemma check_all_keysigs_bare ext kb os :
  Forall (fun n => is_uid n = false /\ is_sig n = false) kb ->
  chk_mis_selfsig (check_all_keysigs ext kb os) = 1
  /\ chk_return (check_all_keysigs ext kb os) = true.
Proof.
  intros H. unfold check_all_keysigs.
  pose proof (check_walk_bare ext os kb []
                (mk_check 0 0 0 false 0 (os =? 0) false []) H) as E.
  destruct (check_walk ext os [] kb _) as [kb' st]. simpl in E. subst st.
  split; reflexivity.
Qed.

(** *** The count of user ids without self-signature *)

Lemma walk_counts_line mis anyu has l new st' :
  (forall u, l <> Line_uid u) ->
  walk_counts mis anyu (has || good_selfsig_line l) new st' ->
  walk_counts mis anyu has (l :: new) st'.
Proof.
  intros Nu (A & B & C). unfold walk_counts.
  destruct l as [u|rc self]; [now elim (Nu u)|].
  cbn [good_before_next_uid uids_without_selfsig any_uid_line existsb orb].
  fold (any_uid_line new). rewrite orb_assoc. now repeat split.
Qed.

Lemma walk_counts_uid mis anyu has u new st' :
  walk_counts (if anyu && negb has then mis + 1 else mis) true false new st' ->
  walk_counts mis anyu has (Line_uid u :: new) st'.
Proof.
  intros (A & B & C). unfold walk_counts.
  cbn [good_before_next_uid uids_without_selfsig any_uid_line existsb orb].
  rewrite orb_false_r, orb_true_r. cbn [orb andb negb] in A.
  repeat split; [|exact B|discriminate].
  rewrite A. destruct (anyu && negb has), (good_before_next_uid new);
    cbn [negb]; lia.
Qed.

(** Over any stretch of the walk the counter moves by the user id lines
    printed in that stretch that lack a good self-signature line. *)
Lemma check_walk_counts ext os : forall todo done st kb' st',
  check_walk ext os done todo st = (kb', st') ->
  exists new,
    shown st' = shown st ++ new
    /\ walk_counts (mis_selfsig st) (anyuid st) (has_selfsig st) new st'.
Proof.
  induction todo as [|node next IH]; intros done st kb' st' H;
    cbn [check_walk] in H.
  - injection H as <- <-. exists []. rewrite app_nil_r.
    split; [reflexivity|]. unfold walk_counts.
    cbn [good_before_next_uid uids_without_selfsig any_uid_line existsb].
    rewrite !orb_false_r. repeat split. lia.
  - destruct (negb (walk_visits node)); [now apply (IH _ _ _ _ H)|].
    destruct (pkt node) eqn:P; try (now apply (IH _ _ _ _ H)).
    + (* a user id *)
      destruct (if negb (os =? 0)
                then has_flag (flag node) NODFLG_SELUID else selected st).
      * apply IH in H as (new & S & W).
        cbn [shown mis_selfsig anyuid has_selfsig] in S, W.
        exists (Line_uid uid :: new). rewrite S, <- app_assoc.
        split; [reflexivity|]. now apply walk_counts_uid.
      * apply IH in H as (new & S & W).
        cbn [shown mis_selfsig anyuid has_selfsig] in S, W.
        now exists new.
    + (* a signature *)
      destruct (selected st && is_cert_class sig);
        [|now apply (IH _ _ _ _ H)].
      destruct (check_key_signature ext (done ++ node :: next) (length done))
        as [rc selfsig].
      destruct (check_one_sig rc selfsig node st) as [node' st1] eqn:C.
      apply IH in H as (new & S & W).
      destruct rc; cbn [check_one_sig] in C; injection C as <- <-;
        cbn [shown mis_selfsig anyuid has_selfsig] in S, W.
      * exists (Line_sig RC_OK selfsig :: new). rewrite S, <- app_assoc.
        split; [reflexivity|]. apply walk_counts_line; [discriminate|].
        cbn [good_selfsig_line]. destruct selfsig;
          [now rewrite orb_true_r | now rewrite orb_false_r].
      * exists (Line_sig G10ERR_BAD_SIGN selfsig :: new).
        rewrite S, <- app_assoc.
        split; [reflexivity|]. apply walk_counts_line; [discriminate|].
        cbn [good_selfsig_line]. now rewrite orb_false_r.
      * now exists new.
      * exists (Line_sig G10ERR_PUBKEY_ALGO false :: new).
        rewrite S, <- app_assoc.
        split; [reflexivity|]. apply walk_counts_line; [discriminate|].
        cbn [good_selfsig_line]. now rewrite orb_false_r.
      * exists (Line_sig (G10ERR_other code) false :: new).
        rewrite S, <- app_assoc.
        split; [reflexivity|]. apply walk_counts_line; [discriminate|].
        cbn [good_selfsig_line]. now rewrite orb_false_r.
Qed.

(** X8: where a user id was visited the count is right: it is the number
    of user id lines without a good self-signature line, the last user id
    included.  Where none was visited the count is 1 all the same, unless a
    good self-signature stands before the first user id. *)
Lemma check_all_keysigs_missing_self ext kb os :
  let r := check_all_keysigs ext kb os in
  chk_mis_selfsig r
  = if any_uid_line (chk_shown r)
    then uids_without_selfsig (chk_shown r)
    else if good_before_next_uid (chk_shown r) then 0 else 1.
Proof.
  unfold check_all_keysigs.
  destruct (check_walk ext os [] kb _) as [kb' st'] eqn:W.
  cbn [chk_mis_selfsig chk_shown].
  apply check_walk_counts in W as (new & S & A & B & C).
  cbn [shown mis_selfsig anyuid has_selfsig app orb andb] in S, A, B, C.
  rewrite S. rewrite B in A.
  destruct (any_uid_line new) eqn:U.
  - destruct (has_selfsig st'); cbn [negb andb] in *; lia.
  - rewrite (C eq_refl).
    assert (Z0 : uids_without_selfsig new = 0).
    { clear -U. induction new as [|[u|rc s] new IH]; [reflexivity| |].
      - discriminate U.
      - cbn [uids_without_selfsig]. apply IH. exact U. }
    cbn [andb] in A. rewrite Z0 in A.
    destruct (good_before_next_uid new); cbn [negb]; lia.
Qed.

(** On a keyblock made of the primary key alone no user id is visited, so
    no user id lacks a self-signature; the walk all the same ends with
    [mis_selfsig] at 1 and reports an error, because the test after the loop
    leaves out the [anyuid] guard that the test inside the loop has.  The
    editor opens a keyblock found by a user id and never deletes the last
    one, so the check command does not come here. *)
Lemma check_all_keysigs_no_uid (ext : collaborators) (pk : PKT_public_key)
    (only_selected : Z) :
  let r := check_all_keysigs ext [new_kbnode (pkt_public_key pk)]
             only_selected in
  count_uids [new_kbnode (pkt_public_key pk)] = 0
  /\ chk_mis_selfsig r = 1 /\ chk_return r = true.
Proof.
  split; [reflexivity|].
  apply check_all_keysigs_bare. repeat constructor.
Qed.

(** ** The signing loop *)

(** *** Marks and positions *)

Lemma mark_after_set n : has_flag (flag (set_mark_a n)) NODFLG_MARK_A = true.
Proof.
  unfold set_mark_a. cbn [with_flag flag].
  change NODFLG_MARK_A with (Z.shiftl 1 4). now rewrite has_flag_set by lia.
Qed.

Lemma mark_after_clear n :
  has_flag (flag (clear_mark_a n)) NODFLG_MARK_A = false.
Proof.
  unfold clear_mark_a. cbn [with_flag flag].
  change NODFLG_MARK_A with (Z.shiftl 1 4). now rewrite has_flag_clear by lia.
Qed.

Lemma seluid_after_set n :
  has_flag (flag (set_mark_a n)) NODFLG_SELUID
  = has_flag (flag n) NODFLG_SELUID.
Proof.
  unfold set_mark_a. cbn [with_flag flag].
  change NODFLG_MARK_A with (Z.shiftl 1 4).
  change NODFLG_SELUID with (Z.shiftl 1 8). now rewrite has_flag_set by lia.
Qed.

Lemma seluid_after_clear n :
  has_flag (flag (clear_mark_a n)) NODFLG_SELUID
  = has_flag (flag n) NODFLG_SELUID.
Proof.
  unfold clear_mark_a. cbn [with_flag flag].
  change NODFLG_MARK_A with (Z.shiftl 1 4).
  change NODFLG_SELUID with (Z.shiftl 1 8). now rewrite has_flag_clear by lia.
Qed.

Lemma clear_mark_a_idem n : clear_mark_a (clear_mark_a n) = clear_mark_a n.
Proof.
  unfold clear_mark_a, with_flag, clear_flag. cbn [pkt flag deleted].
  now rewrite <- Z.land_assoc, Z.land_diag.
Qed.

Lemma update_node_length i f l : length (update_node i f l) = length l.
Proof.
  revert i. induction l as [|n l IH]; intros [|i]; simpl; congruence.
Qed.

Lemma update_node_app_l i f l r :
  (i < length l)%nat -> update_node i f (l ++ r) = update_node i f l ++ r.
Proof.
  revert i. induction l as [|n l IH]; intros [|i] H; simpl in *;
    try lia; try reflexivity.
  now rewrite IH by lia.
Qed.

Lemma update_node_app_r f l n r :
  update_node (length l) f (l ++ n :: r) = l ++ f n :: r.
Proof. induction l as [|m l IH]; simpl; congruence. Qed.

Lemma update_node_idem i f l :
  (forall n, f (f n) = f n) ->
  update_node i f (update_node i f l) = update_node i f l.
Proof.
  intros Hf. revert i.
  induction l as [|n l IH]; intros [|i]; simpl; congruence.
Qed.

Lemma insert_kbnode_app l n r s :
  insert_kbnode (l ++ n :: r) (length l) s = l ++ n :: s :: r.
Proof.
  unfold insert_kbnode.
  replace (S (length l)) with (length (l ++ [n]))
    by (rewrite length_app; simpl; lia).
  replace (l ++ n :: r) with ((l ++ [n]) ++ r)
    by (now rewrite <- app_assoc).
  rewrite firstn_app, firstn_all, Nat.sub_diag, skipn_app, skipn_all,
    Nat.sub_diag.
  simpl. now rewrite app_nil_r, <- app_assoc.
Qed.

Lemma certifiers_pkt l : forall l',
  map pkt l = map pkt l' -> certifiers l = certifiers l'.
Proof.
  induction l as [|n l IH]; intros [|n' l'] H; simpl in *;
    try discriminate; [reflexivity|].
  injection H as Hn Hl. rewrite Hn.
  destruct (pkt n'); try (now apply IH); [reflexivity|].
  destruct (is_cert_class sig); [f_equal|]; now apply IH.
Qed.

(** *** Setting the marks *)

Lemma sign_mark_pkt sa kb : map pkt (sign_mark sa kb) = map pkt kb.
Proof.
  unfold sign_mark. rewrite map_map. apply map_ext. intros n.
  now destruct (sa || has_flag (flag n) NODFLG_SELUID).
Qed.

Lemma sign_mark_groups sa kb :
  uid_groups (sign_mark sa kb)
  = map (fun g => mk_group (g_uid g) (g_selected g) (sa || g_selected g)
                    (g_certifiers g))
        (uid_groups kb).
Proof.
  induction kb as [|n kb IH]; [reflexivity|].
  change (sign_mark sa (n :: kb))
    with ((if sa || has_flag (flag n) NODFLG_SELUID
           then set_mark_a n else clear_mark_a n) :: sign_mark sa kb).
  cbn [uid_groups].
  replace (pkt (if sa || has_flag (flag n) NODFLG_SELUID
                then set_mark_a n else clear_mark_a n)) with (pkt n)
    by (now destruct (sa || has_flag (flag n) NODFLG_SELUID)).
  destruct (pkt n); try exact IH.
  cbn [map g_uid g_selected g_marked g_certifiers]. rewrite IH.
  rewrite (certifiers_pkt _ _ (sign_mark_pkt sa kb)).
  f_equal.
  destruct (sa || has_flag (flag n) NODFLG_SELUID) eqn:E.
  - now rewrite mark_after_set, seluid_after_set.
  - now rewrite mark_after_clear, seluid_after_clear.
Qed.

(** *** The scan for existing certifications *)

Lemma signed_by_cons kid k ks :
  signed_by kid (k :: ks) = keyid_eqb kid k || signed_by kid ks.
Proof. reflexivity. Qed.

Lemma sign_already_kb kid : forall todo done uidnode tty,
  match uidnode with
  | Some u => (u < length done)%nat
  | None => True
  end ->
  fst (sign_already kid done todo uidnode tty)
  = match uidnode with
    | Some u =>
        if signed_by kid (certifiers todo)
        then update_node u clear_mark_a done else done
    | None => done
    end ++ already_spec kid todo.
Proof.
  induction todo as [|node next IH]; intros done uidnode tty Hu.
  - simpl. destruct uidnode; now rewrite app_nil_r.
  - assert (Skip : forall tty',
      (uidnode <> None ->
       signed_by kid (certifiers (node :: next))
       = signed_by kid (certifiers next)) ->
      is_uid node = false ->
      fst (sign_already kid (done ++ [node]) next uidnode tty')
      = match uidnode with
        | Some u =>
            if signed_by kid (certifiers (node :: next))
            then update_node u clear_mark_a done else done
        | None => done
        end ++ already_spec kid (node :: next)).
    { intros tty' Hs Hn. rewrite IH.
      - cbn [already_spec]. rewrite Hn. cbn [andb].
        destruct uidnode as [u|]; [|now rewrite <- app_assoc].
        rewrite Hs by discriminate.
        destruct (signed_by kid (certifiers next));
          [rewrite update_node_app_l by exact Hu|];
          now rewrite <- app_assoc.
      - destruct uidnode; [rewrite length_app; simpl; lia | exact I]. }
    cbn [sign_already].
    destruct (pkt node) eqn:P;
      try (apply Skip; [intros _; cbn [certifiers]; now rewrite P
                       | unfold is_uid; now rewrite P]).
    + (* a user id: the scan moves under it *)
      rewrite IH.
      * cbn [already_spec certifiers]. rewrite P.
        replace (is_uid node) with true by (unfold is_uid; now rewrite P).
        cbn [certifiers].
        destruct (has_flag (flag node) NODFLG_MARK_A); cbn [andb];
          [destruct (signed_by kid (certifiers next));
             [rewrite update_node_app_r|] |];
          destruct uidnode; cbn [signed_by existsb];
          now rewrite <- app_assoc.
      * destruct (has_flag (flag node) NODFLG_MARK_A); [|exact I].
        rewrite length_app. simpl. lia.
    + (* a signature *)
      assert (Hn : is_uid node = false) by (unfold is_uid; now rewrite P).
      destruct uidnode as [u|];
        [|apply (Skip tty); [intros H; now elim H | exact Hn]].
      destruct (is_cert_class sig) eqn:C; cbn [andb];
        [|apply (Skip tty);
          [intros _; cbn [certifiers]; now rewrite P, C | exact Hn]].
      destruct (keyid_eqb kid (sig_keyid sig)) eqn:K;
        [|apply (Skip tty);
          [intros _; cbn [certifiers];
           rewrite P, C, signed_by_cons; now rewrite K
          | exact Hn]].
      rewrite IH by (rewrite length_app, update_node_length; simpl; lia).
      cbn [already_spec certifiers]. rewrite P, C, Hn, signed_by_cons, K.
      cbn [andb orb].
      rewrite update_node_app_l by (now rewrite update_node_length).
      rewrite update_node_idem by apply clear_mark_a_idem.
      destruct (signed_by kid (certifiers next)); now rewrite <- app_assoc.
Qed.

Lemma sign_already_tty kid : forall todo done uidnode tty,
  exists msgs,
    snd (sign_already kid done todo uidnode tty) = tty ++ msgs
    /\ Forall (fun m => m = Already_signed_by_key kid) msgs.
Proof.
  induction todo as [|node next IH]; intros done uidnode tty.
  - exists []. simpl. now rewrite app_nil_r.
  - cbn [sign_already].
    destruct (pkt node); try apply IH.
    destruct uidnode as [u|]; [|apply IH].
    destruct (is_cert_class sig && keyid_eqb kid (sig_keyid sig));
      [|apply IH].
    destruct (IH (update_node u clear_mark_a done ++ [node]) (Some u)
                (tty ++ [Already_signed_by_key kid])) as (msgs & E & F).
    exists (Already_signed_by_key kid :: msgs).
    rewrite E, <- app_assoc. split; [reflexivity|]. now constructor.
Qed.

Lemma already_spec_pkt kid kb : map pkt (already_spec kid kb) = map pkt kb.
Proof.
  induction kb as [|n kb IH]; [reflexivity|].
  cbn [already_spec map]. rewrite IH. f_equal.
  now destruct (is_uid n && has_flag (flag n) NODFLG_MARK_A
                && signed_by kid (certifiers kb)).
Qed.

Lemma already_spec_groups kid kb :
  uid_groups (already_spec kid kb)
  = map (fun g => mk_group (g_uid g) (g_selected g)
                    (g_marked g && negb (signed_by kid (g_certifiers g)))
                    (g_certifiers g))
        (uid_groups kb).
Proof.
  induction kb as [|n kb IH]; [reflexivity|].
  cbn [already_spec uid_groups].
  replace (pkt (if is_uid n && has_flag (flag n) NODFLG_MARK_A
                   && signed_by kid (certifiers kb)
                then clear_mark_a n else n)) with (pkt n)
    by (now destruct (is_uid n && has_flag (flag n) NODFLG_MARK_A
                      && signed_by kid (certifiers kb))).
  destruct (pkt n) eqn:P; try exact IH.
  cbn [map g_uid g_selected g_marked g_certifiers]. rewrite IH.
  rewrite (certifiers_pkt _ _ (already_spec_pkt kid kb)).
  f_equal.
  replace (is_uid n) with true by (unfold is_uid; now rewrite P).
  cbn [andb].
  destruct (has_flag (flag n) NODFLG_MARK_A) eqn:M; cbn [andb].
  - destruct (signed_by kid (certifiers kb)); cbn [negb].
    + now rewrite mark_after_clear, seluid_after_clear.
    + now rewrite M.
  - now rewrite M.
Qed.

(** *** The rounds under [reloop:] *)

Lemma count_flag_app a b m :
  count_uids_with_flag (a ++ b) m
  = count_uids_with_flag a m + count_uids_with_flag b m.
Proof.
  induction a as [|n a IH]; cbn [app count_uids_with_flag]; [reflexivity|].
  rewrite IH. lia.
Qed.

Lemma count_flag_cons n l m :
  count_uids_with_flag (n :: l) m
  = (if is_uid n && has_flag (flag n) m then 1 else 0)
    + count_uids_with_flag l m.
Proof. reflexivity. Qed.

Lemma count_flag_head_zero n l m :
  count_uids_with_flag (n :: l) m = 0 ->
  is_uid n && has_flag (flag n) m = false /\ count_uids_with_flag l m = 0.
Proof.
  rewrite count_flag_cons. pose proof (count_uids_with_flag_nonneg l m).
  destruct (is_uid n && has_flag (flag n) m); split; try reflexivity; lia.
Qed.

Lemma is_uid_pkt n uid : pkt n = pkt_user_id uid -> is_uid n = true.
Proof. unfold is_uid. now intros ->. Qed.

Lemma track_pk_app ppk a b :
  track_pk ppk (a ++ b) = track_pk (track_pk ppk a) b.
Proof.
  revert ppk. induction a as [|n a IH]; intros ppk; [reflexivity|].
  cbn [app track_pk]. destruct (pkt n); apply IH.
Qed.

Lemma track_pk_some pk l : track_pk (Some pk) l <> None.
Proof.
  revert pk. induction l as [|n l IH]; intros pk; cbn [track_pk];
    [discriminate|].
  destruct (pkt n); apply IH.
Qed.

Lemma sign_scan_app l1 : forall l2 i ppk,
  count_uids_with_flag l1 NODFLG_MARK_A = 0 ->
  sign_scan (l1 ++ l2) i ppk
  = sign_scan l2 (i + length l1) (track_pk ppk l1).
Proof.
  induction l1 as [|n l1 IH]; intros l2 i ppk H.
  - simpl. now rewrite Nat.add_0_r.
  - apply count_flag_head_zero in H as [Hn H].
    cbn [app sign_scan track_pk length].
    rewrite Nat.add_succ_r, <- Nat.add_succ_l.
    destruct (pkt n) eqn:P; try (now apply IH).
    rewrite (is_uid_pkt _ _ P) in Hn. cbn [andb] in Hn. rewrite Hn.
    now apply IH.
Qed.

Lemma sign_scan_end l : forall i ppk p,
  sign_scan l i ppk = Scan_end p ->
  count_uids_with_flag l NODFLG_MARK_A = 0 /\ p = track_pk ppk l.
Proof.
  induction l as [|n l IH]; intros i ppk p H; cbn [sign_scan] in H.
  - injection H as <-. now split.
  - rewrite count_flag_cons. cbn [track_pk]. unfold is_uid.
    destruct (pkt n) eqn:P; cbn [pkttype pkttype_eqb andb];
      try (now apply IH in H).
    destruct (has_flag (flag n) NODFLG_MARK_A); [discriminate|].
    now apply IH in H.
Qed.

Lemma sign_scan_hit l : forall i ppk j p u,
  sign_scan l i ppk = Scan_hit j p u ->
  exists pre n post,
    l = pre ++ n :: post /\ j = (i + length pre)%nat
    /\ count_uids_with_flag pre NODFLG_MARK_A = 0
    /\ pkt n = pkt_user_id u /\ has_flag (flag n) NODFLG_MARK_A = true
    /\ p = track_pk ppk pre.
Proof.
  induction l as [|n l IH]; intros i ppk j p u H; cbn [sign_scan] in H;
    [discriminate|].
  assert (Go : forall ppk',
    is_uid n && has_flag (flag n) NODFLG_MARK_A = false ->
    track_pk ppk [n] = ppk' ->
    sign_scan l (S i) ppk' = Scan_hit j p u ->
    exists pre n0 post,
      n :: l = pre ++ n0 :: post /\ j = (i + length pre)%nat
      /\ count_uids_with_flag pre NODFLG_MARK_A = 0
      /\ pkt n0 = pkt_user_id u /\ has_flag (flag n0) NODFLG_MARK_A = true
      /\ p = track_pk ppk pre).
  { intros ppk' Hn Ht Hs.
    destruct (IH _ _ _ _ _ Hs) as (pre & n0 & post & E & J & C & P0 & M & T).
    exists (n :: pre), n0, post. rewrite E.
    repeat split; try assumption.
    - simpl. lia.
    - rewrite count_flag_cons, Hn, C. reflexivity.
    - change (n :: pre) with ([n] ++ pre). now rewrite track_pk_app, Ht. }
  unfold is_uid in Go. revert H.
  destruct (pkt n) eqn:P; intros H; cbn [pkttype pkttype_eqb andb] in Go;
    try (eapply Go; [reflexivity | cbn [track_pk]; now rewrite P | exact H]).
  destruct (has_flag (flag n) NODFLG_MARK_A) eqn:M.
  - injection H as <- <- <-. exists [], n, l.
    repeat split; try assumption; try reflexivity. simpl. lia.
  - eapply Go; [reflexivity | cbn [track_pk]; now rewrite P | exact H].
Qed.

Lemma sign_spec_unmarked ext sk l : forall ppk,
  count_uids_with_flag l NODFLG_MARK_A = 0 -> sign_spec ext sk ppk l = l.
Proof.
  induction l as [|n l IH]; intros ppk H; [reflexivity|].
  apply count_flag_head_zero in H as [Hn H]. cbn [sign_spec].
  destruct (pkt n) eqn:P; try (now rewrite IH).
  rewrite (is_uid_pkt _ _ P) in Hn. cbn [andb] in Hn. rewrite Hn.
  now rewrite IH.
Qed.

Lemma sign_spec_app ext sk pre : forall ppk l,
  count_uids_with_flag pre NODFLG_MARK_A = 0 ->
  sign_spec ext sk ppk (pre ++ l)
  = pre ++ sign_spec ext sk (track_pk ppk pre) l.
Proof.
  induction pre as [|n pre IH]; intros ppk l H; [reflexivity|].
  apply count_flag_head_zero in H as [Hn H].
  cbn [app sign_spec track_pk].
  destruct (pkt n) eqn:P; try (now rewrite IH).
  rewrite (is_uid_pkt _ _ P) in Hn. cbn [andb] in Hn. rewrite Hn.
  now rewrite IH.
Qed.

(** The keyblock after the mark of the first marked user id is cleared and
    the new signature is put behind it. *)
Lemma sign_round_kb l1 pre n post s :
  insert_kbnode
    (update_node (length l1 + length pre) clear_mark_a
       (l1 ++ pre ++ n :: post))
    (length l1 + length pre) s
  = (l1 ++ pre ++ [clear_mark_a n; s]) ++ post.
Proof.
  rewrite <- length_app, app_assoc, update_node_app_r, insert_kbnode_app.
  now rewrite <- !app_assoc.
Qed.

Lemma sign_round_count l1 pre n s uid :
  count_uids_with_flag l1 NODFLG_MARK_A = 0 ->
  count_uids_with_flag pre NODFLG_MARK_A = 0 ->
  pkt n = pkt_user_id uid -> is_uid s = false ->
  count_uids_with_flag (l1 ++ pre ++ [clear_mark_a n; s]) NODFLG_MARK_A = 0.
Proof.
  intros H1 H2 P S.
  rewrite !count_flag_app, H1, H2, !count_flag_cons, S, mark_after_clear.
  cbn [andb count_uids_with_flag]. now rewrite andb_false_r.
Qed.

Lemma track_pk_round ppk n s uid sig :
  pkt n = pkt_user_id uid -> pkt s = pkt_signature sig ->
  track_pk ppk [clear_mark_a n; s] = ppk.
Proof.
  intros P S. cbn [track_pk]. unfold clear_mark_a. cbn [with_flag pkt].
  now rewrite P, S.
Qed.

(** The rounds that run to the end of the list: the keyblock they leave is
    the one-pass reading, no user id is marked any more, and the local
    [primary_pk] is the last primary key packet of the list. *)
Lemma sign_reloop_next ext sk : forall fuel l1 l2 st st',
  s_keyblock st = l1 ++ l2 ->
  count_uids_with_flag l1 NODFLG_MARK_A = 0 ->
  sign_reloop ext sk fuel st = Flow_next st' ->
  s_keyblock st' = l1 ++ sign_spec ext sk (track_pk None l1) l2
  /\ count_uids_with_flag (s_keyblock st') NODFLG_MARK_A = 0
  /\ s_primary_pk st' = track_pk None (s_keyblock st')
  /\ s_answers st' = s_answers st /\ s_tty st' = s_tty st
  /\ (length (s_keyblock st) <= length (s_keyblock st'))%nat
  /\ (count_uids_with_flag l2 NODFLG_MARK_A = 0 ->
      s_modified st' = s_modified st /\ s_upd_trust st' = s_upd_trust st
      /\ s_keyblock st' = s_keyblock st)
  /\ (count_uids_with_flag l2 NODFLG_MARK_A <> 0 ->
      s_modified st' = true /\ s_upd_trust st' = true
      /\ s_primary_pk st' <> None
      /\ (length (s_keyblock st) < length (s_keyblock st'))%nat).
Proof.
  induction fuel as [|fuel IH]; intros l1 l2 st st' E C H; [discriminate|].
  cbn [sign_reloop] in H.
  rewrite E, (sign_scan_app l1 l2 0 None C) in H. cbn [Nat.add] in H.
  destruct (sign_scan l2 (length l1) (track_pk None l1)) as [p|j p u] eqn:S.
  - injection H as <-. cbn [s_keyblock s_modified s_upd_trust s_primary_pk
                             s_answers s_tty].
    apply sign_scan_end in S as [C2 ->].
    rewrite sign_spec_unmarked by exact C2.
    repeat split; try reflexivity.
    + now rewrite count_flag_app, C, C2.
    + now rewrite track_pk_app.
    + rewrite E. lia.
    + now symmetry.
    + now elim H.
    + now elim H.
    + now elim H.
    + now elim H.
  - destruct p as [pk|]; [|discriminate].
    apply sign_scan_hit in S as (pre & n & post & -> & -> & Cp & P & M & T).
    destruct (make_keysig_packet ext pk u sk 16) as [rc sig] eqn:K.
    destruct (rc_is_ok rc); [|discriminate].
    rewrite sign_round_kb in H.
    apply IH with (l1 := l1 ++ pre ++ [clear_mark_a n;
                                       new_kbnode (pkt_signature sig)])
                  (l2 := post) in H;
      [|reflexivity|now apply (sign_round_count l1 pre n _ u)].
    cbn [s_keyblock s_modified s_upd_trust s_primary_pk s_answers s_tty] in H.
    destruct H as (K1 & K2 & K3 & K4 & K5 & K6 & K7 & K8).
    assert (Tr : track_pk None
                   (l1 ++ pre ++ [clear_mark_a n;
                                  new_kbnode (pkt_signature sig)])
                 = Some pk).
    { rewrite !track_pk_app, (track_pk_round _ n _ u sig) by easy.
      now symmetry. }
    assert (Len : (length (s_keyblock st) < length (s_keyblock st'))%nat).
    { rewrite E. revert K6. rewrite !length_app. simpl. lia. }
    assert (Mod : s_modified st' = true /\ s_upd_trust st' = true).
    { destruct (Z.eq_dec (count_uids_with_flag post NODFLG_MARK_A) 0)
        as [Z0|NZ]; [now destruct (K7 Z0) | now destruct (K8 NZ)]. }
    assert (Npk : s_primary_pk st' <> None).
    { rewrite K3, K1, track_pk_app, Tr. apply track_pk_some. }
    assert (Cnt : count_uids_with_flag (pre ++ n :: post) NODFLG_MARK_A <> 0).
    { rewrite count_flag_app, count_flag_cons, (is_uid_pkt _ _ P), M, Cp.
      cbn [andb].
      pose proof (count_uids_with_flag_nonneg post NODFLG_MARK_A). lia. }
    repeat split; try assumption; try tauto; try lia.
    rewrite K1, Tr, sign_spec_app by exact Cp.
    cbn [sign_spec]. rewrite P, M, <- T, K. cbn [snd].
    now rewrite <- !app_assoc.
Qed.

Lemma sign_reloop_leave ext sk : forall fuel st rc st',
  sign_reloop ext sk fuel st = Flow_leave rc st' ->
  rc_is_ok rc = false /\ s_tty st' = s_tty st ++ [Signing_failed]
  /\ s_answers st' = s_answers st.
Proof.
  induction fuel as [|fuel IH]; intros st rc st' H; [discriminate|].
  cbn [sign_reloop] in H.
  destruct (sign_scan (s_keyblock st) 0 None) as [p|j [pk|] u];
    try discriminate.
  destruct (make_keysig_packet ext pk u sk 16) as [rc1 sig].
  destruct (rc_is_ok rc1) eqn:R.
  - now apply IH in H.
  - injection H as <- <-. now repeat split.
Qed.

(** The rounds come to an end: each round takes a mark away. *)
Lemma sign_reloop_fuel ext sk : forall fuel st,
  count_uids_with_flag (s_keyblock st) NODFLG_MARK_A < Z.of_nat fuel ->
  sign_reloop ext sk fuel st <> Flow_out_of_fuel.
Proof.
  induction fuel as [|fuel IH]; intros st H.
  - pose proof (count_uids_with_flag_nonneg (s_keyblock st) NODFLG_MARK_A).
    simpl in H. lia.
  - cbn [sign_reloop].
    destruct (sign_scan (s_keyblock st) 0 None) as [p|j [pk|] u] eqn:S;
      try discriminate.
    apply sign_scan_hit in S as (pre & n & post & E & -> & Cp & P & M & T).
    destruct (make_keysig_packet ext pk u sk 16) as [rc sig].
    destruct (rc_is_ok rc); [|discriminate].
    apply IH. cbn [s_keyblock]. rewrite E.
    pose proof (sign_round_kb [] pre n post (new_kbnode (pkt_signature sig)))
      as R.
    cbn [app length Nat.add] in R. cbn [Nat.add]. rewrite R.
    rewrite E in H. revert H.
    rewrite !count_flag_app, !count_flag_cons, (is_uid_pkt _ _ P), M,
      mark_after_clear.
    cbn [andb count_uids_with_flag is_uid new_kbnode pkt pkttype pkttype_eqb].
    rewrite andb_false_r. lia.
Qed.

Lemma count_flag_le_length l m :
  count_uids_with_flag l m <= Z.of_nat (length l).
Proof.
  induction l as [|n l IH]; [reflexivity|].
  rewrite count_flag_cons. cbn [length].
  destruct (is_uid n && has_flag (flag n) m); lia.
Qed.

(** *** One signer *)

Lemma certifiers_sign_spec ext sk l : forall ppk,
  certifiers (sign_spec ext sk ppk l) = certifiers l.
Proof.
  induction l as [|n l IH]; intros ppk; [reflexivity|].
  cbn [sign_spec certifiers].
  destruct (pkt n) eqn:P; cbn [certifiers]; rewrite ?P; try apply IH.
  - destruct (has_flag (flag n) NODFLG_MARK_A); [destruct ppk|];
      cbn [certifiers clear_mark_a with_flag pkt]; now rewrite P.
  - destruct (is_cert_class sig); [f_equal|]; apply IH.
Qed.

Lemma sign_spec_groups ext sk l : forall ppk,
  count_uids_with_flag (sign_spec ext sk ppk l) NODFLG_MARK_A = 0 ->
  uid_groups (sign_spec ext sk ppk l)
  = map (fun g => mk_group (g_uid g) (g_selected g) false
                    (if g_marked g
                     then sk_keyid sk :: g_certifiers g
                     else g_certifiers g))
        (uid_groups l).
Proof.
  induction l as [|n l IH]; intros ppk H; [reflexivity|].
  cbn [sign_spec] in *.
  destruct (pkt n) eqn:P;
    try (apply count_flag_head_zero in H as [_ H];
         cbn [uid_groups]; rewrite P; now apply IH).
  destruct (has_flag (flag n) NODFLG_MARK_A) eqn:M.
  - destruct ppk as [pk|].
    + apply count_flag_head_zero in H as [_ H].
      apply count_flag_head_zero in H as [_ H].
      cbn [uid_groups clear_mark_a with_flag pkt new_kbnode flag].
      rewrite P. cbn [map g_uid g_selected g_marked g_certifiers].
      rewrite M, (IH _ H). f_equal.
      pose proof (seluid_after_clear n) as Sel.
      pose proof (mark_after_clear n) as Mk.
      unfold clear_mark_a in Sel, Mk. cbn [with_flag flag] in Sel, Mk.
      rewrite Sel, Mk. f_equal.
      cbn [certifiers new_kbnode pkt].
      unfold make_keysig_packet.
      destruct (keysig_answer ext pk uid sk 16) as [rc t].
      cbn [snd is_cert_class sig_class sig_keyid].
      change (Z.land 16 (Z.lnot 3) =? 16) with true. cbv iota.
      now rewrite certifiers_sign_spec.
    + apply count_flag_head_zero in H as [Hn _].
      rewrite (is_uid_pkt _ _ P), M in Hn. discriminate.
  - apply count_flag_head_zero in H as [_ H].
    cbn [uid_groups]. rewrite P.
    cbn [map g_uid g_selected g_marked g_certifiers].
    now rewrite M, (IH _ H), certifiers_sign_spec.
Qed.

Lemma count_marked_groups kb :
  count_uids_with_flag kb NODFLG_MARK_A = 0 <->
  Forall (fun g => g_marked g = false) (uid_groups kb).
Proof.
  induction kb as [|n kb IH]; [split; [constructor | reflexivity]|].
  rewrite count_flag_cons. cbn [uid_groups]. unfold is_uid.
  pose proof (count_uids_with_flag_nonneg kb NODFLG_MARK_A).
  destruct (pkt n); cbn [pkttype pkttype_eqb andb]; try (rewrite <- IH; lia).
  destruct (has_flag (flag n) NODFLG_MARK_A) eqn:M; split; intros K.
  - lia.
  - inversion K as [|? ? Hg]; subst. cbn [g_marked] in Hg. congruence.
  - constructor; [reflexivity | apply IH; lia].
  - inversion K as [|? ? _ Hgs]; subst. apply IH in Hgs. lia.
Qed.

Lemma group_marked_is_signed sa kid gs :
  Forall (fun g => g_marked g = false) (map (group_marked sa kid) gs) ->
  map (group_marked sa kid) gs = map (group_signed sa kid) gs.
Proof.
  induction gs as [|g gs IH]; intros H; [reflexivity|].
  inversion H as [|? ? Hg Hgs]; subst. cbn [map]. rewrite (IH Hgs).
  f_equal. unfold group_marked, group_signed in *. cbn [g_marked] in Hg.
  now rewrite Hg.
Qed.

(** The keyblock a signer works on once the marks are set and the uids
    signed before have lost theirs. *)
Lemma sign_prepared_groups sa kid kb :
  uid_groups (already_spec kid (sign_mark sa kb))
  = map (group_marked sa kid) (uid_groups kb).
Proof.
  rewrite already_spec_groups, sign_mark_groups, map_map.
  apply map_ext. intros g. reflexivity.
Qed.

Lemma sign_prepared_pkt sa kid kb :
  map pkt (already_spec kid (sign_mark sa kb)) = map pkt kb.
Proof. now rewrite already_spec_pkt, sign_mark_pkt. Qed.

(** The three ways through the body of the signer loop. *)
Lemma sign_one_cases ext sa sk st :
  let kid := sk_keyid sk in
  let kb2 := already_spec kid (sign_mark sa (s_keyblock st)) in
  exists msgs,
    Forall (fun m => m = Already_signed_by_key kid) msgs
    /\ ((count_uids_with_flag kb2 NODFLG_MARK_A = 0
         /\ sign_one ext sa sk st
            = Flow_next (mk_sign kb2 (s_modified st) (s_upd_trust st)
                           (s_primary_pk st) (s_answers st)
                           (s_tty st ++ msgs
                            ++ [Nothing_to_sign_with_key kid])))
        \/ (count_uids_with_flag kb2 NODFLG_MARK_A <> 0
            /\ fst (cpr_get_answer_is_yes (s_answers st)) = false
            /\ sign_one ext sa sk st
               = Flow_next (mk_sign kb2 (s_modified st) (s_upd_trust st)
                              (s_primary_pk st)
                              (snd (cpr_get_answer_is_yes (s_answers st)))
                              (s_tty st ++ msgs ++ [Really_sign false])))
        \/ (count_uids_with_flag kb2 NODFLG_MARK_A <> 0
            /\ fst (cpr_get_answer_is_yes (s_answers st)) = true
            /\ sign_one ext sa sk st
               = sign_reloop ext sk (S (length kb2))
                   (mk_sign kb2 (s_modified st) (s_upd_trust st)
                      (s_primary_pk st)
                      (snd (cpr_get_answer_is_yes (s_answers st)))
                      (s_tty st ++ msgs ++ [Really_sign true])))).
Proof.
  intros kid kb2. unfold sign_one. fold kid.
  pose proof (sign_already_kb kid (sign_mark sa (s_keyblock st)) [] None
                (s_tty st) I) as K.
  destruct (sign_already_tty kid (sign_mark sa (s_keyblock st)) [] None
              (s_tty st)) as (msgs & T & F).
  destruct (sign_already kid [] (sign_mark sa (s_keyblock st)) None
              (s_tty st)) as [kb2' tty2].
  cbn [fst snd app] in K, T. subst kb2' tty2. fold kb2.
  exists msgs. split; [exact F|].
  destruct (Z.eqb_spec (count_uids_with_flag kb2 NODFLG_MARK_A) 0) as [Z0|NZ].
  - left. split; [exact Z0|]. now rewrite <- app_assoc.
  - right. destruct (cpr_get_answer_is_yes (s_answers st)) as [yes rest].
    cbn [fst snd]. destruct yes; cbn [negb].
    + right. repeat split; try assumption. now rewrite <- app_assoc.
    + left. repeat split; try assumption. now rewrite <- app_assoc.
Qed.

Lemma map_pkt_length (a b : KBNODE) : map pkt a = map pkt b -> length a = length b.
Proof. intros H. now rewrite <- (length_map pkt a), H, length_map. Qed.

Lemma sign_one_fuel ext sa sk st : sign_one ext sa sk st <> Flow_out_of_fuel.
Proof.
  destruct (sign_one_cases ext sa sk st) as (msgs & _ & [C|[C|C]]).
  - destruct C as [_ ->]. discriminate.
  - destruct C as (_ & _ & ->). discriminate.
  - destruct C as (_ & _ & ->). apply sign_reloop_fuel. cbn [s_keyblock].
    pose proof (count_flag_le_length
                  (already_spec (sk_keyid sk) (sign_mark sa (s_keyblock st)))
                  NODFLG_MARK_A).
    lia.
Qed.

Lemma sign_one_leave ext sa sk st rc st' :
  sign_one ext sa sk st = Flow_leave rc st' ->
  rc_is_ok rc = false /\ exists pre, s_tty st' = pre ++ [Signing_failed].
Proof.
  destruct (sign_one_cases ext sa sk st) as (msgs & _ & [C|[C|C]]).
  - destruct C as [_ ->]. discriminate.
  - destruct C as (_ & _ & ->). discriminate.
  - destruct C as (_ & _ & ->). intros H.
    apply sign_reloop_leave in H as (R & T & _). split; [exact R|].
    rewrite T. cbn [s_tty]. eexists. reflexivity.
Qed.

(** What a signer leaves behind when the loop goes on to the next one. *)
Lemma sign_one_next ext sa sk st st' :
  sign_one ext sa sk st = Flow_next st' ->
  exists msgs e,
    s_tty st' = s_tty st ++ msgs ++ [e]
    /\ Forall (fun m => m = Already_signed_by_key (sk_keyid sk)) msgs
    /\ ((e = Really_sign false
         /\ uid_groups (s_keyblock st')
            = map (group_marked sa (sk_keyid sk)) (uid_groups (s_keyblock st))
         /\ map pkt (s_keyblock st') = map pkt (s_keyblock st)
         /\ s_modified st' = s_modified st
         /\ s_upd_trust st' = s_upd_trust st
         /\ s_primary_pk st' = s_primary_pk st)
        \/ (e = Nothing_to_sign_with_key (sk_keyid sk)
            /\ uid_groups (s_keyblock st')
               = map (group_signed sa (sk_keyid sk))
                   (uid_groups (s_keyblock st))
            /\ count_uids_with_flag (s_keyblock st') NODFLG_MARK_A = 0
            /\ map pkt (s_keyblock st') = map pkt (s_keyblock st)
            /\ s_modified st' = s_modified st
            /\ s_upd_trust st' = s_upd_trust st
            /\ s_primary_pk st' = s_primary_pk st
            /\ s_answers st' = s_answers st)
        \/ (e = Really_sign true
            /\ uid_groups (s_keyblock st')
               = map (group_signed sa (sk_keyid sk))
                   (uid_groups (s_keyblock st))
            /\ count_uids_with_flag (s_keyblock st') NODFLG_MARK_A = 0
            /\ s_modified st' = true /\ s_upd_trust st' = true
            /\ s_primary_pk st' <> None
            /\ (length (s_keyblock st) < length (s_keyblock st'))%nat)).
Proof.
  intros H.
  destruct (sign_one_cases ext sa sk st) as (msgs & F & [C|[C|C]]).
  - destruct C as [Z0 E]. rewrite E in H. injection H as <-.
    exists msgs, (Nothing_to_sign_with_key (sk_keyid sk)).
    cbn [s_keyblock s_modified s_upd_trust s_primary_pk s_answers s_tty].
    split; [reflexivity|]. split; [exact F|]. right. left.
    repeat split; try assumption; try apply sign_prepared_pkt.
    rewrite sign_prepared_groups. apply group_marked_is_signed.
    rewrite <- sign_prepared_groups. now apply count_marked_groups.
  - destruct C as (NZ & A & E). rewrite E in H. injection H as <-.
    exists msgs, (Really_sign false).
    cbn [s_keyblock s_modified s_upd_trust s_primary_pk s_answers s_tty].
    split; [reflexivity|]. split; [exact F|]. left.
    repeat split; try apply sign_prepared_pkt. apply sign_prepared_groups.
  - destruct C as (NZ & A & E). rewrite E in H.
    apply (sign_reloop_next ext sk _ []
             (already_spec (sk_keyid sk) (sign_mark sa (s_keyblock st))))
      in H; [|reflexivity|reflexivity].
    cbn [s_keyblock s_modified s_upd_trust s_primary_pk s_answers s_tty
         app track_pk] in H.
    destruct H as (K1 & K2 & K3 & K4 & K5 & K6 & _ & K8).
    destruct (K8 NZ) as (M1 & M2 & M3 & M4).
    exists msgs, (Really_sign true).
    split; [exact K5|]. split; [exact F|]. right. right.
    repeat split; try assumption.
    + rewrite K1, sign_spec_groups by (now rewrite <- K1).
      rewrite sign_prepared_groups, map_map. apply map_ext. intros g.
      unfold group_signed, group_marked.
      cbn [g_uid g_selected g_marked g_certifiers]. reflexivity.
    + revert M4. rewrite (map_pkt_length _ _ (sign_prepared_pkt _ _ _)).
      exact (fun x => x).
Qed.

(** *** The loop over the signers *)

Lemma sign_loop_fuel ext sa : forall sks st,
  sign_loop ext sa sks st <> Flow_out_of_fuel.
Proof.
  induction sks as [|sk sks IH]; intros st; cbn [sign_loop]; [discriminate|].
  pose proof (sign_one_fuel ext sa sk st).
  destruct (sign_one ext sa sk st); try discriminate; [apply IH | congruence].
Qed.

Lemma sign_loop_leave ext sa : forall sks st rc st',
  sign_loop ext sa sks st = Flow_leave rc st' ->
  rc_is_ok rc = false /\ exists pre, s_tty st' = pre ++ [Signing_failed].
Proof.
  induction sks as [|sk sks IH]; intros st rc st' H; cbn [sign_loop] in H;
    [discriminate|].
  destruct (sign_one ext sa sk st) eqn:E; try discriminate.
  - now apply IH in H.
  - injection H as <- <-. now apply sign_one_leave in E.
Qed.


(** What the loop printed last tells how the last signer went. *)
Lemma sign_loop_last ext sa : forall sks st st',
  sign_loop ext sa sks st = Flow_next st' ->
  (sks = [] /\ st' = st)
  \/ exists pre e,
       s_tty st' = pre ++ [e]
       /\ (e = Really_sign false
           \/ (e <> Really_sign false /\ e <> Signing_failed
               /\ count_uids_with_flag (s_keyblock st') NODFLG_MARK_A = 0)).
Proof.
  induction sks as [|sk sks IH]; intros st st' H; cbn [sign_loop] in H.
  - injection H as <-. now left.
  - right.
    destruct (sign_one ext sa sk st) as [st1| | |] eqn:E; try discriminate.
    destruct (IH _ _ H) as [[-> ->]|Hl]; [|exact Hl].
    apply sign_one_next in E as (msgs & e & T & _ & [C|[C|C]]).
    + exists (s_tty st ++ msgs), e. rewrite T, <- app_assoc.
      split; [reflexivity|]. left. apply C.
    + exists (s_tty st ++ msgs), e. rewrite T, <- app_assoc.
      split; [reflexivity|]. right. destruct C as (-> & _ & Z0 & _).
      repeat split; try discriminate. exact Z0.
    + exists (s_tty st ++ msgs), e. rewrite T, <- app_assoc.
      split; [reflexivity|]. right. destruct C as (-> & _ & Z0 & _).
      repeat split; try discriminate. exact Z0.
Qed.

Lemma in_already_not_failed kid msgs :
  Forall (fun m => m = Already_signed_by_key kid) msgs ->
  ~ In Signing_failed msgs.
Proof.
  intros F I. rewrite Forall_forall in F. now specialize (F _ I).
Qed.

(** [upd_trust] is set exactly when the list grew, and then the local
    [primary_pk] is not null. *)
Lemma sign_loop_trust ext sa : forall sks st st',
  sign_loop ext sa sks st = Flow_next st' ->
  (s_upd_trust st = true -> s_primary_pk st <> None) ->
  (length (s_keyblock st) <= length (s_keyblock st'))%nat
  /\ (s_upd_trust st' = true -> s_primary_pk st' <> None)
  /\ (s_upd_trust st' = true <->
      s_upd_trust st = true
      \/ (length (s_keyblock st) < length (s_keyblock st'))%nat)
  /\ (In Signing_failed (s_tty st') -> In Signing_failed (s_tty st)).
Proof.
  induction sks as [|sk sks IH]; intros st st' H Inv; cbn [sign_loop] in H.
  - injection H as <-. repeat split; try tauto; try lia.
    intros [K|K]; [exact K | lia].
  - destruct (sign_one ext sa sk st) as [st1| | |] eqn:E; try discriminate.
    apply sign_one_next in E as (msgs & e & T & F & C).
    assert (S1 : (length (s_keyblock st) <= length (s_keyblock st1))%nat
                 /\ (s_upd_trust st1 = true -> s_primary_pk st1 <> None)
                 /\ (s_upd_trust st1 = true <->
                     s_upd_trust st = true
                     \/ (length (s_keyblock st)
                         < length (s_keyblock st1))%nat)
                 /\ e <> Signing_failed).
    { destruct C as [C|[C|C]].
      - destruct C as (-> & _ & P & _ & U & K).
        apply map_pkt_length in P. rewrite U, K, P.
        repeat split; try tauto; try lia; try discriminate.
        intros [X|X]; [exact X | lia].
      - destruct C as (-> & _ & _ & P & _ & U & K & _).
        apply map_pkt_length in P. rewrite U, K, P.
        repeat split; try tauto; try lia; try discriminate.
        intros [X|X]; [exact X | lia].
      - destruct C as (-> & _ & _ & _ & U & K & L).
        repeat split; try tauto; try lia; try discriminate. }
    destruct S1 as (L1 & I1 & U1 & Ne).
    destruct (IH _ _ H I1) as (L2 & I2 & U2 & F2).
    repeat split; try assumption; try lia.
    + rewrite U2, U1. intros [[X|X]|X]; [now left | right; lia | right; lia].
    + rewrite U2, U1. intros [X|X]; [now left; left|].
      destruct (Nat.eq_dec (length (s_keyblock st))
                           (length (s_keyblock st1))) as [Q|Q].
      * right. lia.
      * left. right. lia.
    + intros X. apply F2 in X. rewrite T in X.
      apply in_app_or in X as [X|X]; [exact X|].
      apply in_app_or in X as [X|X].
      * now apply in_already_not_failed in F.
      * destruct X as [X|[]]. now elim Ne.
Qed.

Lemma count_zero_nodes kb m :
  count_uids_with_flag kb m = 0 ->
  forall n, In n kb -> is_uid n = true -> has_flag (flag n) m = false.
Proof.
  induction kb as [|x kb IH]; intros H n I U; [destruct I|].
  apply count_flag_head_zero in H as [Hx H].
  destruct I as [->|I]; [|now apply IH].
  now rewrite U in Hx.
Qed.

(** *** [sign_uids] returns *)

Lemma primary_first_pkt a b :
  map pkt a = map pkt b -> primary_first a = primary_first b.
Proof.
  destruct a as [|x a], b as [|y b]; cbn [map primary_first];
    intros H; try discriminate; [reflexivity|].
  injection H as -> _. reflexivity.
Qed.

Lemma primary_first_sign_spec ext sk ppk kb :
  primary_first kb = true -> primary_first (sign_spec ext sk ppk kb) = true.
Proof.
  destruct kb as [|n kb]; [discriminate|].
  cbn [primary_first sign_spec].
  destruct (pkt n) eqn:P; cbn [pkttype pkttype_eqb]; try discriminate.
  intros _. cbn [primary_first]. now rewrite P.
Qed.

(** With the primary key in front the [assert] holds in every round. *)
Lemma sign_reloop_no_abort ext sk : forall fuel st,
  primary_first (s_keyblock st) = true ->
  sign_reloop ext sk fuel st <> Flow_abort.
Proof.
  induction fuel as [|fuel IH]; intros st Pf; cbn [sign_reloop];
    [discriminate|].
  destruct (sign_scan (s_keyblock st) 0 None) as [p|j p u] eqn:S;
    [discriminate|].
  apply sign_scan_hit in S as (pre & n & post & E & -> & Cp & P & M & T).
  assert (Hp : exists m pre', pre = m :: pre'
                              /\ exists pk, pkt m = pkt_public_key pk).
  { rewrite E in Pf. destruct pre as [|m pre'].
    - cbn [app primary_first] in Pf. rewrite P in Pf. discriminate Pf.
    - exists m, pre'. split; [reflexivity|].
      cbn [app primary_first] in Pf.
      destruct (pkt m) as [pk| | | | |]; try discriminate Pf. now exists pk. }
  destruct Hp as (m & pre' & -> & pk0 & Pm).
  destruct p as [pk|].
  - destruct (make_keysig_packet ext pk u sk 16) as [rc sig].
    destruct (rc_is_ok rc); [|discriminate].
    apply IH. cbn [s_keyblock]. rewrite E.
    assert (R : insert_kbnode
                  (update_node (0 + length (m :: pre')) clear_mark_a
                     ((m :: pre') ++ n :: post))
                  (0 + length (m :: pre')) (new_kbnode (pkt_signature sig))
                = ((m :: pre') ++ [clear_mark_a n;
                                   new_kbnode (pkt_signature sig)]) ++ post)
      by (exact (sign_round_kb [] (m :: pre') n post _)).
    rewrite R. cbn [app primary_first]. now rewrite Pm.
  - cbn [track_pk] in T. rewrite Pm in T. symmetry in T.
    now apply track_pk_some in T.
Qed.

Lemma sign_one_no_abort ext sa sk st :
  primary_first (s_keyblock st) = true ->
  sign_one ext sa sk st <> Flow_abort.
Proof.
  intros Pf.
  destruct (sign_one_cases ext sa sk st) as (msgs & _ & [C|[C|C]]).
  - destruct C as [_ ->]. discriminate.
  - destruct C as (_ & _ & ->). discriminate.
  - destruct C as (_ & _ & ->). apply sign_reloop_no_abort.
    cbn [s_keyblock].
    now rewrite (primary_first_pkt _ _ (sign_prepared_pkt _ _ _)).
Qed.

Lemma sign_one_primary_first ext sa sk st st' :
  sign_one ext sa sk st = Flow_next st' ->
  primary_first (s_keyblock st) = true ->
  primary_first (s_keyblock st') = true.
Proof.
  intros H Pf.
  destruct (sign_one_cases ext sa sk st) as (msgs & _ & [C|[C|C]]).
  - destruct C as [_ E]. rewrite E in H. injection H as <-.
    cbn [s_keyblock].
    now rewrite (primary_first_pkt _ _ (sign_prepared_pkt _ _ _)).
  - destruct C as (_ & _ & E). rewrite E in H. injection H as <-.
    cbn [s_keyblock].
    now rewrite (primary_first_pkt _ _ (sign_prepared_pkt _ _ _)).
  - destruct C as (_ & _ & E). rewrite E in H.
    apply (sign_reloop_next ext sk _ []
             (already_spec (sk_keyid sk) (sign_mark sa (s_keyblock st))))
      in H as (K & _); [|reflexivity|reflexivity].
    rewrite K. cbn [app]. apply primary_first_sign_spec.
    now rewrite (primary_first_pkt _ _ (sign_prepared_pkt _ _ _)).
Qed.

Lemma sign_loop_no_abort ext sa : forall sks st,
  primary_first (s_keyblock st) = true ->
  sign_loop ext sa sks st <> Flow_abort.
Proof.
  induction sks as [|sk sks IH]; intros st Pf; cbn [sign_loop];
    [discriminate|].
  pose proof (sign_one_no_abort ext sa sk st Pf) as Na.
  destruct (sign_one ext sa sk st) as [st1| | |] eqn:E;
    try discriminate; [|now elim Na].
  apply IH. now apply (sign_one_primary_first _ _ _ _ _ E).
Qed.

(** On a keyblock with its primary key in front [sign_uids] returns,
    whatever the collaborators and the operator answer. *)
Lemma sign_uids_returns ext keyblock locusr modified answers pk0 :
  primary_first keyblock = true ->
  exists rc cleared st,
    sign_uids ext keyblock locusr modified answers pk0
    = Returned rc cleared st.
Proof.
  intros Pf. unfold sign_uids.
  destruct (build_sk_list ext locusr) as [rc0 sks].
  destruct (rc_is_ok rc0); cbn [negb]; [|now eexists _, _, _].
  pose proof (sign_loop_no_abort ext (count_selected_uids keyblock =? 0) sks
                (mk_sign keyblock modified false pk0 answers []) Pf) as Na.
  pose proof (sign_loop_fuel ext (count_selected_uids keyblock =? 0) sks
                (mk_sign keyblock modified false pk0 answers [])) as Nf.
  destruct (sign_loop ext _ sks _) as [st|rc st| |];
    [|now eexists _, _, _|now elim Na|now elim Nf].
  destruct (s_upd_trust st); [destruct (s_primary_pk st)|];
    now eexists _, _, _.
Qed.

(** *** The marks left behind *)

(** C4, as the code has it: when [sign_uids] returns and the last thing it
    printed or asked is neither a declined confirmation nor a signing
    failure (its last signer had nothing to sign, or was confirmed and
    signed every candidate), no user id node carries MARK_A. *)
Theorem sign_uids_marks_cleared (ext : collaborators) (keyblock : KBNODE)
    (locusr : list string) (modified : bool) (answers : list bool)
    (pk0 : option PKT_public_key) (rc : g10_rc) (cleared : bool)
    (st : sign_state) (pre : list tty_msg) (e : tty_msg) :
  sign_uids ext keyblock locusr modified answers pk0
  = Returned rc cleared st ->
  s_tty st = pre ++ [e] ->
  e <> Really_sign false -> e <> Signing_failed ->
  forall n, In n (s_keyblock st) -> is_uid n = true ->
            has_flag (flag n) NODFLG_MARK_A = false.
Proof.
  intros H T Nd Nf. unfold sign_uids in H.
  destruct (build_sk_list ext locusr) as [rc0 sks].
  destruct (rc_is_ok rc0); cbn [negb] in H.
  - destruct (sign_loop ext (count_selected_uids keyblock =? 0) sks _)
      as [st1|rc1 st1| |] eqn:L; try discriminate.
    + assert (st1 = st).
      { destruct (s_upd_trust st1); [destruct (s_primary_pk st1)|];
          now injection H. }
      subst st1.
      apply sign_loop_last in L as [[_ ->]|(pre' & e' & T' & K)].
      * cbn [s_tty] in T. now destruct pre.
      * rewrite T in T'. apply app_inj_tail in T' as [_ <-].
        destruct K as [K|(_ & _ & K)]; [now elim Nd|].
        now apply count_zero_nodes.
    + injection H as <- <- <-.
      apply sign_loop_leave in L as (_ & pre' & T').
      rewrite T in T'. apply app_inj_tail in T' as [_ ->]. now elim Nf.
  - injection H as <- <- <-. cbn [s_tty] in T. now destruct pre.
Qed.

Lemma sign_uids_marks_cleared_witness :
  exists st,
    sign_uids sample_ext sample_two_uids [] false [true] None
    = Returned RC_OK true st
    /\ forall n, In n (s_keyblock st) -> is_uid n = true ->
                 has_flag (flag n) NODFLG_MARK_A = false.
Proof.
  eexists. split; [vm_compute; reflexivity|].
  eapply (sign_uids_marks_cleared sample_ext sample_two_uids [] false [true]
            None RC_OK true _ [] (Really_sign true)).
  - vm_compute. reflexivity.
  - reflexivity.
  - discriminate.
  - discriminate.
Defined.

(** C4 as stated fails: after a declined confirmation the candidates stay
    marked, and after a confirmed run over a keyblock without selection the
    primary key node keeps the mark the marking pass gave it. *)
Lemma sign_uids_marks_left :
  (exists rc cleared st n,
     sign_uids sample_ext sample_two_uids [] false [false] None
     = Returned rc cleared st
     /\ In n (s_keyblock st) /\ is_uid n = true
     /\ has_flag (flag n) NODFLG_MARK_A = true)
  /\ (exists rc cleared st n,
        sign_uids sample_ext sample_two_uids [] false [true] None
        = Returned rc cleared st
        /\ In n (s_keyblock st) /\ is_uid n = false
        /\ has_flag (flag n) NODFLG_MARK_A = true).
Proof.
  split.
  - exists RC_OK, false. eexists. exists (uid_node "Alice" NODFLG_MARK_A).
    split; [vm_compute; reflexivity|].
    split; [right; left; reflexivity|]. split; reflexivity.
  - exists RC_OK, true. eexists.
    exists (mk_node (pkt_public_key sample_pk) NODFLG_MARK_A false).
    split; [vm_compute; reflexivity|].
    split; [left; reflexivity|]. split; reflexivity.
Qed.

(** *** The trust flag *)

(** C7, as the code has it: when [sign_uids] returns without a signing
    failure, [clear_trust_checked_flag] was called on the primary key if and
    only if the run put at least one signature into the keyblock. *)
Theorem sign_uids_trust_flag (ext : collaborators) (keyblock : KBNODE)
    (locusr : list string) (modified : bool) (answers : list bool)
    (pk0 : option PKT_public_key) (rc : g10_rc) (cleared : bool)
    (st : sign_state) :
  sign_uids ext keyblock locusr modified answers pk0
  = Returned rc cleared st ->
  ~ In Signing_failed (s_tty st) ->
  (cleared = true <-> (length keyblock < length (s_keyblock st))%nat).
Proof.
  intros H Nf. unfold sign_uids in H.
  destruct (build_sk_list ext locusr) as [rc0 sks].
  destruct (rc_is_ok rc0); cbn [negb] in H.
  - destruct (sign_loop ext (count_selected_uids keyblock =? 0) sks _)
      as [st1|rc1 st1| |] eqn:L; try discriminate.
    + apply sign_loop_trust in L as (_ & I1 & U1 & _);
        [|cbn [s_upd_trust]; discriminate].
      cbn [s_upd_trust s_keyblock] in U1.
      destruct (s_upd_trust st1) eqn:U.
      * specialize (I1 eq_refl).
        destruct (s_primary_pk st1); [|now elim I1].
        injection H as <- <- <-. split; [intros _|reflexivity].
        destruct (proj1 U1 eq_refl) as [X|X]; [discriminate | exact X].
      * injection H as <- <- <-. split; [discriminate|].
        intros X. apply U1. now right.
    + injection H as <- <- <-.
      apply sign_loop_leave in L as (_ & pre & T).
      elim Nf. rewrite T. apply in_or_app. right. now left.
  - injection H as <- <- <-. cbn [s_keyblock]. split; [discriminate | lia].
Qed.

Lemma sign_uids_trust_flag_witness :
  exists st,
    sign_uids sample_ext sample_two_uids [] false [true] None
    = Returned RC_OK true st
    /\ (length sample_two_uids < length (s_keyblock st))%nat.
Proof.
  eexists. split; [vm_compute; reflexivity|].
  eapply (sign_uids_trust_flag sample_ext sample_two_uids [] false [true]
            None RC_OK true).
  - vm_compute. reflexivity.
  - vm_compute. intros [H|[]]. discriminate.
  - reflexivity.
Defined.

(** C7 as stated fails: when the signature for Alice is made and the one
    for Bob fails, the function leaves with a signature in the keyblock and
    without clearing the trust flag. *)
Lemma sign_uids_trust_flag_kept :
  exists rc cleared st,
    sign_uids sample_ext_no_bob sample_two_uids [] false [true] None
    = Returned rc cleared st
    /\ s_upd_trust st = true
    /\ ~ (cleared = true <->
          (length sample_two_uids < length (s_keyblock st))%nat).
Proof.
  exists (G10ERR_other 1), false. eexists.
  split; [vm_compute; reflexivity|]. split; [reflexivity|].
  cbn [s_keyblock]. intros [_ H].
  assert (false = true) by (apply H; vm_compute; lia). discriminate.
Qed.

(** *** Signing twice *)

Lemma keyid_eqb_eq a b : keyid_eqb a b = true <-> a = b.
Proof.
  destruct a as [a0 a1], b as [b0 b1]. unfold keyid_eqb. cbn [fst snd].
  rewrite andb_true_iff, !Z.eqb_eq. split; [intros [-> ->] | intros [= -> ->]];
    tauto.
Qed.

Lemma keyid_eqb_refl a : keyid_eqb a a = true.
Proof. now apply keyid_eqb_eq. Qed.

Lemma certs_by_cons kid k c :
  certs_by kid (k :: c) = (if keyid_eqb kid k then 1 else 0) + certs_by kid c.
Proof.
  unfold certs_by. cbn [filter].
  destruct (keyid_eqb kid k); cbn [length]; lia.
Qed.

Lemma signed_by_certs kid c : signed_by kid c = negb (certs_by kid c =? 0).
Proof.
  induction c as [|k c IH]; [reflexivity|].
  rewrite signed_by_cons, certs_by_cons, IH.
  assert (0 <= certs_by kid c) by (unfold certs_by; lia).
  destruct (keyid_eqb kid k); cbn [orb].
  - destruct (Z.eqb_spec (1 + certs_by kid c) 0); [lia | reflexivity].
  - reflexivity.
Qed.

Lemma group_after_cons sa sk sks g :
  group_after sa (sk :: sks) g
  = group_after sa sks (group_signed sa (sk_keyid sk) g).
Proof. reflexivity. Qed.

Lemma group_after_selected sa sks : forall g,
  g_selected (group_after sa sks g) = g_selected g
  /\ g_uid (group_after sa sks g) = g_uid g.
Proof.
  induction sks as [|sk sks IH]; intros g; [now split|].
  rewrite group_after_cons. destruct (IH (group_signed sa (sk_keyid sk) g))
    as [-> ->]. now split.
Qed.

Lemma group_after_mono sa kid sks : forall g,
  signed_by kid (g_certifiers g) = true ->
  signed_by kid (g_certifiers (group_after sa sks g)) = true.
Proof.
  induction sks as [|sk sks IH]; intros g H; [exact H|].
  rewrite group_after_cons. apply IH.
  unfold group_signed. cbn [g_certifiers].
  destruct ((sa || g_selected g)
            && negb (signed_by (sk_keyid sk) (g_certifiers g)));
    [|exact H].
  rewrite signed_by_cons, H. apply orb_true_r.
Qed.

Lemma group_after_signed sa sks : forall g sk,
  sa || g_selected g = true -> In sk sks ->
  signed_by (sk_keyid sk) (g_certifiers (group_after sa sks g)) = true.
Proof.
  induction sks as [|sk0 sks IH]; intros g sk Cd I; [destruct I|].
  rewrite group_after_cons. destruct I as [->|I].
  - apply group_after_mono. unfold group_signed. cbn [g_certifiers].
    rewrite Cd. cbn [andb].
    destruct (signed_by (sk_keyid sk) (g_certifiers g)) eqn:S; cbn [negb].
    + exact S.
    + rewrite signed_by_cons, keyid_eqb_refl. reflexivity.
  - apply IH; [exact Cd | exact I].
Qed.

(** One certification at most, and one exactly where it was due. *)
Lemma group_after_certs sa kid sks : forall g,
  certs_by kid (g_certifiers (group_after sa sks g))
  = if (sa || g_selected g) && is_signer kid sks
       && (certs_by kid (g_certifiers g) =? 0)
    then 1 else certs_by kid (g_certifiers g).
Proof.
  induction sks as [|sk sks IH]; intros g.
  - cbn [group_after fold_left is_signer existsb].
    now rewrite andb_false_r.
  - rewrite group_after_cons, IH. unfold is_signer. cbn [existsb].
    fold (is_signer kid sks).
    unfold group_signed at 1 2 3. cbn [g_selected g_certifiers].
    destruct (sa || g_selected g); cbn [andb]; [|reflexivity].
    rewrite (signed_by_certs (sk_keyid sk)).
    rewrite negb_involutive.
    destruct (keyid_eqb kid (sk_keyid sk)) eqn:K; cbn [orb].
    + apply keyid_eqb_eq in K. subst kid.
      destruct (certs_by (sk_keyid sk) (g_certifiers g) =? 0) eqn:Z0.
      * rewrite certs_by_cons, keyid_eqb_refl.
        apply Z.eqb_eq in Z0. rewrite Z0. cbn.
        now rewrite andb_false_r.
      * rewrite Z0. now rewrite andb_false_r.
    + destruct (certs_by (sk_keyid sk) (g_certifiers g) =? 0);
        [rewrite certs_by_cons, K|]; reflexivity.
Qed.

Lemma sign_loop_tty ext sa : forall sks st st',
  sign_loop ext sa sks st = Flow_next st' ->
  exists suf, s_tty st' = s_tty st ++ suf.
Proof.
  induction sks as [|sk sks IH]; intros st st' H; cbn [sign_loop] in H.
  - injection H as <-. exists []. now rewrite app_nil_r.
  - destruct (sign_one ext sa sk st) as [st1| | |] eqn:E; try discriminate.
    apply sign_one_next in E as (msgs & e & T & _).
    destruct (IH _ _ H) as (suf & T').
    exists ((msgs ++ [e]) ++ suf). now rewrite T', T, <- !app_assoc.
Qed.

(** The groups after a loop in which every confirmation was given. *)
Lemma sign_loop_groups ext sa : forall sks st st',
  sign_loop ext sa sks st = Flow_next st' ->
  ~ In (Really_sign false) (s_tty st') ->
  uid_groups (s_keyblock st')
  = map (group_after sa sks) (uid_groups (s_keyblock st)).
Proof.
  induction sks as [|sk sks IH]; intros st st' H Nd; cbn [sign_loop] in H.
  - injection H as <-. symmetry. apply map_id.
  - destruct (sign_one ext sa sk st) as [st1| | |] eqn:E; try discriminate.
    rewrite (IH _ _ H Nd).
    destruct (sign_loop_tty _ _ _ _ _ H) as (suf & T').
    apply sign_one_next in E as (msgs & e & T & _ & C).
    assert (G : uid_groups (s_keyblock st1)
                = map (group_signed sa (sk_keyid sk))
                    (uid_groups (s_keyblock st))).
    { destruct C as [C|[C|C]]; [|apply C|apply C].
      destruct C as [-> _]. elim Nd. rewrite T', T.
      apply in_or_app. left. apply in_or_app. right.
      apply in_or_app. right. now left. }
    rewrite G, map_map. now apply map_ext.
Qed.

Lemma count_selected_groups kb :
  count_selected_uids kb
  = Z.of_nat (length (filter (fun b => b) (map g_selected (uid_groups kb)))).
Proof.
  unfold count_selected_uids.
  induction kb as [|n kb IH]; [reflexivity|].
  rewrite count_flag_cons, IH. cbn [uid_groups]. unfold is_uid.
  destruct (pkt n); cbn [pkttype pkttype_eqb andb]; try lia.
  cbn [map g_selected filter].
  destruct (has_flag (flag n) NODFLG_SELUID); cbn [length]; lia.
Qed.

(** A loop over signers that have all certified every candidate: nothing
    is asked, nothing is made. *)
Lemma sign_loop_idle ext sa : forall sks st,
  Forall (fun g => sa || g_selected g = true ->
                   forall sk, In sk sks ->
                     signed_by (sk_keyid sk) (g_certifiers g) = true)
         (uid_groups (s_keyblock st)) ->
  exists st',
    sign_loop ext sa sks st = Flow_next st'
    /\ map pkt (s_keyblock st') = map pkt (s_keyblock st)
    /\ s_modified st' = s_modified st
    /\ s_upd_trust st' = s_upd_trust st
    /\ s_answers st' = s_answers st
    /\ (sks <> [] ->
        count_uids_with_flag (s_keyblock st') NODFLG_MARK_A = 0).
Proof.
  induction sks as [|sk sks IH]; intros st H; cbn [sign_loop].
  - exists st. repeat split. intros K. now elim K.
  - assert (Z0 : count_uids_with_flag
                   (already_spec (sk_keyid sk)
                      (sign_mark sa (s_keyblock st))) NODFLG_MARK_A = 0).
    { apply count_marked_groups. rewrite sign_prepared_groups.
      apply Forall_forall. intros g' Hg.
      apply in_map_iff in Hg as (g & <- & Hg).
      rewrite Forall_forall in H. specialize (H g Hg).
      unfold group_marked. cbn [g_marked].
      destruct (sa || g_selected g); [|reflexivity].
      now rewrite (H eq_refl sk (or_introl eq_refl)). }
    destruct (sign_one_cases ext sa sk st) as (msgs & _ & [C|[C|C]]);
      [|now destruct C|now destruct C].
    destruct C as [_ E]. rewrite E.
    match goal with
    | |- context [sign_loop ext sa sks ?s] => destruct (IH s) as (st' & K)
    end.
    + cbn [s_keyblock]. rewrite sign_prepared_groups.
      apply Forall_forall. intros g' Hg.
      apply in_map_iff in Hg as (g & <- & Hg).
      rewrite Forall_forall in H. specialize (H g Hg).
      unfold group_marked. cbn [g_selected g_certifiers].
      intros Cd sk' I. apply (H Cd). now right.
    + destruct K as (L & P & M & U & A & Z1).
      cbn [s_keyblock s_modified s_upd_trust s_answers] in *.
      exists st'. split; [exact L|].
      rewrite P, sign_prepared_pkt. repeat split; try assumption.
      intros _. destruct sks as [|sk' sks'].
      * cbn [sign_loop] in L. injection L as <-. exact Z0.
      * apply Z1. discriminate.
Qed.

(** Let a run of [sign_uids] go through with every confirmation given
    and no signing failure.  Then every user id group carries, for each key
    id, one certification more than before exactly where the user id was a
    candidate, the key id is a signer's and no certification by it was
    there, and as many as before elsewhere.  A second run with the same
    signers, whatever the operator would answer, asks nothing and inserts
    nothing: the packets, the modified flag and the answers are as the
    first run left them, the trust flag is not touched, and no user id
    keeps MARK_A. *)
Lemma sign_uids_twice_full (ext : collaborators) (kb : KBNODE)
    (locusr : list string) (sks : list PKT_secret_key)
    (modified1 : bool) (answers1 : list bool)
    (pk1 : option PKT_public_key) (rc1 : g10_rc) (cleared1 : bool)
    (st1 : sign_state) (answers2 : list bool)
    (pk2 : option PKT_public_key) :
  build_sk_list ext locusr = (RC_OK, sks) ->
  sign_uids ext kb locusr modified1 answers1 pk1
  = Returned rc1 cleared1 st1 ->
  ~ In Signing_failed (s_tty st1) ->
  ~ In (Really_sign false) (s_tty st1) ->
  (forall kid,
     map (fun g => certs_by kid (g_certifiers g))
         (uid_groups (s_keyblock st1))
     = map (fun g =>
              if ((count_selected_uids kb =? 0) || g_selected g)
                 && is_signer kid sks
                 && (certs_by kid (g_certifiers g) =? 0)
              then 1 else certs_by kid (g_certifiers g))
           (uid_groups kb))
  /\ exists st2,
       sign_uids ext (s_keyblock st1) locusr (s_modified st1) answers2 pk2
       = Returned RC_OK false st2
       /\ map pkt (s_keyblock st2) = map pkt (s_keyblock st1)
       /\ s_modified st2 = s_modified st1
       /\ s_answers st2 = answers2
       /\ (sks <> [] ->
           forall n, In n (s_keyblock st2) -> is_uid n = true ->
                     has_flag (flag n) NODFLG_MARK_A = false).
Proof.
  intros B H Nf Nd. unfold sign_uids in H. rewrite B in H.
  cbn [rc_is_ok negb] in H.
  destruct (sign_loop ext (count_selected_uids kb =? 0) sks _)
    as [st1'|rc' st1'| |] eqn:L; try discriminate.
  2:{ injection H as <- <- <-.
      apply sign_loop_leave in L as (_ & pre & T).
      elim Nf. rewrite T. apply in_or_app. right. now left. }
  assert (st1' = st1).
  { destruct (s_upd_trust st1'); [destruct (s_primary_pk st1')|];
      now injection H. }
  subst st1'. clear H.
  pose proof (sign_loop_groups _ _ _ _ _ L Nd) as G. cbn [s_keyblock] in G.
  split.
  - intros kid. rewrite G, map_map. apply map_ext. intros g.
    apply group_after_certs.
  - unfold sign_uids. rewrite B. cbn [rc_is_ok negb].
    assert (Sa : (count_selected_uids (s_keyblock st1) =? 0)
                 = (count_selected_uids kb =? 0)).
    { rewrite !count_selected_groups, G, map_map. do 4 f_equal.
      apply map_ext. intros g. apply group_after_selected. }
    rewrite Sa.
    destruct (sign_loop_idle ext (count_selected_uids kb =? 0) sks
                (mk_sign (s_keyblock st1) (s_modified st1) false pk2
                   answers2 []))
      as (st2 & L2 & P & M & U & A & Z1).
    + cbn [s_keyblock]. rewrite G. apply Forall_forall. intros g' Hg.
      apply in_map_iff in Hg as (g & <- & Hg). intros Cd sk I.
      apply group_after_signed; [|exact I].
      now rewrite (proj1 (group_after_selected _ sks g)) in Cd.
    + cbn [s_keyblock s_modified s_upd_trust s_answers] in *.
      exists st2. rewrite L2, U. repeat split; try assumption.
      intros Ne n I Un. now apply (count_zero_nodes _ _ (Z1 Ne)).
Qed.

(** ** Changing the passphrase *)

Lemma rc_is_ok_eq rc : rc_is_ok rc = true <-> rc = RC_OK.
Proof. destruct rc; split; intros H; try discriminate; reflexivity. Qed.

Lemma primary_secret_key_cons node next :
  primary_secret_key (node :: next)
  = match pkt node with
    | pkt_secret_key sk => Some sk
    | _ => primary_secret_key next
    end.
Proof.
  unfold primary_secret_key, find_kbnode. cbn [find].
  destruct (pkt node) eqn:P; cbn [pkttype pkttype_eqb]; try reflexivity.
  now rewrite P.
Qed.

Lemma primary_secret_key_set sk1 kb sk :
  primary_secret_key kb = Some sk ->
  primary_secret_key (set_primary_secret_key sk1 kb) = Some sk1.
Proof.
  induction kb as [|node next IH]; [discriminate|].
  rewrite primary_secret_key_cons. cbn [set_primary_secret_key].
  destruct (pkt node) eqn:P; intros H; rewrite primary_secret_key_cons;
    cbn [with_pkt pkt]; rewrite ?P; auto.
Qed.

(** When the loop over the subkeys ends without error it was entered
    without error, every subkey is unprotected afterwards and the primary
    key packet is the one it was. *)
Lemma unlock_subkeys_ok ext pp : forall kb rc rc' kb',
  unlock_subkeys ext pp rc kb = (rc', kb') ->
  rc_is_ok rc' = true ->
  rc_is_ok rc = true
  /\ (forall node subsk,
        In node kb' -> pkt node = pkt_secret_subkey subsk ->
        is_protected subsk = false)
  /\ primary_secret_key kb' = primary_secret_key kb.
Proof.
  induction kb as [|node next IH]; intros rc rc' kb' H Ok;
    cbn [unlock_subkeys] in H.
  - injection H as <- <-. repeat split; [exact Ok|]. intros ? ? [].
  - destruct (rc_is_ok rc) eqn:R;
      [|injection H as <- <-; congruence].
    destruct (pkt node) eqn:P;
      try (destruct (unlock_subkeys ext pp rc next) as [rc2 next'] eqn:U;
           injection H as <- <-;
           destruct (IH _ _ _ U Ok) as (_ & S & Pr);
           split; [reflexivity|]; split;
           [intros n s [<-|I] Pn; [congruence | now apply (S n s)]
           |rewrite !primary_secret_key_cons, P; auto]).
    unfold check_secret_key in H.
    destruct (unlock_answer ext sk pp) as [rc1 last].
    destruct (rc_is_ok rc1) eqn:R1.
    + destruct (unlock_subkeys ext pp rc1 next) as [rc2 next'] eqn:U.
      injection H as <- <-.
      destruct (IH _ _ _ U Ok) as (_ & S & Pr).
      split; [reflexivity|]. split.
      * intros n s [<-|I] Pn; [|now apply (S n s)].
        cbn [with_pkt pkt] in Pn. now injection Pn as <-.
      * rewrite !primary_secret_key_cons, P. cbn [with_pkt pkt]. exact Pr.
    + destruct (unlock_subkeys ext pp rc1 next) as [rc2 next'] eqn:U.
      injection H as <- <-.
      destruct (IH _ _ _ U Ok) as (R1' & _). congruence.
Qed.

Lemma unlock_keys_ok ext kb sk next0 sk1 kb1 :
  primary_secret_key kb = Some sk ->
  unlock_keys ext kb sk next0 = (RC_OK, sk1, kb1) ->
  is_protected sk1 = false
  /\ primary_secret_key kb1 = Some sk1
  /\ (forall node subsk,
        In node kb1 -> pkt node = pkt_secret_subkey subsk ->
        is_protected subsk = false).
Proof.
  intros Pk H. unfold unlock_keys in H.
  set (first :=
         if is_secret_key_protected ext sk =? -1
         then (G10ERR_PUBKEY_ALGO, sk, None)
         else if is_secret_key_protected ext sk =? 0
              then (RC_OK, sk, None)
              else let '(rc, sk1, last) := check_secret_key ext sk next0 in
                   (rc, sk1, if rc_is_ok rc then last else None)) in H.
  assert (F : forall rc s p, first = (rc, s, p) ->
                rc_is_ok rc = true -> is_protected s = false).
  { subst first. intros rc s p. unfold is_secret_key_protected.
    destruct (pubkey_algo_supported ext sk); cbn [negb].
    - destruct (is_protected sk) eqn:Ip.
      + cbn. unfold check_secret_key.
        destruct (unlock_answer ext sk next0) as [rc0 last].
        destruct (rc_is_ok rc0) eqn:R0; intros [= <- <- <-] Ok;
          [reflexivity | congruence].
      + cbn. now intros [= <- <- <-] _.
    - cbn. intros [= <- <- <-]. discriminate. }
  destruct first as [[rc s] p].
  destruct (unlock_subkeys ext p rc (set_primary_secret_key s kb))
    as [rc' kb'] eqn:U.
  injection H as -> -> ->.
  destruct (unlock_subkeys_ok _ _ _ _ _ _ U eq_refl) as (R & S & Pr).
  split; [now apply (F rc sk1 p)|]. split; [|exact S].
  rewrite Pr. now apply (primary_secret_key_set _ _ sk).
Qed.

Lemma new_passphrase_loop_empty ext opt dek more answers sk kb : forall n,
  dek_keylen dek = 0 ->
  new_passphrase_loop ext opt (repeat None n ++ Some dek :: more)
    (true :: answers) sk kb
  = Some (RC_OK, 1, kb, answers).
Proof.
  intros n Hk. induction n as [|n IH]; cbn [repeat app new_passphrase_loop].
  - now rewrite Hk.
  - exact IH.
Qed.

(** C6: when the keys were unlocked, the new passphrase comes back empty
    (after any number of entries not correctly repeated) and the operator
    confirms, [change_passphrase] returns "changed", the menu marks the
    secret keyblock modified, and the primary secret key and every secret
    subkey of the keyblock are marked unprotected. *)
Theorem change_passphrase_empty (ext : collaborators) (opt : options)
    (s : session) (sec : KBNODE) (sk sk1 : PKT_secret_key) (kb1 : KBNODE)
    (next_passphrase0 : option string) (mismatches : nat) (dek : DEK)
    (more_deks : list (option DEK)) (more_answers : list bool) :
  sec_keyblock s = Some sec ->
  primary_secret_key sec = Some sk ->
  unlock_keys ext sec sk next_passphrase0 = (RC_OK, sk1, kb1) ->
  dek_keylen dek = 0 ->
  let deks := repeat None mismatches ++ Some dek :: more_deks in
  change_passphrase ext opt sec next_passphrase0 deks (true :: more_answers)
  = Some (true, kb1, more_answers)
  /\ cmd_passwd ext opt s next_passphrase0 deks (true :: more_answers)
     = Some (mk_session (keyblock s) (Some kb1) (modified s) true
               (redisplay s), more_answers)
  /\ (exists sk', primary_secret_key kb1 = Some sk'
                  /\ is_protected sk' = false)
  /\ (forall node subsk,
        In node kb1 -> pkt node = pkt_secret_subkey subsk ->
        is_protected subsk = false).
Proof.
  intros Hs Pk U Hk deks.
  assert (C : change_passphrase ext opt sec next_passphrase0 deks
                (true :: more_answers) = Some (true, kb1, more_answers)).
  { unfold change_passphrase. rewrite Pk, U. cbn [rc_is_ok negb].
    subst deks. now rewrite new_passphrase_loop_empty. }
  destruct (unlock_keys_ok _ _ _ _ _ _ Pk U) as (Ip & Pr & S).
  split; [exact C|]. split; [|split; [now exists sk1 | exact S]].
  unfold cmd_passwd. now rewrite Hs, C.
Qed.

Lemma change_passphrase_empty_witness :
  let sec := [ new_kbnode (pkt_secret_key sample_sk);
               uid_node "Alice" 0;
               new_kbnode (pkt_secret_subkey (mk_sk kid_S true 3 (mk_s2k 1 2))) ]
  in
  exists kb1,
    cmd_passwd sample_ext (mk_opt 1 2 3)
      (mk_session sample_two_uids (Some sec) false false false) None
      [None; Some (mk_dek 3 0)] [true]
    = Some (mk_session sample_two_uids (Some kb1) false true false, [])
    /\ (exists sk', primary_secret_key kb1 = Some sk'
                    /\ is_protected sk' = false)
    /\ (forall node subsk,
          In node kb1 -> pkt node = pkt_secret_subkey subsk ->
          is_protected subsk = false).
Proof.
  intros sec. eexists.
  refine (proj2 (change_passphrase_empty sample_ext (mk_opt 1 2 3)
                   (mk_session sample_two_uids (Some sec) false false false)
                   sec sample_sk _ _ None 1 (mk_dek 3 0) [] []
                   eq_refl eq_refl _ eq_refl)).
  vm_compute. reflexivity.
Defined.

(** ** The pairing of the two keyblocks *)

Lemma uid_eqb_eq a b : uid_eqb a b = true <-> uid_name a = uid_name b.
Proof. unfold uid_eqb. apply String.eqb_eq. Qed.

Lemma commit_kbnode_In kb n :
  In n (commit_kbnode kb) <-> In n kb /\ deleted n = false.
Proof.
  unfold commit_kbnode. rewrite filter_In.
  now destruct (deleted n).
Qed.

(** *** Removing user ids *)

Lemma deluid_sec_from u : forall sec s n',
  In n' (deluid_sec u s sec) -> deleted n' = false ->
  In n' sec /\ (forall su, pkt n' = pkt_user_id su -> uid_eqb u su = false).
Proof.
  induction sec as [|m sec IH]; intros s n' I L; [destruct I|].
  cbn [deluid_sec] in I.
  destruct (pkt m) eqn:P; destruct I as [<-|I];
    try (destruct (IH _ _ I L) as [I' K]; split; [now right | exact K]);
    try (split; [now left | intros su Q; congruence]).
  - destruct (uid_eqb u uid) eqn:E; [discriminate L|].
    split; [now left|]. intros su Q. congruence.
  - destruct s; [discriminate L|].
    split; [now left|]. intros su Q. congruence.
Qed.

Lemma deluid_sec_keep u : forall sec s n,
  In n sec ->
  match pkt n with
  | pkt_user_id su => uid_eqb u su = false
  | pkt_signature _ => False
  | _ => True
  end ->
  In n (deluid_sec u s sec).
Proof.
  induction sec as [|m sec IH]; intros s n I K; [destruct I|].
  cbn [deluid_sec].
  destruct I as [->|I].
  - destruct (pkt n) eqn:P; try (now left).
    rewrite K. now left.
  - destruct (pkt m); right; now apply IH.
Qed.

(** Read a component of a destructed pair as the first projection of the
    call it came from. *)
Ltac fold_fst D I :=
  match type of D with
  | _ = (?p, ?s) => change p with (fst (p, s)) in I; rewrite <- D in I
  end.

(** What [deluid_pub] leaves live in the public block. *)
Lemma deluid_pub_fst_from : forall pub sel sec n',
  In n' (fst (deluid_pub sel pub sec)) -> deleted n' = false ->
  In n' pub
  /\ (forall u, pkt n' = pkt_user_id u ->
        has_flag (flag n') NODFLG_SELUID = false).
Proof.
  induction pub as [|node next IH]; intros sel sec n' I L; [destruct I|].
  cbn [deluid_pub] in I.
  assert (Rec : forall sel0 sec0,
            In n' (fst (deluid_pub sel0 next sec0)) ->
            In n' (node :: next)
            /\ (forall u, pkt n' = pkt_user_id u ->
                  has_flag (flag n') NODFLG_SELUID = false)).
  { intros sel0 sec0 I0. destruct (IH _ _ _ I0 L) as [I1 K].
    split; [now right | exact K]. }
  destruct (pkt node) eqn:P.
  1-4: destruct (deluid_pub _ next sec) as [p0 s0] eqn:D; cbn [fst] in I;
       destruct I as [<-|I];
       [split; [now left | intros u Q; congruence]
       | fold_fst D I; exact (Rec _ _ I)].
  - destruct (has_flag (flag node) NODFLG_SELUID) eqn:Sel.
    + destruct (deluid_pub true next _) as [p0 s0] eqn:D; cbn [fst] in I.
      destruct I as [<-|I]; [discriminate L|].
      fold_fst D I. exact (Rec _ _ I).
    + destruct (deluid_pub false next sec) as [p0 s0] eqn:D; cbn [fst] in I.
      destruct I as [<-|I].
      * split; [now left | intros; exact Sel].
      * fold_fst D I. exact (Rec _ _ I).
  - destruct (deluid_pub sel next sec) as [p0 s0] eqn:D; cbn [fst] in I.
    destruct I as [<-|I].
    + destruct sel; [discriminate L|].
      split; [now left | intros u Q; congruence].
    + fold_fst D I. exact (Rec _ _ I).
Qed.

Lemma deluid_pub_fst_keep : forall pub sel sec n,
  In n pub ->
  match pkt n with
  | pkt_user_id _ => has_flag (flag n) NODFLG_SELUID = false
  | pkt_signature _ => False
  | _ => True
  end ->
  In n (fst (deluid_pub sel pub sec)).
Proof.
  induction pub as [|node next IH]; intros sel sec n I K; [destruct I|].
  cbn [deluid_pub].
  destruct I as [->|I].
  - destruct (pkt n) eqn:P; try (now destruct K);
      try rewrite K;
      match goal with
      | |- context [deluid_pub ?s0 next ?c0] =>
          destruct (deluid_pub s0 next c0); now left
      end.
  - destruct (pkt node);
      try destruct (has_flag (flag node) NODFLG_SELUID);
      match goal with
      | |- context [deluid_pub ?s0 next ?c0] =>
          specialize (IH s0 c0 n I K);
          destruct (deluid_pub s0 next c0); now right
      end.
Qed.

(** What [deluid_pub] leaves live in the secret block. *)
Lemma deluid_pub_snd : forall pub sel sec,
  exists sec',
    snd (deluid_pub sel pub (Some sec)) = Some sec'
    /\ (forall m', In m' sec' -> deleted m' = false ->
          In m' sec
          /\ (forall su n u,
                pkt m' = pkt_user_id su -> In n pub ->
                pkt n = pkt_user_id u ->
                has_flag (flag n) NODFLG_SELUID = true ->
                uid_eqb u su = false))
    /\ (forall m, In m sec ->
          match pkt m with
          | pkt_user_id su =>
              forall n u, In n pub -> pkt n = pkt_user_id u ->
                has_flag (flag n) NODFLG_SELUID = true ->
                uid_eqb u su = false
          | pkt_signature _ => False
          | _ => True
          end -> In m sec').
Proof.
  induction pub as [|node next IH]; intros sel sec.
  - exists sec. split; [reflexivity|]. split.
    + intros m' I L. split; [exact I|]. intros su n u _ [].
    + intros m I _. exact I.
  - assert (Plain : forall sel0,
      (forall u, pkt node <> pkt_user_id u) ->
      exists sec',
        snd (deluid_pub sel0 next (Some sec)) = Some sec'
        /\ (forall m', In m' sec' -> deleted m' = false ->
              In m' sec
              /\ (forall su n u,
                    pkt m' = pkt_user_id su -> In n (node :: next) ->
                    pkt n = pkt_user_id u ->
                    has_flag (flag n) NODFLG_SELUID = true ->
                    uid_eqb u su = false))
        /\ (forall m, In m sec ->
              match pkt m with
              | pkt_user_id su =>
                  forall n u, In n (node :: next) ->
                    pkt n = pkt_user_id u ->
                    has_flag (flag n) NODFLG_SELUID = true ->
                    uid_eqb u su = false
              | pkt_signature _ => False
              | _ => True
              end -> In m sec')).
    { intros sel0 Nu. destruct (IH sel0 sec) as (sec' & E & A & B).
      exists sec'. split; [exact E|]. split.
      - intros m' I L. destruct (A m' I L) as [I1 K]. split; [exact I1|].
        intros su n u Q [<-|In'] Pn Sn; [now elim (Nu u)|].
        now apply (K su n u).
      - intros m I K. apply B; [exact I|].
        destruct (pkt m); try exact K.
        intros n u In' Pn Sn.
        apply (K n u); [now right | exact Pn | exact Sn]. }
    cbn [deluid_pub].
    destruct (pkt node) eqn:P;
      try (match goal with
           | |- context [deluid_pub ?s0 next (Some sec)] =>
               destruct (Plain s0 ltac:(congruence)) as (sec' & E & A & B);
               exists sec'; destruct (deluid_pub s0 next (Some sec));
               cbn [snd] in *; split; [exact E|]; split; assumption
           end).
    destruct (has_flag (flag node) NODFLG_SELUID) eqn:Sel.
    + cbn [option_map].
        destruct (IH true (deluid_sec uid false sec)) as (sec' & E & A & B).
        exists sec'.
        destruct (deluid_pub true next (Some (deluid_sec uid false sec))).
        cbn [snd] in *. split; [exact E|]. split.
      * intros m' I L. destruct (A m' I L) as [I1 K].
           destruct (deluid_sec_from uid sec false m' I1 L) as [I2 K2].
           split; [exact I2|].
           intros su n u Q [<-|In'] Pn Sn.
        -- replace u with uid by congruence. now apply K2.
        -- now apply (K su n u).
      * intros m I K. apply B.
        -- apply deluid_sec_keep; [exact I|].
              destruct (pkt m); try exact K.
              apply (K node uid); [now left | exact P | exact Sel].
        -- destruct (pkt m); try exact K.
              intros n u In' Pn Sn.
              apply (K n u); [now right | exact Pn | exact Sn].
    + destruct (IH false sec) as (sec' & E & A & B).
        exists sec'. destruct (deluid_pub false next (Some sec)).
        cbn [snd] in *. split; [exact E|]. split.
      * intros m' I L. destruct (A m' I L) as [I1 K]. split; [exact I1|].
           intros su n u Q [<-|In'] Pn Sn; [congruence|].
           now apply (K su n u).
      * intros m I K. apply B; [exact I|].
           destruct (pkt m); try exact K.
           intros n u In' Pn Sn.
           apply (K n u); [now right | exact Pn | exact Sn].
Qed.

(** *** Removing subkeys *)

Lemma delkey_sec_from ki : forall sec s n',
  In n' (delkey_sec ki s sec) -> deleted n' = false ->
  In n' sec
  /\ (forall sk, pkt n' = pkt_secret_subkey sk ->
        keyid_eqb ki (sk_keyid sk) = false).
Proof.
  induction sec as [|m sec IH]; intros s n' I L; [destruct I|].
  cbn [delkey_sec] in I.
  destruct (pkt m) eqn:P; try destruct s; destruct I as [<-|I];
    try (destruct (IH _ _ I L) as [I' K]; split; [now right | exact K]);
    try (split; [now left | intros sk0 Q; congruence]);
    try discriminate L.
  all: destruct (keyid_eqb ki (sk_keyid sk)) eqn:E; [discriminate L|].
  all: split; [now left|]; intros sk0 Q; congruence.
Qed.

Lemma delkey_sec_keep ki : forall sec s n,
  In n sec ->
  match pkt n with
  | pkt_secret_subkey sk => keyid_eqb ki (sk_keyid sk) = false
  | pkt_signature _ => False
  | _ => True
  end ->
  In n (delkey_sec ki s sec).
Proof.
  induction sec as [|m sec IH]; intros s n I K; [destruct I|].
  cbn [delkey_sec].
  destruct I as [->|I].
  - destruct (pkt n) eqn:P; try (now left); try (now destruct K).
    rewrite K. now left.
  - destruct (pkt m); try destruct s; right; now apply IH.
Qed.

Lemma delkey_pub_fst_from : forall pub sel sec n',
  In n' (fst (delkey_pub sel pub sec)) -> deleted n' = false ->
  In n' pub
  /\ (forall pk, pkt n' = pkt_public_subkey pk ->
        has_flag (flag n') NODFLG_SELKEY = false).
Proof.
  induction pub as [|node next IH]; intros sel sec n' I L; [destruct I|].
  cbn [delkey_pub] in I.
  assert (Rec : forall sel0 sec0,
            In n' (fst (delkey_pub sel0 next sec0)) ->
            In n' (node :: next)
            /\ (forall pk, pkt n' = pkt_public_subkey pk ->
                  has_flag (flag n') NODFLG_SELKEY = false)).
  { intros sel0 sec0 I0. destruct (IH _ _ _ I0 L) as [I1 K].
    split; [now right | exact K]. }
  destruct (pkt node) eqn:P;
    try destruct (has_flag (flag node) NODFLG_SELKEY) eqn:Sel;
    try destruct sel;
    match type of I with
    | context [delkey_pub ?s0 next ?c0] =>
        destruct (delkey_pub s0 next c0) as [p0 s1] eqn:D
    end;
    cbn [fst] in I; destruct I as [<-|I];
    try (fold_fst D I; exact (Rec _ _ I));
    try discriminate L;
    (split; [now left | intros pk0 Q; congruence]).
Qed.

Lemma delkey_pub_fst_keep : forall pub sel sec n,
  In n pub ->
  match pkt n with
  | pkt_public_subkey _ => has_flag (flag n) NODFLG_SELKEY = false
  | pkt_signature _ => False
  | _ => True
  end ->
  In n (fst (delkey_pub sel pub sec)).
Proof.
  induction pub as [|node next IH]; intros sel sec n I K; [destruct I|].
  cbn [delkey_pub].
  destruct I as [->|I].
  - destruct (pkt n) eqn:P; try (now destruct K);
      try rewrite K;
      match goal with
      | |- context [delkey_pub ?s0 next ?c0] =>
          destruct (delkey_pub s0 next c0); now left
      end.
  - destruct (pkt node);
      try destruct (has_flag (flag node) NODFLG_SELKEY);
      try destruct sel;
      match goal with
      | |- context [delkey_pub ?s0 next ?c0] =>
          specialize (IH s0 c0 n I K);
          destruct (delkey_pub s0 next c0); now right
      end.
Qed.

Lemma delkey_pub_snd : forall pub sel sec,
  exists sec',
    snd (delkey_pub sel pub (Some sec)) = Some sec'
    /\ (forall m', In m' sec' -> deleted m' = false ->
          In m' sec
          /\ (forall sk n pk,
                pkt m' = pkt_secret_subkey sk -> In n pub ->
                pkt n = pkt_public_subkey pk ->
                has_flag (flag n) NODFLG_SELKEY = true ->
                keyid_eqb (pk_keyid pk) (sk_keyid sk) = false))
    /\ (forall m, In m sec ->
          match pkt m with
          | pkt_secret_subkey sk =>
              forall n pk, In n pub -> pkt n = pkt_public_subkey pk ->
                has_flag (flag n) NODFLG_SELKEY = true ->
                keyid_eqb (pk_keyid pk) (sk_keyid sk) = false
          | pkt_signature _ => False
          | _ => True
          end -> In m sec').
Proof.
  induction pub as [|node next IH]; intros sel sec.
  - exists sec. split; [reflexivity|]. split.
    + intros m' I L. split; [exact I|]. intros sk n pk _ [].
    + intros m I _. exact I.
  - assert (Plain : forall sel0,
      (forall pk, pkt node <> pkt_public_subkey pk) ->
      exists sec',
        snd (delkey_pub sel0 next (Some sec)) = Some sec'
        /\ (forall m', In m' sec' -> deleted m' = false ->
              In m' sec
              /\ (forall sk n pk,
                    pkt m' = pkt_secret_subkey sk -> In n (node :: next) ->
                    pkt n = pkt_public_subkey pk ->
                    has_flag (flag n) NODFLG_SELKEY = true ->
                    keyid_eqb (pk_keyid pk) (sk_keyid sk) = false))
        /\ (forall m, In m sec ->
              match pkt m with
              | pkt_secret_subkey sk =>
                  forall n pk, In n (node :: next) ->
                    pkt n = pkt_public_subkey pk ->
                    has_flag (flag n) NODFLG_SELKEY = true ->
                    keyid_eqb (pk_keyid pk) (sk_keyid sk) = false
              | pkt_signature _ => False
              | _ => True
              end -> In m sec')).
    { intros sel0 Nu. destruct (IH sel0 sec) as (sec' & E & A & B).
      exists sec'. split; [exact E|]. split.
      - intros m' I L. destruct (A m' I L) as [I1 K]. split; [exact I1|].
        intros sk n pk Q [<-|In'] Pn Sn; [now elim (Nu pk)|].
        now apply (K sk n pk).
      - intros m I K. apply B; [exact I|].
        destruct (pkt m); try exact K.
        intros n pk In' Pn Sn.
        apply (K n pk); [now right | exact Pn | exact Sn]. }
    cbn [delkey_pub].
    destruct (pkt node) eqn:P; try destruct sel;
      try (match goal with
           | |- context [delkey_pub ?s0 next (Some sec)] =>
               destruct (Plain s0 ltac:(congruence)) as (sec' & E & A & B);
               exists sec'; destruct (delkey_pub s0 next (Some sec));
               cbn [snd] in *; split; [exact E|]; split; assumption
           end).
    all: destruct (has_flag (flag node) NODFLG_SELKEY) eqn:Sel.
    all: try (destruct (IH false sec) as (sec' & E & A & B);
              exists sec'; destruct (delkey_pub false next (Some sec));
              cbn [snd] in *; split; [exact E|]; split;
              [ intros m' I L; destruct (A m' I L) as [I1 K];
                split; [exact I1|];
                intros sk n pk0 Q [<-|In'] Pn Sn; [congruence|];
                now apply (K sk n pk0)
              | intros m I K; apply B; [exact I|];
                destruct (pkt m); try exact K;
                intros n pk0 In' Pn Sn;
                apply (K n pk0); [now right | exact Pn | exact Sn] ]).
    all: cbn [option_map];
      destruct (IH true (delkey_sec (pk_keyid pk) false sec))
        as (sec' & E & A & B);
      exists sec';
      destruct (delkey_pub true next
                  (Some (delkey_sec (pk_keyid pk) false sec)));
      cbn [snd] in *; split; [exact E|]; split.
    all: try (intros m' I L; destruct (A m' I L) as [I1 K];
              destruct (delkey_sec_from _ sec false m' I1 L) as [I2 K2];
              split; [exact I2|];
              intros sk n pk0 Q [<-|In'] Pn Sn;
              [ replace pk0 with pk by congruence; now apply K2
              | now apply (K sk n pk0) ]).
    all: intros m I K; apply B;
      [ apply delkey_sec_keep; [exact I|];
        destruct (pkt m); try exact K;
        apply (K node pk); [now left | exact P | exact Sel]
      | destruct (pkt m); try exact K;
        intros n pk0 In' Pn Sn;
        apply (K n pk0); [now right | exact Pn | exact Sn] ].
Qed.

(** *** The removals return *)

Lemma snd_let {A B C : Type} (x : A * B) (f : A -> C) :
  snd (let '(p, s) := x in (f p, s)) = snd x.
Proof. now destruct x. Qed.

Lemma deluid_pub_head : forall pub sel m sec,
  pkttype_eqb (pkttype (pkt m)) PKT_SECRET_KEY = true ->
  deleted m = false ->
  exists sec', snd (deluid_pub sel pub (Some (m :: sec))) = Some (m :: sec').
Proof.
  induction pub as [|node next IH]; intros sel m sec Pm Dm.
  - now exists sec.
  - cbn [deluid_pub].
    destruct (pkt node);
      try destruct (has_flag (flag node) NODFLG_SELUID);
      rewrite snd_let; try (now apply IH).
    cbn [option_map deluid_sec].
    destruct (pkt m) eqn:Q; try discriminate Pm.
    apply IH; [now rewrite Q | exact Dm].
Qed.

Lemma delkey_pub_head : forall pub sel m sec,
  pkttype_eqb (pkttype (pkt m)) PKT_SECRET_KEY = true ->
  deleted m = false ->
  exists sec', snd (delkey_pub sel pub (Some (m :: sec))) = Some (m :: sec').
Proof.
  induction pub as [|node next IH]; intros sel m sec Pm Dm.
  - now exists sec.
  - cbn [delkey_pub].
    destruct (pkt node);
      try destruct (has_flag (flag node) NODFLG_SELKEY);
      try destruct sel;
      rewrite snd_let; try (now apply IH).
    all: cbn [option_map delkey_sec];
      destruct (pkt m) eqn:Q; try discriminate Pm;
      apply IH; [now rewrite Q | exact Dm].
Qed.

(** With live primary keys in front of both blocks the two removals
    return. *)
Lemma menu_deluid_returns n pub m sec :
  primary_first (n :: pub) = true -> deleted n = false ->
  secret_first (m :: sec) = true -> deleted m = false ->
  exists pub' sec',
    menu_deluid (n :: pub) (Some (m :: sec)) = Some (pub', Some sec').
Proof.
  intros Pn Dn Pm Dm. unfold menu_deluid.
  destruct (deluid_pub_head (n :: pub) false m sec Pm Dm) as (sec' & E).
  cbn [deluid_pub primary_first] in *.
  destruct (pkt n); try discriminate Pn.
  destruct (deluid_pub false pub (Some (m :: sec))) as [p s].
  cbn [snd] in E. subst s. unfold commit_blocks.
  cbn [root_survives]. rewrite Dn, Dm. cbn. now eexists _, _.
Qed.

Lemma menu_delkey_returns n pub m sec :
  primary_first (n :: pub) = true -> deleted n = false ->
  secret_first (m :: sec) = true -> deleted m = false ->
  exists pub' sec',
    menu_delkey (n :: pub) (Some (m :: sec)) = Some (pub', Some sec').
Proof.
  intros Pn Dn Pm Dm. unfold menu_delkey.
  destruct (delkey_pub_head (n :: pub) false m sec Pm Dm) as (sec' & E).
  cbn [delkey_pub primary_first] in *.
  destruct (pkt n); try discriminate Pn.
  destruct (delkey_pub false pub (Some (m :: sec))) as [p s].
  cbn [snd] in E. subst s. unfold commit_blocks.
  cbn [root_survives]. rewrite Dn, Dm. cbn. now eexists _, _.
Qed.

(** *** Adding a user id *)

Lemma insert_kbnode_In kb i x n :
  In n (insert_kbnode kb i x) <-> n = x \/ In n kb.
Proof.
  unfold insert_kbnode.
  rewrite <- (firstn_skipn (S i) kb) at 3.
  rewrite !in_app_iff. cbn [In]. intuition congruence.
Qed.

Lemma adduid_put_In kb w uid sig n :
  In n (adduid_put kb w uid sig)
  <-> n = new_kbnode (pkt_user_id uid)
      \/ n = new_kbnode (pkt_signature sig) \/ In n kb.
Proof.
  unfold adduid_put, add_kbnode. destruct w as [i|].
  - rewrite !insert_kbnode_In. tauto.
  - rewrite !in_app_iff. cbn [In]. intuition congruence.
Qed.

Lemma adduid_put_uid kb w uid sig name :
  live_uid (adduid_put kb w uid sig) name
  <-> name = uid_name uid \/ live_uid kb name.
Proof.
  unfold live_uid. split.
  - intros (n & u & I & L & P & N).
    apply adduid_put_In in I as [->|[->|I]].
    + left. cbn [new_kbnode pkt] in P. injection P as <-. now symmetry.
    + discriminate P.
    + right. now exists n, u.
  - intros [->|(n & u & I & L & P & N)].
    + exists (new_kbnode (pkt_user_id uid)), uid.
      rewrite adduid_put_In. repeat split. now left.
    + exists n, u. rewrite adduid_put_In. repeat split; try assumption.
      now right; right.
Qed.

Lemma adduid_put_public_subkey kb w uid sig kid :
  live_public_subkey (adduid_put kb w uid sig) kid
  <-> live_public_subkey kb kid.
Proof.
  unfold live_public_subkey. split.
  - intros (n & k & I & L & P & N).
    apply adduid_put_In in I as [->|[->|I]]; try discriminate P.
    now exists n, k.
  - intros (n & k & I & L & P & N). exists n, k.
    rewrite adduid_put_In. repeat split; try assumption. now right; right.
Qed.

Lemma adduid_put_secret_subkey kb w uid sig kid :
  live_secret_subkey (adduid_put kb w uid sig) kid
  <-> live_secret_subkey kb kid.
Proof.
  unfold live_secret_subkey. split.
  - intros (n & k & I & L & P & N).
    apply adduid_put_In in I as [->|[->|I]]; try discriminate P.
    now exists n, k.
  - intros (n & k & I & L & P & N). exists n, k.
    rewrite adduid_put_In. repeat split; try assumption. now right; right.
Qed.

Lemma commit_blocks_some p s pub' sec' :
  commit_blocks p (Some s) = Some (pub', Some sec') ->
  pub' = commit_kbnode p /\ sec' = commit_kbnode s.
Proof.
  unfold commit_blocks.
  destruct (root_survives p && root_survives s); [|discriminate].
  cbn [option_map]. now intros [= <- <-].
Qed.

Lemma adduid_scan_pub_some : forall kb i w k,
  exists w' k', adduid_scan_pub kb i w (Some k) = (w', Some k').
Proof.
  induction kb as [|node next IH]; intros i w k; cbn [adduid_scan_pub].
  - now eexists _, _.
  - destruct (pkt node); try apply IH. now eexists _, _.
Qed.

Lemma adduid_scan_sec_some : forall kb i w k,
  exists w' k', adduid_scan_sec kb i w (Some k) = (w', Some k').
Proof.
  induction kb as [|node next IH]; intros i w k; cbn [adduid_scan_sec].
  - now eexists _, _.
  - destruct (pkt node); try apply IH. now eexists _, _.
Qed.

(** With the primary keys in front of both blocks the [assert] of
    [menu_adduid] holds. *)
Lemma menu_adduid_returns ext new_uid pub sec :
  primary_first pub = true -> secret_first sec = true ->
  exists r, menu_adduid ext new_uid pub sec = Some r.
Proof.
  intros Pp Ps. unfold menu_adduid.
  destruct new_uid as [uid|]; [|now eexists].
  destruct pub as [|n pub]; [discriminate|].
  destruct sec as [|m sec]; [discriminate|].
  cbn [primary_first secret_first adduid_scan_pub adduid_scan_sec] in *.
  destruct (pkt n) as [pk| | | | |]; try discriminate Pp.
  destruct (pkt m) as [| |sk| | |]; try discriminate Ps.
  destruct (adduid_scan_pub_some pub 1 (Some 0%nat) pk) as (w1 & k1 & ->).
  destruct (adduid_scan_sec_some sec 1 (Some 0%nat) sk) as (w2 & k2 & ->).
  destruct (make_keysig_packet ext k1 uid k2 19) as [rc sig].
  destruct (rc_is_ok rc); now eexists.
Qed.

(** *** The pairing is kept *)

(** C1, as the code has it: a pairing that holds before the operation
    holds again after add-uid, delete-uid and delete-subkey have returned,
    for delete-uid when no user id left unselected has the name of a
    selected one, for delete-subkey when no subkey left unselected has the
    key id of a selected one. *)
Theorem pairing_preserved (ext : collaborators) (pub sec : KBNODE) :
  paired pub sec ->
  (forall new_uid pub' sec',
     menu_adduid ext new_uid pub sec = Some (true, pub', sec') ->
     paired pub' sec')
  /\ (selected_names_apart pub ->
      forall pub' sec',
        menu_deluid pub (Some sec) = Some (pub', Some sec') ->
        paired pub' sec')
  /\ (selected_keys_apart pub ->
      forall pub' sec',
        menu_delkey pub (Some sec) = Some (pub', Some sec') ->
        paired pub' sec').
Proof.
  intros [Pu Pk]. split; [|split].
  - (* add-uid *)
    intros new_uid pub' sec' H. unfold menu_adduid in H.
    destruct new_uid as [uid|]; [|discriminate].
    destruct (adduid_scan_pub pub 0 None None) as [pw [pk|]];
      destruct (adduid_scan_sec sec 0 None None) as [sw [sk|]];
      try discriminate.
    destruct (make_keysig_packet ext pk uid sk 19) as [rc sig].
    destruct (rc_is_ok rc); [|discriminate].
    cbn [negb] in H. injection H as <- <-. split.
    + intros name. rewrite !adduid_put_uid. intros [->|L]; [now left|].
      right. now apply Pu.
    + intros kid.
      now rewrite adduid_put_public_subkey, adduid_put_secret_subkey.
  - (* delete-uid *)
    intros Apart pub' sec' H. unfold menu_deluid in H.
    destruct (deluid_pub_snd pub false sec) as (sec1 & E & Sf & Sk).
    pose proof (deluid_pub_fst_from pub false (Some sec)) as Ff.
    pose proof (deluid_pub_fst_keep pub false (Some sec)) as Fk.
    destruct (deluid_pub false pub (Some sec)) as [p s].
    cbn [fst snd] in *. subst s.
    apply commit_blocks_some in H as [-> ->]. split.
    + intros name (n & u & I & L & P & N).
      apply commit_kbnode_In in I as [I _].
      destruct (Ff n I L) as [Ip Sel]. specialize (Sel u P).
      destruct (Pu name) as (m & su & Im & Lm & Pm & Nm);
        [now exists n, u|].
      exists m, su. repeat split; try assumption.
      apply commit_kbnode_In. split; [|exact Lm].
      apply Sk; [exact Im|]. rewrite Pm. intros n1 u1 I1 P1 S1.
      destruct (uid_eqb u1 su) eqn:Q; [|reflexivity].
      apply uid_eqb_eq in Q.
      elim (Apart n1 n u1 u I1 Ip P1 P S1 Sel). congruence.
    + intros kid. split.
      * intros (n & k & I & L & P & N).
        apply commit_kbnode_In in I as [I _].
        destruct (Ff n I L) as [Ip _].
        destruct (proj1 (Pk kid)) as (m & sk & Im & Lm & Pm & Nm);
          [now exists n, k|].
        exists m, sk. repeat split; try assumption.
        apply commit_kbnode_In. split; [|exact Lm].
        apply Sk; [exact Im|]. now rewrite Pm.
      * intros (m & sk & I & L & P & N).
        apply commit_kbnode_In in I as [I _].
        destruct (Sf m I L) as [Is _].
        destruct (proj2 (Pk kid)) as (n & k & In' & Ln & Pn & Nn);
          [now exists m, sk|].
        exists n, k. repeat split; try assumption.
        apply commit_kbnode_In. split; [|exact Ln].
        apply Fk; [exact In'|]. now rewrite Pn.
  - (* delete-subkey *)
    intros Apart pub' sec' H. unfold menu_delkey in H.
    destruct (delkey_pub_snd pub false sec) as (sec1 & E & Sf & Sk).
    pose proof (delkey_pub_fst_from pub false (Some sec)) as Ff.
    pose proof (delkey_pub_fst_keep pub false (Some sec)) as Fk.
    destruct (delkey_pub false pub (Some sec)) as [p s].
    cbn [fst snd] in *. subst s.
    apply commit_blocks_some in H as [-> ->]. split.
    + intros name (n & u & I & L & P & N).
      apply commit_kbnode_In in I as [I _].
      destruct (Ff n I L) as [Ip _].
      destruct (Pu name) as (m & su & Im & Lm & Pm & Nm);
        [now exists n, u|].
      exists m, su. repeat split; try assumption.
      apply commit_kbnode_In. split; [|exact Lm].
      apply Sk; [exact Im|]. now rewrite Pm.
    + intros kid. split.
      * intros (n & k & I & L & P & N).
        apply commit_kbnode_In in I as [I _].
        destruct (Ff n I L) as [Ip Sel]. specialize (Sel k P).
        destruct (proj1 (Pk kid)) as (m & sk & Im & Lm & Pm & Nm);
          [now exists n, k|].
        exists m, sk. repeat split; try assumption.
        apply commit_kbnode_In. split; [|exact Lm].
        apply Sk; [exact Im|]. rewrite Pm. intros n1 k1 I1 P1 S1.
        destruct (keyid_eqb (pk_keyid k1) (sk_keyid sk)) eqn:Q;
          [|reflexivity].
        apply keyid_eqb_eq in Q.
        elim (Apart n1 n k1 k I1 Ip P1 P S1 Sel). congruence.
      * intros (m & sk & I & L & P & N).
        apply commit_kbnode_In in I as [I _].
        destruct (Sf m I L) as [Is Ns].
        destruct (proj2 (Pk kid)) as (n & k & In' & Ln & Pn & Nn);
          [now exists m, sk|].
        exists n, k. repeat split; try assumption.
        apply commit_kbnode_In. split; [|exact Ln].
        apply Fk; [exact In'|]. rewrite Pn.
        destruct (has_flag (flag n) NODFLG_SELKEY) eqn:Sel; [|reflexivity].
        specialize (Ns sk n k P In' Pn Sel).
        rewrite Nn, N, keyid_eqb_refl in Ns. discriminate Ns.
Qed.

(** *** The pairing, computed *)

Lemma live_uid_names_In kb name :
  In name (live_uid_names kb) <-> live_uid kb name.
Proof.
  unfold live_uid. induction kb as [|node next IH]; cbn [live_uid_names].
  - split; [intros [] | intros (n & u & [] & _)].
  - split.
    + intros H.
      assert (Rec : In name (live_uid_names next) ->
                    exists n u, In n (node :: next) /\ deleted n = false
                                /\ pkt n = pkt_user_id u /\ uid_name u = name).
      { intros I. apply IH in I as (n & u & I & R). exists n, u.
        split; [now right | exact R]. }
      destruct (pkt node) eqn:P; try (now apply Rec).
      destruct (deleted node) eqn:D; [now apply Rec|].
      destruct H as [<-|H]; [|now apply Rec].
      exists node, uid. repeat split; try assumption. now left.
    + intros (n & u & [<-|I] & D & P & N).
      * rewrite P, D. now left.
      * assert (In name (live_uid_names next))
          by (apply IH; now exists n, u).
        destruct (pkt node); try assumption.
        destruct (deleted node); [assumption | now right].
Qed.

Lemma live_public_subkey_ids_In kb kid :
  In kid (live_public_subkey_ids kb) <-> live_public_subkey kb kid.
Proof.
  unfold live_public_subkey.
  induction kb as [|node next IH]; cbn [live_public_subkey_ids].
  - split; [intros [] | intros (n & u & [] & _)].
  - split.
    + intros H.
      assert (Rec : In kid (live_public_subkey_ids next) ->
                    exists n k, In n (node :: next) /\ deleted n = false
                                /\ pkt n = pkt_public_subkey k
                                /\ pk_keyid k = kid).
      { intros I. apply IH in I as (n & u & I & R). exists n, u.
        split; [now right | exact R]. }
      destruct (pkt node) eqn:P; try (now apply Rec).
      destruct (deleted node) eqn:D; [now apply Rec|].
      destruct H as [<-|H]; [|now apply Rec].
      exists node, pk. repeat split; try assumption. now left.
    + intros (n & u & [<-|I] & D & P & N).
      * rewrite P, D. now left.
      * assert (In kid (live_public_subkey_ids next))
          by (apply IH; now exists n, u).
        destruct (pkt node); try assumption.
        destruct (deleted node); [assumption | now right].
Qed.

Lemma live_secret_subkey_ids_In kb kid :
  In kid (live_secret_subkey_ids kb) <-> live_secret_subkey kb kid.
Proof.
  unfold live_secret_subkey.
  induction kb as [|node next IH]; cbn [live_secret_subkey_ids].
  - split; [intros [] | intros (n & u & [] & _)].
  - split.
    + intros H.
      assert (Rec : In kid (live_secret_subkey_ids next) ->
                    exists n k, In n (node :: next) /\ deleted n = false
                                /\ pkt n = pkt_secret_subkey k
                                /\ sk_keyid k = kid).
      { intros I. apply IH in I as (n & u & I & R). exists n, u.
        split; [now right | exact R]. }
      destruct (pkt node) eqn:P; try (now apply Rec).
      destruct (deleted node) eqn:D; [now apply Rec|].
      destruct H as [<-|H]; [|now apply Rec].
      exists node, sk. repeat split; try assumption. now left.
    + intros (n & u & [<-|I] & D & P & N).
      * rewrite P, D. now left.
      * assert (In kid (live_secret_subkey_ids next))
          by (apply IH; now exists n, u).
        destruct (pkt node); try assumption.
        destruct (deleted node); [assumption | now right].
Qed.

Lemma existsb_string name l : existsb (String.eqb name) l = true <-> In name l.
Proof.
  rewrite existsb_exists. split.
  - intros (x & I & E). apply String.eqb_eq in E. now subst.
  - intros I. exists name. split; [exact I | apply String.eqb_refl].
Qed.

Lemma existsb_keyid kid l : existsb (keyid_eqb kid) l = true <-> In kid l.
Proof.
  rewrite existsb_exists. split.
  - intros (x & I & E). apply keyid_eqb_eq in E. now subst.
  - intros I. exists kid. split; [exact I | apply keyid_eqb_refl].
Qed.

Lemma pairedb_spec pub sec : pairedb pub sec = true <-> paired pub sec.
Proof.
  unfold pairedb, paired.
  rewrite !andb_true_iff, !forallb_forall. split.
  - intros [[U K1] K2]. split.
    + intros name L. apply live_uid_names_In, existsb_string, U.
      now apply live_uid_names_In.
    + intros kid. split; intros L.
      * apply live_secret_subkey_ids_In, existsb_keyid, K1.
        now apply live_public_subkey_ids_In.
      * apply live_public_subkey_ids_In, existsb_keyid, K2.
        now apply live_secret_subkey_ids_In.
  - intros [U K]. repeat split.
    + intros name I. apply existsb_string, live_uid_names_In, U.
      now apply live_uid_names_In.
    + intros kid I. apply existsb_keyid, live_secret_subkey_ids_In, K.
      now apply live_public_subkey_ids_In.
    + intros kid I. apply existsb_keyid, live_public_subkey_ids_In, K.
      now apply live_secret_subkey_ids_In.
Qed.

Lemma pairing_preserved_witness :
  (exists pub' sec',
     menu_adduid sample_ext (Some (mk_uid "Bob")) sample_pub sample_sec
     = Some (true, pub', sec') /\ paired pub' sec')
  /\ (exists pub' sec',
        menu_deluid sample_three_uids (Some sample_three_sec)
        = Some (pub', Some sec')
        /\ live_uid_names pub' = ["Alice"; "Carol"]%string
        /\ live_uid_names sec' = ["Alice"; "Carol"]%string
        /\ paired pub' sec')
  /\ (exists pub' sec',
        menu_delkey sample_pub (Some sample_sec) = Some (pub', Some sec')
        /\ live_public_subkey_ids pub' = []
        /\ paired pub' sec').
Proof.
  split; [|split].
  - eexists. eexists. split; [vm_compute; reflexivity|].
    refine (proj1 (pairing_preserved sample_ext sample_pub sample_sec _)
              (Some (mk_uid "Bob")) _ _ _);
      [apply pairedb_spec | ]; vm_compute; reflexivity.
  - eexists. eexists. split; [vm_compute; reflexivity|].
    split; [reflexivity|]. split; [reflexivity|].
    refine (proj1 (proj2 (pairing_preserved sample_ext sample_three_uids
                            sample_three_sec _)) _ _ _ _).
    + apply pairedb_spec. vm_compute. reflexivity.
    + intros n1 n2 u1 u2 I1 I2 P1 P2 S1 S2.
      cbn [sample_three_uids In] in I1, I2.
      repeat (destruct I1 as [<-|I1]; try discriminate P1;
              try discriminate S1); try contradiction.
      repeat (destruct I2 as [<-|I2]; try discriminate P2;
              try discriminate S2); try contradiction;
        injection P1 as <-; injection P2 as <-; discriminate.
    + vm_compute. reflexivity.
  - eexists. eexists. split; [vm_compute; reflexivity|].
    split; [reflexivity|].
    refine (proj2 (proj2 (pairing_preserved sample_ext sample_pub
                            sample_sec _)) _ _ _ _).
    + apply pairedb_spec. vm_compute. reflexivity.
    + intros n1 n2 k1 k2 I1 I2 P1 P2 S1 S2.
      cbn [sample_pub In] in I1, I2.
      repeat (destruct I2 as [<-|I2]; try discriminate P2;
              try discriminate S2); contradiction.
    + vm_compute. reflexivity.
Defined.

(** How the blocks of the next lemma come about: "Alice" is added a second
    time, which [menu_adduid] does not refuse, and the new user id is
    selected. *)
Lemma sample_twice_reached :
  exists pub1,
    paired sample_alice_pub sample_alice_sec
    /\ menu_adduid sample_ext (Some (mk_uid "Alice"))
         sample_alice_pub sample_alice_sec
       = Some (true, pub1, sample_twice_sec)
    /\ menu_select_uid pub1 2 = (sample_twice_pub, 1, []).
Proof.
  eexists. split; [apply pairedb_spec; reflexivity|].
  split; vm_compute; reflexivity.
Qed.

(** C1 as stated fails: with two user ids of one name in the public block,
    one of them selected, delete-uid is not refused by the menu, takes every
    user id of that name out of the secret block and leaves the other one in
    the public block without a partner. *)
Lemma pairing_broken_by_deluid :
  exists s' rest,
    paired sample_twice_pub sample_twice_sec
    /\ cmd_deluid
         (mk_session sample_twice_pub (Some sample_twice_sec)
            true true false) [true]
       = Some (s', rest, [])
    /\ menu_deluid sample_twice_pub (Some sample_twice_sec)
       = Some (keyblock s', sec_keyblock s')
    /\ exists sec', sec_keyblock s' = Some sec'
                    /\ ~ paired (keyblock s') sec'.
Proof.
  eexists. eexists. split; [apply pairedb_spec; reflexivity|].
  split; [vm_compute; reflexivity|]. split; [vm_compute; reflexivity|].
  eexists. split; [reflexivity|].
  intros H. apply pairedb_spec in H. vm_compute in H. discriminate H.
Qed.

(** ** Selecting a secondary key *)

Lemma count_keys_nonneg kb : 0 <= count_keys kb.
Proof. induction kb as [|n kb IH]; simpl; [lia|]. destruct (is_subkey n); lia. Qed.

Lemma select_key_find_spec kb : forall i index,
  select_key_find kb i index = true <-> i < index <= i + count_keys kb.
Proof.
  induction kb as [|n kb IH]; intros i index; simpl.
  - split; [discriminate | lia].
  - pose proof (count_keys_nonneg kb).
    destruct (is_subkey n).
    + destruct (Z.eqb_spec (i + 1) index).
      * split; [lia | reflexivity].
      * rewrite IH. lia.
    + rewrite IH. lia.
Qed.

Lemma select_key_toggle_out kb : forall i index,
  index <= i -> select_key_toggle kb i index = kb.
Proof.
  induction kb as [|n kb IH]; intros i index Hle; simpl; [reflexivity|].
  destruct (is_subkey n).
  - destruct (Z.eqb_spec (i + 1) index); [lia|].
    now rewrite IH by lia.
  - now rewrite IH.
Qed.

Lemma toggle_node n k :
  0 <= k ->
  (if has_flag (flag n) (Z.shiftl 1 k)
   then with_flag n (clear_flag (flag n) (Z.shiftl 1 k))
   else with_flag n (set_flag (flag n) (Z.shiftl 1 k)))
  = with_flag n (Z.lxor (flag n) (Z.shiftl 1 k)).
Proof.
  intros Hk. rewrite <- (toggle_is_xor (flag n) k Hk).
  now destruct (has_flag (flag n) (Z.shiftl 1 k)).
Qed.

Lemma select_key_toggle_in kb : forall i index,
  i < index <= i + count_keys kb ->
  exists pre k post,
    kb = pre ++ k :: post /\ is_subkey k = true
    /\ count_keys pre = index - i - 1
    /\ select_key_toggle kb i index
       = pre ++ with_flag k (Z.lxor (flag k) NODFLG_SELKEY) :: post.
Proof.
  induction kb as [|n kb IH]; intros i index Hr; simpl in *.
  - lia.
  - destruct (is_subkey n) eqn:Hu.
    + destruct (Z.eqb_spec (i + 1) index) as [He|Hne].
      * exists [], n, kb. simpl.
        repeat split; try assumption; try lia.
        rewrite select_key_toggle_out by lia.
        f_equal. apply (toggle_node n 9). lia.
      * destruct (IH (i + 1) index ltac:(lia)) as (pre & u & post & E & U & C & T).
        exists (n :: pre), u, post. simpl. rewrite Hu, T, C.
        repeat split; try assumption; try lia.
        now rewrite E at 1.
    + destruct (IH i index ltac:(lia)) as (pre & u & post & E & U & C & T).
      exists (n :: pre), u, post. simpl. rewrite Hu, T, C.
      repeat split; try assumption; try lia.
      now rewrite E at 1.
Qed.

Lemma select_key_reset_map kb :
  select_key_reset kb
  = map (fun n => if is_subkey n
                  then with_flag n (clear_flag (flag n) NODFLG_SELKEY)
                  else n) kb.
Proof. induction kb as [|n kb IH]; simpl; [reflexivity | now rewrite IH]. Qed.

(** X1: [menu_select_key] counts public and secret subkeys in one sequence.
    Index 0 clears SELKEY on every subkey node and nothing else; an index
    from 1 to the number of subkeys turns SELKEY over on that subkey and
    changes nothing else; any other index, a negative one included, prints
    the not-found message, returns 0 and leaves the keyblock as it is. *)
Theorem menu_select_key_spec (kb : KBNODE) (index : Z) :
  (index = 0 ->
   menu_select_key kb index
   = (map (fun n => if is_subkey n
                    then with_flag n (clear_flag (flag n) NODFLG_SELKEY)
                    else n) kb, 1, [])
   /\ count_selected_keys (fst (fst (menu_select_key kb index))) = 0)
  /\ (1 <= index <= count_keys kb ->
      exists pre k post,
        kb = pre ++ k :: post /\ is_subkey k = true
        /\ count_keys pre = index - 1
        /\ has_flag (Z.lxor (flag k) NODFLG_SELKEY) NODFLG_SELKEY
           = negb (has_flag (flag k) NODFLG_SELKEY)
        /\ menu_select_key kb index
           = (pre ++ with_flag k (Z.lxor (flag k) NODFLG_SELKEY) :: post,
              1, []))
  /\ (index < 0 \/ count_keys kb < index ->
      menu_select_key kb index
      = (kb, 0, [No_secondary_key_with_index index])).
Proof.
  unfold menu_select_key. repeat split.
  - subst index. simpl. now rewrite select_key_reset_map.
  - subst index. cbn [Z.eqb negb fst]. unfold count_selected_keys.
    induction kb as [|n kb IH]; [reflexivity|].
    cbn [select_key_reset count_keys_with_flag]. rewrite IH.
    destruct (is_subkey n) eqn:K.
    + unfold is_subkey in *. cbn [with_flag pkt flag]. unfold is_subkey in K.
      rewrite K. cbn [andb].
      change NODFLG_SELKEY with (Z.shiftl 1 9).
      rewrite has_flag_clear by lia. reflexivity.
    + unfold is_subkey in *. rewrite K. reflexivity.
  - intros Hr.
    destruct (select_key_toggle_in kb 0 index ltac:(lia))
      as (pre & u & post & E & U & C & T).
    exists pre, u, post. repeat split; try assumption; try lia.
    + change NODFLG_SELKEY with (Z.shiftl 1 9). apply has_flag_xor. lia.
    + destruct (Z.eqb_spec index 0); [lia|]. simpl.
      assert (F : select_key_find kb 0 index = true)
        by (apply select_key_find_spec; lia).
      now rewrite F, T.
  - intros Hr. pose proof (count_keys_nonneg kb).
    destruct (Z.eqb_spec index 0); [lia|]. simpl.
    destruct (select_key_find kb 0 index) eqn:F; [|reflexivity].
    apply select_key_find_spec in F. lia.
Qed.

Lemma menu_select_key_spec_witness :
  (menu_select_key sample_pub 0
   = (map (fun n => if is_subkey n
                    then with_flag n (clear_flag (flag n) NODFLG_SELKEY)
                    else n) sample_pub, 1, [])
   /\ count_selected_keys (fst (fst (menu_select_key sample_pub 0))) = 0)
  /\ (exists pre k post,
        sample_pub = pre ++ k :: post /\ count_keys pre = 0
        /\ menu_select_key sample_pub 1
           = (pre ++ with_flag k (Z.lxor (flag k) NODFLG_SELKEY) :: post,
              1, []))
  /\ menu_select_key sample_pub (-1)
     = (sample_pub, 0, [No_secondary_key_with_index (-1)]).
Proof.
  split; [|split].
  - exact (proj1 (menu_select_key_spec sample_pub 0) eq_refl).
  - destruct (proj1 (proj2 (menu_select_key_spec sample_pub 1)))
      as (pre & u & post & E & _ & C & _ & T).
    + vm_compute. split; discriminate.
    + exists pre, u, post. repeat split; assumption.
  - apply (proj2 (proj2 (menu_select_key_spec sample_pub (-1)))).
    left. reflexivity.
Defined.

(** ** Selecting twice, and what a selection counts *)

Lemma xor_twice f m : Z.lxor (Z.lxor f m) m = f.
Proof. now rewrite Z.lxor_assoc, Z.lxor_nilpotent, Z.lxor_0_r. Qed.

Lemma toggle_node_seluid n :
  (if has_flag (flag n) NODFLG_SELUID
   then with_flag n (clear_flag (flag n) NODFLG_SELUID)
   else with_flag n (set_flag (flag n) NODFLG_SELUID))
  = with_flag n (Z.lxor (flag n) NODFLG_SELUID).
Proof. apply (toggle_node n 8). lia. Qed.

Lemma toggle_node_selkey n :
  (if has_flag (flag n) NODFLG_SELKEY
   then with_flag n (clear_flag (flag n) NODFLG_SELKEY)
   else with_flag n (set_flag (flag n) NODFLG_SELKEY))
  = with_flag n (Z.lxor (flag n) NODFLG_SELKEY).
Proof. apply (toggle_node n 9). lia. Qed.

Lemma select_uid_toggle_twice kb : forall i index,
  select_uid_toggle (select_uid_toggle kb i index) i index = kb.
Proof.
  induction kb as [|n kb IH]; intros i index; [reflexivity|].
  cbn [select_uid_toggle].
  destruct (is_uid n) eqn:U.
  - destruct (Z.eqb_spec (i + 1) index) as [E|NE].
    + rewrite toggle_node_seluid. cbn [select_uid_toggle].
      unfold is_uid in *. cbn [with_flag pkt]. rewrite U.
      destruct (Z.eqb_spec (i + 1) index); [|contradiction].
      rewrite toggle_node_seluid. cbn [with_flag pkt flag deleted].
      rewrite xor_twice, IH. now destruct n.
    + cbn [select_uid_toggle]. rewrite U.
      destruct (Z.eqb_spec (i + 1) index); [contradiction|].
      now rewrite IH.
  - cbn [select_uid_toggle]. rewrite U. now rewrite IH.
Qed.

Lemma select_key_toggle_twice kb : forall i index,
  select_key_toggle (select_key_toggle kb i index) i index = kb.
Proof.
  induction kb as [|n kb IH]; intros i index; [reflexivity|].
  cbn [select_key_toggle].
  destruct (is_subkey n) eqn:U.
  - destruct (Z.eqb_spec (i + 1) index) as [E|NE].
    + rewrite toggle_node_selkey. cbn [select_key_toggle].
      unfold is_subkey in *. cbn [with_flag pkt]. rewrite U.
      destruct (Z.eqb_spec (i + 1) index); [|contradiction].
      rewrite toggle_node_selkey. cbn [with_flag pkt flag deleted].
      rewrite xor_twice, IH. now destruct n.
    + cbn [select_key_toggle]. rewrite U.
      destruct (Z.eqb_spec (i + 1) index); [contradiction|].
      now rewrite IH.
  - cbn [select_key_toggle]. rewrite U. now rewrite IH.
Qed.

Lemma select_uid_toggle_pkt kb : forall i index,
  map pkt (select_uid_toggle kb i index) = map pkt kb
  /\ map deleted (select_uid_toggle kb i index) = map deleted kb.
Proof.
  induction kb as [|n kb IH]; intros i index; [now split|].
  cbn [select_uid_toggle].
  destruct (is_uid n).
  - destruct (IH (i + 1) index) as [P D].
    destruct (i + 1 =? index); [destruct (has_flag (flag n) NODFLG_SELUID)|];
      cbn [map with_flag pkt deleted]; now rewrite P, D.
  - destruct (IH i index) as [P D]. cbn [map]. now rewrite P, D.
Qed.

Lemma select_key_toggle_pkt kb : forall i index,
  map pkt (select_key_toggle kb i index) = map pkt kb
  /\ map deleted (select_key_toggle kb i index) = map deleted kb.
Proof.
  induction kb as [|n kb IH]; intros i index; [now split|].
  cbn [select_key_toggle].
  destruct (is_subkey n).
  - destruct (IH (i + 1) index) as [P D].
    destruct (i + 1 =? index); [destruct (has_flag (flag n) NODFLG_SELKEY)|];
      cbn [map with_flag pkt deleted]; now rewrite P, D.
  - destruct (IH i index) as [P D]. cbn [map]. now rewrite P, D.
Qed.

Lemma select_uid_find_pkt a : forall b i index,
  map pkt a = map pkt b ->
  select_uid_find a i index = select_uid_find b i index.
Proof.
  induction a as [|n a IH]; intros [|m b] i index E; try discriminate;
    [reflexivity|].
  cbn [map] in E. injection E as E1 E2. cbn [select_uid_find].
  unfold is_uid. rewrite E1.
  destruct (pkttype_eqb (pkttype (pkt m)) PKT_USER_ID);
    [destruct (i + 1 =? index); [reflexivity|]|]; now apply IH.
Qed.

Lemma select_key_find_pkt a : forall b i index,
  map pkt a = map pkt b ->
  select_key_find a i index = select_key_find b i index.
Proof.
  induction a as [|n a IH]; intros [|m b] i index E; try discriminate;
    [reflexivity|].
  cbn [map] in E. injection E as E1 E2. cbn [select_key_find].
  unfold is_subkey. rewrite E1.
  destruct (pkttype_eqb (pkttype (pkt m)) PKT_PUBLIC_SUBKEY
            || pkttype_eqb (pkttype (pkt m)) PKT_SECRET_SUBKEY);
    [destruct (i + 1 =? index); [reflexivity|]|]; now apply IH.
Qed.

(** X2: selecting the same index other than 0 twice in a row, with
    [menu_select_uid] or with [menu_select_key], gives back the keyblock
    node for node, every flag word included. *)
Theorem menu_select_twice (kb : KBNODE) (index : Z) :
  index <> 0 ->
  fst (fst (menu_select_uid (fst (fst (menu_select_uid kb index))) index))
  = kb
  /\ fst (fst (menu_select_key (fst (fst (menu_select_key kb index))) index))
     = kb.
Proof.
  intros NZ. unfold menu_select_uid, menu_select_key.
  destruct (Z.eqb_spec index 0) as [|_]; [contradiction|]. cbn [negb].
  split.
  - destruct (select_uid_find kb 0 index) eqn:F; cbn [fst].
    + rewrite (select_uid_find_pkt _ kb 0 index
                 (proj1 (select_uid_toggle_pkt kb 0 index))), F.
      cbn [fst]. apply select_uid_toggle_twice.
    + rewrite F. reflexivity.
  - destruct (select_key_find kb 0 index) eqn:F; cbn [fst].
    + rewrite (select_key_find_pkt _ kb 0 index
                 (proj1 (select_key_toggle_pkt kb 0 index))), F.
      cbn [fst]. apply select_key_toggle_twice.
    + rewrite F. reflexivity.
Qed.

Lemma menu_select_twice_witness :
  fst (fst (menu_select_uid (fst (fst (menu_select_uid sample_pub 1))) 1))
  = sample_pub
  /\ fst (fst (menu_select_key (fst (fst (menu_select_key sample_pub 1))) 1))
     = sample_pub.
Proof. apply menu_select_twice. discriminate. Defined.

(** What a selection of user ids may do to a node: the packet and the
    tombstone stay, a node that is no user id stays as it is, and of a flag
    word only bit 8 may change. *)
Lemma select_uid_reset_frame kb :
  Forall2 (fun n n' =>
             pkt n' = pkt n /\ deleted n' = deleted n
             /\ (is_uid n = false -> n' = n)
             /\ forall j, 0 <= j -> j <> 8 ->
                  Z.testbit (flag n') j = Z.testbit (flag n) j)
          kb (select_uid_reset kb).
Proof.
  induction kb as [|n kb IH]; cbn [select_uid_reset]; constructor; [|exact IH].
  destruct (is_uid n) eqn:U.
  - cbn [with_flag pkt deleted flag].
    split; [reflexivity|]. split; [reflexivity|]. split; [congruence|].
    intros j J0 J8. unfold clear_flag, NODFLG_SELUID.
    rewrite Z.land_spec, Z.lnot_spec, Z.shiftl_1_l, Z.pow2_bits_eqb by lia.
    destruct (Z.eqb_spec 8 j); [lia|]. apply andb_true_r.
  - repeat split.
Qed.

Lemma select_uid_toggle_frame kb : forall i index,
  Forall2 (fun n n' =>
             pkt n' = pkt n /\ deleted n' = deleted n
             /\ (is_uid n = false -> n' = n)
             /\ forall j, 0 <= j -> j <> 8 ->
                  Z.testbit (flag n') j = Z.testbit (flag n) j)
          kb (select_uid_toggle kb i index).
Proof.
  induction kb as [|n kb IH]; intros i index; cbn [select_uid_toggle];
    [constructor|].
  destruct (is_uid n) eqn:U.
  - constructor; [|apply IH].
    destruct (i + 1 =? index); [|repeat split].
    rewrite toggle_node_seluid. cbn [with_flag pkt deleted flag].
    split; [reflexivity|]. split; [reflexivity|]. split; [congruence|].
    intros j J0 J8. unfold NODFLG_SELUID.
    rewrite Z.lxor_spec, Z.shiftl_1_l, Z.pow2_bits_eqb by lia.
    destruct (Z.eqb_spec 8 j); [lia|]. apply xorb_false_r.
  - constructor; [|apply IH]. repeat split.
Qed.

Lemma count_uids_pkt a : forall b,
  map pkt a = map pkt b -> count_uids a = count_uids b.
Proof.
  induction a as [|n a IH]; intros [|m b] E; try discriminate; [reflexivity|].
  cbn [map] in E. injection E as E1 E2. cbn [count_uids].
  unfold is_uid. now rewrite E1, (IH b E2).
Qed.

Lemma is_uid_not_subkey n : is_uid n = true -> is_subkey n = false.
Proof. unfold is_uid, is_subkey. now destruct (pkt n). Qed.

Lemma count_keys_frame m a : forall b,
  Forall2 (fun n n' => pkt n' = pkt n /\ (is_uid n = false -> n' = n)) a b ->
  count_keys_with_flag b m = count_keys_with_flag a m.
Proof.
  induction a as [|n a IH]; intros b F; inversion F as [|? n' ? b' [P S] F'];
    subst; [reflexivity|].
  cbn [count_keys_with_flag]. rewrite (IH b' F').
  destruct (is_uid n) eqn:U.
  - rewrite (is_uid_not_subkey n U).
    assert (U' : is_uid n' = true) by (unfold is_uid in *; now rewrite P).
    now rewrite (is_uid_not_subkey n' U').
  - now rewrite (S eq_refl).
Qed.

Lemma select_uid_reset_count kb :
  count_uids_with_flag (select_uid_reset kb) NODFLG_SELUID = 0.
Proof.
  induction kb as [|n kb IH]; [reflexivity|].
  cbn [select_uid_reset count_uids_with_flag]. rewrite IH.
  destruct (is_uid n) eqn:U.
  - unfold is_uid in *. cbn [with_flag pkt flag]. rewrite U. cbn [andb].
    change NODFLG_SELUID with (Z.shiftl 1 8).
    rewrite has_flag_clear by lia. reflexivity.
  - rewrite U. reflexivity.
Qed.

(** X3: [menu_select_uid] keeps every packet and tombstone, leaves the
    nodes that are no user ids as they are and changes no bit of a flag
    word but bit 8, so the number of user ids and the number of selected
    subkeys stay.  After index 0 no user id is selected; a valid index
    changes the number of selected user ids by exactly one. *)
Theorem menu_select_uid_counts (kb : KBNODE) (index : Z) :
  let kb' := fst (fst (menu_select_uid kb index)) in
  Forall2 (fun n n' =>
             pkt n' = pkt n /\ deleted n' = deleted n
             /\ (is_uid n = false -> n' = n)
             /\ forall j, 0 <= j -> j <> 8 ->
                  Z.testbit (flag n') j = Z.testbit (flag n) j)
          kb kb'
  /\ count_uids kb' = count_uids kb
  /\ count_selected_keys kb' = count_selected_keys kb
  /\ (index = 0 -> count_selected_uids kb' = 0)
  /\ (1 <= index <= count_uids kb ->
      count_selected_uids kb' = count_selected_uids kb + 1
      \/ count_selected_uids kb' = count_selected_uids kb - 1).
Proof.
  intros kb'.
  assert (F : Forall2 (fun n n' =>
             pkt n' = pkt n /\ deleted n' = deleted n
             /\ (is_uid n = false -> n' = n)
             /\ forall j, 0 <= j -> j <> 8 ->
                  Z.testbit (flag n') j = Z.testbit (flag n) j) kb kb').
  { subst kb'. unfold menu_select_uid.
    destruct (negb (index =? 0)).
    - destruct (select_uid_find kb 0 index); cbn [fst].
      + apply select_uid_toggle_frame.
      + clear. induction kb; constructor; [repeat split | assumption].
    - apply select_uid_reset_frame. }
  split; [exact F|].
  assert (P : map pkt kb' = map pkt kb).
  { clear -F. induction F as [|n n' a b (P & _) F IH]; [reflexivity|].
    cbn [map]. now rewrite P, IH. }
  split; [now apply count_uids_pkt|].
  split.
  { apply count_keys_frame. clear -F.
    induction F as [|n n' a b (P & _ & S & _) F IH]; constructor; auto. }
  split.
  - intros ->. apply select_uid_reset_count.
  - intros V. subst kb'. unfold menu_select_uid.
    destruct (Z.eqb_spec index 0); [lia|]. cbn [negb].
    assert (Fd : select_uid_find kb 0 index = true)
      by (apply select_uid_find_spec; lia).
    rewrite Fd. cbn [fst].
    destruct (select_uid_toggle_in kb 0 index ltac:(lia))
      as (pre & u & post & E & U & C & T).
    rewrite T. clear T Fd V. subst kb. unfold count_selected_uids.
    rewrite !count_flag_app, !count_flag_cons.
    assert (U' : is_uid (with_flag u (Z.lxor (flag u) NODFLG_SELUID)) = true)
      by exact U.
    rewrite U, U'. cbn [andb with_flag flag].
    pose proof (has_flag_xor (flag u) 8 ltac:(lia)) as X.
    change (Z.shiftl 1 8) with NODFLG_SELUID in X. rewrite X.
    destruct (has_flag (flag u) NODFLG_SELUID); cbn [negb]; lia.
Qed.

Lemma menu_select_uid_counts_witness :
  count_selected_uids (fst (fst (menu_select_uid sample_three_uids 0))) = 0
  /\ (count_selected_uids (fst (fst (menu_select_uid sample_three_uids 3)))
      = count_selected_uids sample_three_uids + 1
      \/ count_selected_uids (fst (fst (menu_select_uid sample_three_uids 3)))
         = count_selected_uids sample_three_uids - 1).
Proof.
  split.
  - exact (proj1 (proj2 (proj2 (proj2
             (menu_select_uid_counts sample_three_uids 0)))) eq_refl).
  - apply (proj2 (proj2 (proj2 (proj2
             (menu_select_uid_counts sample_three_uids 3))))).
    vm_compute. split; discriminate.
Defined.

(** ** The listing and the index of a user id *)

Lemma show_keys_uid fpr sub x l :
  is_uid x = true -> show_keys (x :: l) fpr sub = show_keys l fpr sub.
Proof. unfold is_uid. cbn [show_keys]. now destruct (pkt x). Qed.

Lemma show_keys_toggle fpr sub kb : forall i index,
  show_keys (select_uid_toggle kb i index) fpr sub = show_keys kb fpr sub.
Proof.
  induction kb as [|n kb IH]; intros i index; [reflexivity|].
  cbn [select_uid_toggle].
  destruct (is_uid n) eqn:U.
  - rewrite toggle_node_seluid.
    rewrite (show_keys_uid fpr sub n kb U), show_keys_uid; [apply IH|].
    now destruct (i + 1 =? index).
  - cbn [show_keys]. now rewrite IH.
Qed.

Lemma show_keys_flip fpr sub index kb :
  map (flip_star index) (show_keys kb fpr sub) = show_keys kb fpr sub.
Proof.
  induction kb as [|n kb IH]; [reflexivity|]. cbn [show_keys].
  destruct (pkt n); try destruct sub; cbn [map flip_star]; now rewrite ?IH.
Qed.

Lemma show_uids_cons n l i :
  show_uids (n :: l) i false false
  = match pkt n with
    | pkt_user_id uid =>
        Show_uid (Some (i + 1, has_flag (flag n) NODFLG_SELUID)) uid
        :: show_uids l (i + 1) false false
    | _ => show_uids l i false false
    end.
Proof. cbn [show_uids]. now destruct (pkt n). Qed.

Lemma show_uids_toggle kb : forall i index,
  show_uids (select_uid_toggle kb i index) i false false
  = map (flip_star index) (show_uids kb i false false).
Proof.
  induction kb as [|n kb IH]; intros i index; [reflexivity|].
  cbn [select_uid_toggle]. rewrite (show_uids_cons n kb).
  unfold is_uid.
  destruct (pkt n) eqn:P; cbn [pkttype pkttype_eqb];
    try (rewrite show_uids_cons, P; apply IH).
  rewrite toggle_node_seluid, show_uids_cons.
  cbn [map flip_star]. rewrite <- IH.
  destruct (Z.eqb_spec (i + 1) index) as [E|NE].
  - cbn [with_flag pkt flag]. rewrite P.
    pose proof (has_flag_xor (flag n) 8 ltac:(lia)) as X.
    change (Z.shiftl 1 8) with NODFLG_SELUID in X. now rewrite X.
  - now rewrite P.
Qed.

Lemma show_uids_labels kb : forall i k l,
  nth_error (show_uids kb i false false) k = Some l ->
  exists star uid, l = Show_uid (Some (i + Z.of_nat k + 1, star)) uid.
Proof.
  induction kb as [|n kb IH]; intros i k l H; cbn [show_uids] in H.
  - destruct k; discriminate.
  - destruct (pkt n); try (now apply IH).
    cbn [negb orb app] in H. destruct k as [|k]; cbn [nth_error] in H.
    + injection H as <-. do 2 eexists. f_equal. f_equal. f_equal. lia.
    + destruct (IH _ _ _ H) as (s & u & ->). exists s, u.
      f_equal. f_equal. f_equal. lia.
Qed.

Lemma show_uids_length kb : forall i,
  Z.of_nat (length (show_uids kb i false false)) = count_uids kb.
Proof.
  induction kb as [|n kb IH]; intros i; [reflexivity|].
  cbn [show_uids count_uids]. unfold is_uid.
  destruct (pkt n); cbn [pkttype pkttype_eqb negb orb app length];
    rewrite ?Nat2Z.inj_succ, IH; lia.
Qed.

(** X4: the listing of the menu numbers the user ids 1, 2, ... in keyblock
    order, one line for each, and the number on a line is the index that
    selects it: after [menu_select_uid] with a valid index the listing is
    the old one with the star of the line of that number turned over, all
    key lines and all other user id lines as before. *)
Theorem listing_index_selects (kb : KBNODE) (index : Z) :
  1 <= index <= count_uids kb ->
  (forall k l,
     nth_error (show_uids kb 0 false false) k = Some l ->
     exists star uid, l = Show_uid (Some (Z.of_nat k + 1, star)) uid)
  /\ Z.of_nat (length (show_uids kb 0 false false)) = count_uids kb
  /\ show_key_with_all_names (fst (fst (menu_select_uid kb index)))
       false false true false
     = map (flip_star index)
         (show_key_with_all_names kb false false true false).
Proof.
  intros V. split; [|split].
  - intros k l H. destruct (show_uids_labels kb 0 k l H) as (s & u & ->).
    now exists s, u.
  - apply show_uids_length.
  - unfold menu_select_uid, show_key_with_all_names.
    destruct (Z.eqb_spec index 0); [lia|]. cbn [negb].
    assert (F : select_uid_find kb 0 index = true)
      by (apply select_uid_find_spec; lia).
    rewrite F. cbn [fst].
    now rewrite map_app, show_keys_toggle, show_keys_flip, show_uids_toggle.
Qed.

Lemma listing_index_selects_witness :
  show_key_with_all_names (fst (fst (menu_select_uid sample_three_uids 2)))
    false false true false
  = map (flip_star 2)
      (show_key_with_all_names sample_three_uids false false true false).
Proof.
  apply (listing_index_selects sample_three_uids 2).
  vm_compute. split; discriminate.
Defined.

(** ** The check walk: what it shows and what it touches *)

Lemma uid_lines_app a b : uid_lines (a ++ b) = uid_lines a ++ uid_lines b.
Proof.
  induction a as [|[u|rc s] a IH]; cbn [app uid_lines]; [reflexivity| |exact IH].
  now rewrite IH.
Qed.

Lemma check_one_sig_state rc selfsig node st :
  let st' := snd (check_one_sig rc selfsig node st) in
  selected st' = selected st
  /\ uid_lines (shown st') = uid_lines (shown st).
Proof.
  destruct rc; cbn [check_one_sig snd selected shown]; split;
    try reflexivity; rewrite uid_lines_app; cbn [uid_lines];
    now rewrite app_nil_r.
Qed.

Lemma check_walk_uids ext os : forall todo done st kb' st',
  check_walk ext os done todo st = (kb', st') ->
  (os = 0 -> selected st = true) ->
  uid_lines (shown st') = uid_lines (shown st) ++ walked_uids os todo.
Proof.
  induction todo as [|node next IH]; intros done st kb' st' H Sel;
    cbn [check_walk walked_uids] in *.
  - injection H as <- <-. now rewrite app_nil_r.
  - unfold walk_visits in H.
    destruct (deleted node) eqn:D; cbn [negb andb] in *.
    + rewrite (IH _ _ _ _ H Sel). now destruct (pkt node).
    + destruct (pkt node) eqn:P; try (now apply (IH _ _ _ _ H Sel)).
      * (* a user id *)
        destruct (Z.eqb_spec os 0) as [Z0|NZ]; cbn [negb orb] in *.
        -- rewrite (Sel Z0) in H.
           rewrite (IH _ _ _ _ H (fun _ => eq_refl)).
           cbn [shown]. rewrite uid_lines_app. cbn [uid_lines].
           now rewrite <- app_assoc.
        -- destruct (has_flag (flag node) NODFLG_SELUID).
           ++ rewrite (IH _ _ _ _ H ltac:(intros; contradiction)).
              cbn [shown]. rewrite uid_lines_app. cbn [uid_lines].
              now rewrite <- app_assoc.
           ++ now rewrite (IH _ _ _ _ H ltac:(intros; contradiction)).
      * (* a signature *)
        destruct (selected st && is_cert_class sig);
          [|now apply (IH _ _ _ _ H Sel)].
        destruct (check_key_signature ext (done ++ node :: next)
                    (length done)) as [rc selfsig].
        pose proof (check_one_sig_state rc selfsig node st) as (S1 & S2).
        destruct (check_one_sig rc selfsig node st) as [node' st1].
        cbn [snd] in S1, S2.
        rewrite (IH _ _ _ _ H), S2; [reflexivity|].
        intros Z0. rewrite S1. now apply Sel.
Qed.

(** X5: the user id lines [check_all_keysigs] prints are, in keyblock
    order, the user ids of the live nodes, and with [only_selected] set
    those of them that are selected; the check command of the menu, which
    passes the number of selected user ids, therefore shows every live user
    id when none is selected and the selected ones otherwise. *)
Theorem check_all_keysigs_shows (ext : collaborators) (kb : KBNODE)
    (only_selected : Z) :
  uid_lines (chk_shown (check_all_keysigs ext kb only_selected))
  = walked_uids only_selected kb
  /\ uid_lines (chk_shown (cmd_check ext kb))
     = walked_uids (count_selected_uids kb) kb.
Proof.
  assert (G : forall os,
            uid_lines (chk_shown (check_all_keysigs ext kb os))
            = walked_uids os kb).
  { intros os. unfold check_all_keysigs.
    destruct (check_walk ext os [] kb _) as [kb' st'] eqn:W.
    cbn [chk_shown].
    apply check_walk_uids in W; [exact W|].
    intros ->. reflexivity. }
  split; [apply G | apply G].
Qed.

(** What the walk may do to a node. *)
Lemma check_walk_frame ext os : forall todo done st,
  exists todo',
    fst (check_walk ext os done todo st) = done ++ todo'
    /\ Forall2 (fun n n' =>
                  pkt n' = pkt n /\ deleted n' = deleted n
                  /\ (n' = n
                      \/ (deleted n = false
                          /\ exists sig, pkt n = pkt_signature sig
                                         /\ is_cert_class sig = true)))
               todo todo'.
Proof.
  induction todo as [|node next IH]; intros done st; cbn [check_walk].
  - exists []. split; [simpl; now rewrite app_nil_r | constructor].
  - assert (Keep : forall st',
      exists todo',
        fst (check_walk ext os (done ++ [node]) next st') = done ++ todo'
        /\ Forall2 (fun n n' =>
                  pkt n' = pkt n /\ deleted n' = deleted n
                  /\ (n' = n
                      \/ (deleted n = false
                          /\ exists sig, pkt n = pkt_signature sig
                                         /\ is_cert_class sig = true)))
             (node :: next) todo').
    { intros st'. destruct (IH (done ++ [node]) st') as (t & E & F).
      exists (node :: t). rewrite E, <- app_assoc. split; [reflexivity|].
      constructor; [|assumption].
      split; [reflexivity|]. split; [reflexivity|]. now left. }
    unfold walk_visits.
    destruct (deleted node) eqn:D; cbn [negb]; [apply Keep|].
    destruct (pkt node) eqn:P; try apply Keep.
    destruct (is_cert_class sig) eqn:C;
      [|rewrite andb_false_r; apply Keep].
    destruct (selected st); cbn [andb]; [|apply Keep].
    destruct (check_key_signature ext (done ++ node :: next) (length done))
      as [rc selfsig].
    pose proof (check_one_sig_flag rc selfsig node st) as (P' & D' & _).
    destruct (check_one_sig rc selfsig node st) as [node' st'].
    cbn [fst] in P', D'.
    destruct (IH (done ++ [node']) st') as (t & E & F).
    exists (node' :: t). rewrite E, <- app_assoc. split; [reflexivity|].
    constructor; [|assumption].
    split; [exact P'|]. split; [exact D'|].
    right. split; [exact D|]. now exists sig.
Qed.

Lemma check_walk_unselected ext os : forall todo done st,
  os <> 0 -> selected st = false ->
  count_selected_uids todo = 0 ->
  check_walk ext os done todo st = (done ++ todo, st).
Proof.
  induction todo as [|node next IH]; intros done st NZ Sel Cnt;
    cbn [check_walk].
  - now rewrite app_nil_r.
  - assert (Next : forall x, x = node ->
              count_selected_uids next = 0 ->
              check_walk ext os (done ++ [x]) next st
              = (done ++ node :: next, st)).
    { intros x -> C. rewrite IH by assumption. now rewrite <- app_assoc. }
    unfold count_selected_uids in Cnt.
    apply count_flag_head_zero in Cnt as [Cn Cr].
    destruct (negb (walk_visits node)); [now apply Next|].
    destruct (pkt node) eqn:P; try (now apply Next).
    + destruct (Z.eqb_spec os 0); [contradiction|]. cbn [negb].
      rewrite (is_uid_pkt node uid P) in Cn. cbn [andb] in Cn. rewrite Cn.
      replace (mk_check (inv_sigs st) (no_key st) (oth_err st)
                 (has_selfsig st) (mis_selfsig st) false (anyuid st)
                 (shown st)) with st
        by (destruct st; cbn in *; now subst).
      now apply Next.
    + rewrite Sel. cbn [andb]. now apply Next.
Qed.

Lemma frame_uid_groups a : forall b,
  Forall2 (fun n n' => pkt n' = pkt n /\ (is_sig n = false -> n' = n)) a b ->
  uid_groups b = uid_groups a.
Proof.
  induction a as [|n a IH]; intros b F;
    inversion F as [|? n' ? b' [P S] F']; subst; [reflexivity|].
  cbn [uid_groups]. rewrite P, (IH b' F').
  destruct (pkt n) eqn:Pn; try reflexivity.
  assert (E : n' = n) by (apply S; unfold is_sig; now rewrite Pn).
  subst n'. f_equal. f_equal. apply certifiers_pkt.
  clear -F'. induction F' as [|x y l l' [Q _] F' IH]; [reflexivity|].
  cbn [map]. now rewrite Q, IH.
Qed.

(** X6: [check_all_keysigs] keeps every node in its place with its packet
    and its tombstone.  A node whose flag word it changes is a live
    signature of class 0x10 to 0x13; so every user id keeps its selection
    and its mark, and the number of selected user ids is as before.  With
    [only_selected] set and no user id selected it changes nothing and
    prints no line. *)
Theorem check_all_keysigs_frame (ext : collaborators) (kb : KBNODE)
    (only_selected : Z) :
  let r := check_all_keysigs ext kb only_selected in
  Forall2 (fun n n' =>
             pkt n' = pkt n /\ deleted n' = deleted n
             /\ (n' = n
                 \/ (deleted n = false
                     /\ exists sig, pkt n = pkt_signature sig
                                    /\ is_cert_class sig = true)))
          kb (chk_keyblock r)
  /\ uid_groups (chk_keyblock r) = uid_groups kb
  /\ count_selected_uids (chk_keyblock r) = count_selected_uids kb
  /\ (only_selected <> 0 -> count_selected_uids kb = 0 ->
      chk_keyblock r = kb /\ chk_shown r = []).
Proof.
  intros r. subst r.
  assert (F : Forall2 (fun n n' =>
             pkt n' = pkt n /\ deleted n' = deleted n
             /\ (n' = n
                 \/ (deleted n = false
                     /\ exists sig, pkt n = pkt_signature sig
                                    /\ is_cert_class sig = true)))
          kb (chk_keyblock (check_all_keysigs ext kb only_selected))).
  { rewrite check_all_keysigs_keyblock.
    destruct (check_walk_frame ext only_selected kb []
                (mk_check 0 0 0 false 0 (only_selected =? 0) false []))
      as (t & E & F).
    now rewrite E. }
  assert (G : uid_groups (chk_keyblock (check_all_keysigs ext kb only_selected))
              = uid_groups kb).
  { apply frame_uid_groups. clear -F.
    induction F as [|n n' a b (P & _ & C) F IH]; constructor; [|exact IH].
    split; [exact P|]. intros S.
    destruct C as [E|(_ & sig & Ps & _)]; [exact E|].
    unfold is_sig in S. rewrite Ps in S. discriminate. }
  split; [exact F|]. split; [exact G|]. split.
  - rewrite !count_selected_groups. now rewrite G.
  - intros NZ C0. unfold check_all_keysigs.
    rewrite (check_walk_unselected ext only_selected kb [] _ NZ);
      [split; reflexivity | | exact C0].
    cbn [selected]. now destruct (Z.eqb_spec only_selected 0).
Qed.

Lemma check_all_keysigs_frame_witness :
  chk_keyblock (check_all_keysigs sample_ext sample_two_uids 5)
  = sample_two_uids
  /\ chk_shown (check_all_keysigs sample_ext sample_two_uids 5) = [].
Proof.
  apply (proj2 (proj2 (proj2
           (check_all_keysigs_frame sample_ext sample_two_uids 5)))).
  - discriminate.
  - reflexivity.
Defined.

(** ** The counters of the check walk and its result *)

Lemma count_lines_app f a b :
  count_lines f (a ++ b) = count_lines f a + count_lines f b.
Proof.
  unfold count_lines. rewrite filter_app, length_app. lia.
Qed.

Lemma count_lines_nonneg f l : 0 <= count_lines f l.
Proof. unfold count_lines. lia. Qed.

Lemma check_one_sig_lines rc selfsig node st :
  let st' := snd (check_one_sig rc selfsig node st) in
  exists new,
    shown st' = shown st ++ new
    /\ inv_sigs st' = inv_sigs st + count_lines is_bad_line new
    /\ oth_err st' = oth_err st + count_lines is_error_line new
    /\ no_key st <= no_key st'
    /\ forallb printable new = true.
Proof.
  destruct rc; cbn [check_one_sig snd shown inv_sigs oth_err no_key].
  - exists [Line_sig RC_OK selfsig]. repeat split; cbn; lia.
  - exists [Line_sig G10ERR_BAD_SIGN selfsig]. repeat split; cbn; lia.
  - exists []. rewrite app_nil_r. repeat split; cbn; lia.
  - exists [Line_sig G10ERR_PUBKEY_ALGO false]. repeat split; cbn; lia.
  - exists [Line_sig (G10ERR_other code) false]. repeat split; cbn; lia.
Qed.

Lemma check_walk_lines ext os : forall todo done st kb' st',
  check_walk ext os done todo st = (kb', st') ->
  exists new,
    shown st' = shown st ++ new
    /\ inv_sigs st' = inv_sigs st + count_lines is_bad_line new
    /\ oth_err st' = oth_err st + count_lines is_error_line new
    /\ no_key st <= no_key st'
    /\ forallb printable new = true.
Proof.
  induction todo as [|node next IH]; intros done st kb' st' H;
    cbn [check_walk] in H.
  - injection H as <- <-. exists []. rewrite app_nil_r.
    repeat split; cbn; lia.
  - destruct (negb (walk_visits node)); [now apply (IH _ _ _ _ H)|].
    destruct (pkt node) eqn:P; try (now apply (IH _ _ _ _ H)).
    + destruct (if negb (os =? 0)
                then has_flag (flag node) NODFLG_SELUID else selected st).
      * apply IH in H as (new & S & I & O & N & Pr).
        cbn [shown inv_sigs oth_err no_key] in *.
        exists (Line_uid uid :: new). rewrite S, <- app_assoc.
        split; [reflexivity|].
        change (Line_uid uid :: new) with ([Line_uid uid] ++ new).
        rewrite !count_lines_app, forallb_app, Pr.
        repeat split; cbn; lia.
      * apply IH in H as (new & S & I & O & N & Pr).
        cbn [shown inv_sigs oth_err no_key] in *.
        exists new. now repeat split.
    + destruct (selected st && is_cert_class sig);
        [|now apply (IH _ _ _ _ H)].
      destruct (check_key_signature ext (done ++ node :: next)
                  (length done)) as [rc selfsig].
      destruct (check_one_sig_lines rc selfsig node st)
        as (n1 & S1 & I1 & O1 & N1 & P1).
      destruct (check_one_sig rc selfsig node st) as [node' st1].
      cbn [snd] in *.
      apply IH in H as (new & S & I & O & N & Pr).
      exists (n1 ++ new). rewrite S, S1, <- app_assoc.
      rewrite !count_lines_app, forallb_app, P1, Pr.
      repeat split; lia.
Qed.

Lemma clean_lines lines :
  forallb printable lines = true ->
  (forallb is_clean_line lines = true <->
   count_lines is_bad_line lines = 0 /\ count_lines is_error_line lines = 0).
Proof.
  induction lines as [|l lines IH]; intros Pr.
  - cbn. tauto.
  - cbn [forallb] in *. apply andb_true_iff in Pr as [Pl Pr].
    specialize (IH Pr).
    change (l :: lines) with ([l] ++ lines). rewrite !count_lines_app.
    pose proof (count_lines_nonneg is_bad_line lines).
    pose proof (count_lines_nonneg is_error_line lines).
    rewrite andb_true_iff, IH.
    assert (B : count_lines is_bad_line [l] = if is_bad_line l then 1 else 0)
      by (unfold count_lines; cbn [filter]; now destruct (is_bad_line l)).
    assert (E : count_lines is_error_line [l]
                = if is_error_line l then 1 else 0)
      by (unfold count_lines; cbn [filter]; now destruct (is_error_line l)).
    rewrite B, E. unfold printable in Pl.
    destruct l as [u|[] s];
      cbn [is_clean_line is_bad_line is_error_line orb] in *;
      try discriminate; intuition (try discriminate; try lia).
Qed.

(** X7: the counters of [check_all_keysigs] are those of the lines it
    printed: [inv_sigs] the signature lines marked bad, [oth_err] those
    marked as failed otherwise; a signature whose key is missing gets no
    line.  The function returns 0 exactly when every line printed is a user
    id or a good signature, no signature was left unchecked for a missing
    key, and the count of user ids without self-signature is 0. *)
Theorem check_all_keysigs_verdict (ext : collaborators) (kb : KBNODE)
    (only_selected : Z) :
  let r := check_all_keysigs ext kb only_selected in
  chk_inv_sigs r = Z.of_nat (length (filter is_bad_line (chk_shown r)))
  /\ chk_oth_err r = Z.of_nat (length (filter is_error_line (chk_shown r)))
  /\ 0 <= chk_no_key r
  /\ forallb (fun l => is_clean_line l || is_bad_line l || is_error_line l)
       (chk_shown r) = true
  /\ (chk_return r = false <->
      forallb is_clean_line (chk_shown r) = true
      /\ chk_no_key r = 0 /\ chk_mis_selfsig r = 0).
Proof.
  unfold check_all_keysigs.
  destruct (check_walk ext only_selected [] kb _) as [kb' st'] eqn:W.
  cbn [chk_inv_sigs chk_oth_err chk_no_key chk_shown chk_return
       chk_mis_selfsig].
  apply check_walk_lines in W as (new & S & I & O & N & Pr).
  cbn [shown inv_sigs oth_err no_key app] in S, I, O, N.
  rewrite S.
  assert (I' : inv_sigs st' = count_lines is_bad_line new) by lia.
  assert (O' : oth_err st' = count_lines is_error_line new) by lia.
  split; [exact I'|]. split; [exact O'|]. split; [exact N|].
  split; [exact Pr|].
  rewrite (clean_lines new Pr), <- I', <- O'.
  set (mis := if negb (has_selfsig st') then mis_selfsig st' + 1
              else mis_selfsig st').
  destruct (Z.eqb_spec (inv_sigs st') 0), (Z.eqb_spec (no_key st') 0),
    (Z.eqb_spec (oth_err st') 0), (Z.eqb_spec mis 0); cbn;
    intuition (try discriminate; try lia).
Qed.

(** ** What signing does to the keyblock *)

Lemma grown_refl kids l : grown kids l l.
Proof. induction l; constructor; auto. Qed.

Lemma grown_length kids a b : grown kids a b -> (length a <= length b)%nat.
Proof. induction 1; cbn [length]; lia. Qed.

Lemma grown_trans kids b c : grown kids b c ->
  forall a, grown kids a b -> grown kids a c.
Proof.
  induction 1 as [|n n' l l' P D B G IH|s sig l l' P D B C K G IH];
    intros a H1.
  - exact H1.
  - inversion H1 as [|m ? a' ? P1 D1 B1 G1|? sig1 ? ? P1 D1 B1 C1 K1 G1];
      subst.
    + apply grown_keep; [congruence | congruence | | now apply IH].
      intros j J0 J4. now rewrite B, B1.
    + apply (grown_new kids n' sig1); [congruence | congruence | | | |];
        auto.
      intros j J0 J4. now rewrite B, B1.
  - apply (grown_new kids s sig); auto.
Qed.

Lemma grown_incl kids kids' a b :
  incl kids kids' -> grown kids a b -> grown kids' a b.
Proof.
  intros I. induction 1.
  - constructor.
  - now constructor.
  - eapply grown_new; eauto.
Qed.

Lemma grown_app kids a a' b b' :
  grown kids a a' -> grown kids b b' -> grown kids (a ++ b) (a' ++ b').
Proof.
  intros Ga Gb. induction Ga; cbn [app].
  - exact Gb.
  - now constructor.
  - eapply grown_new; eauto.
Qed.

Lemma set_mark_a_bits n j :
  0 <= j -> j <> 4 ->
  Z.testbit (flag (set_mark_a n)) j = Z.testbit (flag n) j.
Proof.
  intros J0 J4. unfold set_mark_a, set_flag, NODFLG_MARK_A.
  cbn [with_flag flag].
  rewrite Z.lor_spec, Z.shiftl_1_l, Z.pow2_bits_eqb by lia.
  destruct (Z.eqb_spec 4 j); [lia|]. apply orb_false_r.
Qed.

Lemma clear_mark_a_bits n j :
  0 <= j -> j <> 4 ->
  Z.testbit (flag (clear_mark_a n)) j = Z.testbit (flag n) j.
Proof.
  intros J0 J4. unfold clear_mark_a, clear_flag, NODFLG_MARK_A.
  cbn [with_flag flag].
  rewrite Z.land_spec, Z.lnot_spec, Z.shiftl_1_l, Z.pow2_bits_eqb by lia.
  destruct (Z.eqb_spec 4 j); [lia|]. apply andb_true_r.
Qed.

Lemma grown_mark kids sa l : grown kids l (sign_mark sa l).
Proof.
  unfold sign_mark. induction l as [|n l IH]; cbn [map]; constructor;
    try exact IH;
    destruct (sa || has_flag (flag n) NODFLG_SELUID); try reflexivity;
    intros j J0 J4; [apply set_mark_a_bits | apply clear_mark_a_bits];
    assumption.
Qed.

Lemma grown_already kids kid l : grown kids l (already_spec kid l).
Proof.
  induction l as [|n l IH]; cbn [already_spec]; constructor; try exact IH;
    destruct (is_uid n && has_flag (flag n) NODFLG_MARK_A
              && signed_by kid (certifiers l)); try reflexivity.
  intros j J0 J4. now apply clear_mark_a_bits.
Qed.

Lemma grown_update_node kids l : forall i,
  grown kids l (update_node i clear_mark_a l).
Proof.
  induction l as [|n l IH]; intros [|i]; cbn [update_node].
  - constructor.
  - constructor.
  - constructor; try reflexivity; [|apply grown_refl].
    intros j J0 J4. now apply clear_mark_a_bits.
  - constructor; try reflexivity. apply IH.
Qed.

Lemma grown_insert kids l i sig :
  sig_class sig = 16 -> In (sig_keyid sig) kids ->
  grown kids l (insert_kbnode l i (new_kbnode (pkt_signature sig))).
Proof.
  intros C K. unfold insert_kbnode.
  rewrite <- (firstn_skipn (S i) l) at 1.
  apply grown_app; [apply grown_refl|].
  apply (grown_new kids _ sig); auto; [|apply grown_refl].
  intros j _ _. cbn [new_kbnode flag]. apply Z.bits_0.
Qed.

Lemma insert_kbnode_length l i s :
  length (insert_kbnode l i s) = S (length l).
Proof.
  unfold insert_kbnode. rewrite length_app. cbn [length].
  rewrite <- (firstn_skipn (S i) l) at 3. rewrite length_app. lia.
Qed.

Lemma grown_counts kids a b :
  grown kids a b ->
  count_uids b = count_uids a
  /\ count_selected_uids b = count_selected_uids a.
Proof.
  unfold count_selected_uids.
  induction 1 as [|n n' l l' P D B G [IH1 IH2]
                  |s sig l l' P D B C K G [IH1 IH2]];
    cbn [count_uids count_uids_with_flag].
  - split; reflexivity.
  - assert (U : is_uid n' = is_uid n) by (unfold is_uid; now rewrite P).
    assert (F : has_flag (flag n') NODFLG_SELUID
                = has_flag (flag n) NODFLG_SELUID).
    { unfold NODFLG_SELUID. rewrite !has_flag_bit by lia. apply B; lia. }
    rewrite U, F, IH1, IH2. split; reflexivity.
  - assert (U : is_uid s = false) by (unfold is_uid; now rewrite P).
    rewrite U, IH1, IH2. split; reflexivity.
Qed.

Lemma ltb_chain a b c :
  (a <= b)%nat -> (b <= c)%nat ->
  (a <? b)%nat || (b <? c)%nat = (a <? c)%nat.
Proof.
  intros. destruct (Nat.ltb_spec a b), (Nat.ltb_spec b c),
    (Nat.ltb_spec a c); cbn; try reflexivity; lia.
Qed.

(** Whatever way the rounds under [reloop:] end. *)
Lemma sign_reloop_grown ext sk : forall fuel st,
  match sign_reloop ext sk fuel st with
  | Flow_next st' | Flow_leave _ st' =>
      grown [sk_keyid sk] (s_keyblock st) (s_keyblock st')
      /\ s_modified st'
         = s_modified st
           || (length (s_keyblock st) <? length (s_keyblock st'))%nat
  | _ => True
  end.
Proof.
  induction fuel as [|fuel IH]; intros st; cbn [sign_reloop]; [exact I|].
  destruct (sign_scan (s_keyblock st) 0 None) as [ppk|i [pk|] uid];
    [| |exact I].
  - cbn [s_keyblock s_modified]. split; [apply grown_refl|].
    now rewrite Nat.ltb_irrefl, orb_false_r.
  - unfold make_keysig_packet.
    destruct (keysig_answer ext pk uid sk 16) as [rc t].
    destruct (rc_is_ok rc).
    + match goal with
      | |- context [sign_reloop ext sk fuel ?s] => specialize (IH s)
      end.
      destruct (sign_reloop ext sk fuel _) as [st'|rc' st'| |];
        try exact I; cbn [s_keyblock s_modified] in IH;
        destruct IH as [G M];
        (split;
         [ apply (grown_trans _ _ _ G);
           apply (grown_trans _ _ _
                    (grown_insert [sk_keyid sk] _ i (mk_sig (sk_keyid sk) 16 t)
                       eq_refl (or_introl eq_refl)));
           apply grown_update_node
         | rewrite M; apply grown_length in G;
           rewrite insert_kbnode_length, update_node_length in G;
           destruct (Nat.ltb_spec (length (s_keyblock st))
                       (length (s_keyblock st'))); [|lia];
           now rewrite orb_true_r ]).
    + cbn [s_keyblock s_modified]. split; [apply grown_update_node|].
      now rewrite update_node_length, Nat.ltb_irrefl, orb_false_r.
Qed.

Lemma sign_prepared sa sk st :
  fst (sign_already (sk_keyid sk) [] (sign_mark sa (s_keyblock st)) None
         (s_tty st))
  = already_spec (sk_keyid sk) (sign_mark sa (s_keyblock st)).
Proof. now rewrite (sign_already_kb (sk_keyid sk) _ [] None _ I). Qed.

Lemma sign_one_grown ext sa sk st :
  match sign_one ext sa sk st with
  | Flow_next st' | Flow_leave _ st' =>
      grown [sk_keyid sk] (s_keyblock st) (s_keyblock st')
      /\ s_modified st'
         = s_modified st
           || (length (s_keyblock st) <? length (s_keyblock st'))%nat
  | _ => True
  end.
Proof.
  unfold sign_one.
  pose proof (sign_prepared sa sk st) as E.
  destruct (sign_already (sk_keyid sk) [] (sign_mark sa (s_keyblock st))
              None (s_tty st)) as [kb2 tty2].
  cbn [fst] in E.
  assert (G2 : grown [sk_keyid sk] (s_keyblock st) kb2).
  { subst kb2. apply (grown_trans _ _ _ (grown_already _ _ _)).
    apply grown_mark. }
  assert (L2 : length kb2 = length (s_keyblock st)).
  { subst kb2. apply map_pkt_length, sign_prepared_pkt. }
  assert (Same : grown [sk_keyid sk] (s_keyblock st) kb2
                 /\ s_modified st
                    = s_modified st
                      || (length (s_keyblock st) <? length kb2)%nat).
  { split; [exact G2|].
    now rewrite L2, Nat.ltb_irrefl, orb_false_r. }
  destruct (count_uids_with_flag kb2 NODFLG_MARK_A =? 0); [exact Same|].
  destruct (cpr_get_answer_is_yes (s_answers st)) as [yes rest].
  destruct yes; cbn [negb]; [|exact Same].
  match goal with
  | |- context [sign_reloop ext sk ?f ?s] =>
      pose proof (sign_reloop_grown ext sk f s) as R
  end.
  destruct (sign_reloop ext sk _ _) as [st'|rc' st'| |]; try exact I;
    cbn [s_keyblock s_modified] in R; destruct R as [G M];
    (split; [exact (grown_trans _ _ _ G _ G2) | now rewrite M, L2]).
Qed.

Lemma sign_loop_grown ext sa : forall sks st,
  match sign_loop ext sa sks st with
  | Flow_next st' | Flow_leave _ st' =>
      grown (map sk_keyid sks) (s_keyblock st) (s_keyblock st')
      /\ s_modified st'
         = s_modified st
           || (length (s_keyblock st) <? length (s_keyblock st'))%nat
  | _ => True
  end.
Proof.
  induction sks as [|sk sks IH]; intros st; cbn [sign_loop map].
  - split; [apply grown_refl|].
    now rewrite Nat.ltb_irrefl, orb_false_r.
  - pose proof (sign_one_grown ext sa sk st) as O.
    destruct (sign_one ext sa sk st) as [st1|rc1 st1| |]; try exact I.
    + destruct O as [G1 M1]. specialize (IH st1).
      destruct (sign_loop ext sa sks st1) as [st'|rc' st'| |]; try exact I;
        destruct IH as [G M];
        (split;
         [ apply (grown_trans _ _ _
                    (grown_incl _ (sk_keyid sk :: map sk_keyid sks) _ _
                       (incl_tl _ (incl_refl _)) G));
           apply (grown_incl [sk_keyid sk]); [|exact G1];
           intros x [<-|[]]; now left
         | rewrite M, M1, <- orb_assoc;
           now rewrite (ltb_chain _ _ _ (grown_length _ _ _ G1)
                          (grown_length _ _ _ G)) ]).
    + destruct O as [G1 M1]. split; [|exact M1].
      apply (grown_incl [sk_keyid sk]); [|exact G1].
      intros x [<-|[]]; now left.
Qed.

Lemma sign_uids_grown ext kb locusr modified answers pk0 rc cleared st :
  sign_uids ext kb locusr modified answers pk0 = Returned rc cleared st ->
  grown (map sk_keyid (snd (build_sk_list ext locusr))) kb (s_keyblock st)
  /\ s_modified st
     = modified || (length kb <? length (s_keyblock st))%nat.
Proof.
  intros H. unfold sign_uids in H.
  destruct (build_sk_list ext locusr) as [rc0 sks]. cbn [snd].
  destruct (rc_is_ok rc0); cbn [negb] in H.
  - pose proof (sign_loop_grown ext (count_selected_uids kb =? 0) sks
                  (mk_sign kb modified false pk0 answers [])) as L.
    destruct (sign_loop ext _ sks _) as [st'|rc' st'| |];
      try discriminate; cbn [s_keyblock s_modified] in L.
    + destruct (s_upd_trust st'); [destruct (s_primary_pk st')|];
        injection H as <- <- <-; exact L.
    + injection H as <- <- <-; exact L.
  - injection H as <- <- <-. cbn [s_keyblock s_modified].
    split; [apply grown_refl|].
    now rewrite Nat.ltb_irrefl, orb_false_r.
Qed.

(** X9: whenever [sign_uids] returns, the keyblock holds every old node
    in its place with its packet, its tombstone and every flag but MARK_A
    as before; what is new are live signature nodes of class 0x10 by the
    secret keys [build_sk_list] named.  No user id is added, removed,
    selected or deselected, and the caller's modified flag is set exactly
    when it was set before or the keyblock got longer. *)
Theorem sign_uids_frame (ext : collaborators) (kb : KBNODE)
    (locusr : list string) (modified : bool) (answers : list bool)
    (pk0 : option PKT_public_key) (rc : g10_rc) (cleared : bool)
    (st : sign_state) :
  sign_uids ext kb locusr modified answers pk0 = Returned rc cleared st ->
  grown (map sk_keyid (snd (build_sk_list ext locusr))) kb (s_keyblock st)
  /\ s_modified st
     = modified || (length kb <? length (s_keyblock st))%nat
  /\ count_uids (s_keyblock st) = count_uids kb
  /\ count_selected_uids (s_keyblock st) = count_selected_uids kb.
Proof.
  intros H. destruct (sign_uids_grown _ _ _ _ _ _ _ _ _ H) as [G M].
  split; [exact G|]. split; [exact M|].
  exact (grown_counts _ _ _ G).
Qed.

Lemma sign_uids_frame_witness :
  exists st,
    sign_uids sample_ext sample_two_uids [] false [true] None
    = Returned RC_OK true st
    /\ grown [kid_K] sample_two_uids (s_keyblock st)
    /\ s_modified st = true
    /\ count_uids (s_keyblock st) = 2.
Proof.
  eexists. split; [vm_compute; reflexivity|].
  pose proof (sign_uids_frame sample_ext sample_two_uids [] false [true]
                None _ _ _ eq_refl) as (G & M & C & _).
  split; [exact G|]. split; [exact M | exact C].
Defined.

(** ** Declining to sign *)

Lemma answer_of_no answers :
  Forall (fun a => a = false) answers ->
  fst (cpr_get_answer_is_yes answers) = false
  /\ Forall (fun a => a = false) (snd (cpr_get_answer_is_yes answers)).
Proof.
  intros F. destruct answers as [|a rest]; cbn [cpr_get_answer_is_yes fst snd].
  - split; [reflexivity | constructor].
  - inversion F; subst. split; [reflexivity | assumption].
Qed.

Lemma sign_one_declined ext sa sk st :
  Forall (fun a => a = false) (s_answers st) ->
  exists st',
    sign_one ext sa sk st = Flow_next st'
    /\ map pkt (s_keyblock st') = map pkt (s_keyblock st)
    /\ length (s_keyblock st') = length (s_keyblock st)
    /\ s_modified st' = s_modified st
    /\ s_upd_trust st' = s_upd_trust st
    /\ Forall (fun a => a = false) (s_answers st').
Proof.
  intros F. destruct (answer_of_no _ F) as [No Rest].
  pose proof (sign_prepared_pkt sa (sk_keyid sk) (s_keyblock st)) as P.
  destruct (sign_one_cases ext sa sk st)
    as (msgs & _ & [(_ & E)|[(_ & _ & E)|(_ & Yes & _)]]).
  - eexists. split; [exact E|]. cbn [s_keyblock s_modified s_upd_trust
                                       s_answers].
    repeat split; auto. now apply map_pkt_length.
  - eexists. split; [exact E|]. cbn [s_keyblock s_modified s_upd_trust
                                       s_answers].
    repeat split; auto. now apply map_pkt_length.
  - congruence.
Qed.

Lemma sign_loop_declined ext sa : forall sks st,
  Forall (fun a => a = false) (s_answers st) ->
  exists st',
    sign_loop ext sa sks st = Flow_next st'
    /\ map pkt (s_keyblock st') = map pkt (s_keyblock st)
    /\ length (s_keyblock st') = length (s_keyblock st)
    /\ s_modified st' = s_modified st
    /\ s_upd_trust st' = s_upd_trust st.
Proof.
  induction sks as [|sk sks IH]; intros st F; cbn [sign_loop].
  - exists st. repeat split.
  - destruct (sign_one_declined ext sa sk st F)
      as (st1 & E & P & L & M & U & F1).
    rewrite E. destruct (IH st1 F1) as (st' & E' & P' & L' & M' & U').
    exists st'. split; [exact E'|]. repeat split; congruence.
Qed.

(** X10: when the operator answers no "yes" (every answer is a no, or the
    input has ended) the sign command returns to the menu with every
    packet of the keyblock in its place, no node added, the modified flags,
    the secret keyblock and the redisplay flag as they were; no assertion
    fails on the way, whatever the keyblock looks like. *)
Theorem cmd_sign_declined (ext : collaborators) (s : session)
    (locusr : list string) (answers : list bool)
    (pk0 : option PKT_public_key) :
  Forall (fun a => a = false) answers ->
  exists s' rest msgs,
    cmd_sign ext s locusr answers pk0 = Some (s', rest, msgs)
    /\ map pkt (keyblock s') = map pkt (keyblock s)
    /\ modified s' = modified s
    /\ sec_keyblock s' = sec_keyblock s
    /\ sec_modified s' = sec_modified s
    /\ redisplay s' = redisplay s.
Proof.
  intros F. unfold cmd_sign.
  destruct (answer_of_no _ F) as [No Rest].
  assert (Run : forall rest, Forall (fun a => a = false) rest ->
    exists s' rest' msgs,
      match sign_uids ext (keyblock s) locusr (modified s) rest pk0 with
      | Returned _ _ st =>
          Some (mk_session (s_keyblock st) (sec_keyblock s) (s_modified st)
                  (sec_modified s) (redisplay s),
                s_answers st, map Said (s_tty st))
      | _ => None
      end = Some (s', rest', msgs)
      /\ map pkt (keyblock s') = map pkt (keyblock s)
      /\ modified s' = modified s
      /\ sec_keyblock s' = sec_keyblock s
      /\ sec_modified s' = sec_modified s
      /\ redisplay s' = redisplay s).
  { intros rest Fr. unfold sign_uids.
    destruct (build_sk_list ext locusr) as [rc0 sks].
    destruct (rc_is_ok rc0); cbn [negb].
    - destruct (sign_loop_declined ext
                  (count_selected_uids (keyblock s) =? 0) sks
                  (mk_sign (keyblock s) (modified s) false pk0 rest []) Fr)
        as (st' & E & P & _ & M & U).
      rewrite E. cbn [s_keyblock s_modified s_upd_trust] in P, M, U.
      rewrite U. do 3 eexists. split; [reflexivity|].
      cbn [keyblock modified sec_keyblock sec_modified redisplay].
      repeat split; assumption.
    - do 3 eexists. split; [reflexivity|]. repeat split. }
  destruct ((1 <? count_uids (keyblock s))
            && (count_selected_uids (keyblock s) =? 0)).
  - destruct (cpr_get_answer_is_yes answers) as [yes rest].
    cbn [fst snd] in No, Rest. subst yes. cbn [negb].
    do 3 eexists. split; [reflexivity|]. repeat split.
  - cbn [negb]. now apply Run.
Qed.

Lemma cmd_sign_declined_witness :
  exists s' rest msgs,
    cmd_sign sample_ext
      (mk_session sample_three_uids None false false false) [] [false] None
    = Some (s', rest, msgs)
    /\ map pkt (keyblock s') = map pkt sample_three_uids
    /\ modified s' = false.
Proof.
  destruct (cmd_sign_declined sample_ext
              (mk_session sample_three_uids None false false false)
              [] [false] None) as (s' & rest & msgs & E & P & M & _).
  - repeat constructor.
  - exists s', rest, msgs. repeat split; assumption.
Defined.

(** X11: with the primary key as the first node of the keyblock the sign
    command always returns to the menu: the assertion in the signing loop
    holds and the loop ends, whatever the collaborators and the operator
    answer.  The command leaves the secret keyblock, its modified flag and
    the redisplay flag alone, adds nothing but signatures of the signers to
    the public keyblock, and sets the modified flag exactly when it was set
    or the keyblock got longer. *)
Theorem cmd_sign_returns (ext : collaborators) (s : session)
    (locusr : list string) (answers : list bool)
    (pk0 : option PKT_public_key) :
  primary_first (keyblock s) = true ->
  exists s' rest msgs,
    cmd_sign ext s locusr answers pk0 = Some (s', rest, msgs)
    /\ grown (map sk_keyid (snd (build_sk_list ext locusr)))
         (keyblock s) (keyblock s')
    /\ modified s'
       = modified s || (length (keyblock s) <? length (keyblock s'))%nat
    /\ sec_keyblock s' = sec_keyblock s
    /\ sec_modified s' = sec_modified s
    /\ redisplay s' = redisplay s.
Proof.
  intros Pf. unfold cmd_sign.
  assert (Same : exists s' rest msgs,
            Some (s, snd (cpr_get_answer_is_yes answers),
                  [Hint_select_the_user_ids_to_sign])
            = Some (s', rest, msgs)
            /\ grown (map sk_keyid (snd (build_sk_list ext locusr)))
                 (keyblock s) (keyblock s')
            /\ modified s'
               = modified s
                 || (length (keyblock s) <? length (keyblock s'))%nat
            /\ sec_keyblock s' = sec_keyblock s
            /\ sec_modified s' = sec_modified s
            /\ redisplay s' = redisplay s).
  { do 3 eexists. split; [reflexivity|].
    split; [apply grown_refl|].
    rewrite Nat.ltb_irrefl, orb_false_r. repeat split. }
  assert (Run : forall rest,
    exists s' rest' msgs,
      match sign_uids ext (keyblock s) locusr (modified s) rest pk0 with
      | Returned _ _ st =>
          Some (mk_session (s_keyblock st) (sec_keyblock s) (s_modified st)
                  (sec_modified s) (redisplay s),
                s_answers st, map Said (s_tty st))
      | _ => None
      end = Some (s', rest', msgs)
      /\ grown (map sk_keyid (snd (build_sk_list ext locusr)))
           (keyblock s) (keyblock s')
      /\ modified s'
         = modified s || (length (keyblock s) <? length (keyblock s'))%nat
      /\ sec_keyblock s' = sec_keyblock s
      /\ sec_modified s' = sec_modified s
      /\ redisplay s' = redisplay s).
  { intros rest.
    destruct (sign_uids_returns ext (keyblock s) locusr (modified s) rest
                pk0 Pf) as (rc & cl & st & E).
    rewrite E.
    destruct (sign_uids_grown _ _ _ _ _ _ _ _ _ E) as (G & M).
    do 3 eexists. split; [reflexivity|].
    cbn [keyblock modified sec_keyblock sec_modified redisplay].
    repeat split; assumption. }
  destruct ((1 <? count_uids (keyblock s))
            && (count_selected_uids (keyblock s) =? 0)).
  - destruct (cpr_get_answer_is_yes answers) as [yes rest].
    destruct yes; cbn [negb]; [apply Run | exact Same].
  - cbn [negb]. apply Run.
Qed.

Lemma cmd_sign_returns_witness :
  exists s' rest msgs,
    cmd_sign sample_ext
      (mk_session sample_two_uids None false false false) [] [true; true]
      None
    = Some (s', rest, msgs)
    /\ modified s'
       = (length sample_two_uids <? length (keyblock s'))%nat.
Proof.
  destruct (cmd_sign_returns sample_ext
              (mk_session sample_two_uids None false false false)
              [] [true; true] None eq_refl)
    as (s' & rest & msgs & E & _ & M & _).
  exists s', rest, msgs. split; [exact E | exact M].
Defined.

(** ** Changing the passphrase: refusals, frame and result *)

Lemma with_pkt_same n : with_pkt n (pkt n) = n.
Proof. now destruct n. Qed.

Lemma set_primary_secret_key_same kb : forall sk,
  primary_secret_key kb = Some sk -> set_primary_secret_key sk kb = kb.
Proof.
  induction kb as [|node next IH]; intros sk; [reflexivity|].
  rewrite primary_secret_key_cons. cbn [set_primary_secret_key].
  destruct (pkt node) eqn:P; intros H; try (now rewrite (IH _ H)).
  injection H as <-. now rewrite <- P, with_pkt_same.
Qed.

Lemma unlock_subkeys_failed ext pp rc kb :
  rc_is_ok rc = false -> unlock_subkeys ext pp rc kb = (rc, kb).
Proof. intros R. destruct kb; cbn [unlock_subkeys]; now rewrite ?R. Qed.

(** X12: [change_passphrase] gives up before it asks for a new passphrase
    when the keyblock holds no secret key, when the algorithm of the
    primary key is not supported, or when the protected primary key cannot
    be unlocked: it returns 0, the keyblock is node for node the one it was
    and no answer of the operator is used, whatever passphrases would have
    been entered. *)
Theorem change_passphrase_refuses (ext : collaborators) (opt : options)
    (kb : KBNODE) (next_passphrase0 : option string)
    (deks : list (option DEK)) (answers : list bool) :
  match primary_secret_key kb with
  | None => True
  | Some sk =>
      pubkey_algo_supported ext sk = false
      \/ (is_protected sk = true
          /\ rc_is_ok (fst (unlock_answer ext sk next_passphrase0)) = false)
  end ->
  change_passphrase ext opt kb next_passphrase0 deks answers
  = Some (false, kb, answers).
Proof.
  unfold change_passphrase.
  destruct (primary_secret_key kb) as [sk|] eqn:Pk; [|reflexivity].
  intros H.
  assert (U : exists rc, unlock_keys ext kb sk next_passphrase0 = (rc, sk, kb)
                         /\ rc_is_ok rc = false).
  { unfold unlock_keys, is_secret_key_protected.
    destruct H as [Alg|[Prot Fail]].
    - rewrite Alg. cbn [negb]. change (-1 =? -1) with true. cbv iota.
      rewrite (set_primary_secret_key_same kb sk Pk).
      rewrite unlock_subkeys_failed by reflexivity.
      now exists G10ERR_PUBKEY_ALGO.
    - destruct (pubkey_algo_supported ext sk); cbn [negb].
      + rewrite Prot. change (1 =? -1) with false. change (1 =? 0) with false.
        cbv iota. unfold check_secret_key.
        destruct (unlock_answer ext sk next_passphrase0) as [rc last].
        cbn [fst] in Fail. rewrite Fail.
        rewrite (set_primary_secret_key_same kb sk Pk).
        rewrite unlock_subkeys_failed by exact Fail.
        now exists rc.
      + change (-1 =? -1) with true. cbv iota.
        rewrite (set_primary_secret_key_same kb sk Pk).
        rewrite unlock_subkeys_failed by reflexivity.
        now exists G10ERR_PUBKEY_ALGO. }
  destruct U as (rc & -> & R). now rewrite R.
Qed.

Lemma change_passphrase_refuses_witness :
  change_passphrase sample_ext (mk_opt 1 2 3) sample_two_uids None [] [true]
  = Some (false, sample_two_uids, [true])
  /\ change_passphrase sample_ext_no_algo (mk_opt 1 2 3) sample_sec None
       [Some (mk_dek 3 16)] [true]
     = Some (false, sample_sec, [true])
  /\ change_passphrase sample_ext_locked (mk_opt 1 2 3) sample_sec None
       [Some (mk_dek 3 16)] [true]
     = Some (false, sample_sec, [true]).
Proof.
  split; [|split].
  - apply change_passphrase_refuses. exact I.
  - apply change_passphrase_refuses. left. reflexivity.
  - apply change_passphrase_refuses. right. split; reflexivity.
Defined.

Lemma same_key_refl p : same_key p p.
Proof. destruct p; cbn; reflexivity. Qed.

Lemma same_key_trans p q r : same_key p q -> same_key q r -> same_key p r.
Proof.
  destruct p, q, r; cbn; intros A B; try congruence; try discriminate.
Qed.

Lemma rekeyed_refl l : Forall2 rekeyed l l.
Proof.
  induction l; constructor; [|assumption].
  repeat split. apply same_key_refl.
Qed.

Lemma rekeyed_trans a : forall b c,
  Forall2 rekeyed a b -> Forall2 rekeyed b c -> Forall2 rekeyed a c.
Proof.
  induction a as [|n a IH]; intros b c H1 H2; inversion H1; subst;
    inversion H2; subst; constructor.
  - destruct H3 as (F1 & D1 & K1), H4 as (F2 & D2 & K2).
    repeat split; try congruence. exact (same_key_trans _ _ _ K1 K2).
  - eapply IH; eassumption.
Qed.

Lemma set_primary_rekeyed sk' kb : forall sk,
  primary_secret_key kb = Some sk -> sk_keyid sk' = sk_keyid sk ->
  Forall2 rekeyed kb (set_primary_secret_key sk' kb).
Proof.
  induction kb as [|node next IH]; intros sk; [constructor|].
  rewrite primary_secret_key_cons. cbn [set_primary_secret_key].
  destruct (pkt node) eqn:P; intros H K;
    try (constructor; [|now apply (IH sk)];
         repeat split; rewrite P; reflexivity).
  injection H as <-. constructor; [|apply rekeyed_refl].
  repeat split. cbn [with_pkt pkt]. rewrite P. exact K.
Qed.

Lemma unlock_subkeys_rekeyed ext pp : forall kb rc,
  Forall2 rekeyed kb (snd (unlock_subkeys ext pp rc kb)).
Proof.
  induction kb as [|node next IH]; intros rc; cbn [unlock_subkeys];
    [constructor|].
  destruct (rc_is_ok rc); [|apply rekeyed_refl].
  destruct (pkt node) eqn:P;
    try (specialize (IH rc);
         destruct (unlock_subkeys ext pp rc next) as [rc2 next'];
         cbn [snd] in *; constructor; [|exact IH];
         repeat split; apply same_key_refl).
  unfold check_secret_key.
  destruct (unlock_answer ext sk pp) as [rc1 last].
  destruct (rc_is_ok rc1); specialize (IH rc1);
    destruct (unlock_subkeys ext pp rc1 next) as [rc2 next'];
    cbn [snd] in *; (constructor; [|exact IH]);
    repeat split; cbn [with_pkt pkt]; rewrite P; reflexivity.
Qed.

Lemma protect_subkeys_rekeyed ext dek s2k : forall kb rc,
  Forall2 rekeyed kb (snd (protect_subkeys ext dek s2k rc kb)).
Proof.
  induction kb as [|node next IH]; intros rc; cbn [protect_subkeys];
    [constructor|].
  destruct (rc_is_ok rc); [|apply rekeyed_refl].
  destruct (pkt node) eqn:P;
    try (specialize (IH rc);
         destruct (protect_subkeys ext dek s2k rc next) as [rc2 next'];
         cbn [snd] in *; constructor; [|exact IH];
         repeat split; apply same_key_refl).
  unfold protect_secret_key.
  destruct (rc_is_ok (protect_answer ext (set_protect sk dek s2k) dek));
    match goal with
    | |- context [protect_subkeys ext dek s2k ?r next] =>
        specialize (IH r);
        destruct (protect_subkeys ext dek s2k r next) as [rc2 next']
    end;
    cbn [snd] in *; (constructor; [|exact IH]);
    repeat split; cbn [with_pkt pkt]; rewrite P; reflexivity.
Qed.

Lemma unlock_keys_keyid ext kb sk next0 :
  sk_keyid (snd (fst (unlock_keys ext kb sk next0))) = sk_keyid sk
  /\ (primary_secret_key kb = Some sk ->
      Forall2 rekeyed kb (snd (unlock_keys ext kb sk next0))).
Proof.
  unfold unlock_keys.
  set (first :=
         if is_secret_key_protected ext sk =? -1
         then (G10ERR_PUBKEY_ALGO, sk, None)
         else if is_secret_key_protected ext sk =? 0
              then (RC_OK, sk, None)
              else let '(rc, sk1, last) := check_secret_key ext sk next0 in
                   (rc, sk1, if rc_is_ok rc then last else None)).
  assert (K : sk_keyid (snd (fst first)) = sk_keyid sk).
  { subst first.
    destruct (is_secret_key_protected ext sk =? -1); [reflexivity|].
    destruct (is_secret_key_protected ext sk =? 0); [reflexivity|].
    unfold check_secret_key.
    destruct (unlock_answer ext sk next0) as [rc last].
    now destruct (rc_is_ok rc). }
  destruct first as [[rc s] p]. cbn [fst snd] in K.
  pose proof (unlock_subkeys_rekeyed ext p (set_primary_secret_key s kb) rc)
    as U.
  destruct (unlock_subkeys ext p rc (set_primary_secret_key s kb))
    as [rc' kb']. cbn [fst snd] in *.
  split; [exact K|]. intros Pk.
  exact (rekeyed_trans _ _ _ (set_primary_rekeyed s kb sk Pk K) U).
Qed.

Lemma new_passphrase_loop_rekeyed ext opt answers sk kb :
  primary_secret_key kb = Some sk ->
  forall deks rc changed kb' answers',
    new_passphrase_loop ext opt deks answers sk kb
    = Some (rc, changed, kb', answers') ->
    Forall2 rekeyed kb kb'
    /\ (answers' = answers \/ answers' = tl answers).
Proof.
  intros Pk. induction deks as [|[dek|] deks IH];
    intros rc changed kb' answers' H; cbn [new_passphrase_loop] in H.
  - discriminate.
  - destruct (dek_keylen dek =? 0).
    + destruct answers as [|a rest]; cbn [cpr_get_answer_is_yes] in H;
        injection H as <- <- <- <-;
        (split; [apply rekeyed_refl | now right]).
    + unfold protect_secret_key in H.
      set (s2k := mk_s2k (opt_s2k_mode opt) (opt_s2k_digest_algo opt)) in *.
      set (sk0 := set_protect sk dek s2k) in *.
      assert (K : forall b,
                sk_keyid (mk_sk (sk_keyid sk0) b (protect_algo sk0)
                            (protect_s2k sk0)) = sk_keyid sk)
        by reflexivity.
      destruct (rc_is_ok (protect_answer ext sk0 dek));
        match type of H with
        | context [protect_subkeys ext dek s2k ?r ?k] =>
            pose proof (protect_subkeys_rekeyed ext dek s2k k r) as R;
            destruct (protect_subkeys ext dek s2k r k) as [rc2 kb2]
        end; cbn [snd] in R; injection H as <- <- <- <-;
        (split; [|now left]);
        refine (rekeyed_trans _ _ _ _ R);
        apply (set_primary_rekeyed _ kb sk Pk); reflexivity.
  - now apply IH in H.
Qed.

(** X13: whenever [change_passphrase] returns, the keyblock has the same
    nodes in the same order with their flag words and tombstones; every
    packet that holds no secret key is as it was, and a secret key or
    subkey packet still holds a key with the same key id.  At most the
    first of the operator's answers is used. *)
Theorem change_passphrase_frame (ext : collaborators) (opt : options)
    (kb : KBNODE) (next_passphrase0 : option string)
    (deks : list (option DEK)) (answers : list bool)
    (changed : bool) (kb' : KBNODE) (answers' : list bool) :
  change_passphrase ext opt kb next_passphrase0 deks answers
  = Some (changed, kb', answers') ->
  Forall2 rekeyed kb kb'
  /\ length kb' = length kb
  /\ (answers' = answers \/ answers' = tl answers).
Proof.
  intros H.
  assert (G : Forall2 rekeyed kb kb'
              /\ (answers' = answers \/ answers' = tl answers)).
  { unfold change_passphrase in H.
    destruct (primary_secret_key kb) as [sk|] eqn:Pk.
    - pose proof (unlock_keys_keyid ext kb sk next_passphrase0) as [K U].
      specialize (U Pk).
      destruct (unlock_keys ext kb sk next_passphrase0) as [[rc sk1] kb1]
        eqn:E.
      cbn [fst snd] in K, U.
      destruct (rc_is_ok rc) eqn:R; cbn [negb] in H.
      + apply rc_is_ok_eq in R. subst rc.
        destruct (unlock_keys_ok _ _ _ _ _ _ Pk E) as (_ & Pk1 & _).
        destruct (new_passphrase_loop ext opt deks answers sk1 kb1)
          as [[[[rc' ch] kb2] a2]|] eqn:L; [|discriminate].
        injection H as <- <- <-.
        destruct (new_passphrase_loop_rekeyed _ _ _ _ _ Pk1 _ _ _ _ _ L)
          as [R2 A].
        split; [exact (rekeyed_trans _ _ _ U R2) | exact A].
      + injection H as <- <- <-. split; [exact U | now left].
    - injection H as <- <- <-. split; [apply rekeyed_refl | now left]. }
  destruct G as [G A]. split; [exact G|]. split; [|exact A].
  symmetry. exact (Forall2_length G).
Qed.

Lemma change_passphrase_frame_witness :
  exists changed kb' answers',
    change_passphrase sample_ext (mk_opt 1 2 3) sample_sec None
      [None; Some (mk_dek 7 16)] [true]
    = Some (changed, kb', answers')
    /\ Forall2 rekeyed sample_sec kb' /\ length kb' = length sample_sec.
Proof.
  do 3 eexists. split; [vm_compute; reflexivity|].
  pose proof (change_passphrase_frame sample_ext (mk_opt 1 2 3) sample_sec
                None [None; Some (mk_dek 7 16)] [true] _ _ _ eq_refl)
    as (F & L & _).
  split; [exact F | exact L].
Defined.

(** When the loop protecting the subkeys ends without error it was entered
    without error, every subkey is protected under the new key afterwards
    and the primary key packet is the one it was. *)
Lemma protect_subkeys_ok ext dek s2k : forall kb rc rc' kb',
  protect_subkeys ext dek s2k rc kb = (rc', kb') ->
  rc_is_ok rc' = true ->
  rc_is_ok rc = true
  /\ (forall node subsk,
        In node kb' -> pkt node = pkt_secret_subkey subsk ->
        is_protected subsk = true /\ protect_algo subsk = dek_algo dek
        /\ protect_s2k subsk = s2k)
  /\ primary_secret_key kb' = primary_secret_key kb.
Proof.
  induction kb as [|node next IH]; intros rc rc' kb' H Ok;
    cbn [protect_subkeys] in H.
  - injection H as <- <-. split; [exact Ok|].
    split; [intros ? ? [] | reflexivity].
  - destruct (rc_is_ok rc) eqn:R;
      [|injection H as <- <-; congruence].
    destruct (pkt node) eqn:P;
      try (destruct (protect_subkeys ext dek s2k rc next) as [rc2 next']
             eqn:U;
           injection H as <- <-;
           destruct (IH _ _ _ U Ok) as (_ & S & Pr);
           split; [reflexivity|]; split;
           [intros n s [<-|I] Pn; [congruence | now apply (S n s)]
           |rewrite !primary_secret_key_cons, P; auto]).
    unfold protect_secret_key in H.
    destruct (rc_is_ok (protect_answer ext (set_protect sk dek s2k) dek))
      eqn:R1.
    + destruct (protect_subkeys ext dek s2k _ next) as [rc2 next'] eqn:U.
      injection H as <- <-.
      destruct (IH _ _ _ U Ok) as (_ & S & Pr).
      split; [reflexivity|]. split.
      * intros n s [<-|I] Pn; [|now apply (S n s)].
        cbn [with_pkt pkt] in Pn. injection Pn as <-.
        repeat split.
      * rewrite !primary_secret_key_cons, P. cbn [with_pkt pkt]. exact Pr.
    + destruct (protect_subkeys ext dek s2k _ next) as [rc2 next'] eqn:U.
      injection H as <- <-.
      destruct (IH _ _ _ U Ok) as (R1' & _). congruence.
Qed.

Lemma new_passphrase_loop_skip ext opt deks answers sk kb : forall n,
  new_passphrase_loop ext opt (repeat None n ++ deks) answers sk kb
  = new_passphrase_loop ext opt deks answers sk kb.
Proof.
  induction n as [|n IH]; cbn [repeat app new_passphrase_loop];
    [reflexivity | exact IH].
Qed.

(** X14: when [change_passphrase] returns 1 after a passphrase that is not
    empty was entered (after any number of entries not correctly
    repeated), no answer of the operator was used, and the primary secret
    key and every secret subkey of the keyblock are protected with the
    cipher of the derived key and the string-to-key mode and digest of the
    options: one passphrase and one setting for all keys. *)
Theorem change_passphrase_protects (ext : collaborators) (opt : options)
    (kb : KBNODE) (next_passphrase0 : option string) (mismatches : nat)
    (dek : DEK) (more_deks : list (option DEK)) (answers : list bool)
    (kb' : KBNODE) (answers' : list bool) :
  dek_keylen dek <> 0 ->
  change_passphrase ext opt kb next_passphrase0
    (repeat None mismatches ++ Some dek :: more_deks) answers
  = Some (true, kb', answers') ->
  let s2k := mk_s2k (opt_s2k_mode opt) (opt_s2k_digest_algo opt) in
  answers' = answers
  /\ (exists sk',
        primary_secret_key kb' = Some sk'
        /\ is_protected sk' = true /\ protect_algo sk' = dek_algo dek
        /\ protect_s2k sk' = s2k)
  /\ (forall node subsk,
        In node kb' -> pkt node = pkt_secret_subkey subsk ->
        is_protected subsk = true /\ protect_algo subsk = dek_algo dek
        /\ protect_s2k subsk = s2k).
Proof.
  intros Len H s2k. unfold change_passphrase in H.
  destruct (primary_secret_key kb) as [sk|] eqn:Pk; [|discriminate].
  destruct (unlock_keys ext kb sk next_passphrase0) as [[rc sk1] kb1] eqn:E.
  destruct (rc_is_ok rc) eqn:R; cbn [negb] in H; [|discriminate].
  apply rc_is_ok_eq in R. subst rc.
  destruct (unlock_keys_ok _ _ _ _ _ _ Pk E) as (_ & Pk1 & _).
  rewrite new_passphrase_loop_skip in H. cbn [new_passphrase_loop] in H.
  destruct (Z.eqb_spec (dek_keylen dek) 0) as [|_]; [contradiction|].
  fold s2k in H. unfold protect_secret_key in H.
  destruct (rc_is_ok (protect_answer ext (set_protect sk1 dek s2k) dek))
    eqn:R1.
  - destruct (protect_subkeys ext dek s2k _ _) as [rc2 kb2] eqn:U.
    destruct (rc_is_ok rc2) eqn:R2;
      [|cbn in H; discriminate].
    injection H as <- <-.
    destruct (protect_subkeys_ok _ _ _ _ _ _ _ U R2) as (_ & S & Pr).
    split; [reflexivity|]. split; [|exact S].
    rewrite Pr, (primary_secret_key_set _ _ _ Pk1).
    eexists. split; [reflexivity|]. repeat split.
  - destruct (protect_subkeys ext dek s2k _ _) as [rc2 kb2] eqn:U.
    destruct (rc_is_ok rc2) eqn:R2;
      [|cbn in H; discriminate].
    destruct (protect_subkeys_ok _ _ _ _ _ _ _ U R2) as (R1' & _).
    congruence.
Qed.

Lemma change_passphrase_protects_witness :
  exists kb',
    change_passphrase sample_ext (mk_opt 1 2 3) sample_sec None
      [None; Some (mk_dek 7 16)] [true]
    = Some (true, kb', [true])
    /\ (exists sk',
          primary_secret_key kb' = Some sk'
          /\ is_protected sk' = true /\ protect_algo sk' = 7
          /\ protect_s2k sk' = mk_s2k 1 2)
    /\ (forall node subsk,
          In node kb' -> pkt node = pkt_secret_subkey subsk ->
          is_protected subsk = true /\ protect_algo subsk = 7
          /\ protect_s2k subsk = mk_s2k 1 2).
Proof.
  eexists. split; [vm_compute; reflexivity|].
  refine (proj2 (change_passphrase_protects sample_ext (mk_opt 1 2 3)
                   sample_sec None 1 (mk_dek 7 16) [] [true] _ _ _ eq_refl)).
  discriminate.
Defined.

(** X15: when the keys were unlocked, the new passphrase comes back empty
    and the operator does not confirm (a "no", or the input has ended),
    [change_passphrase] returns 0 and the menu leaves the modified flag of
    the secret keyblock as it was; the keyblock it leaves in the session is
    the unlocked one all the same, with the primary secret key and every
    secret subkey marked unprotected. *)
Theorem change_passphrase_empty_declined (ext : collaborators)
    (opt : options) (s : session) (sec : KBNODE) (sk sk1 : PKT_secret_key)
    (kb1 : KBNODE) (next_passphrase0 : option string) (mismatches : nat)
    (dek : DEK) (more_deks : list (option DEK)) (answers : list bool) :
  sec_keyblock s = Some sec ->
  primary_secret_key sec = Some sk ->
  unlock_keys ext sec sk next_passphrase0 = (RC_OK, sk1, kb1) ->
  dek_keylen dek = 0 ->
  hd false answers = false ->
  let deks := repeat None mismatches ++ Some dek :: more_deks in
  change_passphrase ext opt sec next_passphrase0 deks answers
  = Some (false, kb1, tl answers)
  /\ cmd_passwd ext opt s next_passphrase0 deks answers
     = Some (mk_session (keyblock s) (Some kb1) (modified s)
               (sec_modified s) (redisplay s), tl answers)
  /\ (exists sk', primary_secret_key kb1 = Some sk'
                  /\ is_protected sk' = false)
  /\ (forall node subsk,
        In node kb1 -> pkt node = pkt_secret_subkey subsk ->
        is_protected subsk = false).
Proof.
  intros Sec Pk U Len No deks.
  assert (C : change_passphrase ext opt sec next_passphrase0 deks answers
              = Some (false, kb1, tl answers)).
  { unfold change_passphrase. rewrite Pk, U. cbn [rc_is_ok negb].
    subst deks. rewrite new_passphrase_loop_skip.
    cbn [new_passphrase_loop]. rewrite Len. cbn [Z.eqb].
    destruct answers as [|a rest]; cbn [cpr_get_answer_is_yes hd tl] in *;
      [reflexivity|]. now subst a. }
  split; [exact C|]. split.
  - unfold cmd_passwd. now rewrite Sec, C.
  - destruct (unlock_keys_ok _ _ _ _ _ _ Pk U) as (I & P & S).
    split; [now exists sk1 | exact S].
Qed.

Lemma change_passphrase_empty_declined_witness :
  exists kb1,
    cmd_passwd sample_ext (mk_opt 1 2 3)
      (mk_session sample_pub (Some sample_sec) false false false) None
      [Some (mk_dek 3 0)] [false; true]
    = Some (mk_session sample_pub (Some kb1) false false false, [true])
    /\ (exists sk', primary_secret_key kb1 = Some sk'
                    /\ is_protected sk' = false).
Proof.
  eexists.
  pose proof (change_passphrase_empty_declined sample_ext (mk_opt 1 2 3)
                (mk_session sample_pub (Some sample_sec) false false false)
                sample_sec sample_sk _ _ None 0 (mk_dek 3 0) [] [false; true]
                eq_refl eq_refl eq_refl eq_refl eq_refl)
    as (_ & C & P & _).
  split; [exact C | exact P].
Defined.

(** ** Removing user ids: what is left of the public keyblock *)

Lemma count_uids_commit_cons x l :
  count_uids (commit_kbnode (x :: l))
  = (if negb (deleted x) && is_uid x then 1 else 0)
    + count_uids (commit_kbnode l).
Proof.
  unfold commit_kbnode. cbn [filter].
  destruct (deleted x); cbn [negb andb count_uids]; [reflexivity|].
  now destruct (is_uid x).
Qed.

Ltac deluid_step IH Lr :=
  match goal with
  | |- context [deluid_pub ?a ?b ?c] =>
      let HH := fresh "HH" in
      pose proof (IH a c Lr) as HH;
      destruct (deluid_pub a b c) as [? ?]
  end; cbn [fst] in *.

Lemma deluid_pub_count : forall pub sel sec,
  Forall (fun n => deleted n = false) pub ->
  count_uids (commit_kbnode (fst (deluid_pub sel pub sec)))
  = count_uids pub - count_selected_uids pub.
Proof.
  unfold count_selected_uids.
  induction pub as [|node next IH]; intros sel sec L; [reflexivity|].
  inversion L as [|? ? Ln Lr]; subst.
  cbn [deluid_pub count_uids count_uids_with_flag].
  assert (U : is_uid node
              = match pkt node with pkt_user_id _ => true | _ => false end)
    by (unfold is_uid; now destruct (pkt node)).
  rewrite U.
  destruct (pkt node) eqn:P; cbn [andb];
    try destruct (has_flag (flag node) NODFLG_SELUID);
    try destruct sel;
    deluid_step IH Lr; rewrite count_uids_commit_cons;
    cbn [delete_kbnode deleted negb andb]; rewrite ?Ln, ?U, ?P;
    cbn [negb andb]; lia.
Qed.

Lemma filter_commit_cons (f : kbnode -> bool) x l :
  filter f (commit_kbnode (x :: l))
  = (if negb (deleted x) && f x then [x] else [])
    ++ filter f (commit_kbnode l).
Proof.
  unfold commit_kbnode. cbn [filter].
  destruct (deleted x); cbn [negb andb filter app]; [reflexivity|].
  now destruct (f x).
Qed.

(** The nodes that are no signatures: those of the unselected user ids and
    of everything else stay, in their order. *)
Lemma deluid_pub_kept : forall pub sel sec,
  Forall (fun n => deleted n = false) pub ->
  filter (fun n => negb (is_sig n))
    (commit_kbnode (fst (deluid_pub sel pub sec)))
  = filter (fun n => negb (is_sig n)
                     && negb (is_uid n
                              && has_flag (flag n) NODFLG_SELUID)) pub.
Proof.
  induction pub as [|node next IH]; intros sel sec L; [reflexivity|].
  inversion L as [|? ? Ln Lr]; subst.
  cbn [deluid_pub filter].
  assert (U : is_uid node
              = match pkt node with pkt_user_id _ => true | _ => false end)
    by (unfold is_uid; now destruct (pkt node)).
  assert (S : is_sig node
              = match pkt node with pkt_signature _ => true | _ => false end)
    by (unfold is_sig; now destruct (pkt node)).
  rewrite U, S.
  destruct (pkt node) eqn:P; cbn [andb negb];
    try destruct (has_flag (flag node) NODFLG_SELUID);
    try destruct sel;
    deluid_step IH Lr; rewrite filter_commit_cons;
    cbn [delete_kbnode deleted negb andb]; rewrite ?Ln, ?S, ?P;
    cbn [negb andb app]; now rewrite HH.
Qed.

Lemma deluid_pub_unselected : forall pub sel sec,
  count_selected_uids (commit_kbnode (fst (deluid_pub sel pub sec))) = 0.
Proof.
  intros pub sel sec. unfold count_selected_uids.
  assert (A : forall l,
            (forall n, In n l -> is_uid n = true ->
                       has_flag (flag n) NODFLG_SELUID = false) ->
            count_uids_with_flag l NODFLG_SELUID = 0).
  { induction l as [|x l IHl]; intros H; [reflexivity|].
    cbn [count_uids_with_flag]. rewrite IHl by (intros n0 I0 U0; apply H; [now right | exact U0]).
    destruct (is_uid x) eqn:Ux; [|reflexivity].
    now rewrite (H x (or_introl eq_refl) Ux). }
  apply A. intros n I Un.
  apply commit_kbnode_In in I as [I D].
  destruct (deluid_pub_fst_from pub sel sec n I D) as [_ F].
  unfold is_uid in Un. destruct (pkt n) eqn:P; try discriminate.
  now apply (F uid).
Qed.

(** X16: [menu_deluid] on a public keyblock without tombstones, when it
    returns: no user id of the result is selected, no node of it is a
    tombstone, the number of user ids has gone down by the number of
    selected ones, and the nodes that are no signatures (the unselected
    user ids, the keys and subkeys) are those of before in their order. *)
Theorem menu_deluid_public (pub : KBNODE) (sec : option KBNODE)
    (pub' : KBNODE) (sec' : option KBNODE) :
  Forall (fun n => deleted n = false) pub ->
  menu_deluid pub sec = Some (pub', sec') ->
  count_selected_uids pub' = 0
  /\ Forall (fun n => deleted n = false) pub'
  /\ count_uids pub' = count_uids pub - count_selected_uids pub
  /\ filter (fun n => negb (is_sig n)) pub'
     = filter (fun n => negb (is_sig n)
                        && negb (is_uid n
                                 && has_flag (flag n) NODFLG_SELUID)) pub.
Proof.
  intros L H. unfold menu_deluid in H.
  pose proof (deluid_pub_unselected pub false sec) as A.
  pose proof (deluid_pub_count pub false sec L) as B.
  pose proof (deluid_pub_kept pub false sec L) as C.
  destruct (deluid_pub false pub sec) as [p s]. cbn [fst] in *.
  unfold commit_blocks in H.
  destruct (root_survives p && _); [|discriminate].
  injection H as <- <-.
  split; [exact A|]. split; [|split; [exact B | exact C]].
  apply Forall_forall. intros n I. apply commit_kbnode_In in I. tauto.
Qed.

Lemma menu_deluid_public_witness :
  exists pub' sec',
    menu_deluid sample_three_uids (Some sample_three_sec)
    = Some (pub', sec')
    /\ count_selected_uids pub' = 0
    /\ count_uids pub' = 2.
Proof.
  do 2 eexists. split; [vm_compute; reflexivity|].
  pose proof (menu_deluid_public sample_three_uids (Some sample_three_sec)
                _ _ ltac:(repeat constructor) eq_refl) as (A & _ & B & _).
  split; [exact A | exact B].
Defined.

(** X17: when the deluid command removes something from a public keyblock
    without tombstones, at least one user id is left, none is selected any
    more, and the session is marked modified and to be shown again; in
    every other case the session is the one it was.  So the command never
    removes the last user id. *)
Theorem cmd_deluid_leaves_one (s s' : session) (answers rest : list bool)
    (msgs : list tty_msg) :
  Forall (fun n => deleted n = false) (keyblock s) ->
  cmd_deluid s answers = Some (s', rest, msgs) ->
  s' = s
  \/ (1 <= count_uids (keyblock s')
      /\ count_uids (keyblock s')
         = count_uids (keyblock s) - count_selected_uids (keyblock s)
      /\ count_selected_uids (keyblock s') = 0
      /\ modified s' = true /\ redisplay s' = true
      /\ (sec_keyblock s <> None -> sec_modified s' = true)
      /\ rest = tl answers /\ msgs = []).
Proof.
  intros L H. unfold cmd_deluid in H.
  destruct (count_selected_uids (keyblock s) =? 0);
    [injection H as <- <- <-; now left|].
  destruct (Z.ltb_spec (count_uids (keyblock s)
                        - count_selected_uids (keyblock s)) 1) as [|Ge];
    [injection H as <- <- <-; now left|].
  destruct answers as [|a answers]; cbn [cpr_get_answer_is_yes] in H;
    [injection H as <- <- <-; now left|].
  destruct a; [|injection H as <- <- <-; now left].
  destruct (menu_deluid (keyblock s) (sec_keyblock s)) as [[pub sec]|] eqn:M;
    [|discriminate].
  injection H as <- <- <-. right.
  unfold menu_deluid in M.
  pose proof (deluid_pub_unselected (keyblock s) false (sec_keyblock s)) as A.
  pose proof (deluid_pub_count (keyblock s) false (sec_keyblock s) L) as B.
  destruct (deluid_pub false (keyblock s) (sec_keyblock s)) as [p sx].
  cbn [fst] in A, B. unfold commit_blocks in M.
  destruct (root_survives p && _); [|discriminate].
  injection M as <- <-.
  cbn [keyblock modified redisplay sec_modified tl].
  repeat split; try assumption; try lia.
  intros N. now destruct (sec_keyblock s).
Qed.

Lemma cmd_deluid_leaves_one_witness :
  exists s' rest msgs,
    cmd_deluid (mk_session sample_three_uids (Some sample_three_sec)
                  false false false) [true] = Some (s', rest, msgs)
    /\ 1 <= count_uids (keyblock s')
    /\ count_selected_uids (keyblock s') = 0.
Proof.
  do 3 eexists. split; [vm_compute; reflexivity|].
  destruct (cmd_deluid_leaves_one
              (mk_session sample_three_uids (Some sample_three_sec)
                 false false false) _ [true] _ _
              ltac:(repeat constructor) eq_refl)
    as [E|(A & _ & B & _)].
  - discriminate E.
  - split; [exact A | exact B].
Defined.

(** ** Removing subkeys: what is left of the public keyblock *)

Lemma sig_runs_cons node next :
  sig_runs (node :: next)
  = if is_sig node
    then (node :: fst (sig_runs next), snd (sig_runs next))
    else ([], (node, fst (sig_runs next)) :: snd (sig_runs next)).
Proof. cbn [sig_runs]. now destruct (sig_runs next), (is_sig node). Qed.

Lemma commit_cons x l :
  commit_kbnode (x :: l)
  = if deleted x then commit_kbnode l else x :: commit_kbnode l.
Proof. unfold commit_kbnode. cbn [filter]. now destruct (deleted x). Qed.

Ltac delkey_step IH Lr :=
  match goal with
  | |- context [delkey_pub ?a ?b ?c] =>
      let HH := fresh "HH" in
      pose proof (IH a c Lr) as HH;
      destruct (delkey_pub a b c) as [? ?]
  end; cbn [fst] in *.

Lemma delkey_pub_runs : forall pub sel sec,
  Forall (fun n => deleted n = false) pub ->
  sig_runs (commit_kbnode (fst (delkey_pub sel pub sec)))
  = (if sel then [] else fst (sig_runs pub),
     filter (fun run => negb (selected_subkey_run run)) (snd (sig_runs pub))).
Proof.
  induction pub as [|node next IH]; intros sel sec L.
  - now destruct sel.
  - inversion L as [|? ? Ln Lr]; subst.
    cbn [delkey_pub]. rewrite (sig_runs_cons node next).
    assert (S : is_sig node
                = match pkt node with pkt_signature _ => true | _ => false end)
      by (unfold is_sig; now destruct (pkt node)).
    assert (K : is_public_subkey node
                = match pkt node with
                  | pkt_public_subkey _ => true | _ => false
                  end)
      by (unfold is_public_subkey; now destruct (pkt node)).
    rewrite S.
    destruct (pkt node) eqn:P;
      try destruct (has_flag (flag node) NODFLG_SELKEY) eqn:F;
      try destruct sel;
      delkey_step IH Lr; rewrite commit_cons;
      cbn [delete_kbnode deleted fst snd filter]; rewrite ?Ln;
      unfold selected_subkey_run; cbn [fst]; rewrite ?K, ?P, ?F;
      cbn [andb negb]; rewrite ?sig_runs_cons, ?S, ?P, HH;
      reflexivity.
Qed.

Lemma delkey_pub_uids : forall pub sel sec,
  Forall (fun n => deleted n = false) pub ->
  filter is_uid (commit_kbnode (fst (delkey_pub sel pub sec)))
  = filter is_uid pub.
Proof.
  induction pub as [|node next IH]; intros sel sec L; [reflexivity|].
  inversion L as [|? ? Ln Lr]; subst.
  cbn [delkey_pub filter].
  assert (U : is_uid node
              = match pkt node with pkt_user_id _ => true | _ => false end)
    by (unfold is_uid; now destruct (pkt node)).
  rewrite U.
  destruct (pkt node) eqn:P;
    try destruct (has_flag (flag node) NODFLG_SELKEY) eqn:F;
    try destruct sel;
    delkey_step IH Lr; rewrite commit_cons;
    cbn [delete_kbnode deleted]; rewrite ?Ln; cbn [filter];
    rewrite ?U, ?P, HH; reflexivity.
Qed.

(** X18: when the delkey command removes something from a public keyblock
    without tombstones (the operator is asked only if there is a secret
    keyblock, so without one no answer is used), the result is the old
    keyblock without the runs of the selected public subkeys: each
    selected public subkey goes with the signatures that follow it up to
    the next node that is no signature, every other node stays in its
    place.  No user id is touched, and the session is marked modified and
    to be shown again. *)
Theorem cmd_delkey_deletes (s s' : session) (answers rest : list bool)
    (msgs : list key_msg) :
  Forall (fun n => deleted n = false) (keyblock s) ->
  count_selected_keys (keyblock s) <> 0 ->
  sec_keyblock s = None \/ hd false answers = true ->
  cmd_delkey s answers = Some (s', rest, msgs) ->
  sig_runs (keyblock s')
  = (fst (sig_runs (keyblock s)),
     filter (fun run => negb (selected_subkey_run run))
       (snd (sig_runs (keyblock s))))
  /\ filter is_uid (keyblock s') = filter is_uid (keyblock s)
  /\ modified s' = true /\ redisplay s' = true
  /\ rest = match sec_keyblock s with
            | Some _ => tl answers
            | None => answers
            end
  /\ msgs = [].
Proof.
  intros L Sel Ask H. unfold cmd_delkey in H.
  destruct (Z.eqb_spec (count_selected_keys (keyblock s)) 0);
    [contradiction|].
  assert (Y : (match sec_keyblock s with
               | Some _ => cpr_get_answer_is_yes answers
               | None => (true, answers)
               end)
              = (true, match sec_keyblock s with
                       | Some _ => tl answers
                       | None => answers
                       end)).
  { destruct (sec_keyblock s); [|reflexivity].
    destruct Ask as [|Ask]; [discriminate|].
    destruct answers as [|a answers]; cbn [hd] in Ask; [discriminate|].
    now subst a. }
  rewrite Y in H. cbn [negb] in H.
  destruct (menu_delkey (keyblock s) (sec_keyblock s)) as [[pub sec]|] eqn:M;
    [|discriminate].
  injection H as <- <- <-.
  cbn [keyblock modified redisplay].
  unfold menu_delkey in M.
  pose proof (delkey_pub_runs (keyblock s) false (sec_keyblock s) L) as A.
  pose proof (delkey_pub_uids (keyblock s) false (sec_keyblock s) L) as B.
  destruct (delkey_pub false (keyblock s) (sec_keyblock s)) as [p sx].
  cbn [fst] in A, B. unfold commit_blocks in M.
  destruct (root_survives p && _); [|discriminate].
  injection M as <- <-.
  repeat split; assumption.
Qed.

Lemma cmd_delkey_deletes_witness :
  exists s' rest msgs,
    cmd_delkey (mk_session sample_pub None false false false) [false]
    = Some (s', rest, msgs)
    /\ sig_runs (keyblock s')
       = (fst (sig_runs sample_pub),
          filter (fun run => negb (selected_subkey_run run))
            (snd (sig_runs sample_pub)))
    /\ rest = [false].
Proof.
  do 3 eexists. split; [vm_compute; reflexivity|].
  destruct (cmd_delkey_deletes
              (mk_session sample_pub None false false false) _ [false] _ _
              ltac:(repeat constructor) ltac:(discriminate)
              (or_introl eq_refl) eq_refl)
    as (A & _ & _ & _ & B & _).
  split; [exact A | exact B].
Defined.

(** ** Adding a user id: where the new nodes go *)

Lemma adduid_scan_pub_split : forall kb i w pk,
  exists pre post,
    cut_before is_public_subkey kb pre post
    /\ fst (adduid_scan_pub kb i w pk)
       = match post, pre with
         | [], _ => None
         | _ :: _, [] => w
         | _ :: _, _ :: _ => Some (i + length pre - 1)%nat
         end
    /\ (snd (adduid_scan_pub kb i w pk) = pk
        \/ exists n k, In n pre /\ pkt n = pkt_public_key k
                       /\ snd (adduid_scan_pub kb i w pk) = Some k).
Proof.
  induction kb as [|node next IH]; intros i w pk.
  - exists [], []. repeat split; auto.
  - cbn [adduid_scan_pub].
    assert (K : is_public_subkey node
                = match pkt node with
                  | pkt_public_subkey _ => true | _ => false
                  end)
      by (unfold is_public_subkey; now destruct (pkt node)).
    assert (Go : forall pk1,
              is_public_subkey node = false ->
              (pk1 = pk \/ exists k, pkt node = pkt_public_key k
                                     /\ pk1 = Some k) ->
              exists pre post,
                cut_before is_public_subkey (node :: next) pre post
                /\ fst (adduid_scan_pub next (S i) (Some i) pk1)
                   = match post, pre with
                     | [], _ => None
                     | _ :: _, [] => w
                     | _ :: _, _ :: _ => Some (i + length pre - 1)%nat
                     end
                /\ (snd (adduid_scan_pub next (S i) (Some i) pk1) = pk
                    \/ exists n k, In n pre /\ pkt n = pkt_public_key k
                         /\ snd (adduid_scan_pub next (S i) (Some i) pk1)
                            = Some k)).
    { intros pk1 Kn Hpk.
      destruct (IH (S i) (Some i) pk1) as (pre & post & (E & F & H) & W & P).
      exists (node :: pre), post. split; [|split].
      - split; [now rewrite E|]. split; [now constructor | exact H].
      - rewrite W. destruct post; [reflexivity|].
        destruct pre; cbn [length]; f_equal; lia.
      - destruct P as [P|(n & k & I & Pn & P)].
        + rewrite P. destruct Hpk as [->|(k & Pn & ->)]; [now left|].
          right. exists node, k. repeat split; auto. now left.
        + right. exists n, k. repeat split; auto. now right. }
    destruct (pkt node) eqn:P;
      try (apply Go; [now rewrite K | now left]).
    + apply Go; [now rewrite K|]. right. now exists pk0.
    + exists [], (node :: next). cbn [fst snd].
      split; [|split; [reflexivity | now left]].
      split; [reflexivity|]. split; [constructor | now rewrite K].
Qed.

Lemma adduid_scan_sec_split : forall kb i w sk,
  exists pre post,
    cut_before is_secret_subkey kb pre post
    /\ fst (adduid_scan_sec kb i w sk)
       = match post, pre with
         | [], _ => None
         | _ :: _, [] => w
         | _ :: _, _ :: _ => Some (i + length pre - 1)%nat
         end
    /\ (snd (adduid_scan_sec kb i w sk) = sk
        \/ exists n k, In n pre /\ pkt n = pkt_secret_key k
                       /\ snd (adduid_scan_sec kb i w sk) = Some k).
Proof.
  induction kb as [|node next IH]; intros i w sk.
  - exists [], []. repeat split; auto.
  - cbn [adduid_scan_sec].
    assert (K : is_secret_subkey node
                = match pkt node with
                  | pkt_secret_subkey _ => true | _ => false
                  end)
      by (unfold is_secret_subkey; now destruct (pkt node)).
    assert (Go : forall sk1,
              is_secret_subkey node = false ->
              (sk1 = sk \/ exists k, pkt node = pkt_secret_key k
                                     /\ sk1 = Some k) ->
              exists pre post,
                cut_before is_secret_subkey (node :: next) pre post
                /\ fst (adduid_scan_sec next (S i) (Some i) sk1)
                   = match post, pre with
                     | [], _ => None
                     | _ :: _, [] => w
                     | _ :: _, _ :: _ => Some (i + length pre - 1)%nat
                     end
                /\ (snd (adduid_scan_sec next (S i) (Some i) sk1) = sk
                    \/ exists n k, In n pre /\ pkt n = pkt_secret_key k
                         /\ snd (adduid_scan_sec next (S i) (Some i) sk1)
                            = Some k)).
    { intros sk1 Kn Hsk.
      destruct (IH (S i) (Some i) sk1) as (pre & post & (E & F & H) & W & P).
      exists (node :: pre), post. split; [|split].
      - split; [now rewrite E|]. split; [now constructor | exact H].
      - rewrite W. destruct post; [reflexivity|].
        destruct pre; cbn [length]; f_equal; lia.
      - destruct P as [P|(n & k & I & Pn & P)].
        + rewrite P. destruct Hsk as [->|(k & Pn & ->)]; [now left|].
          right. exists node, k. repeat split; auto. now left.
        + right. exists n, k. repeat split; auto. now right. }
    destruct (pkt node) eqn:P;
      try (apply Go; [now rewrite K | now left]).
    + apply Go; [now rewrite K|]. right. now exists sk0.
    + exists [], (node :: next). cbn [fst snd].
      split; [|split; [reflexivity | now left]].
      split; [reflexivity|]. split; [constructor | now rewrite K].
Qed.

Lemma adduid_put_split pre post uid sig :
  pre <> [] ->
  adduid_put (pre ++ post)
    (match post with
     | [] => None
     | _ :: _ => Some (0 + length pre - 1)%nat
     end) uid sig
  = pre ++ new_kbnode (pkt_user_id uid)
        :: new_kbnode (pkt_signature sig) :: post.
Proof.
  intros Ne. unfold adduid_put, add_kbnode.
  destruct post as [|k post].
  - now rewrite app_nil_r, <- app_assoc.
  - destruct (exists_last Ne) as (pre0 & x & ->).
    rewrite length_app. cbn [length Nat.add].
    replace (length pre0 + 1 - 1)%nat with (length pre0) by lia.
    rewrite <- app_assoc. cbn [app].
    rewrite insert_kbnode_app.
    replace (S (length pre0)) with (length (pre0 ++ [x]))
      by (rewrite length_app; cbn [length]; lia).
    change (pre0 ++ x :: new_kbnode (pkt_user_id uid) :: k :: post)
      with (pre0 ++ [x] ++ new_kbnode (pkt_user_id uid) :: k :: post).
    rewrite app_assoc, insert_kbnode_app. reflexivity.
Qed.

Lemma menu_adduid_split ext uid pub sec pub' sec' :
  menu_adduid ext (Some uid) pub sec = Some (true, pub', sec') ->
  exists sig pre post spre spost,
    cut_before is_public_subkey pub pre post
    /\ cut_before is_secret_subkey sec spre spost
    /\ pre <> [] /\ spre <> []
    /\ pub' = pre ++ new_kbnode (pkt_user_id uid)
                  :: new_kbnode (pkt_signature sig) :: post
    /\ sec' = spre ++ new_kbnode (pkt_user_id uid)
                   :: new_kbnode (pkt_signature sig) :: spost
    /\ sig_class sig = 19
    /\ exists m sk, In m spre /\ pkt m = pkt_secret_key sk
                    /\ sig_keyid sig = sk_keyid sk.
Proof.
  intros H. unfold menu_adduid in H.
  destruct (adduid_scan_pub_split pub 0 None None)
    as (pre & post & Cp & Wp & Pp).
  destruct (adduid_scan_sec_split sec 0 None None)
    as (spre & spost & Cs & Ws & Ps).
  destruct (adduid_scan_pub pub 0 None None) as [pw pk].
  destruct (adduid_scan_sec sec 0 None None) as [sw sk].
  cbn [fst snd] in *.
  destruct pk as [pk|]; [|discriminate].
  destruct sk as [sk|]; [|discriminate].
  unfold make_keysig_packet in H.
  destruct (keysig_answer ext pk uid sk 19) as [rc t].
  destruct (rc_is_ok rc); cbn [negb] in H; [|discriminate].
  injection H as <- <-.
  destruct Pp as [Pp|(n & k & In_n & Pn & Pp)]; [discriminate|].
  destruct Ps as [Ps|(m & k2 & In_m & Pm & Ps)]; [discriminate|].
  injection Ps as <-.
  assert (Np : pre <> []) by (intros ->; destruct In_n).
  assert (Ns : spre <> []) by (intros ->; destruct In_m).
  exists (mk_sig (sk_keyid sk) 19 t), pre, post, spre, spost.
  split; [exact Cp|]. split; [exact Cs|].
  split; [exact Np|]. split; [exact Ns|].
  destruct Cp as (Ep & _), Cs as (Es & _).
  split; [|split; [|split; [reflexivity|]]].
  - rewrite Ep at 1. rewrite <- (adduid_put_split pre post) by exact Np.
    f_equal. rewrite Wp. destruct post; [reflexivity|].
    destruct pre; [contradiction | reflexivity].
  - rewrite Es at 1. rewrite <- (adduid_put_split spre spost) by exact Ns.
    f_equal. rewrite Ws. destruct spost; [reflexivity|].
    destruct spre; [contradiction | reflexivity].
  - exists m, sk. repeat split; assumption.
Qed.

(** X19: when [menu_adduid] returns 1, the new user id and, right after
    it, its self-signature (class 0x13, made with a secret key packet that
    stands before the first secret subkey) are in both keyblocks, in front
    of the first subkey or at the end when there is none; every old node
    is in its place on either side of them, and the new nodes carry no
    flag.  When it returns 0 both keyblocks are the ones they were. *)
Theorem menu_adduid_places (ext : collaborators)
    (new_uid : option PKT_user_id) (pub sec pub' sec' : KBNODE)
    (added : bool) :
  menu_adduid ext new_uid pub sec = Some (added, pub', sec') ->
  (added = false -> pub' = pub /\ sec' = sec)
  /\ (added = true ->
      exists uid sig pre post spre spost,
        new_uid = Some uid
        /\ cut_before is_public_subkey pub pre post
        /\ cut_before is_secret_subkey sec spre spost
        /\ pub' = pre ++ new_kbnode (pkt_user_id uid)
                      :: new_kbnode (pkt_signature sig) :: post
        /\ sec' = spre ++ new_kbnode (pkt_user_id uid)
                       :: new_kbnode (pkt_signature sig) :: spost
        /\ sig_class sig = 19
        /\ exists m sk, In m spre /\ pkt m = pkt_secret_key sk
                        /\ sig_keyid sig = sk_keyid sk).
Proof.
  intros H. split.
  - intros ->. unfold menu_adduid in H.
    destruct new_uid as [uid|]; [|injection H as <- <-; now split].
    destruct (adduid_scan_pub pub 0 None None) as [pw [pk|]];
      destruct (adduid_scan_sec sec 0 None None) as [sw [sk|]];
      try discriminate.
    destruct (make_keysig_packet ext pk uid sk 19) as [rc sig].
    destruct (rc_is_ok rc); cbn [negb] in H;
      [discriminate | injection H as <- <-; now split].
  - intros ->. destruct new_uid as [uid|]; [|discriminate].
    destruct (menu_adduid_split _ _ _ _ _ _ H)
      as (sig & pre & post & spre & spost & Cp & Cs & _ & _ & E1 & E2 & R).
    exists uid, sig, pre, post, spre, spost.
    split; [reflexivity|]. split; [exact Cp|]. split; [exact Cs|].
    split; [exact E1|]. split; [exact E2 | exact R].
Qed.

Lemma menu_adduid_places_witness :
  exists pub' sec',
    menu_adduid sample_ext (Some (mk_uid "Dora")) sample_pub sample_sec
    = Some (true, pub', sec')
    /\ exists uid sig pre post spre spost,
         Some (mk_uid "Dora") = Some uid
         /\ cut_before is_public_subkey sample_pub pre post
         /\ cut_before is_secret_subkey sample_sec spre spost
         /\ pub' = pre ++ new_kbnode (pkt_user_id uid)
                       :: new_kbnode (pkt_signature sig) :: post
         /\ sec' = spre ++ new_kbnode (pkt_user_id uid)
                        :: new_kbnode (pkt_signature sig) :: spost
         /\ sig_class sig = 19
         /\ exists m sk, In m spre /\ pkt m = pkt_secret_key sk
                         /\ sig_keyid sig = sk_keyid sk.
Proof.
  do 2 eexists. split; [vm_compute; reflexivity|].
  exact (proj2 (menu_adduid_places sample_ext (Some (mk_uid "Dora"))
                  sample_pub sample_sec _ _ true eq_refl) eq_refl).
Defined.

(** ** The command loop: the secret key gate, quit and save *)

Lemma find_cmd_gate h answer :
  need_sk (find_cmd h answer cmds)
  = needs_secret_key (cmd_id (find_cmd h answer cmds)).
Proof.
  unfold cmds. cbn [find_cmd cmd_name].
  repeat (match goal with
          | |- context [stricmp h answer ?n =? 0] =>
              destruct (stricmp h answer n =? 0); [reflexivity|]
          end).
  reflexivity.
Qed.

(** X20: without a secret keyblock no input line, whatever the string
    helpers make of it, is read as adduid, addkey, toggle or passwd; the
    command read is the one read with a secret keyblock, or the no-op with
    the "need the secret key" message where that one is one of the four;
    the number read is the same.  With a secret keyblock the message is
    never printed. *)
Theorem parse_command_secret_gate (h : string_helpers) (line : string) :
  let with_sk := parse_command h true line in
  let without := parse_command h false line in
  let c := fst (fst with_sk) in
  needs_secret_key (fst (fst without)) = false
  /\ without
     = (if needs_secret_key c then cmdNOP else c, snd (fst with_sk),
        needs_secret_key c)
  /\ snd with_sk = false.
Proof.
  unfold parse_command.
  destruct (trim_spaces h line) as [|ch rest]; [now repeat split|].
  destruct (char_code ch =? CONTROL_D); [now repeat split|].
  destruct (isdigit ch); [now repeat split|].
  destruct (match split_at_blank (String ch rest) with
            | Some (a, p) => (trim_spaces h a, atoi h (trim_spaces h p))
            | None => (String ch rest, 0)
            end) as [name arg_number].
  pose proof (find_cmd_gate h name) as G.
  destruct (need_sk (find_cmd h name cmds)); cbn [andb negb fst snd];
    rewrite <- G; now repeat split.
Qed.

Lemma cmd_save_spec kr s :
  let '(leave, ev) := cmd_save kr s in
  (In (Update_public (keyblock s)) ev -> modified s = true)
  /\ (In (Update_secret (sec_keyblock s)) ev ->
      sec_modified s = true
      /\ (modified s = true ->
          rc_is_ok (update_public kr (keyblock s)) = true))
  /\ (forall kb, In (Update_public kb) ev -> kb = keyblock s)
  /\ (forall kb, In (Update_secret kb) ev -> kb = sec_keyblock s)
  /\ (leave = true ->
      (modified s = true ->
       In (Update_public (keyblock s)) ev
       /\ rc_is_ok (update_public kr (keyblock s)) = true)
      /\ (sec_modified s = true ->
          In (Update_secret (sec_keyblock s)) ev
          /\ rc_is_ok (update_secret kr (sec_keyblock s)) = true)).
Proof.
  unfold cmd_save.
  destruct (modified s) eqn:M, (sec_modified s) eqn:SM; cbn [orb];
    try destruct (rc_is_ok (update_public kr (keyblock s))) eqn:R1;
    cbn [negb];
    try destruct (rc_is_ok (update_secret kr (sec_keyblock s))) eqn:R2;
    cbn [negb app In];
    intuition (try congruence).
Qed.

(** X21: leaving the menu.  Quit on a session with no modified flag set
    leaves at once: no question, no write.  Otherwise the loop is left
    without a write only if the operator declined to save and then either
    confirmed to quit or the prompts are driven by a program; and it is
    left after the operator agreed to save only if every keyblock whose
    modified flag is set was written without error.  The keyring is never
    written with a keyblock whose flag is not set, and after a failed
    write of the public keyblock the secret one is not written and the
    loop goes on. *)
Theorem cmd_quit_safe (kr : keyring) (s : session) (answers : list bool) :
  let '(leave, rest, ev) := cmd_quit kr s answers in
  (modified s = false -> sec_modified s = false ->
   leave = true /\ rest = answers /\ ev = [])
  /\ (In (Update_public (keyblock s)) ev -> modified s = true)
  /\ (In (Update_secret (sec_keyblock s)) ev ->
      sec_modified s = true
      /\ (modified s = true ->
          rc_is_ok (update_public kr (keyblock s)) = true))
  /\ (forall kb, In (Update_public kb) ev -> kb = keyblock s)
  /\ (forall kb, In (Update_secret kb) ev -> kb = sec_keyblock s)
  /\ (leave = true -> modified s || sec_modified s = true ->
      (hd false answers = true
       /\ (modified s = true ->
           In (Update_public (keyblock s)) ev
           /\ rc_is_ok (update_public kr (keyblock s)) = true)
       /\ (sec_modified s = true ->
           In (Update_secret (sec_keyblock s)) ev
           /\ rc_is_ok (update_secret kr (sec_keyblock s)) = true))
      \/ (hd false answers = false /\ ev = []
          /\ (cpr_enabled kr = true \/ hd false (tl answers) = true))).
Proof.
  unfold cmd_quit.
  pose proof (cmd_save_spec kr s) as S.
  destruct (cmd_save kr s) as [leave ev].
  destruct (negb (modified s) && negb (sec_modified s)) eqn:Unmod.
  - cbn [In]. apply andb_true_iff in Unmod as [M SM].
    apply negb_true_iff in M, SM. rewrite M, SM. cbn [orb].
    intuition (try congruence).
  - assert (NM : ~ (modified s = false /\ sec_modified s = false)).
    { intros [M SM]. rewrite M, SM in Unmod. discriminate. }
    destruct answers as [|a answers];
      cbn [cpr_get_answer_is_yes hd tl negb]; [|destruct a; cbn [negb]].
    + destruct (cpr_enabled kr); cbn [In]; intuition (try congruence).
    + intuition (try congruence).
    + destruct (cpr_enabled kr); [cbn [In]; intuition (try congruence)|].
      destruct answers as [|a2 answers];
        cbn [cpr_get_answer_is_yes hd tl In];
        intuition (try congruence).
Qed.
(** ** The fingerprint line *)

Lemma strip_blanks_app a b :
  strip_blanks (a ++ b)%string = (strip_blanks a ++ strip_blanks b)%string.
Proof.
  induction a as [|c a IH]; [reflexivity|].
  cbn [String.append strip_blanks].
  destruct (char_code c =? 32); cbn [String.append]; now rewrite IH.
Qed.

Lemma hex_digit_no_blank d :
  0 <= d < 16 -> (char_code (hex_digit d) =? 32) = false.
Proof.
  intros H.
  assert (C : d = 0 \/ d = 1 \/ d = 2 \/ d = 3 \/ d = 4 \/ d = 5 \/ d = 6
              \/ d = 7 \/ d = 8 \/ d = 9 \/ d = 10 \/ d = 11 \/ d = 12
              \/ d = 13 \/ d = 14 \/ d = 15) by lia.
  repeat (destruct C as [->|C]; [reflexivity|]). now subst d.
Qed.

Lemma strip_hex2 b : 0 <= b < 256 -> strip_blanks (hex2 b) = hex2 b.
Proof.
  intros H. unfold hex2. cbn [strip_blanks].
  rewrite !hex_digit_no_blank; [reflexivity | |].
  - apply Z.mod_pos_bound. lia.
  - split; [apply Z.div_pos; lia | apply Z.div_lt_upper_bound; lia].
Qed.

Lemma strip_group (c : bool) (x rest : string) :
  strip_blanks ((if c then " " else "") ++ " " ++ x ++ rest)%string
  = (strip_blanks x ++ strip_blanks rest)%string.
Proof. destruct c; cbn; apply strip_blanks_app. Qed.

Lemma fingerprint_pairs_strip : forall n p i,
  length p = (2 * n)%nat -> Forall (fun b => 0 <= b < 256) p ->
  strip_blanks (fingerprint_pairs p i) = hex_of p.
Proof.
  induction n as [|n IH]; intros p i L B.
  - destruct p; [reflexivity | discriminate].
  - destruct p as [|a [|b rest]]; try (cbn in L; lia).
    inversion B as [|? ? Ba B']; subst. inversion B' as [|? ? Bb Br]; subst.
    cbn [fingerprint_pairs hex_of].
    rewrite strip_group, strip_blanks_app.
    rewrite !strip_hex2 by assumption.
    rewrite (IH rest (i + 2)); [|cbn [length] in L; lia | exact Br].
    reflexivity.
Qed.

Lemma fingerprint_bytes_strip : forall p i,
  Forall (fun b => 0 <= b < 256) p ->
  strip_blanks (fingerprint_bytes p i) = hex_of p.
Proof.
  induction p as [|a rest IH]; intros i B; [reflexivity|].
  inversion B as [|? ? Ba Br]; subst.
  cbn [fingerprint_bytes hex_of].
  rewrite strip_group.
  rewrite strip_hex2 by assumption. now rewrite (IH (i + 1) Br).
Qed.

(** X22: whatever its length, a fingerprint is printed whole and in
    order: what [show_fingerprint] prints is, blanks aside, the label, the
    bytes in hexadecimal two upper case digits each, and the end of the
    line; the grouping (two bytes a group for 20 bytes, one byte a group
    otherwise) only places blanks. *)
Theorem show_fingerprint_complete (array : list Z) :
  Forall (fun b => 0 <= b < 256) array ->
  strip_blanks (show_fingerprint array)
  = ("Fingerprint:" ++ hex_of array ++ newline)%string.
Proof.
  intros B. unfold show_fingerprint.
  rewrite !strip_blanks_app.
  change (strip_blanks "             Fingerprint:") with "Fingerprint:"%string.
  change (strip_blanks newline) with newline.
  f_equal. f_equal.
  destruct (Z.eqb_spec (Z.of_nat (length array)) 20) as [E|_].
  - apply (fingerprint_pairs_strip 10); [lia | exact B].
  - now apply fingerprint_bytes_strip.
Qed.

Lemma show_fingerprint_complete_witness :
  strip_blanks (show_fingerprint [0; 171; 255; 16])
  = ("Fingerprint:" ++ "00ABFF10" ++ newline)%string.
Proof.
  apply (show_fingerprint_complete [0; 171; 255; 16]).
  repeat constructor; lia.
Defined.

(** ** Adding a user id and removing it again *)

Lemma uids_before_subkey_cut kb : forall pre post,
  cut_before is_public_subkey kb pre post ->
  uids_before_subkey kb = count_uids pre.
Proof.
  induction kb as [|node next IH]; intros pre post (E & F & H).
  - destruct pre; [reflexivity | discriminate].
  - cbn [uids_before_subkey]. destruct pre as [|x pre].
    + cbn [app] in E. subst post. now rewrite H.
    + cbn [app] in E. injection E as <- E.
      inversion F as [|? ? Fx Fr]; subst.
      rewrite Fx. cbn [count_uids].
      now rewrite (IH pre post (conj eq_refl (conj Fr H))).
Qed.

Lemma select_uid_toggle_app pre : forall i u rest,
  is_uid u = true ->
  select_uid_toggle (pre ++ u :: rest) i (i + count_uids pre + 1)
  = pre ++ with_flag u (Z.lxor (flag u) NODFLG_SELUID) :: rest.
Proof.
  induction pre as [|x pre IH]; intros i u rest U;
    cbn [app count_uids select_uid_toggle].
  - rewrite U. replace (i + 0 + 1) with (i + 1) by lia.
    rewrite Z.eqb_refl, toggle_node_seluid.
    now rewrite select_uid_toggle_out by lia.
  - pose proof (count_uids_nonneg pre).
    destruct (is_uid x).
    + destruct (Z.eqb_spec (i + 1) (i + (1 + count_uids pre) + 1)); [lia|].
      replace (i + (1 + count_uids pre) + 1)
        with (i + 1 + count_uids pre + 1) by lia.
      now rewrite IH.
    + replace (i + (0 + count_uids pre) + 1)
        with (i + count_uids pre + 1) by lia.
      now rewrite IH.
Qed.

Lemma deluid_pub_unselected_id : forall l sec,
  count_selected_uids l = 0 -> deluid_pub false l sec = (l, sec).
Proof.
  unfold count_selected_uids.
  induction l as [|node next IH]; intros sec C; [reflexivity|].
  apply count_flag_head_zero in C as [Cn Cr].
  cbn [deluid_pub].
  destruct (pkt node) eqn:P; rewrite ?(IH sec Cr); try reflexivity.
  rewrite (is_uid_pkt node uid P) in Cn. cbn [andb] in Cn.
  now rewrite Cn, ?(IH sec Cr).
Qed.

Lemma deluid_pub_app pre : forall rest sec,
  count_selected_uids pre = 0 ->
  deluid_pub false (pre ++ rest) sec
  = (pre ++ fst (deluid_pub false rest sec),
     snd (deluid_pub false rest sec)).
Proof.
  unfold count_selected_uids.
  induction pre as [|node next IH]; intros rest sec C.
  - cbn [app]. now destruct (deluid_pub false rest sec).
  - apply count_flag_head_zero in C as [Cn Cr].
    cbn [app deluid_pub].
    destruct (pkt node) eqn:P; rewrite ?(IH rest sec Cr); try reflexivity.
    rewrite (is_uid_pkt node uid P) in Cn. cbn [andb] in Cn.
    now rewrite Cn, ?(IH rest sec Cr).
Qed.

Lemma deluid_pub_after_subkey post sec :
  count_selected_uids post = 0 ->
  match post with [] => True | k :: _ => is_public_subkey k = true end ->
  deluid_pub true post sec = (post, sec).
Proof.
  intros C H. destruct post as [|k post]; [reflexivity|].
  unfold count_selected_uids in C.
  apply count_flag_head_zero in C as [_ Cr].
  cbn [deluid_pub]. unfold is_public_subkey in H.
  destruct (pkt k); try discriminate H.
  now rewrite (deluid_pub_unselected_id post sec Cr).
Qed.

Lemma deluid_sec_other uid : forall l,
  (forall m su, In m l -> pkt m = pkt_user_id su ->
                uid_name su <> uid_name uid) ->
  deluid_sec uid false l = l.
Proof.
  induction l as [|m l IH]; intros H; [reflexivity|].
  cbn [deluid_sec].
  assert (Hl : forall m0 su, In m0 l -> pkt m0 = pkt_user_id su ->
                             uid_name su <> uid_name uid)
    by (intros m0 su I; apply H; now right).
  destruct (pkt m) eqn:P; rewrite ?(IH Hl); try reflexivity.
  assert (E : uid_eqb uid uid0 = false).
  { destruct (uid_eqb uid uid0) eqn:E; [|reflexivity].
    apply uid_eqb_eq in E. exfalso.
    apply (H m uid0 (or_introl eq_refl) P). now symmetry. }
  now rewrite E, ?(IH Hl).
Qed.

Lemma deluid_sec_app uid spre : forall rest,
  (forall m su, In m spre -> pkt m = pkt_user_id su ->
                uid_name su <> uid_name uid) ->
  Forall (fun n => is_secret_subkey n = false) spre ->
  deluid_sec uid false (spre ++ rest) = spre ++ deluid_sec uid false rest.
Proof.
  induction spre as [|m l IH]; intros rest H F; [reflexivity|].
  inversion F as [|? ? Fm Fl]; subst.
  cbn [app deluid_sec].
  assert (Hl : forall m0 su, In m0 l -> pkt m0 = pkt_user_id su ->
                             uid_name su <> uid_name uid)
    by (intros m0 su I; apply H; now right).
  destruct (pkt m) eqn:P; rewrite ?(IH rest Hl Fl); try reflexivity.
  assert (E : uid_eqb uid uid0 = false).
  { destruct (uid_eqb uid uid0) eqn:E; [|reflexivity].
    apply uid_eqb_eq in E. exfalso.
    apply (H m uid0 (or_introl eq_refl) P). now symmetry. }
  now rewrite E, ?(IH rest Hl Fl).
Qed.

Lemma deluid_sec_after_subkey uid spost :
  (forall m su, In m spost -> pkt m = pkt_user_id su ->
                uid_name su <> uid_name uid) ->
  match spost with [] => True | k :: _ => is_secret_subkey k = true end ->
  deluid_sec uid true spost = spost.
Proof.
  intros H K. destruct spost as [|k spost]; [reflexivity|].
  cbn [deluid_sec]. unfold is_secret_subkey in K.
  destruct (pkt k); try discriminate K.
  rewrite deluid_sec_other; [reflexivity|].
  intros m su I. apply H. now right.
Qed.

Lemma commit_live l :
  Forall (fun n => deleted n = false) l -> commit_kbnode l = l.
Proof.
  induction 1 as [|x l Hx Hl IH]; [reflexivity|].
  rewrite commit_cons, Hx. now rewrite IH.
Qed.

Lemma commit_app a b :
  commit_kbnode (a ++ b) = commit_kbnode a ++ commit_kbnode b.
Proof. apply filter_app. Qed.

Lemma root_survives_app a b :
  a <> [] -> Forall (fun n => deleted n = false) a ->
  root_survives (a ++ b) = true.
Proof.
  intros N F. destruct a as [|x a]; [contradiction|].
  inversion F; subst. cbn [app root_survives]. now rewrite H1.
Qed.

(** X23: adding a user id, selecting it and removing it again gives back
    both keyblocks node for node.  The blocks are without tombstones, no
    user id of the public block is selected and no user id of the secret
    block has the new name; the new user id is selected by the number it
    has in the listing, one more than the number of user ids in front of
    the first public subkey. *)
Theorem adduid_then_deluid (ext : collaborators) (uid : PKT_user_id)
    (pub sec pub1 sec1 : KBNODE) :
  Forall (fun n => deleted n = false) pub ->
  Forall (fun n => deleted n = false) sec ->
  count_selected_uids pub = 0 ->
  (forall m su, In m sec -> pkt m = pkt_user_id su ->
                uid_name su <> uid_name uid) ->
  menu_adduid ext (Some uid) pub sec = Some (true, pub1, sec1) ->
  exists pub2,
    menu_select_uid pub1 (uids_before_subkey pub + 1) = (pub2, 1, [])
    /\ count_selected_uids pub2 = 1
    /\ menu_deluid pub2 (Some sec1) = Some (pub, Some sec).
Proof.
  intros Lp Ls Sel Names H.
  destruct (menu_adduid_split _ _ _ _ _ _ H)
    as (sig & pre & post & spre & spost & Cp & Cs & Np & Ns & E1 & E2 & _).
  rewrite (uids_before_subkey_cut pub pre post Cp).
  destruct Cp as (Ep & Fp & Hp), Cs as (Es & Fs & Hs).
  set (U := new_kbnode (pkt_user_id uid)) in *.
  set (S := new_kbnode (pkt_signature sig)) in *.
  set (U' := with_flag U (Z.lxor (flag U) NODFLG_SELUID)).
  assert (Cpre : count_selected_uids pre = 0 /\ count_selected_uids post = 0).
  { unfold count_selected_uids in *. rewrite Ep, count_flag_app in Sel.
    pose proof (count_uids_with_flag_nonneg pre NODFLG_SELUID).
    pose proof (count_uids_with_flag_nonneg post NODFLG_SELUID). lia. }
  destruct Cpre as [Cpre Cpost].
  assert (Lpre : Forall (fun n => deleted n = false) pre
                 /\ Forall (fun n => deleted n = false) post)
    by (rewrite Ep in Lp; now apply Forall_app in Lp).
  assert (Lspre : Forall (fun n => deleted n = false) spre
                  /\ Forall (fun n => deleted n = false) spost)
    by (rewrite Es in Ls; now apply Forall_app in Ls).
  exists (pre ++ U' :: S :: post).
  assert (T : menu_select_uid pub1 (count_uids pre + 1)
              = (pre ++ U' :: S :: post, 1, [])).
  { unfold menu_select_uid. pose proof (count_uids_nonneg pre).
    pose proof (count_uids_nonneg post).
    destruct (Z.eqb_spec (count_uids pre + 1) 0); [lia|]. cbn [negb].
    assert (F : select_uid_find pub1 0 (count_uids pre + 1) = true).
    { apply select_uid_find_spec. rewrite E1, count_uids_app.
      cbn [count_uids]. change (is_uid U) with true.
      destruct (is_uid S); lia. }
    rewrite F, E1.
    pose proof (select_uid_toggle_app pre 0 U (S :: post) eq_refl) as TT.
    rewrite Z.add_0_l in TT. now rewrite TT. }
  split; [exact T|]. split.
  - unfold count_selected_uids in *.
    rewrite count_flag_app, !count_flag_cons, Cpre, Cpost. reflexivity.
  - unfold menu_deluid.
    rewrite (deluid_pub_app pre (U' :: S :: post) (Some sec1) Cpre).
    cbn [deluid_pub]. change (pkt U') with (pkt_user_id uid).
    change (has_flag (flag U') NODFLG_SELUID) with true. cbv iota.
    change (pkt S) with (pkt_signature sig). cbv iota.
    rewrite (deluid_pub_after_subkey post _ Cpost Hp).
    cbn [fst snd option_map]. unfold commit_blocks.
    rewrite (root_survives_app pre _ Np (proj1 Lpre)).
    assert (Sec : deluid_sec uid false sec1
                  = spre ++ delete_kbnode U :: delete_kbnode S :: spost).
    { rewrite E2, deluid_sec_app; [|intros m su I; apply Names;
                                      rewrite Es; apply in_app_iff; now left
                                    |exact Fs].
      cbn [deluid_sec]. change (pkt U) with (pkt_user_id uid).
      change (pkt S) with (pkt_signature sig). cbv iota.
      assert (R : uid_eqb uid uid = true) by (apply uid_eqb_eq; reflexivity).
      rewrite R. rewrite deluid_sec_after_subkey; [reflexivity| |exact Hs].
      intros m su I. apply Names. rewrite Es. apply in_app_iff. now right. }
    rewrite Sec, (root_survives_app spre _ Ns (proj1 Lspre)). cbn [andb].
    rewrite !commit_app, !commit_cons. cbn [delete_kbnode deleted].
    rewrite !commit_live by tauto.
    cbn [option_map].
    rewrite !commit_app, !commit_cons. cbn [delete_kbnode deleted].
    rewrite !commit_live by tauto.
    now rewrite Ep, Es.
Qed.

Lemma adduid_then_deluid_witness :
  exists pub1 sec1 pub2,
    menu_adduid sample_ext (Some (mk_uid "Dora")) sample_pub sample_sec
    = Some (true, pub1, sec1)
    /\ menu_select_uid pub1 2 = (pub2, 1, [])
    /\ menu_deluid pub2 (Some sec1) = Some (sample_pub, Some sample_sec).
Proof.
  do 2 eexists.
  destruct (adduid_then_deluid sample_ext (mk_uid "Dora") sample_pub
              sample_sec _ _ ltac:(repeat constructor)
              ltac:(repeat constructor) eq_refl
              ltac:(intros m su [<-|[<-|[<-|[<-|[<-|[]]]]]] [= <-];
                    discriminate)
              eq_refl) as (pub2 & T & _ & D).
  exists pub2. split; [reflexivity|]. split; [exact T | exact D].
Defined.

(** ** The adduid command *)

(** X24: the adduid command either leaves the session as it was, or adds
    exactly one user id and one signature to each keyblock, selects
    nothing, and sets both modified flags and the redisplay flag. *)
Theorem cmd_adduid_session (ext : collaborators)
    (new_uid : option PKT_user_id) (s s' : session) :
  cmd_adduid ext new_uid s = Some s' ->
  s' = s
  \/ (modified s' = true /\ sec_modified s' = true /\ redisplay s' = true
      /\ count_uids (keyblock s') = count_uids (keyblock s) + 1
      /\ count_selected_uids (keyblock s') = count_selected_uids (keyblock s)
      /\ length (keyblock s') = S (S (length (keyblock s)))
      /\ exists sec sec',
           sec_keyblock s = Some sec /\ sec_keyblock s' = Some sec'
           /\ count_uids sec' = count_uids sec + 1
           /\ length sec' = S (S (length sec))).
Proof.
  unfold cmd_adduid. intros H.
  destruct (menu_adduid ext new_uid (keyblock s) _)
    as [[[added pub'] sec']|] eqn:M; [|discriminate].
  destruct added; [|injection H as <-; now left].
  injection H as <-. right.
  destruct new_uid as [uid|]; [|discriminate M].
  destruct (menu_adduid_split _ _ _ _ _ _ M)
    as (sig & pre & post & spre & spost & (Ep & _) & (Es & _) & _ & Ns
        & E1 & E2 & _).
  cbn [modified sec_modified redisplay keyblock sec_keyblock].
  assert (Cnt : forall a b,
            count_uids (a ++ new_kbnode (pkt_user_id uid)
                          :: new_kbnode (pkt_signature sig) :: b)
            = count_uids (a ++ b) + 1
            /\ count_selected_uids
                 (a ++ new_kbnode (pkt_user_id uid)
                    :: new_kbnode (pkt_signature sig) :: b)
               = count_selected_uids (a ++ b)
            /\ length (a ++ new_kbnode (pkt_user_id uid)
                         :: new_kbnode (pkt_signature sig) :: b)
               = S (S (length (a ++ b)))).
  { intros a b. unfold count_selected_uids.
    rewrite !count_uids_app, !count_flag_app, !length_app.
    cbn [count_uids count_uids_with_flag length].
    change (is_uid (new_kbnode (pkt_user_id uid))) with true.
    change (is_uid (new_kbnode (pkt_signature sig))) with false.
    change (has_flag (flag (new_kbnode (pkt_user_id uid))) NODFLG_SELUID)
      with false.
    cbn [andb]. repeat split; lia. }
  destruct (Cnt pre post) as (A & B & C).
  rewrite E1, Ep. split; [reflexivity|]. split; [reflexivity|].
  split; [reflexivity|]. split; [exact A|]. split; [exact B|].
  split; [exact C|].
  destruct (sec_keyblock s) as [sec|].
  - exists sec, sec'. destruct (Cnt spre spost) as (As & _ & Cs).
    rewrite E2, Es. now repeat split.
  - destruct spre; [contradiction | discriminate Es].
Qed.

Lemma cmd_adduid_session_witness :
  exists s',
    cmd_adduid sample_ext (Some (mk_uid "Dora"))
      (mk_session sample_pub (Some sample_sec) false false false) = Some s'
    /\ modified s' = true /\ sec_modified s' = true
    /\ count_uids (keyblock s') = 2.
Proof.
  eexists. split; [vm_compute; reflexivity|].
  destruct (cmd_adduid_session sample_ext (Some (mk_uid "Dora"))
              (mk_session sample_pub (Some sample_sec) false false false)
              _ eq_refl) as [E|(M & SM & _ & C & _)].
  - discriminate E.
  - split; [exact M|]. split; [exact SM | exact C].
Defined.

(** ** The result of sign_uids *)

(** X25: the result of [sign_uids].  When [build_sk_list] fails its error
    is returned and nothing else happens: the keyblock is untouched, no
    line is printed, no answer is used.  Otherwise an error comes from one
    of two places: a signature that could not be made, after which the
    message is the last line printed and the trust flag is not cleared, or
    [clear_trust_checked_flag] on the primary key, called after all
    signers were gone through. *)
Theorem sign_uids_errors (ext : collaborators) (kb : KBNODE)
    (locusr : list string) (modified : bool) (answers : list bool)
    (pk0 : option PKT_public_key) (rc : g10_rc) (cleared : bool)
    (st : sign_state) :
  sign_uids ext kb locusr modified answers pk0 = Returned rc cleared st ->
  (rc_is_ok (fst (build_sk_list ext locusr)) = false ->
   rc = fst (build_sk_list ext locusr) /\ cleared = false
   /\ st = mk_sign kb modified false pk0 answers [])
  /\ (rc_is_ok (fst (build_sk_list ext locusr)) = true ->
      rc_is_ok rc = false ->
      (cleared = false /\ exists pre, s_tty st = pre ++ [Signing_failed])
      \/ (cleared = true /\ s_upd_trust st = true
          /\ exists pk, s_primary_pk st = Some pk
                        /\ rc = clear_trust_checked_flag ext pk)).
Proof.
  unfold sign_uids. intros H.
  destruct (build_sk_list ext locusr) as [rc0 sks]. cbn [fst].
  destruct (rc_is_ok rc0) eqn:R0; cbn [negb] in H.
  - split; [discriminate|]. intros _ Bad.
    destruct (sign_loop ext _ sks _) as [st'|rc' st'| |] eqn:L;
      try discriminate.
    + destruct (s_upd_trust st') eqn:U;
        [destruct (s_primary_pk st') as [pk|] eqn:P|];
        injection H as <- <- <-; try discriminate Bad.
      right. split; [reflexivity|]. split; [exact U|]. now exists pk.
    + injection H as <- <- <-. left. split; [reflexivity|].
      exact (proj2 (sign_loop_leave _ _ _ _ _ _ L)).
  - injection H as <- <- <-. split; [now repeat split | discriminate].
Qed.

Lemma sign_uids_errors_witness :
  exists rc st pre,
    sign_uids sample_ext_no_bob sample_two_uids [] false [true] None
    = Returned rc false st
    /\ s_tty st = pre ++ [Signing_failed].
Proof.
  do 2 eexists.
  destruct (proj2 (sign_uids_errors sample_ext_no_bob sample_two_uids []
                     false [true] None _ _ _ eq_refl) eq_refl eq_refl)
    as [(_ & pre & T)|(C & _)].
  - exists pre. split; [reflexivity | exact T].
  - discriminate C.
Defined.
(** ** The fingerprint command *)

Lemma fpr_scan_spec kb : forall pk,
  fpr_scan kb pk
  = (map Fpr_pub (public_keys (before_first_uid kb))
     ++ match first_uid kb with
        | Some uid => [Fpr_uid uid]
        | None => []
        end,
     track_pk pk (before_first_uid kb)).
Proof.
  induction kb as [|node next IH]; intros pk; [reflexivity|].
  cbn [fpr_scan before_first_uid first_uid]. unfold is_uid.
  destruct (pkt node) eqn:P; cbn [pkttype pkttype_eqb public_keys track_pk];
    rewrite ?P, ?IH; reflexivity.
Qed.

(** X26: the fingerprint command shows the public key packets that stand
    in front of the first user id, then that user id and no other, and
    after the end of the line the fingerprint of the last of those key
    packets; on a keyblock with no public key packet in front of the first
    user id no fingerprint is shown. *)
Theorem show_key_and_fingerprint_first (kb : KBNODE) :
  show_key_and_fingerprint kb
  = map Fpr_pub (public_keys (before_first_uid kb))
    ++ match first_uid kb with
       | Some uid => [Fpr_uid uid]
       | None => []
       end
    ++ [Fpr_newline]
    ++ match track_pk None (before_first_uid kb) with
       | Some k => [Fpr_fingerprint k]
       | None => []
       end.
Proof.
  unfold show_key_and_fingerprint. rewrite fpr_scan_spec.
  now rewrite <- app_assoc.
Qed.

(** ** The commands keep the public keyblock in order *)

Lemma live_map a : forall b,
  map deleted a = map deleted b ->
  Forall (fun n => deleted n = false) a ->
  Forall (fun n => deleted n = false) b.
Proof.
  induction a as [|x a IH]; intros [|y b] E F; try discriminate;
    [constructor|].
  cbn [map] in E. injection E as E1 E2. inversion F; subst.
  constructor; [congruence | now apply IH].
Qed.

Lemma tidy_same a b :
  map pkt a = map pkt b -> map deleted a = map deleted b ->
  tidy a -> tidy b.
Proof.
  intros P D [Pf L]. split.
  - now rewrite <- (primary_first_pkt _ _ P).
  - exact (live_map _ _ D L).
Qed.

Lemma frame_maps (R : kbnode -> kbnode -> Prop) a b :
  (forall n n', R n n' -> pkt n' = pkt n /\ deleted n' = deleted n) ->
  Forall2 R a b ->
  map pkt a = map pkt b /\ map deleted a = map deleted b.
Proof.
  intros H F. induction F as [|n n' a b Rn F [IH1 IH2]]; [now split|].
  destruct (H _ _ Rn) as [P D]. cbn [map].
  now rewrite P, D, IH1, IH2.
Qed.

Lemma select_key_reset_pkt kb :
  map pkt (select_key_reset kb) = map pkt kb
  /\ map deleted (select_key_reset kb) = map deleted kb.
Proof.
  induction kb as [|n kb [IH1 IH2]]; [now split|].
  cbn [select_key_reset map]. rewrite IH1, IH2.
  now destruct (is_subkey n).
Qed.

Lemma grown_live kids a b :
  grown kids a b ->
  Forall (fun n => deleted n = false) a ->
  Forall (fun n => deleted n = false) b.
Proof.
  induction 1 as [|n n' l l' P D B G IH|s sig l l' P D B C K G IH];
    intros F.
  - constructor.
  - inversion F; subst. constructor; [congruence | now apply IH].
  - constructor; [exact D | now apply IH].
Qed.

Lemma update_node_pkt f l : forall i,
  (forall n, pkt (f n) = pkt n) ->
  map pkt (update_node i f l) = map pkt l.
Proof.
  induction l as [|n l IH]; intros [|i] H; cbn [update_node map];
    try reflexivity.
  - now rewrite H.
  - now rewrite IH.
Qed.

Lemma primary_first_insert l i sig :
  primary_first (insert_kbnode l i (new_kbnode (pkt_signature sig)))
  = primary_first l.
Proof. unfold insert_kbnode. now destruct l. Qed.

Lemma sign_reloop_head ext sk : forall fuel st,
  match sign_reloop ext sk fuel st with
  | Flow_next st' | Flow_leave _ st' =>
      primary_first (s_keyblock st') = primary_first (s_keyblock st)
  | _ => True
  end.
Proof.
  induction fuel as [|fuel IH]; intros st; cbn [sign_reloop]; [exact I|].
  destruct (sign_scan (s_keyblock st) 0 None) as [ppk|i [pk|] uid];
    [reflexivity| |exact I].
  assert (U : primary_first (update_node i clear_mark_a (s_keyblock st))
              = primary_first (s_keyblock st))
    by (apply primary_first_pkt, update_node_pkt; reflexivity).
  unfold make_keysig_packet.
  destruct (keysig_answer ext pk uid sk 16) as [rc t].
  destruct (rc_is_ok rc); [|exact U].
  match goal with
  | |- context [sign_reloop ext sk fuel ?s] => specialize (IH s)
  end.
  destruct (sign_reloop ext sk fuel _) as [st'|rc' st'| |]; try exact I;
    cbn [s_keyblock] in IH; now rewrite IH, primary_first_insert.
Qed.

Lemma sign_one_head ext sa sk st :
  match sign_one ext sa sk st with
  | Flow_next st' | Flow_leave _ st' =>
      primary_first (s_keyblock st') = primary_first (s_keyblock st)
  | _ => True
  end.
Proof.
  unfold sign_one.
  pose proof (sign_prepared sa sk st) as E.
  destruct (sign_already (sk_keyid sk) [] (sign_mark sa (s_keyblock st))
              None (s_tty st)) as [kb2 tty2].
  cbn [fst] in E.
  assert (H2 : primary_first kb2 = primary_first (s_keyblock st))
    by (subst kb2; apply primary_first_pkt, sign_prepared_pkt).
  destruct (count_uids_with_flag kb2 NODFLG_MARK_A =? 0); [exact H2|].
  destruct (cpr_get_answer_is_yes (s_answers st)) as [yes rest].
  destruct yes; cbn [negb]; [|exact H2].
  match goal with
  | |- context [sign_reloop ext sk ?f ?s] =>
      pose proof (sign_reloop_head ext sk f s) as R
  end.
  destruct (sign_reloop ext sk _ _) as [st'|rc' st'| |]; try exact I;
    cbn [s_keyblock] in R; congruence.
Qed.

Lemma sign_loop_head ext sa : forall sks st,
  match sign_loop ext sa sks st with
  | Flow_next st' | Flow_leave _ st' =>
      primary_first (s_keyblock st') = primary_first (s_keyblock st)
  | _ => True
  end.
Proof.
  induction sks as [|sk sks IH]; intros st; cbn [sign_loop]; [reflexivity|].
  pose proof (sign_one_head ext sa sk st) as O.
  destruct (sign_one ext sa sk st) as [st1|rc1 st1| |]; try exact I;
    [|exact O].
  specialize (IH st1).
  destruct (sign_loop ext sa sks st1) as [st'|rc' st'| |]; try exact I;
    congruence.
Qed.

Lemma sign_uids_head ext kb locusr modified answers pk0 rc cleared st :
  sign_uids ext kb locusr modified answers pk0 = Returned rc cleared st ->
  primary_first (s_keyblock st) = primary_first kb.
Proof.
  intros H. unfold sign_uids in H.
  destruct (build_sk_list ext locusr) as [rc0 sks].
  destruct (rc_is_ok rc0); cbn [negb] in H.
  - pose proof (sign_loop_head ext (count_selected_uids kb =? 0) sks
                  (mk_sign kb modified false pk0 answers [])) as L.
    destruct (sign_loop ext _ sks _) as [st'|rc' st'| |];
      try discriminate; cbn [s_keyblock] in L.
    + destruct (s_upd_trust st'); [destruct (s_primary_pk st')|];
        injection H as <- <- <-; exact L.
    + injection H as <- <- <-; exact L.
  - now injection H as <- <- <-.
Qed.

Lemma commit_tidy p kb :
  primary_first kb = true ->
  Forall (fun n => deleted n = false) kb ->
  map pkt (firstn 1 p) = map pkt (firstn 1 kb) ->
  map deleted (firstn 1 p) = map deleted (firstn 1 kb) ->
  tidy (commit_kbnode p).
Proof.
  intros Pf L P D. split.
  - destruct kb as [|n kb]; [discriminate|]. inversion L; subst.
    destruct p as [|x p]; [discriminate|].
    cbn [firstn map] in P, D. injection P as P. injection D as D.
    rewrite commit_cons. replace (deleted x) with false by congruence.
    cbn [primary_first] in *. now rewrite P.
  - apply Forall_forall. intros n I. apply commit_kbnode_In in I. tauto.
Qed.

Lemma deluid_pub_first pub sec :
  primary_first pub = true ->
  map pkt (firstn 1 (fst (deluid_pub false pub sec))) = map pkt (firstn 1 pub)
  /\ map deleted (firstn 1 (fst (deluid_pub false pub sec)))
     = map deleted (firstn 1 pub).
Proof.
  destruct pub as [|n pub]; [discriminate|].
  cbn [primary_first deluid_pub]. intros Pf.
  destruct (pkt n) eqn:P; try discriminate Pf.
  destruct (deluid_pub false pub sec) as [p s]. now split.
Qed.

Lemma delkey_pub_first pub sec :
  primary_first pub = true ->
  map pkt (firstn 1 (fst (delkey_pub false pub sec))) = map pkt (firstn 1 pub)
  /\ map deleted (firstn 1 (fst (delkey_pub false pub sec)))
     = map deleted (firstn 1 pub).
Proof.
  destruct pub as [|n pub]; [discriminate|].
  cbn [primary_first delkey_pub]. intros Pf.
  destruct (pkt n) eqn:P; try discriminate Pf.
  destruct (delkey_pub false pub sec) as [p s]. now split.
Qed.

(** X27: a public keyblock that has its primary key packet as first node
    and no tombstone is left so by every command that returns: selecting
    user ids or subkeys, checking the signatures, signing, adding a user
    id, removing user ids and removing subkeys. *)
Theorem tidy_kept (ext : collaborators) (kb : KBNODE) :
  tidy kb ->
  (forall index,
     tidy (fst (fst (menu_select_uid kb index)))
     /\ tidy (fst (fst (menu_select_key kb index))))
  /\ (forall only_selected,
        tidy (chk_keyblock (check_all_keysigs ext kb only_selected)))
  /\ (forall locusr modified answers pk0 rc cleared st,
        sign_uids ext kb locusr modified answers pk0
        = Returned rc cleared st ->
        tidy (s_keyblock st))
  /\ (forall new_uid sec added pub' sec',
        menu_adduid ext new_uid kb sec = Some (added, pub', sec') ->
        tidy pub')
  /\ (forall sec pub' sec',
        menu_deluid kb sec = Some (pub', sec') -> tidy pub')
  /\ (forall sec pub' sec',
        menu_delkey kb sec = Some (pub', sec') -> tidy pub').
Proof.
  intros T. pose proof T as [Pf L].
  split; [|split; [|split; [|split; [|split]]]].
  - intros index. split.
    + unfold menu_select_uid.
      destruct (negb (index =? 0));
        [destruct (select_uid_find kb 0 index); [|exact T]|]; cbn [fst].
      * destruct (select_uid_toggle_pkt kb 0 index) as [P D].
        now apply (tidy_same kb).
      * assert (M : map pkt kb = map pkt (select_uid_reset kb)
                    /\ map deleted kb = map deleted (select_uid_reset kb)).
        { eapply frame_maps; [|apply select_uid_reset_frame].
          intros n n' (P & D & _). now split. }
        destruct M as [P D]. now apply (tidy_same kb).
    + unfold menu_select_key.
      destruct (negb (index =? 0));
        [destruct (select_key_find kb 0 index); [|exact T]|]; cbn [fst].
      * destruct (select_key_toggle_pkt kb 0 index) as [P D].
        now apply (tidy_same kb).
      * destruct (select_key_reset_pkt kb) as [P D].
        now apply (tidy_same kb).
  - intros os. rewrite check_all_keysigs_keyblock.
    destruct (check_walk_frame ext os kb []
                (mk_check 0 0 0 false 0 (os =? 0) false []))
      as (t & E & F).
    rewrite E. cbn [app].
    assert (M : map pkt kb = map pkt t /\ map deleted kb = map deleted t).
    { eapply frame_maps; [|exact F]. intros n n' (P & D & _). now split. }
    destruct M as [P D]. now apply (tidy_same kb).
  - intros locusr modified answers pk0 rc cleared st H. split.
    + now rewrite (sign_uids_head _ _ _ _ _ _ _ _ _ H).
    + destruct (sign_uids_grown _ _ _ _ _ _ _ _ _ H) as [G _].
      exact (grown_live _ _ _ G L).
  - intros new_uid sec added pub' sec' H.
    destruct added.
    + destruct new_uid as [uid|]; [|discriminate H].
      destruct (menu_adduid_split _ _ _ _ _ _ H)
        as (sig & pre & post & spre & spost & (Ep & _) & _ & Np & _ & E1 & _).
      subst kb pub'. split.
      * destruct pre; [contradiction | exact Pf].
      * apply Forall_app in L as [L1 L2]. apply Forall_app. split; [exact L1|].
        repeat constructor; assumption.
    + unfold menu_adduid in H.
      destruct new_uid as [uid|]; [|now injection H as <- <-].
      destruct (adduid_scan_pub kb 0 None None) as [pw [pk|]];
        destruct (adduid_scan_sec sec 0 None None) as [sw [sk|]];
        try discriminate.
      destruct (make_keysig_packet ext pk uid sk 19) as [rc sig].
      destruct (rc_is_ok rc); cbn [negb] in H;
        [discriminate | now injection H as <- <-].
  - intros sec pub' sec' H. unfold menu_deluid in H.
    destruct (deluid_pub_first kb sec Pf) as [P D].
    destruct (deluid_pub false kb sec) as [p s]. cbn [fst] in P, D.
    unfold commit_blocks in H.
    destruct (root_survives p && _); [|discriminate].
    injection H as <- <-. exact (commit_tidy p kb Pf L P D).
  - intros sec pub' sec' H. unfold menu_delkey in H.
    destruct (delkey_pub_first kb sec Pf) as [P D].
    destruct (delkey_pub false kb sec) as [p s]. cbn [fst] in P, D.
    unfold commit_blocks in H.
    destruct (root_survives p && _); [|discriminate].
    injection H as <- <-. exact (commit_tidy p kb Pf L P D).
Qed.

Lemma tidy_kept_witness :
  tidy (fst (fst (menu_select_uid sample_three_uids 2)))
  /\ tidy (chk_keyblock (check_all_keysigs sample_ext sample_three_uids 0)).
Proof.
  assert (T : tidy sample_three_uids)
    by (split; [reflexivity | repeat constructor]).
  pose proof (tidy_kept sample_ext sample_three_uids T) as (S & C & _).
  split; [exact (proj1 (S 2)) | exact (C 0)].
Defined.

(** ** The check walk, node by node *)

(** The node the [switch] leaves does not depend on the counters. *)
Lemma check_one_sig_node rc selfsig node st st0 :
  fst (check_one_sig rc selfsig node st)
  = fst (check_one_sig rc selfsig node st0).
Proof. now destruct rc. Qed.

(** Every node after the walk, by its position: a node that the walk
    sends into the [switch] is what the [switch] makes of it for the result
    [check_key_signature] gave on the keyblock of that moment; every other
    node is as it was. *)
Lemma check_walk_each ext os : forall todo done st,
  exists todo',
    fst (check_walk ext os done todo st) = done ++ todo'
    /\ forall j n, nth_error todo j = Some n ->
       exists n', nth_error todo' j = Some n'
         /\ if walk_visits n
               && match pkt n with
                  | pkt_signature sig =>
                      selected_after os (selected st) (firstn j todo)
                      && is_cert_class sig
                  | _ => false
                  end
            then forall st0,
                 n' = fst (check_one_sig
                             (fst (check_key_signature ext
                                     (done ++ firstn j todo' ++ skipn j todo)
                                     (length done + j)))
                             (snd (check_key_signature ext
                                     (done ++ firstn j todo' ++ skipn j todo)
                                     (length done + j)))
                             n st0)
            else n' = n.
Proof.
  induction todo as [|node next IH]; intros done st.
  - exists []. split; [now rewrite app_nil_r|]. intros [|j] n H; discriminate.
  - cbn [check_walk].
    assert (Keep : forall st',
              selected st'
              = (if walk_visits node && is_uid node && negb (os =? 0)
                 then has_flag (flag node) NODFLG_SELUID else selected st) ->
              walk_visits node
              && match pkt node with
                 | pkt_signature sig => selected st && is_cert_class sig
                 | _ => false
                 end = false ->
              exists todo',
                fst (check_walk ext os (done ++ [node]) next st')
                = done ++ todo'
                /\ forall j n, nth_error (node :: next) j = Some n ->
                   exists n', nth_error todo' j = Some n'
                     /\ if walk_visits n
                           && match pkt n with
                              | pkt_signature sig =>
                                  selected_after os (selected st)
                                    (firstn j (node :: next))
                                  && is_cert_class sig
                              | _ => false
                              end
                        then forall st0,
                             n' = fst (check_one_sig
                                  (fst (check_key_signature ext
                                     (done ++ firstn j todo'
                                        ++ skipn j (node :: next))
                                     (length done + j)))
                                  (snd (check_key_signature ext
                                     (done ++ firstn j todo'
                                        ++ skipn j (node :: next))
                                     (length done + j)))
                                  n st0)
                        else n' = n).
    { intros st' Hs Hc. destruct (IH (done ++ [node]) st') as (t & E & F).
      exists (node :: t). rewrite E, <- app_assoc. split; [reflexivity|].
      intros [|j] n H; cbn [nth_error] in H.
      - injection H as <-. exists node. split; [reflexivity|].
        cbn [firstn selected_after]. now rewrite Hc.
      - destruct (F j n H) as (n' & N & P). exists n'. split; [exact N|].
        cbn [firstn skipn selected_after]. rewrite <- Hs.
        replace (done ++ (node :: firstn j t) ++ skipn j next)
          with ((done ++ [node]) ++ firstn j t ++ skipn j next)
          by now rewrite <- app_assoc.
        replace (length done + S j)%nat with (length (done ++ [node]) + j)%nat
          by (rewrite length_app; cbn; lia).
        exact P. }
    destruct (walk_visits node) eqn:V; cbn [negb].
    2:{ apply Keep; reflexivity. }
    destruct (pkt node) eqn:P.
    all: try (apply Keep; [unfold is_uid; rewrite P; reflexivity
                          | reflexivity]).
    + (* user id *)
      unfold is_uid in Keep. rewrite P in Keep. cbn [andb] in Keep.
      destruct (negb (os =? 0)).
      * destruct (has_flag (flag node) NODFLG_SELUID);
          (apply Keep; [reflexivity | reflexivity]).
      * destruct (selected st) eqn:S;
          (apply Keep; [cbn [selected]; now rewrite ?S | reflexivity]).
    + (* signature *)
      destruct (selected st && is_cert_class sig) eqn:C.
      2:{ apply Keep; [unfold is_uid; rewrite P; reflexivity | reflexivity]. }
      destruct (check_key_signature ext (done ++ node :: next) (length done))
        as [rc selfsig] eqn:K.
      destruct (check_one_sig rc selfsig node st) as [node' st'] eqn:O.
      destruct (IH (done ++ [node']) st') as (t & E & F).
      exists (node' :: t). rewrite E, <- app_assoc. split; [reflexivity|].
      pose proof (check_one_sig_state rc selfsig node st) as [Hs _].
      rewrite O in Hs. cbn [snd] in Hs.
      intros [|j] n H; cbn [nth_error] in H.
      * injection H as <-. exists node'. split; [reflexivity|].
        rewrite V, P. cbn [firstn selected_after skipn app andb]. rewrite C.
        intros st0. rewrite Nat.add_0_r, K. cbn [fst snd].
        rewrite (check_one_sig_node rc selfsig node st0 st), O. reflexivity.
      * destruct (F j n H) as (n' & N & Q). exists n'. split; [exact N|].
        cbn [firstn skipn selected_after].
        unfold is_uid at 1. rewrite P, andb_false_r. cbn [andb].
        rewrite <- Hs.
        replace (done ++ (node' :: firstn j t) ++ skipn j next)
          with ((done ++ [node']) ++ firstn j t ++ skipn j next)
          by now rewrite <- app_assoc.
        replace (length done + S j)%nat with (length (done ++ [node']) + j)%nat
          by (rewrite length_app; cbn; lia).
        exact Q.
Qed.

(** *** The flag word of every node after the check *)

(** C10: after [check_all_keysigs] every node of the keyblock is in its
    place with its packet.  A node the walk sends into the [switch] (a live
    signature of a certification class under a user id the walk has
    selected) is tied to the result [check_key_signature] returned for it,
    called on the keyblock as the walk has left it so far: on a bad
    signature, a missing key or another error its flag word is the one
    error flag and nothing else, so that every other bit it carried
    (MARK_A, SEL_UID, ...) is gone; on the ok result the three error flags
    are cleared and every other bit is kept.  Every other node is left as
    it was.  So a keyblock whose nodes carry at most one of BAD_SIG,
    NO_KEY, SIG_ERR still does so after the walk, and a node that went into
    the [switch] carries at most one of them whatever it carried before. *)
Theorem check_all_keysigs_flag_words (ext : collaborators) (kb : KBNODE)
    (only_selected : Z) :
  let kb' := chk_keyblock (check_all_keysigs ext kb only_selected) in
  (forall i n, nth_error kb i = Some n ->
     exists n',
       nth_error kb' i = Some n'
       /\ pkt n' = pkt n /\ deleted n' = deleted n
       /\ if goes_to_switch only_selected (firstn i kb) n
          then
            let rc := fst (check_key_signature ext
                             (firstn i kb' ++ skipn i kb) i) in
            error_flags (flag n') <= 1
            /\ (rc <> RC_OK ->
                exists e,
                  e = match rc with
                      | G10ERR_BAD_SIGN => 0 | G10ERR_NO_PUBKEY => 1 | _ => 2
                      end
                  /\ flag n' = Z.shiftl 1 e
                  /\ (forall j, 0 <= j ->
                        has_flag (flag n') (Z.shiftl 1 j) = (e =? j))
                  /\ has_flag (flag n') NODFLG_MARK_A = false
                  /\ error_flags (flag n') = 1)
            /\ (rc = RC_OK ->
                flag n'
                = clear_flag (flag n)
                    (Z.lor (Z.lor NODFLG_BADSIG NODFLG_NOKEY) NODFLG_SIGERR)
                /\ error_flags (flag n') = 0
                /\ forall j, 3 <= j ->
                     has_flag (flag n') (Z.shiftl 1 j)
                     = has_flag (flag n) (Z.shiftl 1 j))
          else n' = n)
  /\ length kb' = length kb
  /\ (forall rc selfsig node st,
        let node' := fst (check_one_sig rc selfsig node st) in
        (rc <> RC_OK ->
         exists e,
           e = match rc with
               | G10ERR_BAD_SIGN => 0 | G10ERR_NO_PUBKEY => 1 | _ => 2
               end
           /\ flag node' = Z.shiftl 1 e
           /\ (forall j, 0 <= j ->
                 has_flag (flag node') (Z.shiftl 1 j) = (e =? j))
           /\ has_flag (flag node') NODFLG_MARK_A = false
           /\ error_flags (flag node') = 1)
        /\ (rc = RC_OK ->
            error_flags (flag node') = 0
            /\ forall j, 3 <= j ->
                 has_flag (flag node') (Z.shiftl 1 j)
                 = has_flag (flag node) (Z.shiftl 1 j)))
  /\ Forall2 checked kb kb'
  /\ (Forall (fun n => error_flags (flag n) <= 1) kb ->
      Forall (fun n => error_flags (flag n) <= 1) kb').
Proof.
  intros kb'.
  destruct (check_walk_flag_words ext kb only_selected) as (S & W & A).
  fold kb' in W, A.
  split; [|split; [|split; [exact S|split; [exact W|exact A]]]].
  - intros i n Hn. subst kb'. rewrite check_all_keysigs_keyblock.
    destruct (check_walk_each ext only_selected kb []
                (mk_check 0 0 0 false 0 (only_selected =? 0) false []))
      as (t & E & F).
    rewrite E. cbn [app]. destruct (F i n Hn) as (n' & N & P).
    exists n'. split; [exact N|]. cbn [selected app] in P.
    unfold goes_to_switch.
    destruct (walk_visits n
              && match pkt n with
                 | pkt_signature sig =>
                     selected_after only_selected (only_selected =? 0)
                       (firstn i kb) && is_cert_class sig
                 | _ => false
                 end).
    + cbn [Nat.add length] in P.
      set (rc := fst (check_key_signature ext (firstn i t ++ skipn i kb) i))
        in *.
      set (sf := snd (check_key_signature ext (firstn i t ++ skipn i kb) i))
        in *.
      pose proof (P (mk_check 0 0 0 false 0 true false [])) as Q.
      pose proof (check_one_sig_flag rc sf n
                    (mk_check 0 0 0 false 0 true false [])) as (Hp & Hd & Hf).
      pose proof (S rc sf n (mk_check 0 0 0 false 0 true false []))
        as [Sbad Sok].
      rewrite <- Q in Hp, Hd, Hf, Sbad, Sok.
      split; [exact Hp|]. split; [exact Hd|].
      cbv zeta. split; [|split].
      * rewrite Q. apply check_one_sig_errors.
      * exact Sbad.
      * intros R. destruct (Sok R) as [S0 S3].
        rewrite R in Hf. now split.
    + subst n'. now split.
  - destruct (Forall2_length W). reflexivity.
Qed.

Lemma check_all_keysigs_flag_words_witness :
  let kb' :=
    chk_keyblock (check_all_keysigs sample_ext_verdicts sample_flagged 0) in
  (exists n', nth_error kb' 3 = Some n' /\ flag n' = NODFLG_BADSIG)
  /\ (exists n', nth_error kb' 2 = Some n' /\ flag n' = NODFLG_SELUID)
  /\ Forall (fun n => error_flags (flag n) <= 1) kb'.
Proof.
  intros kb'.
  pose proof (check_all_keysigs_flag_words sample_ext_verdicts sample_flagged
                0) as (E & _ & _ & _ & A).
  fold kb' in E, A.
  split; [|split].
  - destruct (E 3%nat _ eq_refl) as (n' & N & _ & _ & P).
    exists n'. split; [exact N|].
    change (goes_to_switch 0 (firstn 3 sample_flagged)
              (sig_node kid_K 16 (Z.lor NODFLG_MARK_A NODFLG_SELUID)))
      with true in P.
    destruct P as (_ & B & _).
    destruct B as (e & -> & F & _); [vm_compute; discriminate|].
    rewrite F. reflexivity.
  - destruct (E 2%nat _ eq_refl) as (n' & N & _ & _ & P).
    exists n'. split; [exact N|].
    change (goes_to_switch 0 (firstn 2 sample_flagged)
              (sig_node kid_P 19 (Z.lor NODFLG_NOKEY NODFLG_SELUID)))
      with true in P.
    destruct P as (_ & _ & K).
    destruct K as (F & _); [reflexivity|].
    rewrite F. reflexivity.
  - apply A. repeat constructor; vm_compute; discriminate.
Defined.


(** *** The count of user ids without a self-signature *)







(** ** One signer's turn, group by group *)

Lemma certifiers_app_uid pre n rest :
  is_uid n = true -> certifiers (pre ++ n :: rest) = certifiers pre.
Proof.
  intros U. unfold is_uid in U.
  induction pre as [|a pre IH]; cbn [app certifiers].
  - destruct (pkt n); try discriminate. reflexivity.
  - destruct (pkt a); try exact IH; try reflexivity.
    now rewrite IH.
Qed.

Lemma uid_groups_app_uid pre n rest :
  is_uid n = true ->
  uid_groups (pre ++ n :: rest) = uid_groups pre ++ uid_groups (n :: rest).
Proof.
  intros U. induction pre as [|a pre IH]; [reflexivity|].
  cbn [app uid_groups]. destruct (pkt a); try exact IH.
  rewrite IH, certifiers_app_uid by exact U. reflexivity.
Qed.

Lemma round_step_refl kid l : Forall2 (round_step kid) l l.
Proof. induction l; constructor; [now left | assumption]. Qed.

Lemma round_step_trans kid a : forall b c,
  Forall2 (round_step kid) a b -> Forall2 (round_step kid) b c ->
  Forall2 (round_step kid) a c.
Proof.
  induction a as [|g a IH]; intros b c H1 H2.
  - inversion H1; subst. inversion H2; subst. constructor.
  - inversion H1 as [|? g' ? b' S1 T1]; subst.
    inversion H2 as [|? g'' ? c' S2 T2]; subst.
    constructor; [|now apply (IH b')].
    destruct S1 as [->|[M [->| ->]]]; [exact S2| |].
    + destruct S2 as [->|[M' _]]; [|discriminate M'].
      right. split; [exact M|]. now left.
    + destruct S2 as [->|[M' _]]; [|discriminate M'].
      right. split; [exact M|]. now right.
Qed.

(** One round: the marked user id at the head of [n :: post] loses its mark
    and, where the signature was made, gets it as the first of its
    certifications. *)
Lemma round_groups kid pre n post u t :
  pkt n = pkt_user_id u ->
  has_flag (flag n) NODFLG_MARK_A = true ->
  Forall2 (round_step kid) (uid_groups (pre ++ n :: post))
    (uid_groups (pre ++ clear_mark_a n :: post))
  /\ Forall2 (round_step kid) (uid_groups (pre ++ n :: post))
       (uid_groups
          (pre ++ clear_mark_a n
               :: new_kbnode (pkt_signature (mk_sig kid 16 t)) :: post)).
Proof.
  intros P M.
  assert (U : is_uid n = true) by (unfold is_uid; now rewrite P).
  assert (U' : is_uid (clear_mark_a n) = true) by exact U.
  rewrite !uid_groups_app_uid by assumption.
  cbn [uid_groups clear_mark_a with_flag pkt flag new_kbnode certifiers].
  rewrite P.
  change (is_cert_class (mk_sig kid 16 t)) with true. cbv iota.
  cbn [sig_keyid].
  pose proof (mark_after_clear n) as Mc.
  pose proof (seluid_after_clear n) as Sc.
  unfold clear_mark_a in Mc, Sc. cbn [with_flag flag] in Mc, Sc.
  rewrite Mc, Sc, M.
  split; (apply Forall2_app; [apply round_step_refl|]);
    (constructor; [|apply round_step_refl]);
    right; (split; [reflexivity|]); cbn [g_uid g_selected g_certifiers];
    [now right | now left].
Qed.

(** Whatever way the rounds under [reloop:] end. *)
Lemma sign_reloop_steps ext sk : forall fuel st,
  match sign_reloop ext sk fuel st with
  | Flow_next st' | Flow_leave _ st' =>
      Forall2 (round_step (sk_keyid sk)) (uid_groups (s_keyblock st))
        (uid_groups (s_keyblock st'))
  | _ => True
  end.
Proof.
  induction fuel as [|fuel IH]; intros st; cbn [sign_reloop]; [exact I|].
  destruct (sign_scan (s_keyblock st) 0 None) as [ppk|i [pk|] uid] eqn:S;
    [| |exact I].
  - cbn [s_keyblock]. apply round_step_refl.
  - apply sign_scan_hit in S as (pre & n & post & E & J & _ & P & M & _).
    cbn [Nat.add] in J. subst i. rewrite E.
    unfold make_keysig_packet.
    destruct (keysig_answer ext pk uid sk 16) as [rc t].
    rewrite update_node_app_r, insert_kbnode_app.
    destruct (round_groups (sk_keyid sk) pre n post uid t P M) as [Gf Gs].
    destruct (rc_is_ok rc).
    + match goal with
      | |- context [sign_reloop ext sk fuel ?s] => specialize (IH s)
      end.
      destruct (sign_reloop ext sk fuel _) as [st'|rc' st'| |];
        try exact I; cbn [s_keyblock] in IH;
        exact (round_step_trans _ _ _ _ Gs IH).
    + cbn [s_keyblock]. exact Gf.
Qed.

(** The turn of one signer, whatever way it ends: the groups as the marking
    and the scan for "already signed" leave them, then the rounds. *)
Lemma sign_one_steps ext sa sk st :
  match sign_one ext sa sk st with
  | Flow_next st' | Flow_leave _ st' =>
      Forall2 (round_step (sk_keyid sk))
        (map (group_marked sa (sk_keyid sk)) (uid_groups (s_keyblock st)))
        (uid_groups (s_keyblock st'))
  | _ => True
  end.
Proof.
  destruct (sign_one_cases ext sa sk st) as (msgs & _ & [C|[C|C]]).
  - destruct C as [_ ->]. cbn [s_keyblock].
    rewrite sign_prepared_groups. apply round_step_refl.
  - destruct C as (_ & _ & ->). cbn [s_keyblock].
    rewrite sign_prepared_groups. apply round_step_refl.
  - destruct C as (_ & _ & ->).
    match goal with
    | |- context [sign_reloop ext sk ?f ?s] =>
        pose proof (sign_reloop_steps ext sk f s) as R
    end.
    destruct (sign_reloop ext sk _ _) as [st'|rc' st'| |]; try exact I;
      cbn [s_keyblock] in R; now rewrite sign_prepared_groups in R.
Qed.

Lemma Forall2_map_left {A B C} (R : B -> C -> Prop) (f : A -> B) l : forall l',
  Forall2 R (map f l) l' -> Forall2 (fun a c => R (f a) c) l l'.
Proof.
  induction l as [|a l IH]; intros l' H; inversion H; subst; constructor;
    auto.
Qed.



(** A turn whatever way it ends. *)
Lemma sign_one_left ext sa sk st :
  match sign_one ext sa sk st with
  | Flow_next st' | Flow_leave _ st' =>
      Forall2 (turn_left sa (sk_keyid sk)) (uid_groups (s_keyblock st))
        (uid_groups (s_keyblock st'))
  | _ => True
  end.
Proof.
  pose proof (sign_one_steps ext sa sk st) as H.
  assert (K : forall l',
            Forall2 (round_step (sk_keyid sk))
              (map (group_marked sa (sk_keyid sk))
                 (uid_groups (s_keyblock st))) l' ->
            Forall2 (turn_left sa (sk_keyid sk)) (uid_groups (s_keyblock st))
              l').
  { intros l' F. apply Forall2_map_left in F.
    revert F. apply Forall2_impl. intros g g' S.
    unfold turn_left, group_marked in *.
    cbn [g_uid g_selected g_marked g_certifiers] in S.
    destruct ((sa || g_selected g)
              && negb (signed_by (sk_keyid sk) (g_certifiers g))).
    - destruct S as [->|[_ [->| ->]]];
        cbn [g_uid g_selected g_marked g_certifiers];
        (split; [reflexivity|]); (split; [reflexivity|]);
        [now left | right; now split | now left].
    - destruct S as [->|[M _]]; [|discriminate M].
      cbn [g_uid g_selected g_marked g_certifiers]. repeat split. }
  destruct (sign_one ext sa sk st) as [st'|rc st'| |]; auto.
Qed.

Lemma run_step_refl sa sks l : Forall2 (run_step sa sks) l l.
Proof.
  induction l; constructor; [|assumption].
  split; [reflexivity|]. split; [reflexivity|]. intros kid. now left.
Qed.

Lemma run_step_trans sa sks a : forall b c,
  Forall2 (run_step sa sks) a b -> Forall2 (run_step sa sks) b c ->
  Forall2 (run_step sa sks) a c.
Proof.
  induction a as [|g a IH]; intros b c H1 H2.
  - inversion H1; subst. inversion H2; subst. constructor.
  - inversion H1 as [|? g' ? b' S1 T1]; subst.
    inversion H2 as [|? g'' ? c' S2 T2]; subst.
    constructor; [|now apply (IH b')].
    destruct S1 as (U1 & L1 & K1), S2 as (U2 & L2 & K2).
    split; [congruence|]. split; [congruence|]. intros kid.
    destruct (K1 kid) as [E1|(Z1 & O1 & I1 & C1)],
             (K2 kid) as [E2|(Z2 & O2 & I2 & C2)].
    + left. congruence.
    + right. rewrite <- E1, <- L1. now repeat split.
    + right. rewrite E2. now repeat split.
    + lia.
Qed.

Lemma is_signer_in sk sks : In sk sks -> is_signer (sk_keyid sk) sks = true.
Proof.
  intros H. unfold is_signer. apply existsb_exists. exists sk.
  split; [exact H | apply keyid_eqb_refl].
Qed.

Lemma turn_left_run sa sks sk : In sk sks -> forall l l',
  Forall2 (turn_left sa (sk_keyid sk)) l l' ->
  Forall2 (run_step sa sks) l l'.
Proof.
  intros I l l'. apply Forall2_impl. intros g g' (U & L & T).
  split; [exact U|]. split; [exact L|]. intros kid.
  destruct ((sa || g_selected g)
            && negb (signed_by (sk_keyid sk) (g_certifiers g))) eqn:C.
  - destruct T as [->|[_ ->]]; [now left|].
    rewrite certs_by_cons.
    destruct (keyid_eqb kid (sk_keyid sk)) eqn:K; [|now left].
    apply keyid_eqb_eq in K. subst kid.
    apply andb_true_iff in C as [Cd Sg]. right.
    rewrite signed_by_certs, negb_involutive in Sg. apply Z.eqb_eq in Sg.
    rewrite Sg. split; [reflexivity|]. split; [reflexivity|].
    split; [now apply is_signer_in | exact Cd].
  - destruct T as [_ ->]. now left.
Qed.

(** The loop over the signers, whatever way it ends. *)
Lemma sign_loop_steps ext sa all_sks : forall sks st,
  incl sks all_sks ->
  match sign_loop ext sa sks st with
  | Flow_next st' | Flow_leave _ st' =>
      Forall2 (run_step sa all_sks) (uid_groups (s_keyblock st))
        (uid_groups (s_keyblock st'))
  | _ => True
  end.
Proof.
  induction sks as [|sk sks IH]; intros st Hin; cbn [sign_loop].
  - apply run_step_refl.
  - pose proof (sign_one_left ext sa sk st) as H.
    assert (Is : In sk all_sks) by (apply Hin; now left).
    assert (Hin' : incl sks all_sks) by (intros x Hx; apply Hin; now right).
    destruct (sign_one ext sa sk st) as [st1|rc st1| |]; try exact I.
    + apply (turn_left_run sa all_sks sk Is) in H.
      specialize (IH st1 Hin').
      destruct (sign_loop ext sa sks st1) as [st2|rc st2| |]; try exact I;
        exact (run_step_trans _ _ _ _ _ H IH).
    + now apply (turn_left_run sa all_sks sk Is).
Qed.

Lemma sign_uids_steps ext kb locusr modified answers pk0 rcb sks rc cleared
    st :
  build_sk_list ext locusr = (rcb, sks) ->
  sign_uids ext kb locusr modified answers pk0 = Returned rc cleared st ->
  Forall2 (run_step (count_selected_uids kb =? 0) sks) (uid_groups kb)
    (uid_groups (s_keyblock st)).
Proof.
  intros B H. unfold sign_uids in H. rewrite B in H.
  destruct (negb (rc_is_ok rcb)).
  - injection H as <- <- <-. apply run_step_refl.
  - pose proof (sign_loop_steps ext (count_selected_uids kb =? 0) sks sks
                  (mk_sign kb modified false pk0 answers [])
                  (incl_refl _)) as S.
    destruct (sign_loop ext _ sks _) as [st'|rc' st'| |]; try discriminate;
      cbn [s_keyblock] in S.
    + assert (st' = st).
      { destruct (s_upd_trust st'); [destruct (s_primary_pk st')|];
          now injection H. }
      now subst st'.
    + injection H as <- <- <-. exact S.
Qed.

Lemma run_step_selection sa sks l l' :
  Forall2 (run_step sa sks) l l' ->
  map g_selected l' = map g_selected l.
Proof.
  induction 1 as [|g g' l l' (_ & S & _) _ IH]; cbn [map]; [reflexivity|].
  now rewrite S, IH.
Qed.

(** *** Which user ids a signer takes *)




(** *** Signing twice, whatever the runs do *)

(** C5 as stated fails: when the operator declines in both runs no
    candidate gets a certification, and when the signature for Bob cannot
    be made Bob has none after two runs. *)
Lemma sign_uids_twice_none :
  (exists st1 st2,
     sign_uids sample_ext sample_two_uids [] false [false] None
     = Returned RC_OK false st1
     /\ sign_uids sample_ext (s_keyblock st1) [] (s_modified st1) [false] None
        = Returned RC_OK false st2
     /\ map (fun g => certs_by kid_K (g_certifiers g))
          (uid_groups (s_keyblock st2)) = [0; 0])
  /\ (exists rc1 st1 rc2 st2,
        sign_uids sample_ext_no_bob sample_two_uids [] false [true] None
        = Returned rc1 false st1
        /\ sign_uids sample_ext_no_bob (s_keyblock st1) [] (s_modified st1)
             [true] None
           = Returned rc2 false st2
        /\ map (fun g => certs_by kid_K (g_certifiers g))
             (uid_groups (s_keyblock st2)) = [1; 0]).
Proof.
  split.
  - eexists. eexists. split; [vm_compute; reflexivity|].
    split; vm_compute; reflexivity.
  - eexists. eexists. eexists. eexists. split; [vm_compute; reflexivity|].
    split; vm_compute; reflexivity.
Qed.

(** C5, as the code has it.  Whatever the operator answers and whether or
    not a signature fails, a run of [sign_uids] leaves every user id group
    with its user id and selection and, for every key id, with as many
    certifications as before, or with one where it had none, the key id is
    a signer's and the user id was a candidate; the same holds of two runs
    in a row, and in the second run no user id that carries a certification
    by a key id gets another by it.  In every turn of a signer, however it
    ends, a user id already certified by the signer's key id ends without
    MARK_A and with the certifications it had.  When the first run goes
    through with every confirmation given and no signing failure, every
    group carries, for each key id, one certification exactly where the
    user id was a candidate, the key id is a signer's and no certification
    by it was there, and as many as before elsewhere; a second run then asks
    nothing and inserts nothing, and no user id keeps MARK_A. *)
Theorem sign_uids_twice (ext : collaborators) (kb : KBNODE)
    (locusr : list string) (sks : list PKT_secret_key)
    (modified1 : bool) (answers1 : list bool)
    (pk1 : option PKT_public_key) (rc1 : g10_rc) (cleared1 : bool)
    (st1 : sign_state) :
  build_sk_list ext locusr = (RC_OK, sks) ->
  sign_uids ext kb locusr modified1 answers1 pk1
  = Returned rc1 cleared1 st1 ->
  let select_all := count_selected_uids kb =? 0 in
  Forall2 (run_step select_all sks) (uid_groups kb)
    (uid_groups (s_keyblock st1))
  /\ (forall modified2 answers2 pk2 rc2 cleared2 st2,
        sign_uids ext (s_keyblock st1) locusr modified2 answers2 pk2
        = Returned rc2 cleared2 st2 ->
        Forall2 (fun g1 g2 =>
                   forall kid,
                     signed_by kid (g_certifiers g1) = true ->
                     certs_by kid (g_certifiers g2)
                     = certs_by kid (g_certifiers g1))
          (uid_groups (s_keyblock st1)) (uid_groups (s_keyblock st2))
        /\ Forall2 (run_step select_all sks) (uid_groups kb)
             (uid_groups (s_keyblock st2)))
  /\ (primary_first kb = true ->
      forall modified2 answers2 pk2,
      exists rc2 cleared2 st2,
        sign_uids ext (s_keyblock st1) locusr modified2 answers2 pk2
        = Returned rc2 cleared2 st2)
  /\ (forall sa sk st st',
        sign_one ext sa sk st = Flow_next st'
        \/ (exists rc, sign_one ext sa sk st = Flow_leave rc st') ->
        Forall2 (fun g g' =>
                   signed_by (sk_keyid sk) (g_certifiers g) = true ->
                   g_marked g' = false
                   /\ g_certifiers g' = g_certifiers g)
          (uid_groups (s_keyblock st)) (uid_groups (s_keyblock st')))
  /\ (~ In Signing_failed (s_tty st1) ->
      ~ In (Really_sign false) (s_tty st1) ->
      (forall kid,
         map (fun g => certs_by kid (g_certifiers g))
             (uid_groups (s_keyblock st1))
         = map (fun g =>
                  if (select_all || g_selected g)
                     && is_signer kid sks
                     && (certs_by kid (g_certifiers g) =? 0)
                  then 1 else certs_by kid (g_certifiers g))
               (uid_groups kb))
      /\ forall answers2 pk2,
         exists st2,
           sign_uids ext (s_keyblock st1) locusr (s_modified st1) answers2
             pk2
           = Returned RC_OK false st2
           /\ map pkt (s_keyblock st2) = map pkt (s_keyblock st1)
           /\ s_modified st2 = s_modified st1
           /\ s_answers st2 = answers2
           /\ (sks <> [] ->
               forall n, In n (s_keyblock st2) -> is_uid n = true ->
                         has_flag (flag n) NODFLG_MARK_A = false)).
Proof.
  intros B R1 select_all.
  pose proof (sign_uids_steps _ _ _ _ _ _ _ _ _ _ _ B R1) as S1.
  fold select_all in S1.
  split; [exact S1|]. split; [|split; [|split]].
  - intros modified2 answers2 pk2 rc2 cleared2 st2 R2.
    pose proof (sign_uids_steps _ _ _ _ _ _ _ _ _ _ _ B R2) as S2.
    assert (Sa : (count_selected_uids (s_keyblock st1) =? 0) = select_all).
    { subst select_all. rewrite !count_selected_groups.
      now rewrite (run_step_selection _ _ _ _ S1). }
    rewrite Sa in S2. split.
    + revert S2. apply Forall2_impl. intros g1 g2 (_ & _ & K) kid Sg.
      destruct (K kid) as [E|(Z0 & _)]; [exact E|].
      rewrite signed_by_certs, Z0 in Sg. discriminate Sg.
    + exact (run_step_trans _ _ _ _ _ S1 S2).
  - intros P modified2 answers2 pk2. apply sign_uids_returns.
    now rewrite (sign_uids_head _ _ _ _ _ _ _ _ _ R1).
  - intros sa sk st st' O.
    pose proof (sign_one_left ext sa sk st) as F.
    assert (G : Forall2 (turn_left sa (sk_keyid sk))
                  (uid_groups (s_keyblock st)) (uid_groups (s_keyblock st'))).
    { destruct O as [O|[rc O]]; now rewrite O in F. }
    revert G. apply Forall2_impl. intros g g' (_ & _ & T) Sg.
    rewrite Sg, andb_false_r in T. exact T.
  - intros Nf Nd. split.
    + intros kid.
      exact (proj1 (sign_uids_twice_full ext kb locusr sks modified1 answers1
                      pk1 rc1 cleared1 st1 [] None B R1 Nf Nd) kid).
    + intros answers2 pk2.
      exact (proj2 (sign_uids_twice_full ext kb locusr sks modified1 answers1
                      pk1 rc1 cleared1 st1 answers2 pk2 B R1 Nf Nd)).
Qed.

Lemma sign_uids_twice_witness :
  exists st1 st2,
    sign_uids sample_ext sample_two_uids [] false [true] None
    = Returned RC_OK true st1
    /\ map (fun g => certs_by kid_K (g_certifiers g))
         (uid_groups (s_keyblock st1)) = [1; 1]
    /\ sign_uids sample_ext (s_keyblock st1) [] (s_modified st1) [true] None
       = Returned RC_OK false st2
    /\ map pkt (s_keyblock st2) = map pkt (s_keyblock st1)
    /\ Forall2 (run_step true [signer_K]) (uid_groups sample_two_uids)
         (uid_groups (s_keyblock st2)).
Proof.
  eexists.
  destruct (sign_uids_twice sample_ext sample_two_uids [] [signer_K]
              false [true] None RC_OK true _ eq_refl eq_refl)
    as (_ & G & _ & _ & F).
  destruct F as (C & S).
  - vm_compute. intros [H|[]]. discriminate.
  - vm_compute. intros [H|[]]. discriminate.
  - destruct (S [true] None) as (st2 & R & P & _).
    exists st2. split; [reflexivity|]. split; [|split; [exact R|split]].
    + rewrite (C kid_K). reflexivity.
    + exact P.
    + exact (proj2 (G _ _ _ _ _ _ R)).
Defined.
